(** * Telemetry and correlation engine of the simulated 5G OA&M platform

    A shallow embedding of [src/oam.py], [src/kpi.py], [src/event.py] and
    [src/platform.py]: the alarm store, the KPI rolling windows with their
    threshold evaluation, and the event simulator with its scenarios and
    load test; and of the mock simulations of [src/ip_sim.py], which run
    when Scapy is not installed.

    Conventions.
    - A Python [dict] is an insertion-ordered association list ([Dict]):
      iteration order is observable in the source (loop variables survive
      their loops), so the order is kept.
    - A Python [float] that the program handles is a finite double; it is
      modelled by the rational it denotes ([Q]), and [<], [>] on floats are
      the order of the rationals.
    - [random], [datetime.now] and [time.sleep] are effects: the random
      source and the clock are an abstract [Oracle], the pauses are recorded
      in a trace.
    - A [datetime] is the count of microseconds from 2024-01-01T00:00:00 and
      a [timedelta] a count of microseconds; both have the bounds of the
      standard library, and arithmetic that leaves them raises
      OverflowError.
    - A method [m(self, ...)] is a computation in the monad [M W S] of the
      state [S] of its object, which may raise an exception and always
      leaves a state behind, as in Python.
    - A node object that a method mutates in place is known by its
      position in the node list of its module.
    - Float arithmetic that rounds (a mean, a difference, a rate) and the
      formatting of a float are not computed: they are parameters of the
      methods that use them, and the properties hold for any of them.

    Part I holds the program and the notions the properties speak of,
    Part II the properties, Part III their instances on concrete runs. *)

From Stdlib Require Import ZArith QArith String Ascii List Lia Sorted.
From stdpp Require Import base decidable option list sorting strings pretty.

Close Scope Q_scope.
Open Scope Z_scope.

(** * Part I: the program *)

(** ** Rationals standing for floats *)

Definition Qltb (x y : Q) : bool :=
  match Qcompare x y with Lt => true | _ => false end.
Definition Qgtb (x y : Q) : bool := Qltb y x.

(** ** Python strings: comparison by code points *)

(** [a >= b] on [str]. *)
Definition str_ge (a b : string) : bool := String.leb b a.

(** The lexicographic order written out, to compare [str_ge] with. *)
Inductive lex_le : string -> string -> Prop :=
| lex_le_nil t : lex_le EmptyString t
| lex_le_lt c d s t : (N_of_ascii c < N_of_ascii d)%N -> lex_le (String c s) (String d t)
| lex_le_eq c s t : lex_le s t -> lex_le (String c s) (String c t).

(** [kept] is what a time-range filter with cutoff string [cutoff] keeps of
    the records [stored], whose timestamps are read by [ts]: the records
    whose timestamp is not below the cutoff, in the order of [stored]. *)
Definition time_filtered {A} (cutoff : string) (ts : A -> string)
    (stored kept : list A) : Prop :=
  kept = filter (fun x => str_ge (ts x) cutoff) stored
  /\ (forall x, x ∈ kept <-> x ∈ stored /\ lex_le cutoff (ts x))
  /\ kept `sublist_of` stored.

(** Truth value of an optional string argument: [None] and the empty string
    are falsy. *)
Definition truthy_str (o : option string) : bool :=
  match o with
  | Some s => negb (String.eqb s EmptyString)
  | None => false
  end.

(** ** Insertion-ordered dictionaries *)

Module Dict.
Section Dict.
Context {K V : Type} `{EqDecision K}.

(** [d.get(k)] *)
Fixpoint get (k : K) (d : list (K * V)) : option V :=
  match d with
  | [] => None
  | (k', v) :: d' => if decide (k = k') then Some v else get k d'
  end.

(** [d[k] = v]: an existing key keeps its place, a new one goes last. *)
Fixpoint set (k : K) (v : V) (d : list (K * V)) : list (K * V) :=
  match d with
  | [] => [(k, v)]
  | (k', v') :: d' =>
      if decide (k = k') then (k', v) :: d' else (k', v') :: set k v d'
  end.

Definition keys (d : list (K * V)) : list K := d.*1.

(** Keys of a dictionary are pairwise distinct. *)
Definition wf (d : list (K * V)) : Prop := NoDup (keys d).
End Dict.
End Dict.

(** ** Exceptions, the oracle and the monad of methods *)

Inductive exn := IndexError | KeyError | ValueError | OverflowError.

Inductive outcome (A : Type) :=
| Return (a : A)
| Raise (e : exn).
Arguments Return {A} a.
Arguments Raise {A} e.

(** [datetime.min] and [datetime.max], the first instant of year 1 and the
    last of year 9999: 738885 days before and 2913174 days after the first
    instant of 2024, in microseconds. *)
Definition datetime_min : Z := - (738885 * 86400000000).
Definition datetime_max : Z := 2913174 * 86400000000 - 1.

(** [timedelta.min] and [timedelta.max]: 999999999 days either way. *)
Definition timedelta_min : Z := - (999999999 * 86400000000).
Definition timedelta_max : Z := 1000000000 * 86400000000 - 1.

(** [timedelta(seconds=n)] for an [int]; [None] stands for OverflowError. *)
Definition timedelta_seconds (seconds : Z) : option Z :=
  let delta := seconds * 1000000 in
  if (timedelta_min <=? delta) && (delta <=? timedelta_max) then Some delta else None.

(** [t - delta] for a [datetime] and a [timedelta]; [None] stands for
    OverflowError. *)
Definition datetime_sub (t delta : Z) : option Z :=
  let r := t - delta in
  if (datetime_min <=? r) && (r <=? datetime_max) then Some r else None.

(** The random source and the wall clock.  A [datetime] is a count of
    microseconds, [isoformat] is [datetime.isoformat], [random_index] is the
    draw behind [random.choice], and [random.uniform(a, b)] lies between its
    bounds. *)
Class Oracle (W : Type) := {
  random_random : W -> Q * W;
  random_uniform : Q -> Q -> W -> Q * W;
  random_randint : Z -> Z -> W -> Z * W;
  random_index : W -> nat * W;
  datetime_now : W -> Z * W;
  isoformat : Z -> string;
  random_uniform_range a b w :
    Qle a b -> Qle a (random_uniform a b w).1 /\ Qle (random_uniform a b w).1 b;
}.

(** What a method runs against besides its object: the oracle's state and
    the trace of the pauses made by [time.sleep]. *)
Record Env (W : Type) := { world : W; pauses : list Q }.
Arguments world {W} e.
Arguments pauses {W} e.

Definition M (W S A : Type) : Type := S -> Env W -> outcome A * S * Env W.

Section Monad.
Context {W : Type} `{!Oracle W} {S : Type}.

Definition ret {A} (a : A) : M W S A := fun s e => (Return a, s, e).
Definition raise {A} (x : exn) : M W S A := fun s e => (Raise x, s, e).
Definition bind {A B} (m : M W S A) (k : A -> M W S B) : M W S B :=
  fun s e =>
    match m s e with
    | (Return a, s', e') => k a s' e'
    | (Raise x, s', e') => (Raise x, s', e')
    end.

Definition get_state : M W S S := fun s e => (Return s, s, e).
Definition put_state (s : S) : M W S unit := fun _ e => (Return tt, s, e).

(** A draw from the oracle. *)
Definition ask {A} (f : W -> A * W) : M W S A :=
  fun s e => (Return (f (world e)).1, s,
              {| world := (f (world e)).2; pauses := pauses e |}).

(** [datetime.now().isoformat()] *)
Definition now_iso : M W S string :=
  bind (ask datetime_now) (fun t => ret (isoformat t)).

(** [time.sleep(q)]: a negative length raises [ValueError]. *)
Definition sleep (q : Q) : M W S unit :=
  fun s e =>
    if Qltb q 0 then (Raise ValueError, s, e)
    else (Return tt, s, {| world := world e; pauses := pauses e ++ [q] |}).

(** [random.choice(l)]: [IndexError] on an empty sequence, and otherwise
    the item at the index drawn, brought into range. *)
Definition choice {A} (l : list A) : M W S A :=
  match l with
  | [] => raise IndexError
  | _ =>
      bind (ask random_index) (fun i =>
        match l !! (i mod length l)%nat with
        | Some a => ret a
        | None => raise IndexError
        end)
  end.

(** [for x in l: body(x)] *)
Fixpoint for_each {A} (l : list A) (body : A -> M W S unit) : M W S unit :=
  match l with
  | [] => ret tt
  | x :: l' => bind (body x) (fun _ => for_each l' body)
  end.

(** The readings of [n] calls of [datetime.now()] one after the other, and
    the oracle they leave. *)
Fixpoint readings (n : nat) (w : W) : list Z :=
  match n with
  | O => []
  | Datatypes.S n' => (datetime_now w).1 :: readings n' (datetime_now w).2
  end.
Fixpoint after_readings (n : nat) (w : W) : W :=
  match n with
  | O => w
  | Datatypes.S n' => after_readings n' (datetime_now w).2
  end.

(** The state a computation leaves, whether it returns or raises. *)
Definition final {A} (m : M W S A) (s : S) (e : Env W) : S := (m s e).1.2.

(** What a computation returns or raises. *)
Definition result {A} (m : M W S A) (s : S) (e : Env W) : outcome A := (m s e).1.1.

(** The environment a computation leaves. *)
Definition final_env {A} (m : M W S A) (s : S) (e : Env W) : Env W := (m s e).2.

(** A call whose exception, if any, ends the caller's thread and nothing
    else: the object keeps the state the call left. *)
Definition attempt {A} (m : M W S A) : M W S unit :=
  fun s e => (Return tt, final m s e, final_env m s e).

(** [wp m Q s e]: run from [s] and [e], [m] ends with an outcome, a state
    and an environment that satisfy [Q]. *)
Definition wp {A} (m : M W S A) (Q : outcome A -> S -> Env W -> Prop)
    (s : S) (e : Env W) : Prop :=
  Q (result m s e) (final m s e) (final_env m s e).
End Monad.

Notation "x <- m ;; k" := (bind m (fun x => k))
  (at level 100, m at next level, right associativity, only parsing).
Notation "m ;;; k" := (bind m (fun _ => k))
  (at level 100, right associativity, only parsing).

(** ** Network nodes *)

(** A node dictionary [{"id", "type", "ip", "status"}]. *)
Record Node := {
  n_id : string;
  n_type : string;
  n_ip : string;
  n_status : string;
}.

(** [node["status"] = s] *)
Definition set_status (s : string) (n : Node) : Node :=
  {| n_id := n_id n; n_type := n_type n; n_ip := n_ip n; n_status := s |}.

(** The node list literal that each module's [__init__] builds for itself. *)
Definition initial_nodes : list Node := [
  {| n_id := "gnb-001"; n_type := "gNB"; n_ip := "10.0.1.1"; n_status := "active" |};
  {| n_id := "gnb-002"; n_type := "gNB"; n_ip := "10.0.1.2"; n_status := "active" |};
  {| n_id := "amf-001"; n_type := "AMF"; n_ip := "10.0.2.1"; n_status := "active" |};
  {| n_id := "smf-001"; n_type := "SMF"; n_ip := "10.0.2.2"; n_status := "active" |};
  {| n_id := "upf-001"; n_type := "UPF"; n_ip := "10.0.3.1"; n_status := "active" |};
  {| n_id := "pcf-001"; n_type := "PCF"; n_ip := "10.0.3.2"; n_status := "active" |}
].

(** A list of node objects, each with its position in the list it comes
    from: the position stands for the reference to the object. *)
Definition node_refs (nodes : list Node) : list (nat * Node) :=
  zip (seq 0 (length nodes)) nodes.

(** * The OA&M automation module ([src/oam.py]) *)

Module OAM.

Inductive AlarmSeverity := CRITICAL | MAJOR | MINOR | WARNING | INDETERMINATE | CLEARED.
Inductive AlarmType :=
  COMMUNICATIONS | QUALITY_OF_SERVICE | PROCESSING_ERROR | EQUIPMENT | ENVIRONMENTAL | SECURITY.

(** [severity.name] *)
Definition severity_name (s : AlarmSeverity) : string :=
  match s with
  | CRITICAL => "CRITICAL" | MAJOR => "MAJOR" | MINOR => "MINOR"
  | WARNING => "WARNING" | INDETERMINATE => "INDETERMINATE" | CLEARED => "CLEARED"
  end.

(** [alarm_type.name] *)
Definition type_name (t : AlarmType) : string :=
  match t with
  | COMMUNICATIONS => "COMMUNICATIONS" | QUALITY_OF_SERVICE => "QUALITY_OF_SERVICE"
  | PROCESSING_ERROR => "PROCESSING_ERROR" | EQUIPMENT => "EQUIPMENT"
  | ENVIRONMENTAL => "ENVIRONMENTAL" | SECURITY => "SECURITY"
  end.

(** An alarm dictionary; the key ["cleared_time"] is absent until a clear. *)
Record Alarm := {
  a_id : Z;
  a_node_id : string;
  a_type : string;
  a_severity : string;
  a_description : string;
  a_raised_time : string;
  a_status : string;
  a_cleared_time : option string;
}.

(** [alarm["status"] = "cleared"; alarm["cleared_time"] = t] *)
Definition mark_cleared (t : string) (a : Alarm) : Alarm :=
  {| a_id := a_id a; a_node_id := a_node_id a; a_type := a_type a;
     a_severity := a_severity a; a_description := a_description a;
     a_raised_time := a_raised_time a;
     a_status := "cleared"; a_cleared_time := Some t |}.

(** The fields of an [OAMAutomation] object that change. *)
Record state := {
  running : bool;
  alarms : list (Z * Alarm);
  alarm_id_counter : Z;
  network_nodes : list Node;
}.

Definition set_alarms (d : list (Z * Alarm)) (s : state) : state :=
  {| running := running s; alarms := d;
     alarm_id_counter := alarm_id_counter s; network_nodes := network_nodes s |}.
Definition set_alarm_id_counter (c : Z) (s : state) : state :=
  {| running := running s; alarms := alarms s;
     alarm_id_counter := c; network_nodes := network_nodes s |}.
Definition set_network_nodes (l : list Node) (s : state) : state :=
  {| running := running s; alarms := alarms s;
     alarm_id_counter := alarm_id_counter s; network_nodes := l |}.

(** [__init__] *)
Definition init : state :=
  {| running := false; alarms := []; alarm_id_counter := 1;
     network_nodes := initial_nodes |}.

(** The dictionary returned by [get_status]. *)
Record Status := {
  s_status : string;
  s_active_alarms : nat;
  s_network_nodes : nat;
  s_healthy_nodes : nat;
}.

Definition get_status (s : state) : Status :=
  {| s_status := if running s then "running" else "stopped";
     s_active_alarms := length (alarms s);
     s_network_nodes := length (network_nodes s);
     s_healthy_nodes :=
       length (filter (fun node => n_status node = "active") (network_nodes s)) |}.

(** [get_alarms]: [None] and the empty string are falsy. *)
Definition get_alarms (filter_status : option string) (s : state) : list (Z * Alarm) :=
  if truthy_str filter_status
  then filter (fun kv => a_status kv.2 = default EmptyString filter_status) (alarms s)
  else alarms s.

(** [f"Node {node['id']} is down"] *)
Definition down_description (node_id : string) : string :=
  "Node " +:+ node_id +:+ " is down".

Definition fault_types : list (string * Q) := [
  ("node_down", 0.05%Q);
  ("service_timeout", 0.1%Q);
  ("memory_overflow", 0.07%Q);
  ("connection_failure", 0.15%Q);
  ("authentication_failure", 0.03%Q)
].

Section Methods.
Context {W : Type} `{!Oracle W}.

Definition _create_alarm (node_id : string) (alarm_type : AlarmType)
    (severity : AlarmSeverity) (description : string) : M W state Z :=
  s <- get_state ;;
  let alarm_id := alarm_id_counter s in
  put_state (set_alarm_id_counter (alarm_id_counter s + 1) s) ;;;
  raised_time <- now_iso ;;
  let alarm :=
    {| a_id := alarm_id; a_node_id := node_id; a_type := type_name alarm_type;
       a_severity := severity_name severity; a_description := description;
       a_raised_time := raised_time; a_status := "active";
       a_cleared_time := None |} in
  s <- get_state ;;
  put_state (set_alarms (Dict.set alarm_id alarm (alarms s)) s) ;;;
  ret alarm_id.

Definition _clear_alarm (alarm_id : Z) : M W state bool :=
  s <- get_state ;;
  match Dict.get alarm_id (alarms s) with
  | Some alarm =>
      cleared_time <- now_iso ;;
      s <- get_state ;;
      put_state (set_alarms (Dict.set alarm_id (mark_cleared cleared_time alarm) (alarms s)) s) ;;;
      ret true
  | None => ret false
  end.

(** [node["status"] = st] on the node object at position [i] of the list. *)
Definition set_node_status (i : nat) (st : string) : M W state unit :=
  s <- get_state ;;
  put_state (set_network_nodes (alter (set_status st) i (network_nodes s)) s).

(** [for node in self.network_nodes]: the list is never resized, and each
    node object is read when its turn comes. *)
Definition for_each_node (body : nat -> Node -> M W state unit) : M W state unit :=
  s <- get_state ;;
  for_each (seq 0 (length (network_nodes s))) (fun i =>
    s <- get_state ;;
    match network_nodes s !! i with
    | Some node => body i node
    | None => ret tt
    end).

(** Body of the first loop of [_fault_generation_loop], for one node and
    one fault type. *)
Definition generate_fault (i : nat) (node : Node) (fault : string * Q) : M W state unit :=
  r <- ask random_random ;;
  if Qltb r fault.2 then
    if String.eqb fault.1 "node_down" then
      set_node_status i "down" ;;;
      _create_alarm (n_id node) EQUIPMENT CRITICAL (down_description (n_id node)) ;;;
      ret tt
    else if String.eqb fault.1 "service_timeout" then
      _create_alarm (n_id node) QUALITY_OF_SERVICE MAJOR
        ("Service timeout on " +:+ n_id node) ;;; ret tt
    else if String.eqb fault.1 "memory_overflow" then
      _create_alarm (n_id node) PROCESSING_ERROR MAJOR
        ("Memory overflow on " +:+ n_id node) ;;; ret tt
    else if String.eqb fault.1 "connection_failure" then
      _create_alarm (n_id node) COMMUNICATIONS MINOR
        ("Connection failure on " +:+ n_id node) ;;; ret tt
    else if String.eqb fault.1 "authentication_failure" then
      _create_alarm (n_id node) SECURITY WARNING
        ("Authentication failure on " +:+ n_id node) ;;; ret tt
    else ret tt
  else ret tt.

(** The test of the recovery loop on one alarm. *)
Definition is_down_alarm_of (node : Node) (alarm : Alarm) : bool :=
  String.eqb (a_node_id alarm) (n_id node)
  && String.eqb (a_description alarm) (down_description (n_id node)).

(** [for alarm_id, alarm in list(self.alarms.items())] of the recovery. *)
Definition clear_down_alarms (node : Node) (items : list (Z * Alarm)) : M W state unit :=
  for_each items (fun kv =>
    if is_down_alarm_of node kv.2 then _clear_alarm kv.1 ;;; ret tt else ret tt).

(** Body of the second loop of [_fault_generation_loop], for one node;
    [and] draws the random number only for a node that is down. *)
Definition recover_node (i : nat) (node : Node) : M W state unit :=
  if String.eqb (n_status node) "down" then
    r <- ask random_random ;;
    if Qltb r 0.3%Q then
      set_node_status i "active" ;;;
      s <- get_state ;;
      clear_down_alarms node (alarms s)
    else ret tt
  else ret tt.

(** One round of the [while] loop of [_fault_generation_loop]. *)
Definition fault_generation_tick : M W state unit :=
  for_each_node (fun i node => for_each fault_types (generate_fault i node)) ;;;
  for_each_node recover_node.

(** The calls through which the alarm store is reached over its lifetime:
    the health check and the log scan only call [_create_alarm]. *)
Inductive op :=
| Create (node_id : string) (alarm_type : AlarmType) (severity : AlarmSeverity)
    (description : string)
| Clear (alarm_id : Z)
| FaultTick.

Definition perform (o : op) : M W state unit :=
  match o with
  | Create node_id alarm_type severity description =>
      _create_alarm node_id alarm_type severity description ;;; ret tt
  | Clear alarm_id => _clear_alarm alarm_id ;;; ret tt
  | FaultTick => fault_generation_tick
  end.

(** A history of the store: calls made one after the other. *)
Definition run (ops : list op) : M W state unit :=
  for_each ops (fun o => attempt (perform o)).

(** Whether the recovery loop over [items] clears the alarm of key [k]. *)
Definition cleared_by (node : Node) (items : list (Z * Alarm)) (k : Z) : bool :=
  existsb (fun kv => bool_decide (kv.1 = k) && is_down_alarm_of node kv.2) items.

(** The alarm ids in the store increase strictly in the order of creation,
    lie below the counter, are the ["id"] of their alarms, and are as many
    as the counter has handed out. *)
Definition store_ok (s : state) : Prop :=
  StronglySorted Z.lt (Dict.keys (alarms s))
  /\ Forall (fun k => k < alarm_id_counter s) (Dict.keys (alarms s))
  /\ Forall (fun kv => a_id kv.2 = kv.1) (alarms s)
  /\ Z.of_nat (length (alarms s)) + 1 = alarm_id_counter s.

(** [s] is a later state of the store [s0]: no id has left it. *)
Definition extends (s0 s : state) : Prop :=
  store_ok s
  /\ Dict.keys (alarms s0) `prefix_of` Dict.keys (alarms s)
  /\ alarm_id_counter s0 <= alarm_id_counter s.
End Methods.

(** *** The health check and the log scan *)

Definition log_patterns : list (string * AlarmType * AlarmSeverity) := [
  ("authentication failed", SECURITY, WARNING);
  ("connection timed out", COMMUNICATIONS, MINOR);
  ("service unavailable", QUALITY_OF_SERVICE, MAJOR);
  ("out of memory", PROCESSING_ERROR, CRITICAL);
  ("temperature exceeds threshold", ENVIRONMENTAL, MAJOR)
].

(** The messages of [_generate_mock_log]. *)
Definition log_types : list string := [
  "INFO: Normal operation";
  "INFO: Service started";
  "INFO: Connection established";
  "WARNING: High resource usage";
  "WARNING: Authentication failed";
  "ERROR: Connection timed out";
  "ERROR: Service unavailable";
  "CRITICAL: Out of memory";
  "CRITICAL: Temperature exceeds threshold"
].

(** The dictionary returned by [_generate_mock_log]. *)
Record LogEntry := {
  l_timestamp : string;
  l_node_id : string;
  l_node_type : string;
  l_message : string;
  l_source : string;
}.

(** [c.lower()] on an ASCII character. *)
Definition lower_ascii (c : ascii) : ascii :=
  let n := N_of_ascii c in
  if ((65 <=? n) && (n <=? 90))%N then ascii_of_N (n + 32) else c.

(** [s.lower()] on a string of ASCII characters, as the log messages are. *)
Fixpoint lower (s : string) : string :=
  match s with
  | EmptyString => EmptyString
  | String c s' => String (lower_ascii c) (lower s')
  end.

(** [pattern in s] on [str]: [pattern] occurs in [s] at some position. *)
Fixpoint contains (pattern s : string) : bool :=
  String.prefix pattern s
  || match s with
     | EmptyString => false
     | String _ s' => contains pattern s'
     end.

(** The patterns of the table that a message matches, in table order. *)
Definition matching_patterns (message : string)
    : list (string * AlarmType * AlarmSeverity) :=
  filter (fun p => contains p.1.1 (lower message) = true) log_patterns.

(** What the caller of [_create_alarm] chooses of an alarm: node, type,
    severity and description. *)
Definition alarm_content (kv : Z * Alarm) : string * string * string * string :=
  (a_node_id kv.2, a_type kv.2, a_severity kv.2, a_description kv.2).

(** The thresholds of the health check that the three readings exceed, as
    the type, severity and description of the alarms to raise. *)
Definition health_findings (format_1f : Q -> string) (cpu_usage memory_usage disk_usage : Q)
    : list (AlarmType * AlarmSeverity * string) :=
  (if Qgtb cpu_usage 90
   then [(PROCESSING_ERROR, MAJOR, "High CPU usage: " +:+ format_1f cpu_usage +:+ "%")]
   else [])
  ++ (if Qgtb memory_usage 85
      then [(PROCESSING_ERROR, WARNING,
             "High memory usage: " +:+ format_1f memory_usage +:+ "%")]
      else [])
  ++ (if Qgtb disk_usage 80
      then [(EQUIPMENT, MINOR, "High disk usage: " +:+ format_1f disk_usage +:+ "%")]
      else []).

(** The ids that [n] creations hand out from the counter [c] on. *)
Definition ids_from (c : Z) (n : nat) : list Z :=
  (fun i => c + Z.of_nat i) <$> seq 0 n.

(** From [s0] to [s] the alarms [new] were raised and nothing else was
    done: they follow the alarms of [s0], which are as they were, they are
    active and carry the ids that the counter handed out. *)
Definition raised (s0 s : state) (new : list (Z * Alarm)) : Prop :=
  alarms s = alarms s0 ++ new
  /\ Dict.keys new = ids_from (alarm_id_counter s0) (length new)
  /\ Forall (fun kv => a_id kv.2 = kv.1 /\ a_status kv.2 = "active"
                       /\ a_cleared_time kv.2 = None) new
  /\ alarm_id_counter s = alarm_id_counter s0 + Z.of_nat (length new)
  /\ network_nodes s = network_nodes s0
  /\ running s = running s0.

(** The ids of the store are 1, 2, ... in this order, and the counter is
    the next one. *)
Definition numbered (s : state) : Prop :=
  Dict.keys (alarms s) = ids_from 1 (length (alarms s))
  /\ alarm_id_counter s = 1 + Z.of_nat (length (alarms s)).

(** Every alarm is active without a cleared time, or cleared with one. *)
Definition lifecycle_ok (s : state) : Prop :=
  Forall (fun kv => (a_status kv.2 = "active" /\ a_cleared_time kv.2 = None)
                    \/ (a_status kv.2 = "cleared" /\ a_cleared_time kv.2 ≠ None))
    (alarms s).

(** The nodes are those of [__init__], each active or down. *)
Definition nodes_ok (s : state) : Prop :=
  map (fun n => (n_id n, n_type n, n_ip n)) (network_nodes s)
  = map (fun n => (n_id n, n_type n, n_ip n)) initial_nodes
  /\ Forall (fun n => n_status n = "active" \/ n_status n = "down") (network_nodes s).

(** What holds of the store and the nodes at every moment of the life of an
    [OAMAutomation] object. *)
Definition sound (s : state) : Prop :=
  store_ok s /\ numbered s /\ lifecycle_ok s /\ nodes_ok s.

Section Loops.
Context {W : Type} `{!Oracle W}.

(** [f"{x:.1f}"]: the float formatting of the runtime. *)
Variable format_1f : Q -> string.

(** Body of the loop of [_health_check_loop], for one node. *)
Definition check_node_health (node : Node) : M W state unit :=
  cpu_usage <- ask (random_uniform 10 95) ;;
  memory_usage <- ask (random_uniform 20 90) ;;
  disk_usage <- ask (random_uniform 30 85) ;;
  (if Qgtb cpu_usage 90 then
     _create_alarm (n_id node) PROCESSING_ERROR MAJOR
       ("High CPU usage: " +:+ format_1f cpu_usage +:+ "%") ;;; ret tt
   else ret tt) ;;;
  (if Qgtb memory_usage 85 then
     _create_alarm (n_id node) PROCESSING_ERROR WARNING
       ("High memory usage: " +:+ format_1f memory_usage +:+ "%") ;;; ret tt
   else ret tt) ;;;
  (if Qgtb disk_usage 80 then
     _create_alarm (n_id node) EQUIPMENT MINOR
       ("High disk usage: " +:+ format_1f disk_usage +:+ "%") ;;; ret tt
   else ret tt).

(** One round of the [while] loop of [_health_check_loop]. *)
Definition health_check_tick : M W state unit :=
  for_each_node (fun _ node => check_node_health node).

Definition _generate_mock_log (node : Node) : M W state LogEntry :=
  timestamp <- now_iso ;;
  message <- choice log_types ;;
  ret {| l_timestamp := timestamp; l_node_id := n_id node; l_node_type := n_type node;
         l_message := message; l_source := n_type node +:+ "-service" |}.

(** The loop of [_log_parsing_loop] over the patterns, for one log entry. *)
Definition match_log_entry (node : Node) (log_entry : LogEntry) : M W state unit :=
  for_each log_patterns (fun pattern =>
    if contains pattern.1.1 (lower (l_message log_entry)) then
      _create_alarm (n_id node) pattern.1.2 pattern.2
        ("Log pattern match: " +:+ pattern.1.1) ;;; ret tt
    else ret tt).

(** Body of the [for _ in range(...)] loop of [_log_parsing_loop]. *)
Definition scan_log_line : M W state unit :=
  s <- get_state ;;
  node <- choice (network_nodes s) ;;
  log_entry <- _generate_mock_log node ;;
  match_log_entry node log_entry.

(** One round of the [while] loop of [_log_parsing_loop]. *)
Definition log_parsing_tick : M W state unit :=
  lines <- ask (random_randint 5 15) ;;
  for_each (seq 0 (Z.to_nat lines)) (fun _ => scan_log_line).

(** The calls that reach the alarm store, the three loops included. *)
Inductive call :=
| Direct (o : op)
| HealthCheck
| LogScan.

Definition perform_call (c : call) : M W state unit :=
  match c with
  | Direct o => perform o
  | HealthCheck => health_check_tick
  | LogScan => log_parsing_tick
  end.

Definition run_calls (calls : list call) : M W state unit :=
  for_each calls (fun c => attempt (perform_call c)).
End Loops.

End OAM.

(** * The KPI monitoring framework ([src/kpi.py]) *)

Module KPI.

Record KPIDefinition := {
  k_id : string;
  k_name : string;
  k_description : string;
  k_unit : string;
  k_target : Q;
  k_warning_threshold : Q;
  k_critical_threshold : Q;
  k_category : string;
}.

Definition kpi_definitions : list KPIDefinition := [
  {| k_id := "node_availability"; k_name := "Node Availability";
     k_description := "Percentage of time a node is available"; k_unit := "%";
     k_target := 99.99%Q; k_warning_threshold := 99.9%Q;
     k_critical_threshold := 99.5%Q; k_category := "availability" |};
  {| k_id := "service_latency"; k_name := "Service Latency";
     k_description := "Average latency for service requests"; k_unit := "ms";
     k_target := 50%Q; k_warning_threshold := 100%Q;
     k_critical_threshold := 200%Q; k_category := "performance" |};
  {| k_id := "error_rate"; k_name := "Error Rate";
     k_description := "Percentage of requests resulting in errors"; k_unit := "%";
     k_target := 0.1%Q; k_warning_threshold := 1.0%Q;
     k_critical_threshold := 5.0%Q; k_category := "quality" |};
  {| k_id := "cpu_utilization"; k_name := "CPU Utilization";
     k_description := "Average CPU utilization of nodes"; k_unit := "%";
     k_target := 60%Q; k_warning_threshold := 80%Q;
     k_critical_threshold := 90%Q; k_category := "resource" |};
  {| k_id := "memory_utilization"; k_name := "Memory Utilization";
     k_description := "Average memory utilization of nodes"; k_unit := "%";
     k_target := 70%Q; k_warning_threshold := 85%Q;
     k_critical_threshold := 95%Q; k_category := "resource" |};
  {| k_id := "throughput"; k_name := "Network Throughput";
     k_description := "Average network throughput"; k_unit := "Mbps";
     k_target := 1000%Q; k_warning_threshold := 500%Q;
     k_critical_threshold := 100%Q; k_category := "performance" |};
  {| k_id := "connection_success_rate"; k_name := "Connection Success Rate";
     k_description := "Percentage of successful connection attempts"; k_unit := "%";
     k_target := 99.9%Q; k_warning_threshold := 99.0%Q;
     k_critical_threshold := 95.0%Q; k_category := "quality" |};
  {| k_id := "recovery_time"; k_name := "Recovery Time";
     k_description := "Average time to recover from failures"; k_unit := "seconds";
     k_target := 30%Q; k_warning_threshold := 60%Q;
     k_critical_threshold := 300%Q; k_category := "availability" |}
].

(** A data point [{"timestamp", "value"}]. *)
Record Sample := { timestamp : string; value : Q }.

Definition maxlen : nat := 1000.

(** [deque(maxlen=1000).append(x)]: the item goes to the right end, then the
    deque is trimmed from the left if it has grown past [maxlen]. *)
Definition deque_append (x : Sample) (d : list Sample) : list Sample :=
  let d' := d ++ [x] in
  if (maxlen <? length d')%nat then tail d' else d'.

(** The fields of a [KPIMonitoring] object that change: [kpi_data] maps a
    KPI id to a [defaultdict] from node ids to deques. *)
Record state := {
  running : bool;
  kpi_data : list (string * list (string * list Sample));
  network_nodes : list Node;
}.

Definition set_kpi_data (d : list (string * list (string * list Sample))) (s : state) : state :=
  {| running := running s; kpi_data := d; network_nodes := network_nodes s |}.

(** [__init__]: one empty [defaultdict] per KPI definition. *)
Definition init : state :=
  {| running := false;
     kpi_data := foldl (fun d kpi => Dict.set (k_id kpi) [] d) [] kpi_definitions;
     network_nodes := initial_nodes |}.

(** The window of a KPI on a node, empty when there is none. *)
Definition window (kpi_id node_id : string) (s : state) : list Sample :=
  default [] (Dict.get kpi_id (kpi_data s) ≫= Dict.get node_id).

(** The if/else block of [_analyze_kpi_data] that sets [severity]. *)
Definition classify (category : string) (warning_threshold critical_threshold value : Q)
    : string :=
  if String.eqb category "availability" || String.eqb category "quality" then
    if Qltb value critical_threshold then "CRITICAL"
    else if Qltb value warning_threshold then "WARNING"
    else "OK"
  else
    if Qgtb value critical_threshold then "CRITICAL"
    else if Qgtb value warning_threshold then "WARNING"
    else "OK".

Record Issue := {
  i_node_id : string;
  i_kpi_id : string;
  i_kpi_name : string;
  i_value : Q;
  i_unit : string;
  i_severity : string;
  i_timestamp : string;
}.

(** Body of the inner loop of [_analyze_kpi_data]: the issues that one
    window adds. *)
Definition analyze_window (kpi : KPIDefinition) (item : string * list Sample) : list Issue :=
  match last item.2 with
  | None => []
  | Some latest =>
      let severity :=
        classify (k_category kpi) (k_warning_threshold kpi) (k_critical_threshold kpi)
          (value latest) in
      if String.eqb severity "OK" then []
      else [ {| i_node_id := item.1; i_kpi_id := k_id kpi; i_kpi_name := k_name kpi;
                i_value := value latest; i_unit := k_unit kpi; i_severity := severity;
                i_timestamp := timestamp latest |} ]
  end.

(** The outer loop of [_analyze_kpi_data] over the given definitions;
    [self.kpi_data[kpi_id]] raises [KeyError] on a missing id. *)
Fixpoint analyze (defs : list KPIDefinition)
    (data : list (string * list (string * list Sample))) : outcome (list Issue) :=
  match defs with
  | [] => Return []
  | kpi :: defs' =>
      match Dict.get (k_id kpi) data with
      | None => Raise KeyError
      | Some node_data =>
          match analyze defs' data with
          | Return issues => Return (flat_map (analyze_window kpi) node_data ++ issues)
          | Raise x => Raise x
          end
      end
  end.

Definition _analyze_kpi_data (s : state) : outcome (list Issue) :=
  analyze kpi_definitions (kpi_data s).

Section Methods.
Context {W : Type} `{!Oracle W}.

(** [self.kpi_data[kpi_id][node_id].append(sample)] *)
Definition record_sample (kpi_id node_id : string) (sample : Sample) : M W state unit :=
  s <- get_state ;;
  match Dict.get kpi_id (kpi_data s) with
  | None => raise KeyError
  | Some node_data =>
      let data_points := default [] (Dict.get node_id node_data) in
      put_state (set_kpi_data
        (Dict.set kpi_id (Dict.set node_id (deque_append sample data_points) node_data)
           (kpi_data s)) s)
  end.

Definition _collect_node_kpis (node : Node) : M W state unit :=
  let node_id := n_id node in
  timestamp <- now_iso ;;
  let availability := if String.eqb (n_status node) "active" then 100%Q else 0%Q in
  record_sample "node_availability" node_id {| timestamp := timestamp; value := availability |} ;;;
  cpu_util <- ask (random_uniform 20 95) ;;
  record_sample "cpu_utilization" node_id {| timestamp := timestamp; value := cpu_util |} ;;;
  memory_util <- ask (random_uniform 30 90) ;;
  record_sample "memory_utilization" node_id {| timestamp := timestamp; value := memory_util |} ;;;
  latency <- ask (random_uniform 10 200) ;;
  record_sample "service_latency" node_id {| timestamp := timestamp; value := latency |} ;;;
  error_rate <- ask (random_uniform 0 10) ;;
  record_sample "error_rate" node_id {| timestamp := timestamp; value := error_rate |} ;;;
  throughput <- ask (random_uniform 100 2000) ;;
  record_sample "throughput" node_id {| timestamp := timestamp; value := throughput |} ;;;
  success_rate <- ask (random_uniform 90 100) ;;
  record_sample "connection_success_rate" node_id
    {| timestamp := timestamp; value := success_rate |} ;;;
  if String.eqb (n_status node) "active" then
    r <- ask random_random ;;
    if Qltb r 0.1%Q then
      recovery_time <- ask (random_uniform 10 500) ;;
      record_sample "recovery_time" node_id {| timestamp := timestamp; value := recovery_time |}
    else ret tt
  else ret tt.

(** One round of the [while] loop of [_collection_loop]; the issues found
    by the analysis are only logged. *)
Definition collection_tick : M W state unit :=
  s <- get_state ;;
  for_each (network_nodes s) _collect_node_kpis ;;;
  s <- get_state ;;
  match _analyze_kpi_data s with
  | Return _ => ret tt
  | Raise x => raise x
  end.

(** The [if time_range: ... else: ...] of [get_kpi_data] on one window;
    [time_range] is a number of seconds, [0] and [None] are falsy.  The
    clock is read first; the [timedelta] and then the subtraction raise
    OverflowError when they leave their bounds. *)
Definition filter_window (time_range : option Z) (data_points : list Sample)
    : M W state (list Sample) :=
  match time_range with
  | Some seconds =>
      if seconds =? 0 then ret data_points
      else
        now <- ask datetime_now ;;
        match timedelta_seconds seconds with
        | None => raise OverflowError
        | Some delta =>
            match datetime_sub now delta with
            | None => raise OverflowError
            | Some cutoff_time =>
                let cutoff_str := isoformat cutoff_time in
                ret (filter (fun dp => str_ge (timestamp dp) cutoff_str) data_points)
            end
        end
  | None => ret data_points
  end.

(** The inner loop of [get_kpi_data].  The loop variable is the parameter
    [node_id] itself: it is returned with the windows collected. *)
Fixpoint collect_windows (time_range : option Z) (items : list (string * list Sample))
    (node_id : option string) (acc : list (string * list Sample))
    : M W state (option string * list (string * list Sample)) :=
  match items with
  | [] => ret (node_id, acc)
  | (node_id', data_points) :: items' =>
      filtered_data <- filter_window time_range data_points ;;
      collect_windows time_range items' (Some node_id')
        (match filtered_data with
         | [] => acc
         | _ => Dict.set node_id' filtered_data acc
         end)
  end.

(** The outer loop of [get_kpi_data]; [node_id] is whatever the inner loop
    of the previous round left in it. *)
Fixpoint collect_kpis (time_range : option Z)
    (items : list (string * list (string * list Sample)))
    (node_id : option string) (result : list (string * list (string * list Sample)))
    : M W state (list (string * list (string * list Sample))) :=
  match items with
  | [] => ret result
  | (kpi_id, node_data) :: items' =>
      let result := Dict.set kpi_id [] result in
      if truthy_str node_id then
        match Dict.get (default EmptyString node_id) node_data with
        | None => collect_kpis time_range items' node_id result
        | Some data_points =>
            r <- collect_windows time_range [(default EmptyString node_id, data_points)] node_id [] ;;
            collect_kpis time_range items' r.1 (Dict.set kpi_id r.2 result)
        end
      else
        r <- collect_windows time_range node_data node_id [] ;;
        collect_kpis time_range items' r.1 (Dict.set kpi_id r.2 result)
  end.

Definition get_kpi_data (kpi_id node_id : option string) (time_range : option Z)
    : M W state (list (string * list (string * list Sample))) :=
  s <- get_state ;;
  if truthy_str kpi_id then
    match Dict.get (default EmptyString kpi_id) (kpi_data s) with
    | None => ret []
    | Some node_data => collect_kpis time_range [(default EmptyString kpi_id, node_data)] node_id []
    end
  else collect_kpis time_range (kpi_data s) node_id [].

(** The cutoff string of a time range of [seconds] at the clock reading
    [now]; there is none when the range or the cutoff time overflows. *)
Definition cutoff (seconds now : Z) : option string :=
  match timedelta_seconds seconds with
  | Some delta => isoformat <$> datetime_sub now delta
  | None => None
  end.

(** The cutoff strings at the clock readings [nows], if each has one. *)
Fixpoint cutoffs (seconds : Z) (nows : list Z) : option (list string) :=
  match nows with
  | [] => Some []
  | now :: nows' =>
      match cutoff seconds now, cutoffs seconds nows' with
      | Some c, Some cs => Some (c :: cs)
      | _, _ => None
      end
  end.

(** A history of the KPI store: [n] rounds of the collection loop. *)
Definition run (n : nat) : M W state unit :=
  for_each (seq 0 n) (fun _ => attempt collection_tick).
End Methods.

(** The windows that [get_kpi_data] looks at, KPI by KPI in the order of
    the store.  With a node id it is the window of that node, if the KPI
    has one; without, all the windows of the KPI.  [node_id] is the loop
    variable: past a KPI with windows it is the node of the last one. *)
Fixpoint visited_from (items : list (string * list (string * list Sample)))
    (node_id : option string) : list (string * list (string * list Sample)) :=
  match items with
  | [] => []
  | (kpi_id, node_data) :: items' =>
      let windows :=
        if truthy_str node_id then
          match Dict.get (default EmptyString node_id) node_data with
          | Some data_points => [(default EmptyString node_id, data_points)]
          | None => []
          end
        else node_data in
      (kpi_id, windows)
        :: visited_from items'
             (match last windows with Some w => Some w.1 | None => node_id end)
  end.

Definition visited (kpi_id node_id : option string) (s : state)
    : list (string * list (string * list Sample)) :=
  if truthy_str kpi_id then
    match Dict.get (default EmptyString kpi_id) (kpi_data s) with
    | Some node_data => visited_from [(default EmptyString kpi_id, node_data)] node_id
    | None => []
    end
  else visited_from (kpi_data s) node_id.

(** What is left of the windows when each is cut at its cutoff string, the
    first window at the first cutoff and so on: the records not below the
    cutoff, and no window that is left empty. *)
Fixpoint cut_windows (cs : list string) (windows : list (string * list Sample))
    {struct windows} : list (string * list Sample) :=
  match windows, cs with
  | (node_id, data_points) :: windows', c :: cs' =>
      match filter (fun dp => str_ge (timestamp dp) c) data_points with
      | [] => cut_windows cs' windows'
      | kept => (node_id, kept) :: cut_windows cs' windows'
      end
  | _, _ => []
  end.

(** The same for the windows of several KPIs: the cutoffs are taken in the
    order of the windows. *)
Fixpoint cut_kpis (cs : list string) (v : list (string * list (string * list Sample)))
    {struct v} : list (string * list (string * list Sample)) :=
  match v with
  | [] => []
  | (kpi_id, windows) :: v' =>
      (kpi_id, cut_windows (take (length windows) cs) windows)
        :: cut_kpis (drop (length windows) cs) v'
  end.

(** An outcome that is a result with the property [P], or else
    OverflowError, and that only when a time range is given. *)
Definition overflow_only (time_range : option Z) {A} (P : A -> Prop) (o : outcome A)
    : Prop :=
  match o with
  | Return r => P r
  | Raise x => x = OverflowError /\ exists seconds, time_range = Some seconds /\ seconds ≠ 0
  end.

(** Every KPI definition has its entry in [kpi_data]. *)
Definition complete (s : state) : Prop :=
  Forall (fun kpi => k_id kpi ∈ Dict.keys (kpi_data s)) kpi_definitions.

(** No window holds more than [maxlen] samples. *)
Definition bounded (s : state) : Prop :=
  forall kpi_id node_id, (length (window kpi_id node_id s) <= maxlen)%nat.

(** [s'] is the store [s] while node [node_id] is being collected, with
    [w] as its availability window. *)
Definition collecting (s : state) (node_id : string) (w : list Sample) (s' : state) : Prop :=
  Dict.keys (kpi_data s') = Dict.keys (kpi_data s)
  /\ network_nodes s' = network_nodes s
  /\ (bounded s -> bounded s')
  /\ window "node_availability" node_id s' = w.

(** The dictionary returned by [get_status]. *)
Record Status := {
  s_status : string;
  s_kpi_count : nat;
  s_node_count : nat;
  s_data_points : nat;
}.

Definition get_status (s : state) : Status :=
  {| s_status := if running s then "running" else "stopped";
     s_kpi_count := length kpi_definitions;
     s_node_count := length (network_nodes s);
     s_data_points :=
       list_sum (flat_map (fun kv => map (fun nw => length nw.2) kv.2) (kpi_data s)) |}.

(** The KPIs that [_collect_node_kpis] always samples, in the order of the
    source, with the bounds of their [random.uniform]; the availability is
    not drawn, it is 0 or 100. *)
Definition collected_kpis : list (string * (Q * Q)) := [
  ("node_availability", (0%Q, 100%Q));
  ("cpu_utilization", (20%Q, 95%Q));
  ("memory_utilization", (30%Q, 90%Q));
  ("service_latency", (10%Q, 200%Q));
  ("error_rate", (0%Q, 10%Q));
  ("throughput", (100%Q, 2000%Q));
  ("connection_success_rate", (90%Q, 100%Q))
].

(** The bounds of the recovery time, which is sampled for an active node
    when a trial with probability 0.1 succeeds. *)
Definition recovery_bounds : Q * Q := (10%Q, 500%Q).

(** The windows of a node dictionary that hold a sample. *)
Definition nonempty_windows (node_data : list (string * list Sample))
    : list (string * list Sample) :=
  filter (fun nw => nw.2 ≠ []) node_data.

(** The window of one node in a node dictionary, if it holds a sample. *)
Definition window_of (node_id : string) (node_data : list (string * list Sample))
    : list (string * list Sample) :=
  match Dict.get node_id node_data with
  | Some (dp :: data_points) => [(node_id, dp :: data_points)]
  | _ => []
  end.

(** An entry of the dictionary returned by [get_kpi_summary]. *)
Record Summary := {
  sm_min : Q;
  sm_max : Q;
  sm_avg : Q;
  sm_count : nat;
  sm_latest : Q;
  sm_latest_timestamp : string;
}.

(** [min] and [max] of a non-empty sequence, given by its first item and
    the others: the first of the least, or greatest, items. *)
Definition py_min (x : Q) (l : list Q) : Q :=
  fold_left (fun m y => if Qltb y m then y else m) l x.
Definition py_max (x : Q) (l : list Q) : Q :=
  fold_left (fun m y => if Qgtb y m then y else m) l x.

Section Summaries.
Context {W : Type} `{!Oracle W}.

(** [sum(values) / len(values)] in floating point. *)
Variable float_mean : list Q -> Q.

(** Body of the inner loop of [get_kpi_summary]: nothing for an empty
    list of data points. *)
Definition summarize (data_points : list Sample) : option Summary :=
  match data_points with
  | [] => None
  | dp :: rest =>
      let values := map value data_points in
      Some {| sm_min := py_min (value dp) (map value rest);
              sm_max := py_max (value dp) (map value rest);
              sm_avg := float_mean values;
              sm_count := length values;
              sm_latest := value (List.last data_points dp);
              sm_latest_timestamp := timestamp (List.last data_points dp) |}
  end.

Definition summarize_nodes (node_data : list (string * list Sample))
    : list (string * Summary) :=
  fold_left (fun acc nw =>
               match summarize nw.2 with
               | Some sm => Dict.set nw.1 sm acc
               | None => acc
               end) node_data [].

Definition get_kpi_summary (kpi_id node_id : option string) (time_range : option Z)
    : M W state (list (string * list (string * Summary))) :=
  data <- get_kpi_data kpi_id node_id time_range ;;
  ret (fold_left (fun summary kv => Dict.set kv.1 (summarize_nodes kv.2) summary) data []).
End Summaries.

(** From [s0] to [s'] the values [samples], one for each KPI id listed,
    were appended with the timestamp [ts] to the windows of the node
    [node_id], and nothing else was done. *)
Definition sampled (s0 : state) (node_id ts : string) (samples : list (string * Q))
    (s' : state) : Prop :=
  Dict.keys (kpi_data s') = Dict.keys (kpi_data s0)
  /\ network_nodes s' = network_nodes s0
  /\ forall k n,
       window k n s' =
       match Dict.get k samples with
       | Some x =>
           if decide (n = node_id)
           then deque_append {| timestamp := ts; value := x |} (window k n s0)
           else window k n s0
       | None => window k n s0
       end.

(** The store has the entries of [__init__], each node dictionary has
    distinct keys among the ids of the nodes, and no window is empty or
    holds more than [maxlen] samples. *)
Definition shaped (s : state) : Prop :=
  Dict.keys (kpi_data s) = map k_id kpi_definitions
  /\ Forall (fun kv =>
       Dict.wf kv.2
       /\ Forall (fun nw => nw.1 ∈ map n_id initial_nodes
                            /\ (0 < length nw.2 <= maxlen)%nat) kv.2)
       (kpi_data s)
  /\ map n_id (network_nodes s) = map n_id initial_nodes.

End KPI.

(** * The event simulator ([src/event.py]) *)

Module Event.

Inductive EventType :=
| NODE_FAILURE | SERVICE_FAILURE | NETWORK_CONGESTION | SECURITY_BREACH
| RESOURCE_EXHAUSTION | CONFIGURATION_CHANGE | FAILOVER | RECOVERY.

(** [event_type.name] *)
Definition type_name (t : EventType) : string :=
  match t with
  | NODE_FAILURE => "NODE_FAILURE" | SERVICE_FAILURE => "SERVICE_FAILURE"
  | NETWORK_CONGESTION => "NETWORK_CONGESTION" | SECURITY_BREACH => "SECURITY_BREACH"
  | RESOURCE_EXHAUSTION => "RESOURCE_EXHAUSTION"
  | CONFIGURATION_CHANGE => "CONFIGURATION_CHANGE"
  | FAILOVER => "FAILOVER" | RECOVERY => "RECOVERY"
  end.

(** [list(EventType)] *)
Definition all_event_types : list EventType :=
  [NODE_FAILURE; SERVICE_FAILURE; NETWORK_CONGESTION; SECURITY_BREACH;
   RESOURCE_EXHAUSTION; CONFIGURATION_CHANGE; FAILOVER; RECOVERY].

(** The ["details"] dictionary of an event, by the keys it has. *)
Inductive Details :=
| NoDetails
| NodeFailureDetails (failure_reason severity : string)
| ServiceFailureDetails (service_name failure_reason : string) (affected_users : Z)
| CongestionDetails (congestion_level : Q) (affected_interfaces : string)
    (duration_seconds : Z)
| SecurityBreachDetails (breach_type severity : string) (affected_systems : Z)
| ResourceExhaustionDetails (resource_type : string) (utilization available_capacity : Q)
| ConfigurationChangeDetails (change_type change_reason change_id : string)
| FailoverDetails (failover_target failover_type : string) (failover_duration_seconds : Z)
| RecoveryDetails (recovery_action : string) (recovery_duration_seconds : Z)
    (success : bool)
| LoadTestDetails (duration_seconds : Z) (intensity : string) (cpu_load memory_load : Q)
    (connection_load : Z)
| LoadTestCompletedDetails (original_test_id : Z) (success : bool) (failures : Z)
    (latency_increase_percent throughput_decrease_percent error_rate_increase_percent : Q).

(** An event dictionary.  Events made by [_generate_event] have the key
    ["target_node"] and not ["target_nodes"]; the two load-test events have
    ["target_nodes"] and not ["target_node"]. *)
Record Event := {
  e_id : Z;
  e_type : string;
  e_target_node : option string;
  e_target_type : string;
  e_target_nodes : option (list string);
  e_timestamp : string;
  e_details : Details;
}.

Record EventSpec := {
  spec_type : EventType;
  target_type : string;
  probability : Q;
}.

Record Scenario := {
  sc_name : string;
  sc_description : string;
  sc_events : list EventSpec;
}.

Definition scenarios : list Scenario := [
  {| sc_name := "AMF Failover";
     sc_description := "Simulate AMF node failure and failover to backup";
     sc_events := [
       {| spec_type := NODE_FAILURE; target_type := "AMF"; probability := 1.0%Q |};
       {| spec_type := FAILOVER; target_type := "AMF"; probability := 0.9%Q |};
       {| spec_type := RECOVERY; target_type := "AMF"; probability := 0.8%Q |} ] |};
  {| sc_name := "Network Congestion";
     sc_description := "Simulate network congestion affecting multiple nodes";
     sc_events := [
       {| spec_type := NETWORK_CONGESTION; target_type := "ALL"; probability := 1.0%Q |};
       {| spec_type := SERVICE_FAILURE; target_type := "UPF"; probability := 0.7%Q |};
       {| spec_type := RECOVERY; target_type := "ALL"; probability := 0.9%Q |} ] |};
  {| sc_name := "Resource Exhaustion";
     sc_description := "Simulate resource exhaustion on a node";
     sc_events := [
       {| spec_type := RESOURCE_EXHAUSTION; target_type := "SMF"; probability := 1.0%Q |};
       {| spec_type := SERVICE_FAILURE; target_type := "SMF"; probability := 0.8%Q |};
       {| spec_type := RECOVERY; target_type := "SMF"; probability := 0.9%Q |} ] |};
  {| sc_name := "Security Incident";
     sc_description := "Simulate a security breach and response";
     sc_events := [
       {| spec_type := SECURITY_BREACH; target_type := "PCF"; probability := 1.0%Q |};
       {| spec_type := CONFIGURATION_CHANGE; target_type := "PCF"; probability := 0.9%Q |};
       {| spec_type := RECOVERY; target_type := "PCF"; probability := 0.95%Q |} ] |};
  {| sc_name := "Multiple Node Failure";
     sc_description := "Simulate multiple node failures and recovery";
     sc_events := [
       {| spec_type := NODE_FAILURE; target_type := "gNB"; probability := 1.0%Q |};
       {| spec_type := NODE_FAILURE; target_type := "UPF"; probability := 0.8%Q |};
       {| spec_type := FAILOVER; target_type := "gNB"; probability := 0.9%Q |};
       {| spec_type := FAILOVER; target_type := "UPF"; probability := 0.7%Q |};
       {| spec_type := RECOVERY; target_type := "gNB"; probability := 0.95%Q |};
       {| spec_type := RECOVERY; target_type := "UPF"; probability := 0.9%Q |} ] |}
].

(** The fields of an [EventSimulator] object that change. *)
Record state := {
  running : bool;
  events : list Event;
  network_nodes : list Node;
}.

Definition set_events (l : list Event) (s : state) : state :=
  {| running := running s; events := l; network_nodes := network_nodes s |}.
Definition set_network_nodes (l : list Node) (s : state) : state :=
  {| running := running s; events := events s; network_nodes := l |}.

(** [__init__] *)
Definition init : state :=
  {| running := false; events := []; network_nodes := initial_nodes |}.

(** [[node for node in self.network_nodes if node["type"] == t]] *)
Definition nodes_of_type (t : string) (nodes : list Node) : list (nat * Node) :=
  filter (fun r => n_type r.2 = t) (node_refs nodes).

(** The target nodes of an event definition of [_run_scenario]: every node
    for ["ALL"], the nodes of the type otherwise. *)
Definition resolve_targets (target_type : string) (nodes : list Node) : list (nat * Node) :=
  if String.eqb target_type "ALL" then node_refs nodes
  else nodes_of_type target_type nodes.

(** The dictionary returned by [simulate_failover_scenario]. *)
Record FailoverResult := {
  fr_scenario : string;
  fr_target_node : string;
  fr_target_type : string;
  fr_events : list (Z * string);
  fr_detection_time_seconds : Q;
  fr_failover_time_seconds : Z;
  fr_recovery_time_seconds : Z;
  fr_total_downtime_seconds : Q;
  fr_recovery_success : bool;
}.

Section Methods.
Context {W : Type} `{!Oracle W}.

(** [target_node["status"] = st] on the node object at position [i]. *)
Definition set_node_status (i : nat) (st : string) : M W state unit :=
  s <- get_state ;;
  put_state (set_network_nodes (alter (set_status st) i (network_nodes s)) s).

(** [self.events.append(event)] *)
Definition append_event (event : Event) : M W state unit :=
  s <- get_state ;;
  put_state (set_events (events s ++ [event]) s).

(** The if/elif chain of [_generate_event] that fills ["details"] and
    changes the status of the target node. *)
Definition make_details (event_type : EventType) (target_node : nat * Node)
    : M W state Details :=
  match event_type with
  | NODE_FAILURE =>
      failure_reason <- choice ["Hardware failure"; "Software crash"; "Power outage";
                                "Network connectivity loss"] ;;
      severity <- choice ["Critical"; "Major"; "Minor"] ;;
      set_node_status target_node.1 "down" ;;;
      ret (NodeFailureDetails failure_reason severity)
  | SERVICE_FAILURE =>
      service_name <- choice ["Authentication"; "Session Management"; "Policy Control";
                              "User Plane"] ;;
      failure_reason <- choice ["Timeout"; "Internal error"; "Dependency failure";
                                "Resource constraint"] ;;
      affected_users <- ask (random_randint 10 1000) ;;
      ret (ServiceFailureDetails service_name failure_reason affected_users)
  | NETWORK_CONGESTION =>
      congestion_level <- ask (random_uniform 70 100) ;;
      affected_interfaces <- choice ["N1"; "N2"; "N3"; "N4"; "N6"; "All"] ;;
      duration_seconds <- ask (random_randint 30 300) ;;
      ret (CongestionDetails congestion_level affected_interfaces duration_seconds)
  | SECURITY_BREACH =>
      breach_type <- choice ["Unauthorized access"; "Authentication bypass"; "DDoS attack";
                             "Data exfiltration"] ;;
      severity <- choice ["Critical"; "Major"; "Minor"] ;;
      affected_systems <- ask (random_randint 1 5) ;;
      ret (SecurityBreachDetails breach_type severity affected_systems)
  | RESOURCE_EXHAUSTION =>
      resource_type <- choice ["CPU"; "Memory"; "Disk"; "Network bandwidth";
                               "Connection pool"] ;;
      utilization <- ask (random_uniform 90 100) ;;
      available_capacity <- ask (random_uniform 0 10) ;;
      ret (ResourceExhaustionDetails resource_type utilization available_capacity)
  | CONFIGURATION_CHANGE =>
      change_type <- choice ["Parameter update"; "Software upgrade"; "Policy change";
                             "Security hardening"] ;;
      change_reason <- choice ["Planned maintenance"; "Performance optimization";
                               "Security patch"; "Bug fix"] ;;
      change_number <- ask (random_randint 1000 9999) ;;
      ret (ConfigurationChangeDetails change_type change_reason
             ("CHG-" +:+ pretty change_number))
  | FAILOVER =>
      failover_type <- choice ["Automatic"; "Manual"; "Scheduled"] ;;
      failover_duration_seconds <- ask (random_randint 5 60) ;;
      ret (FailoverDetails (n_type target_node.2 +:+ "-BACKUP") failover_type
             failover_duration_seconds)
  | RECOVERY =>
      recovery_action <- choice ["Restart"; "Failback"; "Reconfiguration";
                                 "Manual intervention"] ;;
      recovery_duration_seconds <- ask (random_randint 10 300) ;;
      r <- ask random_random ;;
      let success := Qltb r 0.9%Q in
      (if success then set_node_status target_node.1 "active" else ret tt) ;;;
      ret (RecoveryDetails recovery_action recovery_duration_seconds success)
  end.

Definition _generate_event (event_type : EventType) (target_node : nat * Node)
    : M W state Event :=
  s <- get_state ;;
  let event_id := Z.of_nat (length (events s)) + 1 in
  timestamp <- now_iso ;;
  details <- make_details event_type target_node ;;
  let event :=
    {| e_id := event_id; e_type := type_name event_type;
       e_target_node := Some (n_id target_node.2);
       e_target_type := n_type target_node.2; e_target_nodes := None;
       e_timestamp := timestamp; e_details := details |} in
  append_event event ;;;
  ret event.

(** Body of the loop of [_run_scenario], for one event definition. *)
Definition run_event_def (event_def : EventSpec) : M W state unit :=
  r <- ask random_random ;;
  if Qgtb r (probability event_def) then ret tt
  else
    s <- get_state ;;
    let target_nodes := resolve_targets (target_type event_def) (network_nodes s) in
    match target_nodes with
    | [] => ret tt
    | _ =>
        target_node <- choice target_nodes ;;
        _generate_event (spec_type event_def) target_node ;;;
        pause <- ask (random_uniform 1 5) ;;
        sleep pause
    end.

Definition _run_scenario : M W state unit :=
  scenario <- choice scenarios ;;
  for_each (sc_events scenario) run_event_def.

Definition _generate_random_events : M W state unit :=
  num_events <- ask (random_randint 1 3) ;;
  for_each (seq 0 (Z.to_nat num_events)) (fun _ =>
    event_type <- choice all_event_types ;;
    s <- get_state ;;
    target_node <- choice (node_refs (network_nodes s)) ;;
    _generate_event event_type target_node ;;;
    pause <- ask (random_uniform 1 3) ;;
    sleep pause).

(** One round of the [while] loop of [_simulation_loop], without its final
    sleep. *)
Definition simulation_tick : M W state unit :=
  r <- ask random_random ;;
  if Qltb r 0.7%Q then _run_scenario else _generate_random_events.

(** The list comprehension of [get_events] on ["target_node"]: an event
    without that key raises [KeyError]. *)
Fixpoint filter_by_node (node_id : string) (l : list Event) : outcome (list Event) :=
  match l with
  | [] => Return []
  | e :: l' =>
      match e_target_node e with
      | None => Raise KeyError
      | Some target =>
          match filter_by_node node_id l' with
          | Return r => Return (if String.eqb target node_id then e :: r else r)
          | Raise x => Raise x
          end
      end
  end.

(** The first two filters of [get_events], on the type and on the node. *)
Definition select_events (event_type : option EventType) (node_id : option string)
    (filtered_events : list Event) : outcome (list Event) :=
  let filtered_events :=
    match event_type with
    | Some t => filter (fun e => e_type e = type_name t) filtered_events
    | None => filtered_events
    end in
  if truthy_str node_id then filter_by_node (default EmptyString node_id) filtered_events
  else Return filtered_events.

(** [get_events]; [time_range] is a [timedelta] in microseconds, falsy when
    it is zero.  The subtraction raises OverflowError when it leaves the
    bounds of a [datetime]. *)
Definition get_events (event_type : option EventType) (node_id : option string)
    (time_range : option Z) : M W state (list Event) :=
  s <- get_state ;;
  match select_events event_type node_id (events s) with
  | Raise x => raise x
  | Return filtered_events =>
      match time_range with
      | Some delta =>
          if delta =? 0 then ret filtered_events
          else
            now <- ask datetime_now ;;
            match datetime_sub now delta with
            | None => raise OverflowError
            | Some cutoff =>
                let cutoff_time := isoformat cutoff in
                ret (filter (fun e => str_ge (e_timestamp e) cutoff_time) filtered_events)
            end
      | None => ret filtered_events
      end
  end.

(** The if/elif chain of [run_load_test] on [intensity]; [None] stands for
    the final [else]. *)
Definition load_levels (intensity : string) : M W state (option (Q * Q * Z)) :=
  if String.eqb intensity "low" then
    cpu_load <- ask (random_uniform 50 70) ;;
    memory_load <- ask (random_uniform 40 60) ;;
    connection_load <- ask (random_randint 100 500) ;;
    ret (Some (cpu_load, memory_load, connection_load))
  else if String.eqb intensity "medium" then
    cpu_load <- ask (random_uniform 70 85) ;;
    memory_load <- ask (random_uniform 60 80) ;;
    connection_load <- ask (random_randint 500 2000) ;;
    ret (Some (cpu_load, memory_load, connection_load))
  else if String.eqb intensity "high" then
    cpu_load <- ask (random_uniform 85 95) ;;
    memory_load <- ask (random_uniform 80 95) ;;
    connection_load <- ask (random_randint 2000 5000) ;;
    ret (Some (cpu_load, memory_load, connection_load))
  else ret None.

Definition run_load_test (target_node_type : string) (duration_seconds : Z)
    (intensity : string) : M W state bool :=
  s <- get_state ;;
  let target_nodes := nodes_of_type target_node_type (network_nodes s) in
  match target_nodes with
  | [] => ret false
  | _ =>
      levels <- load_levels intensity ;;
      match levels with
      | None => ret false
      | Some (cpu_load, memory_load, connection_load) =>
          s <- get_state ;;
          let start_id := Z.of_nat (length (events s)) + 1 in
          start_time <- now_iso ;;
          let load_test_event :=
            {| e_id := start_id; e_type := "LOAD_TEST"; e_target_node := None;
               e_target_type := target_node_type;
               e_target_nodes := Some (map (fun r => n_id r.2) target_nodes);
               e_timestamp := start_time;
               e_details := LoadTestDetails duration_seconds intensity cpu_load
                              memory_load connection_load |} in
          append_event load_test_event ;;;
          sleep (inject_Z (Z.min duration_seconds 5)) ;;;
          (if String.eqb intensity "high" then
             for_each target_nodes (fun node =>
               r <- ask random_random ;;
               if Qltb r 0.7%Q then _generate_event RESOURCE_EXHAUSTION node ;;; ret tt
               else ret tt)
           else ret tt) ;;;
          s <- get_state ;;
          let completion_id := Z.of_nat (length (events s)) + 1 in
          completion_time <- now_iso ;;
          latency <- ask (random_uniform 10 50) ;;
          throughput <- ask (random_uniform 5 30) ;;
          error_rate <- ask (random_uniform 1 20) ;;
          let completion_event :=
            {| e_id := completion_id; e_type := "LOAD_TEST_COMPLETED";
               e_target_node := None; e_target_type := target_node_type;
               e_target_nodes := Some (map (fun r => n_id r.2) target_nodes);
               e_timestamp := completion_time;
               e_details := LoadTestCompletedDetails (e_id load_test_event) true 0
                              latency throughput error_rate |} in
          append_event completion_event ;;;
          ret true
      end
  end.

(** [min(x, bound)] on floats: the first argument unless the second is
    smaller. *)
Definition Qmin_py (x bound : Q) : Q := if Qltb bound x then bound else x.

(** [simulate_failover_scenario]; [None] stands for the result [False]. *)
Definition simulate_failover_scenario (node_type : string)
    : M W state (option FailoverResult) :=
  s <- get_state ;;
  match nodes_of_type node_type (network_nodes s) with
  | [] => ret None
  | target_nodes =>
      target_node <- choice target_nodes ;;
      failure_event <- _generate_event NODE_FAILURE target_node ;;
      detection_time <- ask (random_uniform 1 5) ;;
      sleep (Qmin_py detection_time 2) ;;;
      failover_event <- _generate_event FAILOVER target_node ;;
      match e_details failover_event with
      | FailoverDetails _ _ failover_time =>
          sleep (inject_Z (Z.min failover_time 3)) ;;;
          recovery_success <- ask random_random ;;
          recovery_event <- _generate_event RECOVERY target_node ;;
          match e_details recovery_event with
          | RecoveryDetails _ recovery_time success =>
              ret (Some
                {| fr_scenario := "Failover";
                   fr_target_node := n_id target_node.2;
                   fr_target_type := n_type target_node.2;
                   fr_events := [ (e_id failure_event, e_type failure_event);
                                  (e_id failover_event, e_type failover_event);
                                  (e_id recovery_event, e_type recovery_event) ];
                   fr_detection_time_seconds := detection_time;
                   fr_failover_time_seconds := failover_time;
                   fr_recovery_time_seconds := recovery_time;
                   fr_total_downtime_seconds := Qplus detection_time (inject_Z failover_time);
                   fr_recovery_success := success |})
          | _ => raise KeyError
          end
      | _ => raise KeyError
      end
  end.

(** The calls that append to the event log. *)
Inductive op :=
| RunScenario
| RandomEvents
| SimulationTick
| LoadTest (target_node_type : string) (duration_seconds : Z) (intensity : string)
| Failover (node_type : string).

Definition perform (o : op) : M W state unit :=
  match o with
  | RunScenario => _run_scenario
  | RandomEvents => _generate_random_events
  | SimulationTick => simulation_tick
  | LoadTest target_node_type duration_seconds intensity =>
      run_load_test target_node_type duration_seconds intensity ;;; ret tt
  | Failover node_type => simulate_failover_scenario node_type ;;; ret tt
  end.

(** A history of the simulator: calls made one after the other. *)
Definition run (ops : list op) : M W state unit :=
  for_each ops (fun o => attempt (perform o)).
End Methods.

(** The ids of the events in the log are 1, 2, 3, ... in this order. *)
Definition log_ok (s : state) : Prop :=
  map e_id (events s) = map Z.of_nat (seq 1 (length (events s))).

(** [s'] is a later state of the simulator [s]: the log has only grown at
    its end and the nodes are the same but for their status. *)
Definition later (s s' : state) : Prop :=
  events s `prefix_of` events s'
  /\ (log_ok s -> log_ok s')
  /\ map n_type (network_nodes s') = map n_type (network_nodes s).

(** The dictionary returned by [get_status]. *)
Record Status := {
  s_status : string;
  s_events_generated : nat;
  s_scenarios_available : nat;
}.

Definition get_status (s : state) : Status :=
  {| s_status := if running s then "running" else "stopped";
     s_events_generated := length (events s);
     s_scenarios_available := length scenarios |}.

(** Whether a ["details"] dictionary has the keys that [_generate_event]
    gives to an event of the type. *)
Definition details_match (t : EventType) (d : Details) : bool :=
  match t, d with
  | NODE_FAILURE, NodeFailureDetails _ _
  | SERVICE_FAILURE, ServiceFailureDetails _ _ _
  | NETWORK_CONGESTION, CongestionDetails _ _ _
  | SECURITY_BREACH, SecurityBreachDetails _ _ _
  | RESOURCE_EXHAUSTION, ResourceExhaustionDetails _ _ _
  | CONFIGURATION_CHANGE, ConfigurationChangeDetails _ _ _
  | FAILOVER, FailoverDetails _ _ _
  | RECOVERY, RecoveryDetails _ _ _ => true
  | _, _ => false
  end.

(** The status that an event gives to its target node: a node failure
    takes it down, a recovery that succeeds makes it active, and nothing
    else touches it. *)
Definition status_after (t : EventType) (d : Details) : option string :=
  match t, d with
  | NODE_FAILURE, _ => Some "down"
  | RECOVERY, RecoveryDetails _ _ true => Some "active"
  | _, _ => None
  end.

(** An event as [_generate_event] makes it: it has ["target_node"], which
    with ["target_type"] names one of the nodes, and the details of its
    type. *)
Definition generated (ev : Event) : Prop :=
  exists t n,
    n ∈ initial_nodes
    /\ e_type ev = type_name t
    /\ e_target_node ev = Some (n_id n)
    /\ e_target_type ev = n_type n
    /\ e_target_nodes ev = None
    /\ details_match t (e_details ev) = true.

(** An event as [run_load_test] makes it: it has ["target_nodes"] and not
    ["target_node"]. *)
Definition load_test_event (ev : Event) : Prop :=
  (e_type ev = "LOAD_TEST" \/ e_type ev = "LOAD_TEST_COMPLETED")
  /\ e_target_node ev = None
  /\ e_target_nodes ev ≠ None.

(** A reference to a node of the simulator, whatever its status. *)
Definition target_ok (target : nat * Node) : Prop :=
  exists n, n ∈ initial_nodes /\ n_id target.2 = n_id n /\ n_type target.2 = n_type n.

(** What holds of the log and the nodes at every moment of the life of an
    [EventSimulator] object. *)
Definition sound (s : state) : Prop :=
  log_ok s
  /\ Forall (fun ev => generated ev \/ load_test_event ev) (events s)
  /\ map (fun n => (n_id n, n_type n, n_ip n)) (network_nodes s)
     = map (fun n => (n_id n, n_type n, n_ip n)) initial_nodes
  /\ Forall (fun n => n_status n = "active" \/ n_status n = "down") (network_nodes s).

End Event.

(** * The platform ([src/platform.py]) *)

Module Platform.

(** The components of an [OAMPlatform] that the engine is made of: each is
    built by its own constructor. *)
Record state := {
  oam : OAM.state;
  kpi : KPI.state;
  event : Event.state;
}.

(** [initialize_components] *)
Definition init : state :=
  {| oam := OAM.init; kpi := KPI.init; event := Event.init |}.

Section Methods.
Context {W : Type} `{!Oracle W}.

(** A method called on [self.components["oam"]]. *)
Definition on_oam {A} (m : M W OAM.state A) : M W state A :=
  fun p e => ((m (oam p) e).1.1,
              {| oam := (m (oam p) e).1.2; kpi := kpi p; event := event p |},
              (m (oam p) e).2).

(** A method called on [self.components["kpi"]]. *)
Definition on_kpi {A} (m : M W KPI.state A) : M W state A :=
  fun p e => ((m (kpi p) e).1.1,
              {| oam := oam p; kpi := (m (kpi p) e).1.2; event := event p |},
              (m (kpi p) e).2).

(** A method called on [self.components["event"]]. *)
Definition on_event {A} (m : M W Event.state A) : M W state A :=
  fun p e => ((m (event p) e).1.1,
              {| oam := oam p; kpi := kpi p; event := (m (event p) e).1.2 |},
              (m (event p) e).2).
End Methods.

End Platform.

(** * The IP traffic simulator ([src/ip_sim.py]), without Scapy *)

Module IPSim.

(** An entry of [network_topology]. *)
Record TopologyNode := { t_name : string; t_ipv4 : string; t_ipv6 : string }.

#[export] Instance TopologyNode_eq_dec : EqDecision TopologyNode.
Proof. solve_decision. Defined.

Definition network_topology : list TopologyNode := [
  {| t_name := "gNB-1"; t_ipv4 := "192.168.1.1"; t_ipv6 := "2001:db8::1" |};
  {| t_name := "gNB-2"; t_ipv4 := "192.168.1.2"; t_ipv6 := "2001:db8::2" |};
  {| t_name := "AMF"; t_ipv4 := "192.168.2.1"; t_ipv6 := "2001:db8:1::1" |};
  {| t_name := "SMF"; t_ipv4 := "192.168.2.2"; t_ipv6 := "2001:db8:1::2" |};
  {| t_name := "UPF"; t_ipv4 := "192.168.3.1"; t_ipv6 := "2001:db8:2::1" |};
  {| t_name := "PCF"; t_ipv4 := "192.168.3.2"; t_ipv6 := "2001:db8:2::2" |};
  {| t_name := "UE-1"; t_ipv4 := "192.168.4.1"; t_ipv6 := "2001:db8:3::1" |};
  {| t_name := "UE-2"; t_ipv4 := "192.168.4.2"; t_ipv6 := "2001:db8:3::2" |}
].

(** An entry of [qos_classes]. *)
Record QoSClass := { q_name : string; q_dscp : Z; q_priority : string }.

Definition qos_classes : list QoSClass := [
  {| q_name := "Conversational"; q_dscp := 46; q_priority := "High" |};
  {| q_name := "Streaming"; q_dscp := 34; q_priority := "Medium-High" |};
  {| q_name := "Interactive"; q_dscp := 26; q_priority := "Medium" |};
  {| q_name := "Background"; q_dscp := 0; q_priority := "Low" |}
].

(** The fields of an [IPTrafficSimulator] object that change: [running]
    and the six entries of [self.stats], three counters and three
    [defaultdict]s. *)
Record state := {
  running : bool;
  ipv4_packets_sent : Z;
  ipv6_packets_sent : Z;
  packets_received : Z;
  latency_ms : list (string * list Q);
  packet_loss : list (string * Z);
  jitter_ms : list (string * list Q);
}.

Definition set_ipv4_packets_sent (n : Z) (s : state) : state :=
  {| running := running s; ipv4_packets_sent := n;
     ipv6_packets_sent := ipv6_packets_sent s; packets_received := packets_received s;
     latency_ms := latency_ms s; packet_loss := packet_loss s; jitter_ms := jitter_ms s |}.
Definition set_ipv6_packets_sent (n : Z) (s : state) : state :=
  {| running := running s; ipv4_packets_sent := ipv4_packets_sent s;
     ipv6_packets_sent := n; packets_received := packets_received s;
     latency_ms := latency_ms s; packet_loss := packet_loss s; jitter_ms := jitter_ms s |}.
Definition set_packets_received (n : Z) (s : state) : state :=
  {| running := running s; ipv4_packets_sent := ipv4_packets_sent s;
     ipv6_packets_sent := ipv6_packets_sent s; packets_received := n;
     latency_ms := latency_ms s; packet_loss := packet_loss s; jitter_ms := jitter_ms s |}.
Definition set_latency_ms (d : list (string * list Q)) (s : state) : state :=
  {| running := running s; ipv4_packets_sent := ipv4_packets_sent s;
     ipv6_packets_sent := ipv6_packets_sent s; packets_received := packets_received s;
     latency_ms := d; packet_loss := packet_loss s; jitter_ms := jitter_ms s |}.
Definition set_packet_loss (d : list (string * Z)) (s : state) : state :=
  {| running := running s; ipv4_packets_sent := ipv4_packets_sent s;
     ipv6_packets_sent := ipv6_packets_sent s; packets_received := packets_received s;
     latency_ms := latency_ms s; packet_loss := d; jitter_ms := jitter_ms s |}.
Definition set_jitter_ms (d : list (string * list Q)) (s : state) : state :=
  {| running := running s; ipv4_packets_sent := ipv4_packets_sent s;
     ipv6_packets_sent := ipv6_packets_sent s; packets_received := packets_received s;
     latency_ms := latency_ms s; packet_loss := packet_loss s; jitter_ms := d |}.

(** [__init__] *)
Definition init : state :=
  {| running := false; ipv4_packets_sent := 0; ipv6_packets_sent := 0;
     packets_received := 0; latency_ms := []; packet_loss := []; jitter_ms := [] |}.

(** The dictionary returned by [get_status]; [SCAPY_AVAILABLE] is set when
    the module is imported. *)
Record Status := {
  s_status : string;
  s_scapy_available : bool;
  s_ipv4_packets_sent : Z;
  s_ipv6_packets_sent : Z;
  s_packets_received : Z;
}.

Definition get_status (scapy_available : bool) (s : state) : Status :=
  {| s_status := if running s then "running" else "stopped";
     s_scapy_available := scapy_available;
     s_ipv4_packets_sent := ipv4_packets_sent s;
     s_ipv6_packets_sent := ipv6_packets_sent s;
     s_packets_received := packets_received s |}.

(** [d[key]] on a [defaultdict(list)] that is only read. *)
Definition entries {A} (key : string) (d : list (string * list A)) : list A :=
  default [] (Dict.get key d).

(** [d[key]] on a [defaultdict(int)] that is only read. *)
Definition count (key : string) (d : list (string * Z)) : Z :=
  default 0 (Dict.get key d).

(** The key of a QoS class in the latency and jitter dictionaries. *)
Definition qos_key (qos_class : QoSClass) : string := "QoS-" +:+ q_name qos_class.

(** The bounds of the response time of a QoS packet, by priority. *)
Definition qos_bounds (priority : string) : Q * Q :=
  if String.eqb priority "High" then (5%Q, 20%Q)
  else if String.eqb priority "Medium-High" then (15%Q, 40%Q)
  else if String.eqb priority "Medium" then (30%Q, 70%Q)
  else (50%Q, 150%Q).

(** The dictionary returned by [_analyze_traffic_stats]. *)
Record Analysis := {
  avg_latency : list (string * Q);
  avg_jitter : list (string * Q);
  packet_loss_rate : list (string * Q);
}.

Section Methods.
Context {W : Type} `{!Oracle W}.

(** [abs(x - y)] in floating point. *)
Variable float_abs_diff : Q -> Q -> Q.

(** The two choices that open each simulation: a source node, and a
    destination among the nodes that differ from it. *)
Definition choose_endpoints : M W state (TopologyNode * TopologyNode) :=
  src_node <- choice network_topology ;;
  dst_node <- choice (filter (fun n => n ≠ src_node) network_topology) ;;
  ret (src_node, dst_node).

(** [self.stats["latency_ms"][key].append(response_time)] *)
Definition append_latency (key : string) (response_time : Q) : M W state unit :=
  s <- get_state ;;
  put_state (set_latency_ms
    (Dict.set key (entries key (latency_ms s) ++ [response_time]) (latency_ms s)) s).

(** [self.stats["jitter_ms"][key].append(jitter)] *)
Definition append_jitter (key : string) (jitter : Q) : M W state unit :=
  s <- get_state ;;
  put_state (set_jitter_ms
    (Dict.set key (entries key (jitter_ms s) ++ [jitter]) (jitter_ms s)) s).

(** Body of the loop of [_mock_ipv4_simulation], for one packet type. *)
Definition mock_ipv4_packet (path : string) : M W state unit :=
  response_time <- ask (random_uniform 5 100) ;;
  s <- get_state ;;
  put_state (set_ipv4_packets_sent (ipv4_packets_sent s + 1) s) ;;;
  append_latency path response_time ;;;
  r <- ask random_random ;;
  s <- get_state ;;
  if Qltb r 0.05%Q then
    put_state (set_packet_loss
      (Dict.set path (count path (packet_loss s) + 1) (packet_loss s)) s)
  else
    put_state (set_packets_received (packets_received s + 1) s).

Definition _mock_ipv4_simulation : M W state unit :=
  ends <- choose_endpoints ;;
  let src_ip := t_ipv4 ends.1 in
  let dst_ip := t_ipv4 ends.2 in
  for_each ["TCP"; "UDP"; "ICMP"] (fun _ => mock_ipv4_packet (src_ip +:+ "->" +:+ dst_ip)).

(** Body of the loop of [_mock_ipv6_simulation], for one packet type. *)
Definition mock_ipv6_packet (path : string) : M W state unit :=
  response_time <- ask (random_uniform 5 100) ;;
  s <- get_state ;;
  put_state (set_ipv6_packets_sent (ipv6_packets_sent s + 1) s) ;;;
  append_latency path response_time ;;;
  r <- ask random_random ;;
  s <- get_state ;;
  if Qltb r 0.05%Q then
    put_state (set_packet_loss
      (Dict.set path (count path (packet_loss s) + 1) (packet_loss s)) s)
  else
    put_state (set_packets_received (packets_received s + 1) s).

Definition _mock_ipv6_simulation : M W state unit :=
  ends <- choose_endpoints ;;
  let src_ip := t_ipv6 ends.1 in
  let dst_ip := t_ipv6 ends.2 in
  for_each ["TCP6"; "UDP6"; "ICMPv6"] (fun _ => mock_ipv6_packet (src_ip +:+ "->" +:+ dst_ip)).

(** The if/elif chain of [_mock_qos_simulation] on the priority. *)
Definition qos_response_time (priority : string) : M W state Q :=
  if String.eqb priority "High" then ask (random_uniform 5 20)
  else if String.eqb priority "Medium-High" then ask (random_uniform 15 40)
  else if String.eqb priority "Medium" then ask (random_uniform 30 70)
  else ask (random_uniform 50 150).

(** Body of the loop of [_mock_qos_simulation], for one QoS class; the
    index [-2] is the position before the last. *)
Definition mock_qos_packet (qos_class : QoSClass) : M W state unit :=
  response_time <- qos_response_time (q_priority qos_class) ;;
  s <- get_state ;;
  put_state (set_ipv4_packets_sent (ipv4_packets_sent s + 1) s) ;;;
  append_latency (qos_key qos_class) response_time ;;;
  s <- get_state ;;
  let latencies := entries (qos_key qos_class) (latency_ms s) in
  if (1 <? length latencies)%nat then
    match latencies !! (length latencies - 2)%nat with
    | Some prev_latency =>
        append_jitter (qos_key qos_class) (float_abs_diff response_time prev_latency)
    | None => raise IndexError
    end
  else ret tt.

Definition _mock_qos_simulation : M W state unit :=
  choose_endpoints ;;;
  for_each qos_classes mock_qos_packet.

(** [sum(l) / len(l)] in floating point. *)
Variable float_mean : list Q -> Q.

(** [(loss_count / total_sent) * 100] in floating point. *)
Variable float_loss_rate : Z -> nat -> Q.

Definition _analyze_traffic_stats (s : state) : Analysis :=
  {| avg_latency :=
       fold_left (fun acc kv =>
                    match kv.2 with
                    | [] => acc
                    | _ => Dict.set kv.1 (float_mean kv.2) acc
                    end) (latency_ms s) [];
     avg_jitter :=
       fold_left (fun acc kv =>
                    match kv.2 with
                    | [] => acc
                    | _ => Dict.set kv.1 (float_mean kv.2) acc
                    end) (jitter_ms s) [];
     packet_loss_rate :=
       fold_left (fun acc kv =>
                    let total_sent := length (entries kv.1 (latency_ms s)) in
                    if (0 <? total_sent)%nat
                    then Dict.set kv.1 (float_loss_rate kv.2 total_sent) acc
                    else acc) (packet_loss s) [] |}.

(** One round of the [while] loop of [_simulation_loop] when Scapy is
    not available, without its final sleep: each simulation is its mock
    version; the analysis changes nothing and its result is dropped. *)
Definition simulation_tick : M W state unit :=
  _mock_ipv4_simulation ;;; _mock_ipv6_simulation ;;; _mock_qos_simulation.

(** A history of the simulator: [n] rounds of the simulation loop. *)
Definition run (n : nat) : M W state unit :=
  for_each (seq 0 n) (fun _ => simulation_tick).
End Methods.

(** From [s] to [s'] one mock packet went over [path], by IPv6 or by IPv4,
    with the response time [r]: it was counted as sent, its response time
    was appended to the latencies of the path, and it was counted either as
    lost on the path or as received. *)
Definition packet_sent (ipv6 : bool) (path : string) (r : Q) (s s' : state) : Prop :=
  running s' = running s
  /\ ipv4_packets_sent s' = ipv4_packets_sent s + (if ipv6 then 0 else 1)
  /\ ipv6_packets_sent s' = ipv6_packets_sent s + (if ipv6 then 1 else 0)
  /\ latency_ms s' = Dict.set path (entries path (latency_ms s) ++ [r]) (latency_ms s)
  /\ jitter_ms s' = jitter_ms s
  /\ ((packet_loss s' = Dict.set path (count path (packet_loss s) + 1) (packet_loss s)
       /\ packets_received s' = packets_received s)
      \/ (packet_loss s' = packet_loss s
          /\ packets_received s' = packets_received s + 1)).

(** From [s] to [s'] one mock packet of a QoS class went out with the
    response time [r]: it was counted as an IPv4 packet sent, its response
    time was appended to the latencies of the class, and, if the class had
    a latency before, the distance of [r] to the last one was appended to
    its jitters; it was counted neither as received nor as lost. *)
Definition qos_sent (float_abs_diff : Q -> Q -> Q) (qos_class : QoSClass) (r : Q)
    (s s' : state) : Prop :=
  running s' = running s
  /\ ipv4_packets_sent s' = ipv4_packets_sent s + 1
  /\ ipv6_packets_sent s' = ipv6_packets_sent s
  /\ packets_received s' = packets_received s
  /\ packet_loss s' = packet_loss s
  /\ latency_ms s'
     = Dict.set (qos_key qos_class)
         (entries (qos_key qos_class) (latency_ms s) ++ [r]) (latency_ms s)
  /\ jitter_ms s'
     = match last (entries (qos_key qos_class) (latency_ms s)) with
       | Some prev_latency =>
           Dict.set (qos_key qos_class)
             (entries (qos_key qos_class) (jitter_ms s)
              ++ [float_abs_diff r prev_latency]) (jitter_ms s)
       | None => jitter_ms s
       end.

(** The steps of a loop, one for each item, from [s] to [s']. *)
Fixpoint steps {A} (step : A -> state -> state -> Prop) (l : list A) (s s' : state) : Prop :=
  match l with
  | [] => s' = s
  | x :: l' => exists s1, step x s s1 /\ steps step l' s1 s'
  end.

(** All the latencies recorded, and all the packets counted as lost. *)
Definition total_latency (s : state) : Z :=
  Z.of_nat (list_sum (map (fun kv => length kv.2) (latency_ms s))).
Definition total_loss (s : state) : Z :=
  fold_right Z.add 0 (map snd (packet_loss s)).

(** The paths between two different nodes, by their IPv4 and by their IPv6
    addresses. *)
Definition paths : list string :=
  flat_map (fun src =>
    flat_map (fun dst =>
      if decide (dst ≠ src)
      then [t_ipv4 src +:+ "->" +:+ t_ipv4 dst; t_ipv6 src +:+ "->" +:+ t_ipv6 dst]
      else []) network_topology) network_topology.

(** What holds of the statistics at every moment of the life of an
    [IPTrafficSimulator] object that runs without Scapy. *)
Definition consistent (s : state) : Prop :=
  Dict.wf (latency_ms s) /\ Dict.wf (packet_loss s) /\ Dict.wf (jitter_ms s)
  /\ Forall (fun kv => kv.2 ≠ []) (latency_ms s)
  /\ Forall (fun kv => kv.1 ∈ paths
                       /\ 0 < kv.2 <= Z.of_nat (length (entries kv.1 (latency_ms s))))
       (packet_loss s)
  /\ Forall (fun kv => kv.1 ∈ map qos_key qos_classes /\ kv.2 ≠ []) (jitter_ms s)
  /\ Forall (fun qos_class =>
               length (entries (qos_key qos_class) (jitter_ms s))
               = pred (length (entries (qos_key qos_class) (latency_ms s))))
       qos_classes
  /\ total_latency s = ipv4_packets_sent s + ipv6_packets_sent s
  /\ 0 <= packets_received s.

(** What [k] rounds of the simulation loop leave. *)
Definition rounds (k : nat) (s : state) : Prop :=
  consistent s
  /\ ipv4_packets_sent s = 7 * Z.of_nat k
  /\ ipv6_packets_sent s = 3 * Z.of_nat k
  /\ packets_received s + total_loss s = 6 * Z.of_nat k.

End IPSim.

(** * Oracles and states to run the program on *)

(** A random source forced to its lowest value, with a clock that stands
    still at second 30: every probability trial succeeds, every choice is
    the first item.  Its [isoformat] prints the seconds of the minute. *)
Definition forced_isoformat (t : Z) : string :=
  let seconds := (t / 1000000) mod 60 in
  "2024-01-01T00:00:" +:+ (if seconds <? 10 then "0" else EmptyString) +:+ pretty seconds.

#[export] Program Instance forced_oracle : Oracle unit := {|
  random_random w := (0%Q, w);
  random_uniform a b w := (a, w);
  random_randint a b w := (a, w);
  random_index w := (0%nat, w);
  datetime_now w := (30000000, w);
  isoformat := forced_isoformat;
|}.
Next Obligation. intros a b [] Hab. simpl. split; [apply Qle_refl|exact Hab]. Qed.

(** A random source that plays back a tape of values of [random.random()]
    and answers [1] once the tape is over; the clock advances by one second
    at each reading. *)
#[export] Program Instance tape_oracle : Oracle (list Q * Z) := {|
  random_random w :=
    match w.1 with
    | [] => (1%Q, w)
    | q :: tape => (q, (tape, w.2))
    end;
  random_uniform a b w := (a, w);
  random_randint a b w := (a, w);
  random_index w := (0%nat, w);
  datetime_now w := (w.2, (w.1, w.2 + 1000000));
  isoformat := forced_isoformat;
|}.
Next Obligation. intros a b w Hab. simpl. split; [apply Qle_refl|exact Hab]. Qed.

Definition env0 : Env unit := {| world := tt; pauses := [] |}.

Definition tape_env (tape : list Q) : Env (list Q * Z) :=
  {| world := (tape, 10000000); pauses := [] |}.


(** A store whose only alarm was cleared before. *)
Definition cleared_alarm : OAM.Alarm :=
  {| OAM.a_id := 1; OAM.a_node_id := "gnb-001"; OAM.a_type := "EQUIPMENT";
     OAM.a_severity := "CRITICAL"; OAM.a_description := "Node gnb-001 is down";
     OAM.a_raised_time := "2024-01-01T00:00:05"; OAM.a_status := "cleared";
     OAM.a_cleared_time := Some "2024-01-01T00:00:07" |}.

Definition cleared_store : OAM.state :=
  {| OAM.running := true; OAM.alarms := [(1, cleared_alarm)];
     OAM.alarm_id_counter := 2; OAM.network_nodes := initial_nodes |}.

(** A store in which node [gnb-001] is down, with its outage alarm, a CPU
    alarm of the same node and an outage alarm of another node. *)
Definition active_alarm (id : Z) (node_id description : string) : OAM.Alarm :=
  {| OAM.a_id := id; OAM.a_node_id := node_id; OAM.a_type := "EQUIPMENT";
     OAM.a_severity := "CRITICAL"; OAM.a_description := description;
     OAM.a_raised_time := "2024-01-01T00:00:05"; OAM.a_status := "active";
     OAM.a_cleared_time := None |}.

Definition outage_store : OAM.state :=
  {| OAM.running := true;
     OAM.alarms := [ (1, active_alarm 1 "gnb-001" "Node gnb-001 is down");
                     (2, active_alarm 2 "gnb-001" "High CPU usage: 91.2%");
                     (3, active_alarm 3 "gnb-002" "Node gnb-002 is down") ];
     OAM.alarm_id_counter := 4;
     OAM.network_nodes := alter (set_status "down") 0%nat initial_nodes |}.

(** A KPI store with three latest samples: availability 99.4 and CPU
    utilization 82 on one node, CPU utilization 75 on another. *)
Definition sample_at (v : Q) : KPI.Sample :=
  {| KPI.timestamp := "2024-01-01T00:00:09"; KPI.value := v |}.

Definition threshold_store : KPI.state :=
  {| KPI.running := true;
     KPI.kpi_data :=
       Dict.set "cpu_utilization"
         [("gnb-001", [sample_at 50; sample_at 82]); ("gnb-002", [sample_at 75])]
         (Dict.set "node_availability" [("gnb-001", [sample_at 100; sample_at 99.4])]
            (KPI.kpi_data KPI.init));
     KPI.network_nodes := initial_nodes |}.

(** A KPI store whose availability window of [gnb-001] is full: samples
    numbered 0 to 999. *)
Definition numbered_sample (i : nat) : KPI.Sample :=
  {| KPI.timestamp := "2024-01-01T00:00:" +:+ pretty (Z.of_nat i); KPI.value := 100 |}.

Definition full_window : list KPI.Sample := map numbered_sample (seq 0 1000).

Definition full_store : KPI.state :=
  {| KPI.running := true;
     KPI.kpi_data :=
       Dict.set "node_availability" [("gnb-001", full_window)] (KPI.kpi_data KPI.init);
     KPI.network_nodes := initial_nodes |}.

(** Node [gnb-001] once it is down. *)
Definition down_node : Node :=
  {| n_id := "gnb-001"; n_type := "gNB"; n_ip := "10.0.1.1"; n_status := "down" |}.

(** The KPI definition at a position of [kpi_definitions]. *)
Definition kpi_at (i : nat) : KPI.KPIDefinition :=
  nth i KPI.kpi_definitions
    {| KPI.k_id := EmptyString; KPI.k_name := EmptyString; KPI.k_description := EmptyString; KPI.k_unit := EmptyString;
       KPI.k_target := 0; KPI.k_warning_threshold := 0; KPI.k_critical_threshold := 0;
       KPI.k_category := EmptyString |}.

(** The event definitions of the first scenario, "AMF Failover". *)
Definition amf_failover : list Event.EventSpec :=
  default [] (Event.sc_events <$> Event.scenarios !! 0%nat).

(** A simulator without any UPF node. *)
Definition no_upf_simulator : Event.state :=
  {| Event.running := true; Event.events := [];
     Event.network_nodes := filter (fun n => n_type n ≠ "UPF") initial_nodes |}.

(** A window and a log with timestamps around second 20; the last one is
    not zero-padded. *)
Definition stamped (ts : string) : KPI.Sample :=
  {| KPI.timestamp := ts; KPI.value := 50 |}.

Definition stamped_store : KPI.state :=
  {| KPI.running := true;
     KPI.kpi_data :=
       Dict.set "cpu_utilization"
         [("gnb-001", [stamped "2024-01-01T00:00:05"; stamped "2024-01-01T00:00:20";
                       stamped "2024-01-01T00:00:25"; stamped "2024-01-01T00:00:9"])]
         (KPI.kpi_data KPI.init);
     KPI.network_nodes := initial_nodes |}.

(** A store in which [gnb-001] was sampled once: its CPU and memory
    windows hold one sample each, with the same timestamp. *)
Definition paired_store : KPI.state :=
  {| KPI.running := true;
     KPI.kpi_data :=
       Dict.set "memory_utilization" [("gnb-001", [stamped "2024-01-01T00:00:05"])]
         (Dict.set "cpu_utilization" [("gnb-001", [stamped "2024-01-01T00:00:05"])]
            (KPI.kpi_data KPI.init));
     KPI.network_nodes := initial_nodes |}.

Definition stamped_event (id : Z) (ts : string) : Event.Event :=
  {| Event.e_id := id; Event.e_type := "FAILOVER"; Event.e_target_node := Some "amf-001";
     Event.e_target_type := "AMF"; Event.e_target_nodes := None;
     Event.e_timestamp := ts; Event.e_details := Event.NoDetails |}.

Definition stamped_log : Event.state :=
  {| Event.running := true;
     Event.events := [stamped_event 1 "2024-01-01T00:00:05";
                      stamped_event 2 "2024-01-01T00:00:20";
                      stamped_event 3 "2024-01-01T00:00:25"];
     Event.network_nodes := initial_nodes |}.


(** A random source at the upper end: [random.uniform(a, b)] answers [b],
    [random.randint(a, b)] answers [b], [random.random()] answers [0], and
    the draws behind [random.choice] count up from the state it starts
    in. *)
#[export] Program Instance peak_oracle : Oracle nat := {|
  random_random w := (0%Q, w);
  random_uniform a b w := (b, w);
  random_randint a b w := (b, w);
  random_index w := (w, S w);
  datetime_now w := (30000000, w);
  isoformat := forced_isoformat;
|}.
Next Obligation. intros a b w Hab. simpl. split; [exact Hab|apply Qle_refl]. Qed.

Definition peak_env (first_index : nat) : Env nat :=
  {| world := first_index; pauses := [] |}.

(** The rendering of a reading that is not negative with one decimal,
    rounding half to even. *)
Definition one_decimal (x : Q) : string :=
  let tenths := Qnum x * 10 in
  let d := Zpos (Qden x) in
  let q := tenths / d in
  let r := tenths mod d in
  let t := if 2 * r <? d then q
           else if d <? 2 * r then q + 1
           else if Z.even q then q else q + 1 in
  pretty (t / 10) +:+ "." +:+ pretty (t mod 10).

(** Node [gnb-001] as [__init__] makes it. *)
Definition gnb_001 : Node :=
  {| n_id := "gnb-001"; n_type := "gNB"; n_ip := "10.0.1.1"; n_status := "active" |}.

(** The entries of [threshold_store] after the first one. *)
Definition threshold_rest : list (string * list (string * list KPI.Sample)) :=
  tail (KPI.kpi_data threshold_store).

(** * Part II: properties *)

(** ** Comparisons *)

Lemma Qltb_lt x y : Qltb x y = true <-> Qlt x y.
Proof.
  unfold Qltb. rewrite Qlt_alt. destruct (Qcompare x y); split; congruence.
Qed.

Lemma Qltb_ge x y : Qltb x y = false <-> Qle y x.
Proof.
  pose proof (Qltb_lt x y) as Hlt. pose proof (Qnot_lt_le x y) as Hn.
  pose proof (Qle_not_lt y x) as Hm.
  destruct (Qltb x y); split; intros; try done; intuition congruence.
Qed.

Lemma leb_lex s t : String.leb s t = true <-> lex_le s t.
Proof.
  unfold String.leb. revert t. induction s as [|c s IH]; intros [|d t]; simpl.
  - split; [constructor|done].
  - split; [constructor|done].
  - split; [done|inversion 1].
  - unfold Ascii.compare. destruct (N.compare_spec (N_of_ascii c) (N_of_ascii d)) as [Heq|Hlt|Hgt].
    + apply (f_equal ascii_of_N) in Heq. rewrite !ascii_N_embedding in Heq. subst d.
      rewrite IH. split; [by constructor|].
      inversion 1; subst; [lia|done].
    + split; [by constructor|done].
    + split; [done|]. inversion 1; subst; lia.
Qed.

Lemma str_ge_lex a b : str_ge a b = true <-> lex_le b a.
Proof. apply leb_lex. Qed.

(** ** Dictionaries *)

Section DictFacts.
Context {K V : Type} `{EqDecision K}.
Implicit Types (k : K) (v : V) (d : list (K * V)).

Lemma dict_get_set_eq k v d : Dict.get k (Dict.set k v d) = Some v.
Proof.
  induction d as [|[k' v'] d IH]; simpl.
  - by rewrite decide_True.
  - destruct (decide (k = k')) as [->|Hne]; simpl.
    + by rewrite decide_True.
    + by rewrite decide_False.
Qed.

Lemma dict_get_set_ne k k' v d : k ≠ k' -> Dict.get k' (Dict.set k v d) = Dict.get k' d.
Proof.
  intros Hne. induction d as [|[k0 v0] d IH]; simpl.
  - by rewrite decide_False.
  - destruct (decide (k = k0)) as [->|Hne0]; simpl.
    + by rewrite !decide_False.
    + destruct (decide (k' = k0)); [done|apply IH].
Qed.

Lemma dict_keys_set_mem k v v0 d :
  Dict.get k d = Some v0 -> Dict.keys (Dict.set k v d) = Dict.keys d.
Proof.
  unfold Dict.keys. induction d as [|[k' v'] d IH]; simpl; [done|].
  destruct (decide (k = k')) as [->|Hne]; simpl; [done|].
  intros Hg. f_equal. by apply IH.
Qed.

Lemma dict_keys_set_new k v d :
  Dict.get k d = None -> Dict.keys (Dict.set k v d) = Dict.keys d ++ [k].
Proof.
  unfold Dict.keys. induction d as [|[k' v'] d IH]; simpl; [done|].
  destruct (decide (k = k')) as [->|Hne]; simpl; [done|].
  intros Hg. f_equal. by apply IH.
Qed.

Lemma dict_get_None k d : Dict.get k d = None <-> k ∉ Dict.keys d.
Proof.
  unfold Dict.keys. induction d as [|[k' v'] d IH]; simpl.
  - split; [intros _; apply not_elem_of_nil|done].
  - rewrite not_elem_of_cons. destruct (decide (k = k')) as [->|Hne].
    + split; [done|intros [? _]; done].
    + rewrite IH. tauto.
Qed.

Lemma dict_get_elem k v d : Dict.get k d = Some v -> (k, v) ∈ d.
Proof.
  induction d as [|[k' v'] d IH]; simpl; [done|].
  destruct (decide (k = k')) as [->|Hne].
  - intros [= ->]. apply list_elem_of_here.
  - intros Hg. apply list_elem_of_further. by apply IH.
Qed.

Lemma dict_elem_get k v d : Dict.wf d -> (k, v) ∈ d -> Dict.get k d = Some v.
Proof.
  unfold Dict.wf, Dict.keys. induction d as [|[k' v'] d IH]; simpl.
  - intros _ Hin. by apply elem_of_nil in Hin.
  - rewrite NoDup_cons. intros [Hnin Hnd] Hin.
    apply elem_of_cons in Hin as [[= -> ->]|Hin].
    + by rewrite decide_True.
    + destruct (decide (k = k')) as [->|Hne]; [|by apply IH].
      exfalso. apply Hnin. apply list_elem_of_fmap. by exists (k', v).
Qed.

Lemma dict_elem_set k v d x : x ∈ Dict.set k v d -> x = (k, v) ∨ x ∈ d.
Proof.
  induction d as [|[k' v'] d IH]; simpl.
  - intros Hx. apply list_elem_of_singleton in Hx. by left.
  - destruct (decide (k = k')) as [->|Hne]; rewrite !elem_of_cons; [tauto|].
    intros [->|Hx]; [tauto|]. apply IH in Hx. tauto.
Qed.

Lemma dict_length_set_mem k v v0 d :
  Dict.get k d = Some v0 -> length (Dict.set k v d) = length d.
Proof.
  intros Hg. apply (dict_keys_set_mem k v) in Hg. unfold Dict.keys in Hg.
  by rewrite <- (length_fmap fst), Hg, length_fmap.
Qed.

(** In a well-formed dictionary, setting a present key rewrites its entry
    where it stands. *)
Lemma dict_set_map k v d :
  Dict.wf d -> k ∈ Dict.keys d ->
  Dict.set k v d = map (fun kv => if decide (kv.1 = k) then (kv.1, v) else kv) d.
Proof.
  unfold Dict.wf, Dict.keys. induction d as [|[k' v'] d IH]; simpl.
  - intros _ Hin. by apply elem_of_nil in Hin.
  - rewrite NoDup_cons, elem_of_cons. intros [Hnin Hnd] Hin.
    destruct (decide (k = k')) as [->|Hne].
    + rewrite decide_True by done. f_equal.
      symmetry. rewrite <- (map_id d) at 2. apply map_ext_in. intros [k0 v0] Hin0.
      simpl. rewrite decide_False; [done|]. intros ->. apply Hnin.
      apply list_elem_of_fmap. exists (k', v0). split; [done|by apply list_elem_of_In].
    + rewrite decide_False by done. f_equal. apply IH; [done|]. by destruct Hin.
Qed.

Lemma dict_get_map_values (f : K * V -> V) k d :
  Dict.get k (map (fun kv => (kv.1, f kv)) d) = (fun v => f (k, v)) <$> Dict.get k d.
Proof.
  induction d as [|[k' v'] d IH]; simpl; [done|].
  destruct (decide (k = k')) as [->|Hne]; [done|apply IH].
Qed.

Lemma dict_keys_map_values (f : K * V -> V) d :
  Dict.keys (map (fun kv => (kv.1, f kv)) d) = Dict.keys d.
Proof.
  unfold Dict.keys. induction d as [|[k' v'] d IH]; simpl; [done|]. by f_equal.
Qed.

Lemma dict_set_new k v d : Dict.get k d = None -> Dict.set k v d = d ++ [(k, v)].
Proof.
  induction d as [|[k' v'] d IH]; simpl; [done|].
  destruct (decide (k = k')); [done|]. intros Hg. f_equal. by apply IH.
Qed.

Lemma dict_set_set k v v' d : Dict.set k v (Dict.set k v' d) = Dict.set k v d.
Proof.
  induction d as [|[k0 v0] d IH]; simpl.
  - by rewrite decide_True.
  - destruct (decide (k = k0)) as [->|Hne]; simpl.
    + by rewrite decide_True.
    + rewrite decide_False by done. by rewrite IH.
Qed.
End DictFacts.

(** ** Reasoning on computations *)

Section WP.
Context {W : Type} `{!Oracle W} {S : Type}.
Implicit Types (s : S) (e : Env W).

Lemma wp_mono {A} (m : M W S A) (Q Q' : outcome A -> S -> Env W -> Prop) s e :
  wp m Q s e -> (forall o s' e', Q o s' e' -> Q' o s' e') -> wp m Q' s e.
Proof. unfold wp. auto. Qed.

Lemma wp_ret {A} (a : A) Q s e : Q (Return a) s e -> wp (ret a) Q s e.
Proof. done. Qed.

Lemma wp_raise {A} x (Q : outcome A -> S -> Env W -> Prop) s e :
  Q (Raise x) s e -> wp (raise x) Q s e.
Proof. done. Qed.

Lemma wp_bind {A B} (m : M W S A) (k : A -> M W S B) Q s e :
  wp m (fun o s' e' =>
          match o with
          | Return a => wp (k a) Q s' e'
          | Raise x => Q (Raise x) s' e'
          end) s e ->
  wp (bind m k) Q s e.
Proof.
  unfold wp, result, final, final_env, bind.
  destruct (m s e) as [[[a|x] s'] e']; simpl; done.
Qed.

Lemma wp_get_state Q s e : Q (Return s) s e -> wp get_state Q s e.
Proof. done. Qed.

Lemma wp_put_state s' Q s e : Q (Return tt) s' e -> wp (put_state s') Q s e.
Proof. done. Qed.

Lemma wp_ask {A} (f : W -> A * W) Q s e :
  (forall e', pauses e' = pauses e -> Q (Return (f (world e)).1) s e') ->
  wp (ask f) Q s e.
Proof. intros H. apply H. done. Qed.

Lemma wp_now_iso Q s e :
  (forall e', pauses e' = pauses e ->
     Q (Return (isoformat (datetime_now (world e)).1)) s e') ->
  wp now_iso Q s e.
Proof. intros H. apply H. done. Qed.

Lemma wp_sleep q Q s e :
  Qle 0 q ->
  Q (Return tt) s {| world := world e; pauses := pauses e ++ [q] |} ->
  wp (sleep q) Q s e.
Proof.
  intros Hq HQ. apply Qltb_ge in Hq. unfold wp, result, final, final_env, sleep.
  by rewrite Hq.
Qed.

(** Whatever its length, a sleep leaves the state alone and can only add to
    the pauses. *)
Lemma wp_sleep_any q (Q : outcome unit -> S -> Env W -> Prop) s e :
  (forall o e', pauses e `prefix_of` pauses e' -> Q o s e') -> wp (sleep q) Q s e.
Proof.
  intros HQ. unfold wp, result, final, final_env, sleep.
  destruct (Qltb q 0); simpl; apply HQ; [done|]. by apply prefix_app_r.
Qed.

Lemma wp_choice {A} (l : list A) Q s e :
  l ≠ [] ->
  (forall a e', a ∈ l -> pauses e' = pauses e ->
     l !! ((random_index (world e)).1 mod length l)%nat = Some a ->
     Q (Return a) s e') ->
  wp (choice l) Q s e.
Proof.
  intros Hl HQ. unfold wp, result, final, final_env, choice, bind, ask.
  destruct l as [|x0 l0] eqn:Hl0; [done|]. rewrite <- Hl0 in *. simpl.
  destruct (l !! _) as [a|] eqn:Hlk; simpl.
  - apply HQ; [|done|done]. by eapply list_elem_of_lookup_2.
  - exfalso. apply lookup_ge_None in Hlk.
    assert (0 < length l)%nat by (destruct l; [done|simpl; lia]).
    pose proof (Nat.mod_upper_bound (random_index (world e)).1 (length l)). lia.
Qed.

(** A choice among no items raises and changes nothing. *)
Lemma wp_choice_any {A} (l : list A) (Q : outcome A -> S -> Env W -> Prop) s e :
  (forall o e', pauses e' = pauses e -> Q o s e') -> wp (choice l) Q s e.
Proof.
  intros HQ. unfold wp, result, final, final_env, choice, bind, ask.
  destruct l as [|x0 l0]; [by apply HQ|]. simpl.
  destruct (_ !! _); simpl; by apply HQ.
Qed.

(** A loop keeps what each of its rounds keeps, however it ends. *)
Lemma wp_for_each_inv {A} (I : S -> Env W -> Prop) (l : list A) (body : A -> M W S unit) s e :
  (forall x s e, x ∈ l -> I s e -> wp (body x) (fun _ s' e' => I s' e') s e) ->
  I s e -> wp (for_each l body) (fun _ s' e' => I s' e') s e.
Proof.
  revert s e. induction l as [|x l IH]; intros s e Hb HI; simpl.
  - by apply wp_ret.
  - apply wp_bind. eapply wp_mono; [apply Hb; [apply list_elem_of_here|done]|].
    intros [[]|err] s' e' HI'; [|done]. simpl.
    apply IH; [|done]. intros y s0 e0 Hy. apply Hb. by apply list_elem_of_further.
Qed.

(** A loop whose rounds all return, returns. *)
Lemma wp_for_each_ok {A} (I : S -> Env W -> Prop) (l : list A) (body : A -> M W S unit) s e :
  (forall x s e, x ∈ l -> I s e ->
     wp (body x) (fun o s' e' => o = Return tt /\ I s' e') s e) ->
  I s e -> wp (for_each l body) (fun o s' e' => o = Return tt /\ I s' e') s e.
Proof.
  revert s e. induction l as [|x l IH]; intros s e Hb HI; simpl.
  - by apply wp_ret.
  - apply wp_bind. eapply wp_mono; [apply Hb; [apply list_elem_of_here|done]|].
    intros o s' e' [-> HI']. simpl.
    apply IH; [|done]. intros y s0 e0 Hy. apply Hb. by apply list_elem_of_further.
Qed.
End WP.

(** One step of a computation in a [wp] goal. *)
Ltac wp_step :=
  cbv beta iota;
  lazymatch goal with
  | |- wp (bind _ _) _ _ _ => apply wp_bind
  | |- wp (ret _) _ _ _ => apply wp_ret
  | |- wp (raise _) _ _ _ => apply wp_raise
  | |- wp get_state _ _ _ => apply wp_get_state
  | |- wp (put_state _) _ _ _ => apply wp_put_state
  | |- wp (ask _) _ _ _ => apply wp_ask; intros ? ?
  | |- wp now_iso _ _ _ => apply wp_now_iso; intros ? ?
  | |- wp (if ?b then _ else _) _ _ _ => destruct b eqn:?
  | |- wp (match ?x with _ => _ end) _ _ _ => destruct x eqn:?
  | |- wp (let _ := _ in _) _ _ _ => cbv zeta
  end.

(** Using a lemma on a call at the head of a [wp] goal. *)
Ltac wp_apply lem :=
  first [eapply wp_mono; [eapply lem; eassumption|]
        |apply wp_bind; eapply wp_mono; [eapply lem; eassumption|]];
  intros [?|?] ? ? ?; cbv beta iota; [|assumption].

(** ** The alarm store *)

Section OAMFacts.
Context {W : Type} `{!Oracle W}.
Import OAM.

Lemma create_alarm_run node_id ty sev desc (s : state) (e : Env W) :
  _create_alarm node_id ty sev desc s e =
    (Return (alarm_id_counter s),
     {| running := running s;
        alarms := Dict.set (alarm_id_counter s)
          {| a_id := alarm_id_counter s; a_node_id := node_id;
             a_type := type_name ty; a_severity := severity_name sev;
             a_description := desc;
             a_raised_time := isoformat (datetime_now (world e)).1;
             a_status := "active"; a_cleared_time := None |} (alarms s);
        alarm_id_counter := alarm_id_counter s + 1;
        network_nodes := network_nodes s |},
     {| world := (datetime_now (world e)).2; pauses := pauses e |}).
Proof. reflexivity. Qed.

Lemma clear_alarm_run alarm_id (s : state) (e : Env W) :
  _clear_alarm alarm_id s e =
    match Dict.get alarm_id (alarms s) with
    | None => (Return false, s, e)
    | Some alarm =>
        (Return true,
         set_alarms (Dict.set alarm_id
           (mark_cleared (isoformat (datetime_now (world e)).1) alarm) (alarms s)) s,
         {| world := (datetime_now (world e)).2; pauses := pauses e |})
    end.
Proof.
  unfold _clear_alarm, bind, get_state. by destruct (Dict.get alarm_id (alarms s)).
Qed.

(** C2, as the code has it: clearing an id that is absent from the store
    changes nothing and returns false; clearing an id that is in the store,
    whether its alarm is active or was cleared before, returns true, sets
    the status to cleared and sets cleared_time to the time of this call;
    the other alarms and the rest of the store are as before. *)
Theorem clear_alarm_spec alarm_id (s : state) (e : Env W) :
  match Dict.get alarm_id (alarms s) with
  | None => _clear_alarm alarm_id s e = (Return false, s, e)
  | Some alarm =>
      let s' := final (_clear_alarm alarm_id) s e in
      let now := isoformat (datetime_now (world e)).1 in
      result (_clear_alarm alarm_id) s e = Return true
      /\ Dict.get alarm_id (alarms s') = Some (mark_cleared now alarm)
      /\ a_status (mark_cleared now alarm) = "cleared"
      /\ a_cleared_time (mark_cleared now alarm) = Some now
      /\ (forall k, k ≠ alarm_id -> Dict.get k (alarms s') = Dict.get k (alarms s))
      /\ Dict.keys (alarms s') = Dict.keys (alarms s)
      /\ alarm_id_counter s' = alarm_id_counter s
      /\ network_nodes s' = network_nodes s
  end.
Proof.
  unfold result, final. rewrite clear_alarm_run.
  destruct (Dict.get alarm_id (alarms s)) as [alarm|] eqn:Hget; [|done].
  simpl. repeat split.
  - apply dict_get_set_eq.
  - intros k Hk. by apply dict_get_set_ne.
  - by eapply dict_keys_set_mem.
Qed.
(** C10: the "active_alarms" entry of the status snapshot is the number of
    alarms in the store, cleared ones included: clearing an alarm never
    lowers it, and after one alarm is created and cleared on a new store it
    is still 1. *)
Theorem active_alarms_counts_cleared :
  (forall s : state, s_active_alarms (get_status s) = length (alarms s))
  /\ (forall alarm_id (s : state) (e : Env W),
        s_active_alarms (get_status (final (_clear_alarm alarm_id) s e))
        = s_active_alarms (get_status s))
  /\ (forall node_id ty sev desc (e e' : Env W),
        let s1 := final (_create_alarm node_id ty sev desc) init e in
        let s2 := final (_clear_alarm 1) s1 e' in
        result (_create_alarm node_id ty sev desc) init e = Return 1
        /\ result (_clear_alarm 1) s1 e' = Return true
        /\ a_status <$> Dict.get 1 (alarms s2) = Some "cleared"
        /\ get_alarms (Some "active") s2 = []
        /\ s_active_alarms (get_status s2) = 1%nat).
Proof.
  split; [done|]. split.
  - intros alarm_id s e. unfold final. rewrite clear_alarm_run.
    destruct (Dict.get alarm_id (alarms s)) as [alarm|] eqn:Hget; [|done].
    simpl. by eapply dict_length_set_mem.
  - intros. repeat split.
Qed.

(** *** Recovery of a node *)

Lemma is_down_alarm_of_spec node a :
  is_down_alarm_of node a = true <->
  a_node_id a = n_id node /\ a_description a = "Node " +:+ n_id node +:+ " is down".
Proof.
  unfold is_down_alarm_of, down_description.
  by rewrite andb_true_iff, !String.eqb_eq.
Qed.

Lemma set_alarms_same (s : state) : set_alarms (alarms s) s = s.
Proof. by destruct s. Qed.

Lemma clear_down_alarms_run node items (s : state) (e : Env W) :
  Dict.wf (alarms s) ->
  exists (t : Z -> string) e',
    clear_down_alarms node items s e =
      (Return tt,
       set_alarms (map (fun kv => (kv.1, if cleared_by node items kv.1
                                         then mark_cleared (t kv.1) kv.2 else kv.2))
                     (alarms s)) s, e')
    /\ pauses e' = pauses e.
Proof.
  revert s e. induction items as [|[k0 a0] items IH]; intros s e Hwf.
  - exists (fun _ => EmptyString), e. split; [|done]. simpl.
    assert (map (fun kv : Z * Alarm => (kv.1, kv.2)) (alarms s) = alarms s) as ->.
    { rewrite <- (map_id (alarms s)) at 2. apply map_ext. by intros [k a]. }
    by rewrite set_alarms_same.
  - unfold clear_down_alarms in *. simpl for_each. simpl fst. simpl snd.
    destruct (is_down_alarm_of node a0) eqn:Hhit.
    + unfold bind at 1. unfold bind at 1. rewrite clear_alarm_run.
      destruct (Dict.get k0 (alarms s)) as [a|] eqn:Hget.
      * set (t0 := isoformat (datetime_now (world e)).1).
        set (s1 := set_alarms _ s). set (e1 := Build_Env _ _ _).
        destruct (IH s1 e1) as (t & e' & Hrun & Hp).
        { unfold Dict.wf, s1. simpl. by erewrite dict_keys_set_mem. }
        exists (fun k => if decide (k = k0)
                         then (if cleared_by node items k0 then t k0 else t0) else t k), e'.
        split; [|done]. unfold ret at 1. rewrite Hrun. do 2 f_equal.
        unfold s1, set_alarms; simpl. f_equal.
        rewrite dict_set_map; [|done|].
        2:{ destruct (decide (k0 ∈ Dict.keys (alarms s))) as [|Hn]; [done|].
            apply dict_get_None in Hn. congruence. }
        rewrite map_map. apply map_ext_in. intros [k a1] Hin%list_elem_of_In. simpl.
        rewrite Hhit. destruct (decide (k = k0)) as [->|Hne].
        -- rewrite (bool_decide_eq_true_2 (k0 = k0)) by done. simpl.
           assert (a1 = a) as -> by (apply (dict_elem_get _ _ _ Hwf) in Hin; congruence).
           by destruct (cleared_by node items k0).
        -- rewrite (bool_decide_eq_false_2 (k0 = k)) by done. done.
      * destruct (IH s e Hwf) as (t & e' & Hrun & Hp).
        exists t, e'. split; [|done]. unfold ret at 1. rewrite Hrun. do 2 f_equal.
        f_equal. apply map_ext_in. intros [k a1] Hin%list_elem_of_In. simpl.
        rewrite Hhit. destruct (decide (k0 = k)) as [->|Hne].
        -- apply dict_get_None in Hget. exfalso. apply Hget.
           apply list_elem_of_fmap. by exists (k, a1).
        -- rewrite (bool_decide_eq_false_2 (k0 = k)) by done. done.
    + unfold bind at 1, ret at 1.
      destruct (IH s e Hwf) as (t & e' & Hrun & Hp).
      exists t, e'. split; [|done]. rewrite Hrun. do 2 f_equal.
      f_equal. apply map_ext. intros [k a1]. simpl. rewrite Hhit.
      by rewrite andb_false_r.
Qed.

Lemma cleared_by_self node (d : list (Z * Alarm)) k a :
  Dict.wf d -> (k, a) ∈ d -> cleared_by node d k = is_down_alarm_of node a.
Proof.
  intros Hwf Hin. unfold cleared_by.
  destruct (is_down_alarm_of node a) eqn:Hhit.
  - apply existsb_exists. exists (k, a). split; [by apply list_elem_of_In|].
    simpl. by rewrite bool_decide_eq_true_2.
  - apply not_true_is_false. intros ([k' a'] & Hin' & Hc)%existsb_exists.
    simpl in Hc. apply andb_true_iff in Hc as [Hk%bool_decide_eq_true Hc]. subst k'.
    apply list_elem_of_In in Hin'.
    apply (dict_elem_get _ _ _ Hwf) in Hin, Hin'. congruence.
Qed.

Lemma recover_node_run i node (s : state) (e : Env W) :
  n_status node = "down" ->
  Qlt (random_random (world e)).1 0.3 ->
  recover_node i node s e =
    clear_down_alarms node (alarms s)
      (set_network_nodes (alter (set_status "active") i (network_nodes s)) s)
      {| world := (random_random (world e)).2; pauses := pauses e |}.
Proof.
  intros Hdown Hlt%Qltb_lt. unfold recover_node. rewrite Hdown.
  change (String.eqb "down" "down") with true. cbv iota.
  unfold bind, ask, set_node_status, get_state, put_state. simpl.
  by rewrite Hlt.
Qed.

(** C5: when a node that is down recovers, its status becomes active and
    exactly the alarms of that node whose description is the literal
    "Node {id} is down" are cleared; every other alarm is left as it was,
    so that an active alarm "High CPU usage: 91.2%" stays active. *)
Theorem recovery_clears_only_down_alarms i node (s : state) (e : Env W) :
  Dict.wf (alarms s) ->
  network_nodes s !! i = Some node ->
  n_status node = "down" ->
  Qlt (random_random (world e)).1 0.3 ->
  let s' := final (recover_node i node) s e in
  result (recover_node i node) s e = Return tt
  /\ network_nodes s' !! i = Some (set_status "active" node)
  /\ Dict.keys (alarms s') = Dict.keys (alarms s)
  /\ (forall k a, Dict.get k (alarms s) = Some a ->
        if decide (a_node_id a = n_id node
                   /\ a_description a = "Node " +:+ n_id node +:+ " is down")
        then exists t, Dict.get k (alarms s') = Some (mark_cleared t a)
        else Dict.get k (alarms s') = Some a)
  /\ (forall k a, Dict.get k (alarms s) = Some a ->
        a_description a = "High CPU usage: 91.2%" ->
        Dict.get k (alarms s') = Some a).
Proof.
  intros Hwf Hnode Hdown Hlt s'.
  assert (exists (t : Z -> string),
    result (recover_node i node) s e = Return tt
    /\ s' = {| running := running s;
               alarms := map (fun kv => (kv.1, if is_down_alarm_of node kv.2
                                               then mark_cleared (t kv.1) kv.2 else kv.2))
                           (alarms s);
               alarm_id_counter := alarm_id_counter s;
               network_nodes := alter (set_status "active") i (network_nodes s) |})
    as (t & Hres & Hs').
  { unfold s', result, final. rewrite recover_node_run by done.
    set (s1 := set_network_nodes _ s). set (e1 := Build_Env _ _ _).
    destruct (clear_down_alarms_run node (alarms s) s1 e1 Hwf) as (t & e' & Hrun & _).
    exists t. rewrite Hrun. split; [done|]. unfold set_alarms, s1; simpl. f_equal.
    apply map_ext_in. intros [k a] Hin%list_elem_of_In. simpl.
    by rewrite (cleared_by_self node (alarms s) k a). }
  assert (forall k a, Dict.get k (alarms s) = Some a ->
            Dict.get k (alarms s') =
              Some (if is_down_alarm_of node a then mark_cleared (t k) a else a)) as Hget.
  { intros k a Hg. rewrite Hs'. simpl.
    rewrite (dict_get_map_values
               (fun kv => if is_down_alarm_of node kv.2 then mark_cleared (t kv.1) kv.2 else kv.2)).
    by rewrite Hg. }
  split; [done|]. split.
  { rewrite Hs'. simpl. rewrite list_lookup_alter, Hnode. by rewrite decide_True. }
  split.
  { rewrite Hs'. simpl.
    apply (dict_keys_map_values
             (fun kv => if is_down_alarm_of node kv.2 then mark_cleared (t kv.1) kv.2 else kv.2)). }
  split.
  - intros k a Hg. rewrite (Hget k a Hg).
    destruct (decide _) as [Hd|Hd].
    + apply is_down_alarm_of_spec in Hd. rewrite Hd. eauto.
    + destruct (is_down_alarm_of node a) eqn:Hhit; [|done].
      by apply is_down_alarm_of_spec in Hhit.
  - intros k a Hg Hdesc. rewrite (Hget k a Hg).
    destruct (is_down_alarm_of node a) eqn:Hhit; [|done].
    apply is_down_alarm_of_spec in Hhit as [_ Hd]. rewrite Hdesc in Hd. discriminate Hd.
Qed.
(** *** Alarm identifiers *)

Lemma store_ok_init : store_ok init.
Proof. repeat split; constructor. Qed.

Lemma create_alarm_fresh (s : state) :
  store_ok s -> Dict.get (alarm_id_counter s) (alarms s) = None.
Proof.
  intros (_ & Hlt & _). apply dict_get_None. intros Hin.
  rewrite Forall_forall in Hlt. apply Hlt in Hin. lia.
Qed.

Lemma store_ok_create node_id ty sev desc (s : state) (e : Env W) :
  store_ok s ->
  let s' := final (_create_alarm node_id ty sev desc) s e in
  store_ok s'
  /\ Dict.keys (alarms s') = Dict.keys (alarms s) ++ [alarm_id_counter s]
  /\ alarm_id_counter s' = alarm_id_counter s + 1.
Proof.
  intros Hok s'. pose proof (create_alarm_fresh s Hok) as Hfresh.
  destruct Hok as (Hsorted & Hlt & Hid & Hlen).
  unfold s', final. rewrite create_alarm_run. simpl.
  pose proof (dict_keys_set_new _ {| a_id := alarm_id_counter s; a_node_id := node_id;
       a_type := type_name ty; a_severity := severity_name sev; a_description := desc;
       a_raised_time := isoformat (datetime_now (world e)).1;
       a_status := "active"; a_cleared_time := None |} _ Hfresh) as Hkeys.
  split; [|done]. unfold store_ok; simpl. rewrite Hkeys. repeat split.
  - apply StronglySorted_app_2; [|done|repeat constructor].
    intros x1 x2 Hx1 ->%list_elem_of_singleton.
    rewrite Forall_forall in Hlt. by apply Hlt.
  - apply Forall_app. split; [|repeat constructor; lia].
    eapply Forall_impl; [exact Hlt|]. simpl. intros; lia.
  - apply Forall_forall. intros kv [->|Hin]%dict_elem_set; [done|].
    rewrite Forall_forall in Hid. by apply Hid.
  - apply (f_equal length) in Hkeys. unfold Dict.keys in Hkeys.
    rewrite length_app, !length_fmap in Hkeys. simpl in Hkeys. lia.
Qed.

Lemma store_ok_clear alarm_id (s : state) (e : Env W) :
  store_ok s ->
  let s' := final (_clear_alarm alarm_id) s e in
  store_ok s'
  /\ Dict.keys (alarms s') = Dict.keys (alarms s)
  /\ alarm_id_counter s' = alarm_id_counter s.
Proof.
  intros Hok s'. unfold s', final. rewrite clear_alarm_run.
  destruct (Dict.get alarm_id (alarms s)) as [alarm|] eqn:Hget; [|done]. simpl.
  destruct Hok as (Hsorted & Hlt & Hid & Hlen).
  pose proof (dict_keys_set_mem alarm_id
    (mark_cleared (isoformat (datetime_now (world e)).1) alarm) _ _ Hget) as Hkeys.
  split; [|done]. unfold store_ok; simpl. rewrite Hkeys. repeat split; [done|done| |].
  - apply Forall_forall. intros kv [->|Hin]%dict_elem_set.
    + simpl. apply dict_get_elem in Hget. rewrite Forall_forall in Hid. by apply Hid in Hget.
    + rewrite Forall_forall in Hid. by apply Hid.
  - by erewrite dict_length_set_mem.
Qed.

Lemma extends_refl (s : state) : store_ok s -> extends s s.
Proof. intros Hok. split; [done|]. split; [done|lia]. Qed.

Lemma wp_create_alarm_extends s0 node_id ty sev desc (s : state) (e : Env W) :
  extends s0 s ->
  wp (_create_alarm node_id ty sev desc) (fun _ s' _ => extends s0 s') s e.
Proof.
  intros (Hok & Hpre & Hle). unfold wp.
  destruct (store_ok_create node_id ty sev desc s e Hok) as (Hok' & Hkeys & Hc).
  split; [done|]. rewrite Hkeys, Hc. split; [by apply prefix_app_r|lia].
Qed.

Lemma wp_clear_alarm_extends s0 alarm_id (s : state) (e : Env W) :
  extends s0 s -> wp (_clear_alarm alarm_id) (fun _ s' _ => extends s0 s') s e.
Proof.
  intros (Hok & Hpre & Hle). unfold wp.
  destruct (store_ok_clear alarm_id s e Hok) as (Hok' & Hkeys & Hc).
  split; [done|]. by rewrite Hkeys, Hc.
Qed.

Lemma wp_set_node_status_extends s0 i st (s : state) (e : Env W) :
  extends s0 s -> wp (set_node_status i st) (fun _ s' _ => extends s0 s') s e.
Proof. intros Hext. exact Hext. Qed.

Lemma wp_for_each_node_extends s0 body (s : state) (e : Env W) :
  (forall i node s e, extends s0 s ->
     wp (body i node) (fun _ s' _ => extends s0 s') s e) ->
  extends s0 s -> wp (for_each_node body) (fun _ s' _ => extends s0 s') s e.
Proof.
  intros Hbody Hext. unfold for_each_node. wp_step. wp_step.
  apply (wp_for_each_inv (fun s' _ => extends s0 s')); [|done].
  intros i s1 e1 _ Hext1. wp_step. wp_step.
  destruct (network_nodes s1 !! i); [by apply Hbody|by wp_step].
Qed.

Lemma wp_generate_fault_extends s0 i node fault (s : state) (e : Env W) :
  extends s0 s -> wp (generate_fault i node fault) (fun _ s' _ => extends s0 s') s e.
Proof.
  intros Hext. unfold generate_fault. wp_step. wp_step. wp_step. 2: by wp_step.
  wp_step.
  { wp_apply wp_set_node_status_extends. wp_apply wp_create_alarm_extends. by wp_step. }
  repeat (wp_step; [wp_apply wp_create_alarm_extends; by wp_step|]).
  by wp_step.
Qed.

Lemma wp_recover_node_extends s0 i node (s : state) (e : Env W) :
  extends s0 s -> wp (recover_node i node) (fun _ s' _ => extends s0 s') s e.
Proof.
  intros Hext. unfold recover_node. wp_step; [|by wp_step].
  wp_step. wp_step. wp_step; [|by wp_step].
  wp_apply wp_set_node_status_extends. wp_step. wp_step.
  unfold clear_down_alarms.
  apply (wp_for_each_inv (fun s' _ => extends s0 s')); [|done].
  intros kv s2 e2 _ Hext2. wp_step; [|by wp_step].
  wp_apply wp_clear_alarm_extends. by wp_step.
Qed.

Lemma wp_fault_generation_tick_extends s0 (s : state) (e : Env W) :
  extends s0 s -> wp fault_generation_tick (fun _ s' _ => extends s0 s') s e.
Proof.
  intros Hext. unfold fault_generation_tick.
  apply wp_bind. eapply wp_mono.
  - apply wp_for_each_node_extends; [|exact Hext].
    intros j node s1 e1 Hext1.
    apply (wp_for_each_inv (fun s' _ => extends s0 s')); [|done].
    intros. by apply wp_generate_fault_extends.
  - intros [[]|x] s1 e1 Hext1; [|done].
    apply wp_for_each_node_extends; [|done].
    intros. by apply wp_recover_node_extends.
Qed.

Lemma wp_perform_extends s0 o (s : state) (e : Env W) :
  extends s0 s -> wp (perform o) (fun _ s' _ => extends s0 s') s e.
Proof.
  intros Hext. destruct o; simpl.
  - wp_apply wp_create_alarm_extends. by wp_step.
  - wp_apply wp_clear_alarm_extends. by wp_step.
  - by apply wp_fault_generation_tick_extends.
Qed.

Lemma run_extends s0 ops (s : state) (e : Env W) :
  extends s0 s -> extends s0 (final (run ops) s e).
Proof.
  intros Hext. unfold run.
  apply (wp_for_each_inv (fun s' _ => extends s0 s')); [|done].
  intros o s1 e1 _ Hext1. by apply (wp_perform_extends s0 o s1 e1).
Qed.

(** The alarm half of C1: after any history of a new store, the ids in the
    store increase strictly in the order of creation; the next creation
    returns an id above all of them, enters it last and as the ["id"] of its
    alarm; a clear changes neither the ids of the store nor the counter; and
    no call removes an id. *)
Lemma alarm_ids_increase ops (e : Env W) :
  let s := final (run ops) init e in
  StronglySorted Z.lt (Dict.keys (alarms s))
  /\ Forall (fun kv => a_id kv.2 = kv.1) (alarms s)
  /\ (forall node_id ty sev desc e',
        let s' := final (_create_alarm node_id ty sev desc) s e' in
        exists alarm_id,
          result (_create_alarm node_id ty sev desc) s e' = Return alarm_id
          /\ Forall (fun k => k < alarm_id) (Dict.keys (alarms s))
          /\ Dict.keys (alarms s') = Dict.keys (alarms s) ++ [alarm_id]
          /\ a_id <$> Dict.get alarm_id (alarms s') = Some alarm_id)
  /\ (forall alarm_id e',
        let s' := final (_clear_alarm alarm_id) s e' in
        Dict.keys (alarms s') = Dict.keys (alarms s)
        /\ alarm_id_counter s' = alarm_id_counter s)
  /\ (forall o e', Dict.keys (alarms s) `prefix_of` Dict.keys (alarms (final (perform o) s e'))).
Proof.
  intros s.
  destruct (run_extends init ops init e (extends_refl _ store_ok_init)) as (Hok & _ & _).
  fold s in Hok. pose proof Hok as (Hsorted & Hlt & Hid & Hlen).
  split; [done|]. split; [done|]. split; [|split].
  - intros node_id ty sev desc e' s'. exists (alarm_id_counter s).
    destruct (store_ok_create node_id ty sev desc s e' Hok) as (Hok' & Hkeys & Hc).
    split; [done|]. split; [done|]. split; [done|].
    unfold s', final. rewrite create_alarm_run. simpl. by rewrite dict_get_set_eq.
  - intros alarm_id e' s'. by destruct (store_ok_clear alarm_id s e' Hok) as (_ & ? & ?).
  - intros o e'.
    by destruct (wp_perform_extends s o s e' (extends_refl _ Hok)) as (_ & ? & _).
Qed.
End OAMFacts.

(** ** The KPI windows and their thresholds *)

Section KPIFacts.
Context {W : Type} `{!Oracle W}.
Import KPI.

Lemma classify_lower category w c v :
  category = "availability" \/ category = "quality" ->
  classify category w c v =
    if Qltb v c then "CRITICAL" else if Qltb v w then "WARNING" else "OK".
Proof. by intros [-> | ->]. Qed.

Lemma classify_upper category w c v :
  category = "performance" \/ category = "resource" ->
  classify category w c v =
    if Qltb c v then "CRITICAL" else if Qltb w v then "WARNING" else "OK".
Proof. by intros [-> | ->]. Qed.

Lemma analyze_elem defs data issues issue :
  analyze defs data = Return issues ->
  issue ∈ issues <->
  exists kpi node_data item,
    kpi ∈ defs /\ Dict.get (k_id kpi) data = Some node_data
    /\ item ∈ node_data /\ issue ∈ analyze_window kpi item.
Proof.
  revert issues. induction defs as [|kpi defs IH]; intros issues; simpl.
  - intros [= <-]. split; [by intros ?%elem_of_nil|].
    by intros (? & ? & ? & ?%elem_of_nil & _).
  - destruct (Dict.get (k_id kpi) data) as [node_data|] eqn:Hget; [|done].
    destruct (analyze defs data) as [rest|]; [|done]. intros [= <-].
    rewrite elem_of_app, (IH rest eq_refl), list_elem_of_In, in_flat_map. split.
    + intros [(item & Hitem & Hissue)|(kpi' & nd & item & Hk & Hg & Hi & Hissue)].
      * exists kpi, node_data, item. rewrite <- !list_elem_of_In in *.
        split; [apply list_elem_of_here|done].
      * exists kpi', nd, item. split; [by apply list_elem_of_further|done].
    + intros (kpi' & nd & item & Hk & Hg & Hi & Hissue).
      apply elem_of_cons in Hk as [->|Hk].
      * left. exists item. rewrite <- !list_elem_of_In. split; [congruence|done].
      * right. by exists kpi', nd, item.
Qed.

(** C3: the severity of the latest sample of a window.  For the categories
    availability and quality it is CRITICAL below the critical threshold,
    WARNING from the critical threshold up to, but not including, the
    warning threshold, and OK otherwise; for performance and resource the
    comparisons are turned round.  A window adds an issue exactly when the
    severity is not OK, and the issue list is made of these issues. *)
Theorem threshold_classification (kpi : KPIDefinition) (node_id : string)
    (data_points : list Sample) (latest : Sample) :
  last data_points = Some latest ->
  let w := k_warning_threshold kpi in
  let c := k_critical_threshold kpi in
  let v := value latest in
  let severity := classify (k_category kpi) w c v in
  (k_category kpi = "availability" \/ k_category kpi = "quality" ->
     (Qlt v c -> severity = "CRITICAL")
     /\ (Qle c v -> Qlt v w -> severity = "WARNING")
     /\ (Qle c v -> Qle w v -> severity = "OK"))
  /\ (k_category kpi = "performance" \/ k_category kpi = "resource" ->
     (Qlt c v -> severity = "CRITICAL")
     /\ (Qle v c -> Qlt w v -> severity = "WARNING")
     /\ (Qle v c -> Qle v w -> severity = "OK"))
  /\ (severity = "OK" -> analyze_window kpi (node_id, data_points) = [])
  /\ (severity ≠ "OK" ->
      analyze_window kpi (node_id, data_points) =
        [ {| i_node_id := node_id; i_kpi_id := k_id kpi; i_kpi_name := k_name kpi;
             i_value := v; i_unit := k_unit kpi; i_severity := severity;
             i_timestamp := timestamp latest |} ])
  /\ (forall data issues node_data,
        analyze kpi_definitions data = Return issues ->
        kpi ∈ kpi_definitions -> Dict.get (k_id kpi) data = Some node_data ->
        (node_id, data_points) ∈ node_data -> severity ≠ "OK" ->
        {| i_node_id := node_id; i_kpi_id := k_id kpi; i_kpi_name := k_name kpi;
           i_value := v; i_unit := k_unit kpi; i_severity := severity;
           i_timestamp := timestamp latest |} ∈ issues)
  /\ (forall data issues issue,
        analyze kpi_definitions data = Return issues -> issue ∈ issues ->
        i_severity issue = "CRITICAL" \/ i_severity issue = "WARNING").
Proof.
  intros Hlast w c v severity.
  assert (severity ≠ "OK" ->
      analyze_window kpi (node_id, data_points) =
        [ {| i_node_id := node_id; i_kpi_id := k_id kpi; i_kpi_name := k_name kpi;
             i_value := v; i_unit := k_unit kpi; i_severity := severity;
             i_timestamp := timestamp latest |} ]) as Hissue.
  { intros Hne. unfold analyze_window. simpl. rewrite Hlast. fold w c v severity.
    destruct (String.eqb_spec severity "OK"); done. }
  split; [|split; [|split; [|split; [exact Hissue|split]]]].
  - intros Hcat. unfold severity. rewrite (classify_lower _ _ _ _ Hcat).
    split; [|split].
    + intros Hlt%Qltb_lt. by rewrite Hlt.
    + intros Hge%Qltb_ge Hlt%Qltb_lt. by rewrite Hge, Hlt.
    + intros Hge%Qltb_ge Hge'%Qltb_ge. by rewrite Hge, Hge'.
  - intros Hcat. unfold severity. rewrite (classify_upper _ _ _ _ Hcat).
    split; [|split].
    + intros Hlt%Qltb_lt. by rewrite Hlt.
    + intros Hge%Qltb_ge Hlt%Qltb_lt. by rewrite Hge, Hlt.
    + intros Hge%Qltb_ge Hge'%Qltb_ge. by rewrite Hge, Hge'.
  - intros Hok. unfold analyze_window. simpl. rewrite Hlast. fold w c v severity.
    by rewrite Hok.
  - intros data issues node_data Han Hkpi Hget Hin Hne.
    apply (analyze_elem _ _ _ _ Han). exists kpi, node_data, (node_id, data_points).
    split; [done|]. split; [done|]. split; [done|].
    rewrite (Hissue Hne). apply list_elem_of_here.
  - intros data issues issue Han Hin.
    apply (analyze_elem _ _ _ _ Han) in Hin as (kpi' & nd & item & _ & _ & _ & Hin).
    unfold analyze_window in Hin.
    destruct (last item.2) as [l|]; [|by apply elem_of_nil in Hin].
    destruct (String.eqb _ "OK") eqn:Heq; [by apply elem_of_nil in Hin|].
    apply list_elem_of_singleton in Hin. subst issue. simpl.
    unfold classify in *.
    repeat match goal with
           | |- context [if ?b then _ else _] => destruct b
           end; auto; discriminate.
Qed.

(** *** Windows *)

Lemma deque_append_full x d :
  length d = 1000%nat ->
  deque_append x d = tail d ++ [x] /\ length (deque_append x d) = 1000%nat.
Proof.
  intros Hlen. unfold deque_append.
  destruct (Nat.ltb_spec maxlen (length (d ++ [x]))) as [Hlt|Hge].
  - destruct d as [|y d]; [done|]. split; [done|].
    simpl. rewrite length_app. simpl in *. lia.
  - rewrite length_app in Hge. unfold maxlen in Hge. simpl in Hge. lia.
Qed.

Lemma deque_append_bound x d :
  (length d <= maxlen)%nat -> (length (deque_append x d) <= maxlen)%nat.
Proof.
  intros Hlen. unfold deque_append.
  destruct (Nat.ltb_spec maxlen (length (d ++ [x]))) as [Hlt|Hge]; [|done].
  rewrite length_tl, length_app. simpl. lia.
Qed.

Lemma record_sample_run kpi_id node_id sample node_data (s : state) (e : Env W) :
  Dict.get kpi_id (kpi_data s) = Some node_data ->
  record_sample kpi_id node_id sample s e =
    (Return tt,
     set_kpi_data
       (Dict.set kpi_id
          (Dict.set node_id (deque_append sample (default [] (Dict.get node_id node_data)))
             node_data) (kpi_data s)) s, e).
Proof. intros Hget. unfold record_sample, bind, get_state. by rewrite Hget. Qed.

Lemma window_record_sample kpi_id node_id sample node_data (s : state) k n :
  Dict.get kpi_id (kpi_data s) = Some node_data ->
  window k n
    (set_kpi_data
       (Dict.set kpi_id
          (Dict.set node_id (deque_append sample (default [] (Dict.get node_id node_data)))
             node_data) (kpi_data s)) s)
  = if decide (k = kpi_id /\ n = node_id)
    then deque_append sample (window kpi_id node_id s)
    else window k n s.
Proof.
  intros Hget. unfold window. simpl.
  destruct (decide (k = kpi_id)) as [->|Hk].
  - rewrite dict_get_set_eq, Hget. simpl.
    destruct (decide (n = node_id)) as [->|Hn].
    + rewrite decide_True by done. by rewrite dict_get_set_eq.
    + rewrite decide_False by (intros [_ ?]; done). by rewrite dict_get_set_ne.
  - rewrite decide_False by (intros [? _]; done). by rewrite dict_get_set_ne.
Qed.

(** What one append does, as seen from the windows. *)
Lemma wp_record_sample kpi_id node_id sample Q (s : state) (e : Env W) :
  kpi_id ∈ Dict.keys (kpi_data s) ->
  (forall s',
     Dict.keys (kpi_data s') = Dict.keys (kpi_data s) ->
     network_nodes s' = network_nodes s ->
     (forall k n, window k n s' =
        if decide (k = kpi_id /\ n = node_id)
        then deque_append sample (window kpi_id node_id s) else window k n s) ->
     Q (Return tt) s' e) ->
  wp (record_sample kpi_id node_id sample) Q s e.
Proof.
  intros Hin HQ. unfold wp, result, final, final_env.
  destruct (Dict.get kpi_id (kpi_data s)) as [node_data|] eqn:Hget.
  - rewrite (record_sample_run _ _ _ _ _ _ Hget). simpl. apply HQ.
    + simpl. by eapply dict_keys_set_mem.
    + done.
    + intros k n. by apply window_record_sample.
  - apply dict_get_None in Hget. done.
Qed.
Lemma complete_keys (s : state) k :
  complete s -> k ∈ map k_id kpi_definitions -> k ∈ Dict.keys (kpi_data s).
Proof.
  unfold complete. rewrite Forall_forall. intros Hc (kpi & -> & Hin)%list_elem_of_fmap.
  by apply Hc.
Qed.

Lemma bounded_record_sample kpi_id node_id sample (s s' : state) :
  (forall k n, window k n s' =
     if decide (k = kpi_id /\ n = node_id)
     then deque_append sample (window kpi_id node_id s) else window k n s) ->
  bounded s -> bounded s'.
Proof.
  intros Hw Hb k n. rewrite Hw. destruct (decide _); [|apply Hb].
  apply deque_append_bound, Hb.
Qed.

Lemma wp_record_sample_collecting s0 node_id w kpi_id sample Q (s : state) (e : Env W) :
  collecting s0 node_id w s ->
  kpi_id ≠ "node_availability" ->
  kpi_id ∈ Dict.keys (kpi_data s0) ->
  (forall s', collecting s0 node_id w s' -> Q (Return tt) s' e) ->
  wp (record_sample kpi_id node_id sample) Q s e.
Proof.
  intros (Hkeys & Hnodes & Hb & Hw) Hne Hin HQ.
  apply wp_record_sample; [by rewrite Hkeys|].
  intros s' Hkeys' Hnodes' Hw'. apply HQ. repeat split.
  - by rewrite Hkeys'.
  - by rewrite Hnodes'.
  - intros Hb0. eapply bounded_record_sample; [exact Hw'|by apply Hb].
  - rewrite Hw'. rewrite decide_False; [done|]. by intros [? _].
Qed.

(** What the collector does for one node, as far as the availability
    window, the bound and the other fields are concerned. *)
Lemma wp_collect_node_kpis node Q (s : state) (e : Env W) :
  complete s ->
  (forall s' e',
     collecting s (n_id node)
       (deque_append
          {| timestamp := isoformat (datetime_now (world e)).1;
             value := if String.eqb (n_status node) "active" then 100%Q else 0%Q |}
          (window "node_availability" (n_id node) s)) s' ->
     pauses e' = pauses e ->
     Q (Return tt) s' e') ->
  wp (_collect_node_kpis node) Q s e.
Proof.
  intros Hc HQ. unfold _collect_node_kpis.
  assert (forall k, k ∈ map k_id kpi_definitions -> k ∈ Dict.keys (kpi_data s)) as Hk
    by (intros k; by apply complete_keys).
  wp_step. wp_step. wp_step.
  apply wp_record_sample; [apply Hk; simpl; repeat constructor|].
  intros s1 Hkeys1 Hnodes1 Hw1.
  assert (collecting s (n_id node)
            (deque_append
               {| timestamp := isoformat (datetime_now (world e)).1;
                  value := if String.eqb (n_status node) "active" then 100%Q else 0%Q |}
               (window "node_availability" (n_id node) s)) s1) as Hcol.
  { repeat split; [done|done| |].
    - by apply (bounded_record_sample _ _ _ _ _ Hw1).
    - rewrite Hw1. by rewrite decide_True. }
  clear Hkeys1 Hnodes1 Hw1.
  assert (forall k smp Q' (s1 : state) (e1 : Env W),
            collecting s (n_id node)
              (deque_append
                 {| timestamp := isoformat (datetime_now (world e)).1;
                    value := if String.eqb (n_status node) "active" then 100%Q else 0%Q |}
                 (window "node_availability" (n_id node) s)) s1 ->
            k ≠ "node_availability" -> k ∈ map k_id kpi_definitions ->
            (forall s2, collecting s (n_id node)
                (deque_append
                   {| timestamp := isoformat (datetime_now (world e)).1;
                      value := if String.eqb (n_status node) "active" then 100%Q else 0%Q |}
                   (window "node_availability" (n_id node) s)) s2 ->
                Q' (Return tt) s2 e1) ->
            wp (record_sample k (n_id node) smp) Q' s1 e1) as Hstep.
  { intros k smp Q' s2 e2 Hcol2 Hne Hin HQ'.
    eapply wp_record_sample_collecting; [exact Hcol2|done|by apply Hk|done]. }
  repeat (repeat wp_step;
          first [apply Hstep; [eassumption|done|simpl; repeat constructor|intros ? ?]
                |apply HQ; [eassumption|congruence]]).
Qed.
Lemma analyze_complete defs data :
  Forall (fun kpi => k_id kpi ∈ Dict.keys data) defs ->
  exists issues, analyze defs data = Return issues.
Proof.
  induction 1 as [|kpi defs Hin _ IH]; simpl; [by eexists|].
  destruct (Dict.get (k_id kpi) data) eqn:Hget.
  - destruct IH as [issues ->]. by eexists.
  - by apply dict_get_None in Hget.
Qed.

Lemma complete_keys_eq (s s' : state) :
  Dict.keys (kpi_data s') = Dict.keys (kpi_data s) -> complete s -> complete s'.
Proof. unfold complete. by intros ->. Qed.

Lemma wp_collection_tick (s : state) (e : Env W) :
  complete s -> bounded s ->
  wp collection_tick
    (fun o s' _ => o = Return tt /\ complete s' /\ bounded s'
                   /\ network_nodes s' = network_nodes s) s e.
Proof.
  intros Hc Hb. unfold collection_tick. wp_step. wp_step. wp_step.
  eapply wp_mono.
  - apply (wp_for_each_ok
             (fun s' _ => complete s' /\ bounded s' /\ network_nodes s' = network_nodes s));
      [|done].
    intros node s1 e1 _ (Hc1 & Hb1 & Hn1).
    apply wp_collect_node_kpis; [done|].
    intros s2 e2 (Hkeys & Hnodes & Hbound & _) _.
    split; [done|]. split; [by eapply complete_keys_eq|]. split; [by apply Hbound|].
    congruence.
  - intros o s1 e1 (-> & Hc1 & Hb1 & Hn1). wp_step. wp_step.
    destruct (analyze_complete _ _ Hc1) as [issues Han].
    unfold _analyze_kpi_data. rewrite Han. by wp_step.
Qed.

Lemma window_init kpi_id node_id : window kpi_id node_id init = [].
Proof.
  unfold window, init. simpl.
  repeat match goal with
         | |- context [decide (kpi_id = ?k)] => destruct (decide (kpi_id = k)); [done|]
         end.
  done.
Qed.

Lemma complete_init : complete init.
Proof. unfold complete. repeat constructor. Qed.

Lemma bounded_init : bounded init.
Proof. intros k n. rewrite window_init. simpl. lia. Qed.

Lemma run_bounded n (e : Env W) :
  complete (final (run n) init e) /\ bounded (final (run n) init e).
Proof.
  unfold run.
  apply (wp_for_each_inv (fun s' _ => complete s' /\ bounded s'));
    [|split; [apply complete_init|apply bounded_init]].
  intros _ s e0 _ [Hc Hb].
  by destruct (wp_collection_tick s e0 Hc Hb) as (_ & ? & ? & _).
Qed.

(** C4: a window that holds 1000 samples and receives one more still holds
    1000: the oldest sample is gone, the other 999 follow in their order,
    and the new sample is last.  From a new store, no window ever holds
    more than 1000 samples. *)
Theorem window_fifo_bounded kpi_id node_id sample (s : state) (e : Env W) :
  kpi_id ∈ Dict.keys (kpi_data s) ->
  length (window kpi_id node_id s) = 1000%nat ->
  let w := window kpi_id node_id s in
  let w' := window kpi_id node_id (final (record_sample kpi_id node_id sample) s e) in
  result (record_sample kpi_id node_id sample) s e = Return tt
  /\ length w' = 1000%nat
  /\ (exists oldest rest, w = oldest :: rest /\ w' = rest ++ [sample])
  /\ (forall i, (i < 999)%nat -> w' !! i = w !! S i)
  /\ w' !! 999%nat = Some sample
  /\ (forall n e0 k nd, (length (window k nd (final (run n) init e0)) <= 1000)%nat).
Proof.
  intros Hin Hlen w w'.
  assert (result (record_sample kpi_id node_id sample) s e = Return tt
          /\ w' = deque_append sample w) as [Hres Hw'].
  { unfold w'. apply (wp_record_sample kpi_id node_id sample
      (fun o s' _ => o = Return tt
                     /\ window kpi_id node_id s' = deque_append sample w)); [done|].
    intros s' _ _ Hw. split; [done|]. rewrite Hw. by rewrite decide_True. }
  destruct (deque_append_full sample w Hlen) as [Heq Hlen'].
  rewrite <- Hw' in Heq, Hlen'. fold w in Hlen. clearbody w w'.
  split; [done|]. split; [done|]. split; [|split; [|split]].
  - destruct w as [|oldest rest]; [done|]. by exists oldest, rest.
  - intros i Hi. rewrite Heq, lookup_app_l by (rewrite length_tl; lia).
    apply lookup_tail.
  - rewrite Heq, lookup_app_r by (rewrite length_tl; lia).
    rewrite length_tl, Hlen. done.
  - intros n e0 k nd. apply run_bounded.
Qed.
End KPIFacts.

(** ** The event log *)

Section EventFacts.
Context {W : Type} `{!Oracle W}.
Import Event.

Lemma later_refl (s : state) : later s s.
Proof. by repeat split. Qed.

Lemma later_trans (s1 s2 s3 : state) : later s1 s2 -> later s2 s3 -> later s1 s3.
Proof.
  intros (Hp & Hl & Ht) (Hp' & Hl' & Ht'). split; [by etransitivity|].
  split; [auto|congruence].
Qed.

Lemma types_set_status st i (l : list Node) :
  map n_type (alter (set_status st) i l) = map n_type l.
Proof.
  revert i. induction l as [|n l IH]; intros [|i]; simpl; [done|done|done|].
  f_equal. apply IH.
Qed.

Lemma log_ok_append (s s' : state) ev :
  events s' = events s ++ [ev] ->
  e_id ev = Z.of_nat (length (events s)) + 1 ->
  log_ok s -> log_ok s'.
Proof.
  unfold log_ok. intros -> Hid Hok.
  rewrite map_app, length_app, Hok. simpl length.
  rewrite Nat.add_1_r, seq_S, map_app. simpl. f_equal. f_equal. lia.
Qed.

Lemma later_append (s s' : state) ev :
  events s' = events s ++ [ev] ->
  e_id ev = Z.of_nat (length (events s)) + 1 ->
  map n_type (network_nodes s') = map n_type (network_nodes s) ->
  later s s'.
Proof.
  intros Hev Hid Hty. split; [rewrite Hev; by apply prefix_app_r|].
  split; [by eapply log_ok_append|done].
Qed.

Lemma wp_set_node_status i st Q (s : state) (e : Env W) :
  (forall s', events s' = events s ->
     map n_type (network_nodes s') = map n_type (network_nodes s) ->
     Q (Return tt) s' e) ->
  wp (set_node_status i st) Q s e.
Proof. intros HQ. apply HQ; [done|]. apply types_set_status. Qed.

Lemma wp_append_event ev Q (s : state) (e : Env W) :
  (forall s', events s' = events s ++ [ev] ->
     network_nodes s' = network_nodes s ->
     Q (Return tt) s' e) ->
  wp (append_event ev) Q s e.
Proof. intros HQ. by apply HQ. Qed.

(** Filling the details leaves the log alone and changes at most the status
    of nodes. *)
Lemma wp_make_details ty target Q (s : state) (e : Env W) :
  (forall d s' e',
     events s' = events s ->
     map n_type (network_nodes s') = map n_type (network_nodes s) ->
     pauses e' = pauses e ->
     Q (Return d) s' e') ->
  wp (make_details ty target) Q s e.
Proof.
  intros HQ. destruct ty; unfold make_details;
    repeat first
      [ wp_step
      | apply wp_choice; [done|intros ? ? ? ? ?]
      | apply wp_set_node_status; intros ? ? ? ];
    apply HQ; congruence.
Qed.

(** An event is appended with the next id, whatever its type and target. *)
Lemma wp_generate_event ty target Q (s : state) (e : Env W) :
  (forall ev s' e',
     events s' = events s ++ [ev] ->
     e_id ev = Z.of_nat (length (events s)) + 1 ->
     e_type ev = type_name ty ->
     e_target_node ev = Some (n_id target.2) ->
     map n_type (network_nodes s') = map n_type (network_nodes s) ->
     pauses e' = pauses e ->
     Q (Return ev) s' e') ->
  wp (_generate_event ty target) Q s e.
Proof.
  intros HQ. unfold _generate_event. wp_step. wp_step. wp_step. wp_step. wp_step.
  apply wp_make_details. intros d s1 e1 Hev1 Hty1 Hp1. wp_step.
  apply wp_append_event. intros s2 Hev2 Hn2. wp_step.
  apply HQ; simpl; try done; congruence.
Qed.

Lemma wp_generate_event_later s0 ty target (s : state) (e : Env W) :
  later s0 s -> wp (_generate_event ty target) (fun _ s' _ => later s0 s') s e.
Proof.
  intros Hl. apply wp_generate_event. intros ev s' e' Hev Hid _ _ Hty _.
  eapply later_trans; [exact Hl|]. by eapply later_append.
Qed.
(** Keeping [later s0] along a computation of the simulator. *)
Ltac later_auto s0 :=
  repeat first
    [ assumption
    | wp_step
    | apply wp_choice_any; intros [?|?] ? ?; cbv beta iota
    | apply wp_sleep_any; intros [?|?] ? ?; cbv beta iota
    | wp_apply wp_generate_event_later
    | apply (wp_for_each_inv (fun s' _ => later s0 s')); [intros ? ? ? _ ?|assumption]
    | eapply wp_mono;
      [ apply (wp_for_each_inv (fun s' _ => later s0 s')); [intros ? ? ? _ ?|assumption]
      | intros [?|?] ? ? ?; cbv beta iota ] ].

Lemma wp_run_event_def_later s0 event_def (s : state) (e : Env W) :
  later s0 s -> wp (run_event_def event_def) (fun _ s' _ => later s0 s') s e.
Proof. intros Hl. unfold run_event_def. later_auto s0. Qed.

Lemma wp_run_scenario_later s0 (s : state) (e : Env W) :
  later s0 s -> wp _run_scenario (fun _ s' _ => later s0 s') s e.
Proof.
  intros Hl. unfold _run_scenario. later_auto s0. by apply wp_run_event_def_later.
Qed.

Lemma wp_generate_random_events_later s0 (s : state) (e : Env W) :
  later s0 s -> wp _generate_random_events (fun _ s' _ => later s0 s') s e.
Proof. intros Hl. unfold _generate_random_events. later_auto s0. Qed.

Lemma wp_append_event_later s0 ev (s : state) (e : Env W) :
  later s0 s -> e_id ev = Z.of_nat (length (events s)) + 1 ->
  wp (append_event ev) (fun _ s' _ => later s0 s') s e.
Proof.
  intros Hl Hid. apply wp_append_event. intros s' Hev Hn.
  eapply later_trans; [exact Hl|]. eapply later_append; [done|done|by rewrite Hn].
Qed.

Lemma wp_run_load_test_later s0 ty d intensity (s : state) (e : Env W) :
  later s0 s -> wp (run_load_test ty d intensity) (fun _ s' _ => later s0 s') s e.
Proof.
  intros Hl. unfold run_load_test, load_levels.
  repeat first
    [ progress later_auto s0
    | eapply wp_mono;
      [ eapply wp_append_event_later; [eassumption|reflexivity]
      | intros [?|?] ? ? ?; cbv beta iota ] ].
Qed.

Lemma wp_simulate_failover_scenario_later s0 ty (s : state) (e : Env W) :
  later s0 s -> wp (simulate_failover_scenario ty) (fun _ s' _ => later s0 s') s e.
Proof. intros Hl. unfold simulate_failover_scenario. later_auto s0. Qed.

Lemma wp_perform_later s0 o (s : state) (e : Env W) :
  later s0 s -> wp (perform o) (fun _ s' _ => later s0 s') s e.
Proof.
  intros Hl. destruct o; simpl.
  - by apply wp_run_scenario_later.
  - by apply wp_generate_random_events_later.
  - unfold simulation_tick. wp_step. wp_step. wp_step.
    + by apply wp_run_scenario_later.
    + by apply wp_generate_random_events_later.
  - wp_apply wp_run_load_test_later. by wp_step.
  - wp_apply wp_simulate_failover_scenario_later. by wp_step.
Qed.

Lemma run_later s0 ops (s : state) (e : Env W) :
  later s0 s -> later s0 (final (run ops) s e).
Proof.
  intros Hl. unfold run.
  apply (wp_for_each_inv (fun s' _ => later s0 s')); [|done].
  intros o s1 e1 _ Hl1. by apply (wp_perform_later s0 o s1 e1).
Qed.

Lemma log_ok_sorted (s : state) : log_ok s -> StronglySorted Z.lt (map e_id (events s)).
Proof.
  unfold log_ok. intros ->. generalize 1%nat. generalize (length (events s)).
  intros n. induction n as [|n IH]; intros i; simpl; constructor; [apply IH|].
  apply Forall_forall. intros z (j & -> & Hj%elem_of_seq)%list_elem_of_fmap. lia.
Qed.

(** The event half of C1: after any history of a new simulator, the ids of
    the log are 1, 2, 3, ... and so increase strictly; every further call
    leaves the events already in the log as they are and appends events
    whose ids continue the sequence. *)
Lemma event_ids_increase ops (e : Env W) :
  let s := final (run ops) init e in
  map e_id (events s) = map Z.of_nat (seq 1 (length (events s)))
  /\ StronglySorted Z.lt (map e_id (events s))
  /\ (forall o e',
        let s' := final (perform o) s e' in
        events s `prefix_of` events s'
        /\ StronglySorted Z.lt (map e_id (events s'))).
Proof.
  intros s. destruct (run_later init ops init e (later_refl _)) as (_ & Hok & _).
  specialize (Hok eq_refl). fold s in Hok.
  split; [done|]. split; [by apply log_ok_sorted|].
  intros o e' s'.
  destruct (wp_perform_later s o s e' (later_refl _)) as (Hpre & Hok' & _).
  split; [done|]. by apply log_ok_sorted, Hok'.
Qed.
(** *** Scenarios *)

Lemma zip_filter_types_nil t (idx : list nat) (l : list Node) :
  length idx = length l ->
  filter (fun r : nat * Node => n_type r.2 = t) (zip idx l) = [] <-> t ∉ map n_type l.
Proof.
  revert idx. induction l as [|n l IH]; intros [|i idx] Hlen; try done; simpl.
  - split; [intros _; apply not_elem_of_nil|done].
  - rewrite filter_cons. simpl. rewrite not_elem_of_cons.
    destruct (decide (n_type n = t)) as [Heq|Hne].
    + split; [done|]. intros [Hc _]. by destruct Hc.
    + rewrite IH by (simpl in Hlen; lia). split; [intros ?; split; [congruence|done]|tauto].
Qed.

Lemma resolve_targets_nil t (l l' : list Node) :
  map n_type l' = map n_type l ->
  resolve_targets t l' = [] -> resolve_targets t l = [].
Proof.
  intros Hty. unfold resolve_targets, nodes_of_type, node_refs.
  destruct (String.eqb t "ALL").
  - apply (f_equal length) in Hty. rewrite !length_map in Hty.
    destruct l', l; simpl in *; done.
  - rewrite !zip_filter_types_nil by (by rewrite length_seq). by rewrite Hty.
Qed.

Lemma uniform_nonneg a b (w : W) : Qle 0 a -> Qle a b -> Qle 0 (random_uniform a b w).1.
Proof.
  intros Ha Hab. destruct (random_uniform_range a b w Hab) as [Hlo _].
  by eapply Qle_trans.
Qed.

(** One event definition of a scenario: nothing happens if the trial fails
    or no node matches; otherwise one event of the type of the definition
    is appended, for one of the matching nodes. *)
Lemma wp_run_event_def event_def Q (s : state) (e : Env W) :
  (Qgtb (random_random (world e)).1 (probability event_def) = true
   \/ resolve_targets (target_type event_def) (network_nodes s) = [] ->
   forall e', pauses e' = pauses e -> Q (Return tt) s e') ->
  (Qgtb (random_random (world e)).1 (probability event_def) = false ->
   resolve_targets (target_type event_def) (network_nodes s) ≠ [] ->
   forall ev s' e',
     events s' = events s ++ [ev] ->
     e_id ev = Z.of_nat (length (events s)) + 1 ->
     e_type ev = type_name (spec_type event_def) ->
     (exists target, target ∈ resolve_targets (target_type event_def) (network_nodes s)
                     /\ e_target_node ev = Some (n_id target.2)) ->
     map n_type (network_nodes s') = map n_type (network_nodes s) ->
     Q (Return tt) s' e') ->
  wp (run_event_def event_def) Q s e.
Proof.
  intros Hskip Hemit. unfold run_event_def. wp_step. wp_step. wp_step.
  { wp_step. apply Hskip; [by left|done]. }
  wp_step. wp_step.
  destruct (resolve_targets _ _) as [|t0 ts] eqn:Hts.
  { wp_step. apply Hskip; [by right|done]. }
  wp_step. apply wp_choice; [done|].
  intros target e1 Hin Hp1 _. wp_step.
  apply wp_generate_event. intros ev s' e2 Hev Hid Hty Htn Hnt Hp2.
  repeat wp_step.
  apply wp_sleep; [apply uniform_nonneg; done|].
  apply (Hemit eq_refl ltac:(done) ev); try done. by exists target.
Qed.

Lemma run_event_defs_order specs (s : state) (e : Env W) :
  wp (for_each specs run_event_def)
    (fun o s' _ =>
       o = Return tt
       /\ map n_type (network_nodes s') = map n_type (network_nodes s)
       /\ exists evs, events s' = events s ++ evs
            /\ map e_type evs `sublist_of` map (fun d => type_name (spec_type d)) specs)
    s e.
Proof.
  revert s e. induction specs as [|d specs IH]; intros s e; simpl.
  - wp_step. split; [done|]. split; [done|]. exists []. by rewrite app_nil_r.
  - wp_step. apply wp_run_event_def.
    + intros _ e' _. eapply wp_mono; [apply IH|].
      intros o s' _ (-> & Hty & evs & Hev & Hsub). split; [done|]. split; [done|].
      exists evs. split; [done|]. by apply sublist_cons.
    + intros _ _ ev s1 e1 Hev1 _ Hty1 _ Hnt1. eapply wp_mono; [apply IH|].
      intros o s' _ (-> & Hty & evs & Hev & Hsub). split; [done|].
      split; [congruence|]. exists (ev :: evs).
      split; [rewrite Hev, Hev1; by rewrite <- app_assoc|].
      simpl. rewrite Hty1. by apply sublist_skip.
Qed.

Lemma run_event_defs_forced specs (s : state) (e : Env W) :
  (forall d, d ∈ specs ->
     (forall w, Qle (random_random w).1 (probability d))
     /\ resolve_targets (target_type d) (network_nodes s) ≠ []) ->
  wp (for_each specs run_event_def)
    (fun o s' _ =>
       o = Return tt
       /\ exists evs, events s' = events s ++ evs
            /\ map e_type evs = map (fun d => type_name (spec_type d)) specs
            /\ map e_id evs
               = map (fun i => Z.of_nat (length (events s)) + Z.of_nat i)
                   (seq 1 (length specs)))
    s e.
Proof.
  revert s e. induction specs as [|d specs IH]; intros s e Hforced; simpl.
  - wp_step. split; [done|]. exists []. by rewrite app_nil_r.
  - destruct (Hforced d) as [Hdraw Htargets]; [apply list_elem_of_here|].
    wp_step. apply wp_run_event_def.
    + intros [Hgt|Hnil] e' Hp'; [|done].
      apply Qltb_lt in Hgt. exfalso. by eapply Qlt_not_le; [exact Hgt|apply Hdraw].
    + intros _ _ ev s1 e1 Hev1 Hid1 Hty1 _ Hnt1. eapply wp_mono.
      * apply IH. intros d' Hd'. destruct (Hforced d') as [Hdraw' Htargets'];
          [by apply list_elem_of_further|].
        split; [done|]. intros Hnil. apply Htargets'.
        by eapply resolve_targets_nil.
      * intros o s' _ (-> & evs & Hev & Hty & Hids). split; [done|].
        exists (ev :: evs). split; [rewrite Hev, Hev1; by rewrite <- app_assoc|].
        simpl. rewrite Hty1, Hid1, Hids, Hev1, length_app. simpl.
        split; [by rewrite Hty|]. f_equal.
        rewrite <- (seq_shift _ 1), map_map. apply map_ext. intros i. lia.
Qed.
Lemma run_event_def_skip d (s : state) (e : Env W) :
  Qlt (probability d) (random_random (world e)).1
  \/ resolve_targets (target_type d) (network_nodes s) = [] ->
  run_event_def d s e
  = (Return tt, s, {| world := (random_random (world e)).2; pauses := pauses e |}).
Proof.
  intros Hskip. unfold run_event_def, bind, ask, get_state. simpl.
  destruct (Qgtb _ _) eqn:Hgt; [done|].
  destruct Hskip as [Hlt%Qltb_lt|Hnil]; [unfold Qgtb in Hgt; congruence|].
  by rewrite Hnil.
Qed.

(** C6: a scenario is run through its event definitions in list order.  A
    definition whose trial fails, or that no node matches, emits nothing and
    the run goes on with the next one; the events that are emitted enter the
    log in the order of their definitions; and with a random source under
    which every trial succeeds, and nodes for every definition, the log
    grows by exactly one event per definition, of the types of the
    definitions in their order. *)
Theorem scenario_order specs (s : state) (e : Env W) :
  let s' := final (for_each specs run_event_def) s e in
  result (for_each specs run_event_def) s e = Return tt
  /\ (exists evs, events s' = events s ++ evs
        /\ map e_type evs `sublist_of` map (fun d => type_name (spec_type d)) specs)
  /\ (forall d (s1 : state) (e1 : Env W),
        Qlt (probability d) (random_random (world e1)).1
        \/ resolve_targets (target_type d) (network_nodes s1) = [] ->
        run_event_def d s1 e1
        = (Return tt, s1, {| world := (random_random (world e1)).2; pauses := pauses e1 |}))
  /\ ((forall d, d ∈ specs ->
         (forall w, Qle (random_random w).1 (probability d))
         /\ resolve_targets (target_type d) (network_nodes s) ≠ []) ->
      exists evs, events s' = events s ++ evs
        /\ map e_type evs = map (fun d => type_name (spec_type d)) specs
        /\ map e_id evs
           = map (fun i => Z.of_nat (length (events s)) + Z.of_nat i) (seq 1 (length specs)))
  /\ (forall sc,
        scenarios !! ((random_index (world e)).1 mod length scenarios)%nat = Some sc ->
        _run_scenario s e
        = for_each (sc_events sc) run_event_def s
            {| world := (random_index (world e)).2; pauses := pauses e |}).
Proof.
  intros s'. pose proof (run_event_defs_order specs s e) as (Hres & _ & Hsub).
  split; [done|]. split; [done|]. split; [apply run_event_def_skip|]. split.
  - intros Hforced.
    by destruct (run_event_defs_forced specs s e Hforced) as (_ & Hevs).
  - intros sc Hsc. unfold _run_scenario, choice, bind at 1, bind at 1, ask. simpl.
    simpl in Hsc. by rewrite Hsc.
Qed.

(** *** The load test *)

Lemma nodes_of_type_nil t (l : list Node) : nodes_of_type t l = [] <-> t ∉ map n_type l.
Proof.
  unfold nodes_of_type, node_refs. apply zip_filter_types_nil. by rewrite length_seq.
Qed.

Lemma run_load_test_no_nodes ty d intensity (s : state) (e : Env W) :
  nodes_of_type ty (network_nodes s) = [] ->
  run_load_test ty d intensity s e = (Return false, s, e).
Proof. intros Hnil. unfold run_load_test, bind, get_state. by rewrite Hnil. Qed.

Lemma run_load_test_invalid ty d intensity (s : state) (e : Env W) :
  intensity ≠ "low" -> intensity ≠ "medium" -> intensity ≠ "high" ->
  run_load_test ty d intensity s e = (Return false, s, e).
Proof.
  intros Hl%String.eqb_neq Hm%String.eqb_neq Hh%String.eqb_neq.
  unfold run_load_test, bind at 1, get_state.
  destruct (nodes_of_type ty (network_nodes s)); [done|].
  unfold bind, load_levels. by rewrite Hl, Hm, Hh.
Qed.

Lemma wp_stress_nodes (targets : list (nat * Node)) (s : state) (e : Env W) :
  wp (for_each targets (fun node =>
        r <- ask random_random ;;
        if Qltb r 0.7 then _generate_event RESOURCE_EXHAUSTION node ;;; ret tt
        else ret tt))
    (fun o s' e' =>
       o = Return tt
       /\ (pauses e' = pauses e
           /\ exists stress, events s' = events s ++ stress
                /\ Forall (fun ev => e_type ev = "RESOURCE_EXHAUSTION") stress))
    s e.
Proof.
  apply (wp_for_each_ok
           (fun s' e' => pauses e' = pauses e
              /\ exists stress, events s' = events s ++ stress
                   /\ Forall (fun ev => e_type ev = "RESOURCE_EXHAUSTION") stress)).
  - intros node s1 e1 _ (Hp1 & stress & Hev1 & Hall). wp_step. wp_step. wp_step.
    + wp_step. apply wp_generate_event. intros ev s2 e2 Hev2 _ Hty2 _ _ Hp2. wp_step.
      split; [done|]. split; [congruence|]. exists (stress ++ [ev]).
      split; [rewrite Hev2, Hev1; by rewrite <- app_assoc|].
      apply Forall_app. split; [done|]. by repeat constructor.
    + wp_step. split; [done|]. split; [congruence|]. by exists stress.
  - split; [done|]. exists []. split; [by rewrite app_nil_r|constructor].
Qed.

Lemma wp_run_load_test_valid ty d intensity (s : state) (e : Env W) :
  nodes_of_type ty (network_nodes s) ≠ [] ->
  intensity = "low" \/ intensity = "medium" \/ intensity = "high" ->
  0 <= d ->
  wp (run_load_test ty d intensity)
    (fun o s' e' =>
       o = Return true
       /\ pauses e' = pauses e ++ [inject_Z (Z.min d 5)]
       /\ exists start stress completion,
            events s' = events s ++ [start] ++ stress ++ [completion]
            /\ e_type start = "LOAD_TEST"
            /\ e_id start = Z.of_nat (length (events s)) + 1
            /\ e_type completion = "LOAD_TEST_COMPLETED"
            /\ (exists latency throughput error_rate,
                  e_details completion
                  = LoadTestCompletedDetails (e_id start) true 0 latency throughput error_rate)
            /\ Forall (fun ev => e_type ev = "RESOURCE_EXHAUSTION") stress
            /\ (intensity ≠ "high" -> stress = []))
    s e.
Proof.
  intros Hnodes Hvalid Hd. unfold run_load_test. wp_step. wp_step.
  destruct (nodes_of_type ty (network_nodes s)) as [|t0 ts] eqn:Hts; [done|].
  cbv beta iota zeta. wp_step.
  assert (Qle 0 (inject_Z (Z.min d 5))) as Hsleep.
  { unfold Qle. simpl. lia. }
  assert (forall (start : Event) (s1 : state) (e1 : Env W) stress,
    events s1 = events s ++ [start] ++ stress ->
    pauses e1 = pauses e ++ [inject_Z (Z.min d 5)] ->
    e_type start = "LOAD_TEST" ->
    e_id start = Z.of_nat (length (events s)) + 1 ->
    Forall (fun ev => e_type ev = "RESOURCE_EXHAUSTION") stress ->
    (intensity ≠ "high" -> stress = []) ->
    wp (bind get_state (fun s2 =>
          bind now_iso (fun completion_time =>
            bind (ask (random_uniform 10 50)) (fun latency =>
              bind (ask (random_uniform 5 30)) (fun throughput =>
                bind (ask (random_uniform 1 20)) (fun error_rate =>
                  bind (append_event
                          {| e_id := Z.of_nat (length (events s2)) + 1;
                             e_type := "LOAD_TEST_COMPLETED";
                             e_target_node := None; e_target_type := ty;
                             e_target_nodes := Some (map (fun r => n_id r.2) (t0 :: ts));
                             e_timestamp := completion_time;
                             e_details :=
                               LoadTestCompletedDetails (e_id start) true 0
                                 latency throughput error_rate |})
                    (fun _ => ret true)))))))
      (fun o s' e' =>
         o = Return true
         /\ pauses e' = pauses e ++ [inject_Z (Z.min d 5)]
         /\ exists start stress completion,
              events s' = events s ++ [start] ++ stress ++ [completion]
              /\ e_type start = "LOAD_TEST"
              /\ e_id start = Z.of_nat (length (events s)) + 1
              /\ e_type completion = "LOAD_TEST_COMPLETED"
              /\ (exists latency throughput error_rate,
                    e_details completion
                    = LoadTestCompletedDetails (e_id start) true 0
                        latency throughput error_rate)
              /\ Forall (fun ev => e_type ev = "RESOURCE_EXHAUSTION") stress
              /\ (intensity ≠ "high" -> stress = []))
      s1 e1) as Hend.
  { intros start s1 e1 stress Hev1 Hp1 Hty Hid Hall Hnone. repeat wp_step.
    apply wp_append_event. intros s2 Hev2 _. wp_step.
    split; [done|]. split; [congruence|]. eexists start, stress, _.
    split; [rewrite Hev2, Hev1; by rewrite <- !app_assoc|].
    split; [done|]. split; [done|]. split; [done|]. split; [by eexists _, _, _|done]. }
  unfold load_levels.
  destruct Hvalid as [-> | [-> | ->]]; simpl String.eqb; cbv iota; repeat wp_step;
    (apply wp_append_event; intros s1 Hev1 _; wp_step;
     apply wp_sleep; [done|]; wp_step).
  - wp_step. cbv beta iota.
    eapply (Hend _ _ _ []); first [done|by rewrite Hev1|simpl; congruence|constructor].
  - wp_step. cbv beta iota.
    eapply (Hend _ _ _ []); first [done|by rewrite Hev1|simpl; congruence|constructor].
  - eapply wp_mono; [apply wp_stress_nodes|].
    intros o s2 e2 (-> & Hp2 & stress & Hev2 & Hall). cbv beta iota.
    eapply (Hend _ _ _ stress);
      first [done|by rewrite Hev2, Hev1, <- app_assoc|simpl in Hp2; congruence].
Qed.

(** A negative duration is not a valid call: the start event is appended
    and then [time.sleep] raises. *)
Lemma run_load_test_negative_duration ty d intensity (s : state) (e : Env W) :
  nodes_of_type ty (network_nodes s) ≠ [] ->
  intensity = "low" \/ intensity = "medium" \/ intensity = "high" ->
  d < 0 ->
  result (run_load_test ty d intensity) s e = Raise ValueError
  /\ pauses (final_env (run_load_test ty d intensity) s e) = pauses e
  /\ exists start,
       events (final (run_load_test ty d intensity) s e) = events s ++ [start]
       /\ e_type start = "LOAD_TEST"
       /\ e_id start = Z.of_nat (length (events s)) + 1.
Proof.
  intros Hnodes Hvalid Hd.
  assert (Qltb (inject_Z (Z.min d 5)) 0 = true) as Hneg.
  { apply Qltb_lt. unfold Qlt. simpl. lia. }
  change (wp (run_load_test ty d intensity)
            (fun o s' e' => o = Raise ValueError
               /\ pauses e' = pauses e
               /\ exists start, events s' = events s ++ [start]
                    /\ e_type start = "LOAD_TEST"
                    /\ e_id start = Z.of_nat (length (events s)) + 1)
            s e).
  unfold run_load_test. wp_step. wp_step.
  destruct (nodes_of_type ty (network_nodes s)) as [|t0 ts] eqn:Hts; [done|].
  cbv beta iota zeta. wp_step. unfold load_levels.
  destruct Hvalid as [-> | [-> | ->]]; simpl String.eqb; cbv iota; repeat wp_step;
    (apply wp_append_event; intros s1 Hev1 _; wp_step;
     unfold wp, result, final, final_env, sleep; rewrite Hneg; simpl;
     split; [done|]; split; [congruence|];
     eexists; split; [rewrite Hev1; reflexivity|by split]).
Qed.

(** C7: the load test returns false, with the log and everything else as
    before, when no node has the requested type, and also when the
    intensity is none of low, medium and high.  When nodes of the type
    exist, the intensity is one of the three and the duration is not
    negative, it returns true, appends a start event and, last, a completion
    event whose details carry the id of the start event, with only events
    of resource exhaustion in between (none unless the intensity is high),
    and pauses once, for min(duration_seconds, 5).  With a negative
    duration instead, it appends the start event and then raises
    ValueError, from [time.sleep]: it appends no completion event and
    pauses not at all. *)
Theorem load_test_outcomes ty d intensity (s : state) (e : Env W) :
  (nodes_of_type ty (network_nodes s) = [] <-> ty ∉ map n_type (network_nodes s))
  /\ (nodes_of_type ty (network_nodes s) = [] ->
      run_load_test ty d intensity s e = (Return false, s, e))
  /\ (intensity ≠ "low" -> intensity ≠ "medium" -> intensity ≠ "high" ->
      run_load_test ty d intensity s e = (Return false, s, e))
  /\ (nodes_of_type ty (network_nodes s) ≠ [] ->
      intensity = "low" \/ intensity = "medium" \/ intensity = "high" ->
      0 <= d ->
      let s' := final (run_load_test ty d intensity) s e in
      result (run_load_test ty d intensity) s e = Return true
      /\ pauses (final_env (run_load_test ty d intensity) s e)
         = pauses e ++ [inject_Z (Z.min d 5)]
      /\ exists start stress completion,
           events s' = events s ++ [start] ++ stress ++ [completion]
           /\ e_type start = "LOAD_TEST"
           /\ e_id start = Z.of_nat (length (events s)) + 1
           /\ e_type completion = "LOAD_TEST_COMPLETED"
           /\ (exists latency throughput error_rate,
                 e_details completion
                 = LoadTestCompletedDetails (e_id start) true 0
                     latency throughput error_rate)
           /\ Forall (fun ev => e_type ev = "RESOURCE_EXHAUSTION") stress
           /\ (intensity ≠ "high" -> stress = []))
  /\ (nodes_of_type ty (network_nodes s) ≠ [] ->
      intensity = "low" \/ intensity = "medium" \/ intensity = "high" ->
      d < 0 ->
      result (run_load_test ty d intensity) s e = Raise ValueError
      /\ pauses (final_env (run_load_test ty d intensity) s e) = pauses e
      /\ exists start,
           events (final (run_load_test ty d intensity) s e) = events s ++ [start]
           /\ e_type start = "LOAD_TEST"
           /\ e_id start = Z.of_nat (length (events s)) + 1).
Proof.
  split; [apply nodes_of_type_nil|]. split; [apply run_load_test_no_nodes|].
  split; [apply run_load_test_invalid|]. split.
  - intros Hnodes Hvalid Hd.
    exact (wp_run_load_test_valid ty d intensity s e Hnodes Hvalid Hd).
  - intros Hnodes Hvalid Hd.
    exact (run_load_test_negative_duration ty d intensity s e Hnodes Hvalid Hd).
Qed.

(** *** Queries on the log *)

Lemma time_filtered_filter {A} (cutoff : string) (ts : A -> string) (stored : list A) :
  time_filtered cutoff ts stored (filter (fun x => str_ge (ts x) cutoff) stored).
Proof.
  split; [done|]. split; [|apply sublist_filter].
  intros x. rewrite list_elem_of_filter, <- str_ge_lex.
  unfold Is_true. destruct (str_ge (ts x) cutoff); split; intros [? ?]; done.
Qed.

Lemma get_events_time_range event_type node_id delta (s : state) (e : Env W) :
  delta ≠ 0 ->
  get_events event_type node_id (Some delta) s e =
    match select_events event_type node_id (events s) with
    | Raise x => (Raise x, s, e)
    | Return candidates =>
        (match datetime_sub (datetime_now (world e)).1 delta with
         | Some cutoff =>
             Return (filter (fun ev => str_ge (e_timestamp ev) (isoformat cutoff))
                       candidates)
         | None => Raise OverflowError
         end,
         s, {| world := (datetime_now (world e)).2; pauses := pauses e |})
    end.
Proof.
  intros Hd%Z.eqb_neq. unfold get_events, bind at 1, get_state.
  destruct (select_events _ _ _); [|done]. rewrite Hd.
  unfold bind, ask, ret, raise. by destruct (datetime_sub _ _).
Qed.
End EventFacts.

(** ** Queries on the KPI windows *)

Section KPIQueries.
Context {W : Type} `{!Oracle W}.
Import KPI.

Lemma length_readings n (w : W) : length (readings n w) = n.
Proof. revert w. induction n as [|n IH]; intros w; simpl; [done|]. by rewrite IH. Qed.

Lemma readings_add a b (w : W) :
  readings (a + b) w = readings a w ++ readings b (after_readings a w).
Proof. revert w. induction a as [|a IH]; intros w; simpl; [done|]. by rewrite IH. Qed.

Lemma cutoffs_app seconds l1 l2 :
  cutoffs seconds (l1 ++ l2)
  = match cutoffs seconds l1, cutoffs seconds l2 with
    | Some c1, Some c2 => Some (c1 ++ c2)
    | _, _ => None
    end.
Proof.
  induction l1 as [|now l1 IH]; simpl.
  - by destruct (cutoffs seconds l2).
  - rewrite IH. destruct (cutoff seconds now); [|done].
    destruct (cutoffs seconds l1); [|done]. by destruct (cutoffs seconds l2).
Qed.

Lemma length_cutoffs seconds nows cs :
  cutoffs seconds nows = Some cs -> length cs = length nows.
Proof.
  revert cs. induction nows as [|now nows IH]; intros cs; simpl.
  - by intros [= <-].
  - destruct (cutoff seconds now); [|done]. destruct (cutoffs seconds nows); [|done].
    intros [= <-]. simpl. by rewrite (IH _ eq_refl).
Qed.

(** The time-range branch on one window: the clock is read, and the window
    is cut at the cutoff, if there is one. *)
Lemma filter_window_cut seconds data_points (s : state) (e : Env W) :
  seconds ≠ 0 ->
  filter_window (Some seconds) data_points s e
  = (match cutoff seconds (datetime_now (world e)).1 with
     | Some c => Return (filter (fun dp => str_ge (timestamp dp) c) data_points)
     | None => Raise OverflowError
     end, s, {| world := (datetime_now (world e)).2; pauses := pauses e |}).
Proof.
  intros Hsec%Z.eqb_neq. unfold filter_window, cutoff. rewrite Hsec.
  unfold bind, ask, ret, raise. destruct (timedelta_seconds seconds); [|done].
  by destruct (datetime_sub _ _).
Qed.

Lemma nodup_keys_skip {A B} (acc : list (string * A)) n (items : list (string * B)) :
  NoDup (Dict.keys acc ++ n :: Dict.keys items) ->
  NoDup (Dict.keys acc ++ Dict.keys items) /\ Dict.get n acc = None.
Proof.
  intros (Hacc & Hdis & [Hn Hitems]%NoDup_cons)%NoDup_app. split.
  - apply NoDup_app. split; [done|]. split; [|done].
    intros x Hx Hin. apply (Hdis x Hx). by apply list_elem_of_further.
  - apply dict_get_None. intros Hin. apply (Hdis n Hin). apply list_elem_of_here.
Qed.

(** The inner loop of the query with a time range: one reading of the
    clock for each window, OverflowError at the first reading without a
    cutoff, and otherwise the windows cut, each at its own cutoff. *)
Lemma collect_windows_cut seconds items node_id acc (s : state) (e : Env W) :
  seconds ≠ 0 ->
  NoDup (Dict.keys acc ++ Dict.keys items) ->
  exists e',
    collect_windows (Some seconds) items node_id acc s e
    = (match cutoffs seconds (readings (length items) (world e)) with
       | Some cs =>
           Return (match last items with Some w => Some w.1 | None => node_id end,
                   acc ++ cut_windows cs items)
       | None => Raise OverflowError
       end, s, e')
    /\ (forall cs, cutoffs seconds (readings (length items) (world e)) = Some cs ->
        world e' = after_readings (length items) (world e)).
Proof.
  intros Hsec. revert node_id acc e.
  induction items as [|[n dps] items IH]; intros node_id acc e Hnd.
  - exists e. simpl. by rewrite app_nil_r.
  - cbn [collect_windows]. unfold bind at 1. rewrite filter_window_cut by done.
    cbn [length readings cutoffs after_readings].
    destruct (cutoff seconds (datetime_now (world e)).1) as [c|] eqn:Hc.
    2:{ eexists. split; [done|]. by intros cs. }
    unfold Dict.keys in Hnd. rewrite fmap_cons in Hnd. cbn [fst] in Hnd.
    destruct (nodup_keys_skip _ _ _ Hnd) as [Hskip Hn].
    destruct (IH (Some n)
                (match filter (fun dp => str_ge (timestamp dp) c) dps with
                 | [] => acc
                 | _ => Dict.set n (filter (fun dp => str_ge (timestamp dp) c) dps) acc
                 end)
                {| world := (datetime_now (world e)).2; pauses := pauses e |})
      as (e' & Heq & Hw).
    { destruct (filter _ dps); [done|]. rewrite dict_set_new by done.
      unfold Dict.keys. by rewrite fmap_app, <- app_assoc. }
    exists e'. cbn [world] in Heq, Hw. rewrite Heq. split.
    + destruct (cutoffs seconds _) as [cs|]; [|done].
      rewrite last_cons. cbn [cut_windows].
      destruct (last items); (destruct (filter _ dps) eqn:Hkept; [done|]);
        rewrite dict_set_new by done; by rewrite <- app_assoc.
    + intros cs Hcs. destruct (cutoffs seconds _) as [cs'|]; [|done]. by apply (Hw cs').
Qed.

Lemma length_visited_cons (k : string) (windows : list (string * list Sample))
    (v : list (string * list (string * list Sample))) :
  length (concat ((k, windows) :: v).*2) = (length windows + length (concat v.*2))%nat.
Proof. by rewrite fmap_cons, concat_cons, length_app. Qed.

Lemma cut_kpis_cons c1 c2 (k : string) (windows : list (string * list Sample)) v :
  length c1 = length windows ->
  cut_kpis (c1 ++ c2) ((k, windows) :: v) = (k, cut_windows c1 windows) :: cut_kpis c2 v.
Proof.
  intros Hlen. cbn [cut_kpis]. by rewrite <- Hlen, take_app_length, drop_app_length.
Qed.

(** The outer loop of the query with a time range, over KPIs not yet in
    the result. *)
Lemma collect_kpis_cut seconds items node_id res (s : state) (e : Env W) :
  seconds ≠ 0 ->
  NoDup (Dict.keys res ++ Dict.keys items) ->
  Forall (fun kv => Dict.wf kv.2) items ->
  exists e',
    collect_kpis (Some seconds) items node_id res s e
    = (match cutoffs seconds
               (readings (length (concat (visited_from items node_id).*2)) (world e)) with
       | Some cs => Return (res ++ cut_kpis cs (visited_from items node_id))
       | None => Raise OverflowError
       end, s, e').
Proof.
  intros Hsec. revert node_id res e.
  induction items as [|[k nd] items IH]; intros node_id res e Hnd Hwf.
  - exists e. simpl. by rewrite app_nil_r.
  - apply Forall_cons in Hwf as [Hwfnd Hwf]. cbn [snd] in Hwfnd.
    unfold Dict.keys in Hnd. rewrite fmap_cons in Hnd. cbn [fst] in Hnd.
    destruct (nodup_keys_skip _ _ _ Hnd) as [Hskip Hk].
    cbn [collect_kpis visited_from].
    set (windows := if truthy_str node_id
                    then match Dict.get (default EmptyString node_id) nd with
                         | Some data_points => [(default EmptyString node_id, data_points)]
                         | None => []
                         end
                    else nd).
    assert (NoDup (Dict.keys (@nil (string * list Sample)) ++ Dict.keys windows)) as Hwin.
    { unfold windows. destruct (truthy_str node_id); [|done].
      destruct (Dict.get _ nd); [apply NoDup_singleton|apply NoDup_nil_2]. }
    destruct (collect_windows_cut seconds windows node_id [] s e Hsec Hwin)
      as (e1 & Heq1 & Hw1).
    rewrite length_visited_cons, readings_add, cutoffs_app.
    assert (collect_kpis (Some seconds) ((k, nd) :: items) node_id res s e
            = bind (collect_windows (Some seconds) windows node_id [])
                (fun r => collect_kpis (Some seconds) items r.1
                            (Dict.set k r.2 (Dict.set k [] res))) s e) as Hstep.
    { cbn [collect_kpis]. unfold windows. destruct (truthy_str node_id); [|done].
      destruct (Dict.get _ nd); [done|].
      unfold bind. cbn [collect_windows ret]. by rewrite dict_set_set. }
    cbn [collect_kpis] in Hstep. rewrite Hstep. unfold bind at 1. rewrite Heq1.
    destruct (cutoffs seconds (readings (length windows) (world e))) as [c1|] eqn:Hc1.
    2:{ by exists e1. }
    cbn [fst snd app]. rewrite dict_set_set, dict_set_new by done.
    destruct (IH (match last windows with Some w => Some w.1 | None => node_id end)
                (res ++ [(k, cut_windows c1 windows)]) e1) as (e' & Heq); [|done|].
    { unfold Dict.keys. by rewrite fmap_app, <- app_assoc. }
    exists e'. rewrite Heq, (Hw1 c1 eq_refl).
    match goal with
    | |- context [cutoffs seconds ?l] => destruct (cutoffs seconds l) as [c2|]
    end; [|done].
    rewrite cut_kpis_cons by (rewrite (length_cutoffs _ _ _ Hc1); apply length_readings).
    by rewrite <- app_assoc.
Qed.

(** The query with a time range. *)
Lemma get_kpi_data_cut kpi_id node_id seconds (s : state) (e : Env W) :
  seconds ≠ 0 ->
  Dict.wf (kpi_data s) ->
  Forall (fun kv => Dict.wf kv.2) (kpi_data s) ->
  final (get_kpi_data kpi_id node_id (Some seconds)) s e = s
  /\ result (get_kpi_data kpi_id node_id (Some seconds)) s e
     = match cutoffs seconds
               (readings (length (concat (visited kpi_id node_id s).*2)) (world e)) with
       | Some cs => Return (cut_kpis cs (visited kpi_id node_id s))
       | None => Raise OverflowError
       end.
Proof.
  intros Hsec Hwf Hall. unfold final, result, get_kpi_data, visited, bind, get_state.
  cbv beta iota. destruct (truthy_str kpi_id).
  - destruct (Dict.get _ _) as [nd|] eqn:Hget; [|done].
    destruct (collect_kpis_cut seconds [(default EmptyString kpi_id, nd)] node_id [] s e)
      as (e' & Heq); [done|apply NoDup_singleton| |].
    + constructor; [|constructor]. rewrite Forall_forall in Hall.
      apply (Hall (_, nd)). by apply dict_get_elem.
    + rewrite Heq. by destruct (cutoffs _ _).
  - destruct (collect_kpis_cut seconds (kpi_data s) node_id [] s e) as (e' & Heq);
      [done|done|done|].
    rewrite Heq. by destruct (cutoffs _ _).
Qed.

(** The records that a cut leaves of the windows: each window that is left
    has the node of a window cut, at the same position as its cutoff, and
    holds what the time-range filter keeps of it. *)
Lemma cut_windows_spec cs (windows : list (string * list Sample)) n kept :
  (n, kept) ∈ cut_windows cs windows
  <-> kept ≠ []
      /\ exists i stored c,
           windows !! i = Some (n, stored) /\ cs !! i = Some c
           /\ time_filtered c timestamp stored kept.
Proof.
  revert cs. induction windows as [|[n0 dps] windows IH]; intros cs.
  - simpl. split; [by intros ?%elem_of_nil|]. by intros (_ & i & stored & c & ? & _).
  - destruct cs as [|c0 cs].
    { simpl. split; [by intros ?%elem_of_nil|]. by intros (_ & i & stored & c & _ & ? & _). }
    cbn [cut_windows].
    assert ((n, kept) ∈ cut_windows cs windows
            <-> kept ≠ [] /\ exists i stored c,
                  ((n0, dps) :: windows) !! Datatypes.S i = Some (n, stored)
                  /\ (c0 :: cs) !! Datatypes.S i = Some c
                  /\ time_filtered c timestamp stored kept) as Hrest by apply IH.
    transitivity (n = n0 /\ kept = filter (fun dp => str_ge (timestamp dp) c0) dps
                  /\ kept ≠ [] \/ (n, kept) ∈ cut_windows cs windows).
    { destruct (filter _ dps) as [|dp l] eqn:Hf.
      - split; [by right|]. by intros [(_ & -> & ?)|?].
      - rewrite elem_of_cons. split.
        + intros [[= -> ->]|?]; [by left|by right].
        + intros [(-> & -> & _)|?]; [by left|by right]. }
    rewrite Hrest. split.
    + intros [(-> & Hk & Hne)|(Hne & i & stored & c & H1 & H2 & H3)].
      * split; [done|]. exists 0%nat, dps, c0. split; [done|]. split; [done|].
        rewrite Hk. apply time_filtered_filter.
      * split; [done|]. by exists (Datatypes.S i), stored, c.
    + intros (Hne & [|i] & stored & c & H1 & H2 & H3).
      * left. simpl in H1, H2. injection H1 as -> ->. injection H2 as ->.
        split; [done|]. split; [apply H3|done].
      * right. split; [done|]. by exists i, stored, c.
Qed.
End KPIQueries.

(** ** Across the modules *)

Section PlatformFacts.
Context {W : Type} `{!Oracle W}.

(** C1: identifiers only grow.  After any history of a new alarm store the
    alarm ids, in the order of creation, increase strictly; a creation
    returns an id above every id in the store, which holds every id ever
    assigned since no call removes one, cleared or not; a clear leaves ids
    and counter alone.  After any history of a new event simulator the ids
    of the log are 1, 2, 3, ..., whichever of the scenario, random-event,
    load-test and failover paths appended the events, and a further call
    keeps the log as a prefix of the new log, whose ids still increase
    strictly. *)
Theorem identifier_monotonicity (alarm_ops : list OAM.op) (event_ops : list Event.op)
    (e : Env W) :
  (let s := final (OAM.run alarm_ops) OAM.init e in
   StronglySorted Z.lt (Dict.keys (OAM.alarms s))
   /\ Forall (fun kv => OAM.a_id kv.2 = kv.1) (OAM.alarms s)
   /\ (forall node_id ty sev desc e',
         let s' := final (OAM._create_alarm node_id ty sev desc) s e' in
         exists alarm_id,
           result (OAM._create_alarm node_id ty sev desc) s e' = Return alarm_id
           /\ Forall (fun k => k < alarm_id) (Dict.keys (OAM.alarms s))
           /\ Dict.keys (OAM.alarms s') = Dict.keys (OAM.alarms s) ++ [alarm_id]
           /\ OAM.a_id <$> Dict.get alarm_id (OAM.alarms s') = Some alarm_id)
   /\ (forall alarm_id e',
         let s' := final (OAM._clear_alarm alarm_id) s e' in
         Dict.keys (OAM.alarms s') = Dict.keys (OAM.alarms s)
         /\ OAM.alarm_id_counter s' = OAM.alarm_id_counter s)
   /\ (forall o e',
         Dict.keys (OAM.alarms s)
         `prefix_of` Dict.keys (OAM.alarms (final (OAM.perform o) s e'))))
  /\ (let s := final (Event.run event_ops) Event.init e in
      map Event.e_id (Event.events s) = map Z.of_nat (seq 1 (length (Event.events s)))
      /\ StronglySorted Z.lt (map Event.e_id (Event.events s))
      /\ (forall o e',
            let s' := final (Event.perform o) s e' in
            Event.events s `prefix_of` Event.events s'
            /\ StronglySorted Z.lt (map Event.e_id (Event.events s')))).
Proof. split; [apply alarm_ids_increase|apply event_ids_increase]. Qed.

(** C8: a query with a time range, on a store with distinct keys.  The
    event query reads the clock once and cuts the events that its other
    filters select; the KPI query reads the clock once for every window it
    looks at, in order, and cuts each window at its own cutoff.  A cut
    keeps exactly the records whose timestamp string is lexicographically
    at or above the cutoff string, in the stored order, and a window left
    empty is not returned.  The cutoff is the ISO string of the clock
    reading less the range; when that is no [datetime], or the range no
    [timedelta], the query raises OverflowError instead. *)
Theorem time_range_filter (sk : KPI.state) (se : Event.state) (e : Env W)
    (kpi_id node_id : option string) (seconds : Z)
    (event_type : option Event.EventType) (target : option string) (delta : Z) :
  seconds ≠ 0 -> delta ≠ 0 ->
  Dict.wf (KPI.kpi_data sk) ->
  Forall (fun kv => Dict.wf kv.2) (KPI.kpi_data sk) ->
  (let q := KPI.get_kpi_data kpi_id node_id (Some seconds) in
   let v := KPI.visited kpi_id node_id sk in
   final q sk e = sk
   /\ result q sk e
      = match KPI.cutoffs seconds (readings (length (concat v.*2)) (world e)) with
        | Some cs => Return (KPI.cut_kpis cs v)
        | None => Raise OverflowError
        end
   /\ forall cs windows n kept,
        (n, kept) ∈ KPI.cut_windows cs windows
        <-> kept ≠ []
            /\ exists i stored c,
                 windows !! i = Some (n, stored) /\ cs !! i = Some c
                 /\ time_filtered c KPI.timestamp stored kept)
  /\ (let q := Event.get_events event_type target (Some delta) in
      final q se e = se
      /\ match Event.select_events event_type target (Event.events se) with
         | Raise x => result q se e = Raise x
         | Return candidates =>
             match datetime_sub (datetime_now (world e)).1 delta with
             | Some cutoff =>
                 exists kept,
                   result q se e = Return kept
                   /\ time_filtered (isoformat cutoff) Event.e_timestamp candidates kept
             | None => result q se e = Raise OverflowError
             end
         end)
  /\ Event.select_events None None (Event.events se) = Return (Event.events se).
Proof.
  intros Hsec Hdelta Hwf Hall. split; [|split; [|done]].
  - destruct (get_kpi_data_cut kpi_id node_id seconds sk e Hsec Hwf Hall) as [Hs Hres].
    split; [done|]. split; [done|]. apply cut_windows_spec.
  - unfold final, result. rewrite get_events_time_range by done.
    destruct (Event.select_events _ _ _) as [candidates|x]; [|done].
    split; [done|]. destruct (datetime_sub _ _) as [cutoff|]; [|done].
    eexists. split; [done|]. apply time_filtered_filter.
Qed.

Lemma last_deque_append x d : last (KPI.deque_append x d) = Some x.
Proof.
  unfold KPI.deque_append. destruct (Nat.ltb_spec KPI.maxlen (length (d ++ [x]))) as [Hlt|_].
  - destruct d as [|y d]; [simpl in Hlt; unfold KPI.maxlen in Hlt; lia|].
    simpl. apply last_snoc.
  - apply last_snoc.
Qed.

Lemma initial_nodes_active node : node ∈ initial_nodes -> n_status node = "active".
Proof.
  assert (Forall (fun n => n_status n = "active") initial_nodes) as Hall
    by (repeat constructor).
  rewrite Forall_forall in Hall. apply Hall.
Qed.

(** C9: every module has a node list of its own.  A round of fault
    generation in the OA&M module changes nothing in the KPI module nor in
    the event simulator; the availability sample that the KPI collector
    appends for a node is 100 when the status of the node it was given is
    active and 0 otherwise; and since the collector is given the nodes of
    the KPI module's list, which faults generated in the OA&M module never
    touch, the sample is 100 after any history of the alarm store. *)
Theorem independent_node_lists (p : Platform.state) (e e' : Env W) (node : Node) :
  let p1 := final (Platform.on_oam OAM.fault_generation_tick) p e in
  Platform.kpi p1 = Platform.kpi p
  /\ Platform.event p1 = Platform.event p
  /\ (KPI.complete (Platform.kpi p) ->
      let p2 := final (Platform.on_kpi (KPI._collect_node_kpis node)) p1 e' in
      result (Platform.on_kpi (KPI._collect_node_kpis node)) p1 e' = Return tt
      /\ Platform.oam p2 = Platform.oam p1
      /\ last (KPI.window "node_availability" (n_id node) (Platform.kpi p2))
         = Some {| KPI.timestamp := isoformat (datetime_now (world e')).1;
                   KPI.value := if String.eqb (n_status node) "active"
                                then 100%Q else 0%Q |})
  /\ (forall ops e0 e1 node0,
        let q := final (Platform.on_oam (OAM.run ops)) Platform.init e0 in
        node0 ∈ KPI.network_nodes (Platform.kpi q) ->
        KPI.value <$> last (KPI.window "node_availability" (n_id node0)
                              (Platform.kpi
                                 (final (Platform.on_kpi (KPI._collect_node_kpis node0)) q e1)))
        = Some 100%Q).
Proof.
  intros p1. split; [done|]. split; [done|].
  assert (forall (k : KPI.state) (e1 : Env W) n,
    KPI.complete k ->
    result (KPI._collect_node_kpis n) k e1 = Return tt
    /\ last (KPI.window "node_availability" (n_id n)
               (final (KPI._collect_node_kpis n) k e1))
       = Some {| KPI.timestamp := isoformat (datetime_now (world e1)).1;
                 KPI.value := if String.eqb (n_status n) "active" then 100%Q else 0%Q |})
    as Hcollect.
  { intros k e1 n Hc.
    apply (wp_collect_node_kpis n
      (fun o s' _ => o = Return tt
         /\ last (KPI.window "node_availability" (n_id n) s') = Some _)); [done|].
    intros s' e2 (_ & _ & _ & Hw) _. split; [done|]. rewrite Hw. apply last_deque_append. }
  split.
  - intros Hc p2. destruct (Hcollect (Platform.kpi p) e' node Hc) as [Hres Hlast].
    split; [exact Hres|]. split; [done|]. exact Hlast.
  - intros ops e0 e1 node0 q Hin.
    destruct (Hcollect KPI.init e1 node0 complete_init) as [_ Hlast].
    change (Platform.kpi (final (Platform.on_kpi (KPI._collect_node_kpis node0)) q e1))
      with (final (KPI._collect_node_kpis node0) KPI.init e1).
    rewrite Hlast. simpl. by rewrite (initial_nodes_active node0 Hin).
Qed.
End PlatformFacts.

(** ** Further lemmas on dictionaries and loops *)

Section WPExact.
Context {W : Type} `{!Oracle W} {S : Type}.

(** A draw, with the oracle's state it leaves. *)
Lemma wp_ask_exact {A} (f : W -> A * W) (Q : outcome A -> S -> Env W -> Prop) s e :
  Q (Return (f (world e)).1) s {| world := (f (world e)).2; pauses := pauses e |} ->
  wp (ask f) Q s e.
Proof. done. Qed.

(** A loop over the items that pass a test is the loop over all items that
    skips the others. *)
Lemma for_each_filter {A} (test : A -> bool) (body : A -> M W S unit) (l : list A) s e :
  for_each l (fun x => if test x then body x else ret tt) s e
  = for_each (filter (fun x => test x = true) l) body s e.
Proof.
  revert s e. induction l as [|x l IH]; intros s e; [done|].
  rewrite filter_cons. simpl. destruct (test x) eqn:Hx.
  - rewrite decide_True by done. simpl. unfold bind.
    destruct (body x s e) as [[[[]|err] s'] e']; [apply IH|done].
  - rewrite decide_False by done. unfold bind, ret at 1. apply IH.
Qed.
(** A loop whose rounds all return, with a count of the rounds. *)
Lemma wp_for_each_count {A} (J : nat -> S -> Env W -> Prop) (l : list A)
    (body : A -> M W S unit) (s : S) (e : Env W) :
  (forall k x s e, x ∈ l -> J k s e ->
     wp (body x) (fun o s' e' => o = Return tt /\ J (Datatypes.S k) s' e') s e) ->
  J 0%nat s e ->
  wp (for_each l body) (fun o s' e' => o = Return tt /\ J (length l) s' e') s e.
Proof.
  intros Hbody.
  cut (forall k0 s e, J k0 s e ->
         wp (for_each l body)
           (fun o s' e' => o = Return tt /\ J (k0 + length l)%nat s' e') s e).
  { intros Hall. apply (Hall 0%nat). }
  induction l as [|x l IH]; intros k0 s1 e1 HJ; simpl.
  - apply wp_ret. by rewrite Nat.add_0_r.
  - apply wp_bind. eapply wp_mono; [apply Hbody; [apply list_elem_of_here|exact HJ]|].
    intros o s2 e2 [-> HJ2]. simpl.
    eapply wp_mono.
    + apply (IH (fun k x s e Hx => Hbody k x s e (list_elem_of_further _ _ _ Hx)) (Datatypes.S k0)).
      exact HJ2.
    + intros o s3 e3 [-> HJ3]. split; [done|].
      by replace (k0 + Datatypes.S (length l))%nat with (Datatypes.S k0 + length l)%nat by lia.
Qed.

(** A choice raises on an empty list and otherwise returns one of the
    items. *)
Lemma wp_choice_elem {A} (l : list A) (Q : outcome A -> S -> Env W -> Prop) s e :
  (l = [] -> Q (Raise IndexError) s e) ->
  (forall a e', a ∈ l -> pauses e' = pauses e -> Q (Return a) s e') ->
  wp (choice l) Q s e.
Proof.
  intros Hnil Hin. destruct l as [|x l]; [by apply Hnil|].
  apply wp_choice; [done|]. intros a e' Ha Hp _. by apply Hin.
Qed.
End WPExact.

(** ** The health check and the log scan of the alarm store *)

Section OAMLoopFacts.
Context {W : Type} `{!Oracle W}.
Variable format_1f : Q -> string.
Import OAM.

Lemma ids_from_app c n m :
  ids_from c (n + m) = ids_from c n ++ ids_from (c + Z.of_nat n) m.
Proof.
  unfold ids_from. rewrite seq_app, fmap_app. f_equal. simpl.
  replace (seq n m) with (seq (n + 0) m) by (f_equal; lia).
  rewrite <- (fmap_add_seq n 0 m), <- list_fmap_compose.
  apply list_fmap_ext. intros _ i _. simpl. lia.
Qed.

Lemma length_ids_from c n : length (ids_from c n) = n.
Proof. unfold ids_from. by rewrite length_fmap, length_seq. Qed.

Lemma raised_refl (s : state) : raised s s [].
Proof.
  unfold raised. rewrite app_nil_r. simpl. repeat split; [constructor|lia].
Qed.

(** A creation in a store whose ids lie below the counter adds its alarm
    after the others. *)
Lemma wp_create_alarm_raised s0 new node_id ty sev desc (s : state) (e : Env W) :
  store_ok s -> raised s0 s new ->
  wp (_create_alarm node_id ty sev desc)
    (fun o s' e' =>
       o = Return (alarm_id_counter s) /\ store_ok s'
       /\ exists kv, raised s0 s' (new ++ [kv])
            /\ kv.1 = alarm_id_counter s
            /\ alarm_content kv = (node_id, type_name ty, severity_name sev, desc)
            /\ pauses e' = pauses e) s e.
Proof.
  intros Hok (Hal & Hkeys & Hnew & Hc & Hn & Hr).
  pose proof (create_alarm_fresh s Hok) as Hfresh.
  destruct (store_ok_create node_id ty sev desc s e Hok) as (Hok' & _ & _).
  unfold wp, result, final, final_env in *. rewrite create_alarm_run in *. simpl.
  split; [done|]. split; [done|].
  exists (alarm_id_counter s,
          {| a_id := alarm_id_counter s; a_node_id := node_id; a_type := type_name ty;
             a_severity := severity_name sev; a_description := desc;
             a_raised_time := isoformat (datetime_now (world e)).1;
             a_status := "active"; a_cleared_time := None |}).
  split; [|done].
  unfold raised; simpl. rewrite (dict_set_new _ _ _ Hfresh), Hal, <- app_assoc.
  split; [done|]. split; [|split; [|split; [|done]]].
  - unfold Dict.keys in *. rewrite fmap_app, length_app, ids_from_app, Hkeys. simpl.
    unfold ids_from. simpl. do 3 f_equal. lia.
  - apply Forall_app. split; [done|]. by repeat constructor.
  - rewrite length_app. simpl. lia.
Qed.

Lemma wp_create_if (b : bool) s0 new node_id ty sev desc (s : state) (e : Env W) :
  store_ok s -> raised s0 s new ->
  wp (if b then bind (_create_alarm node_id ty sev desc) (fun _ => ret tt) else ret tt)
    (fun o s' e' =>
       o = Return tt /\ store_ok s'
       /\ exists new', raised s0 s' (new ++ new')
            /\ map alarm_content new'
               = (if b then [(node_id, type_name ty, severity_name sev, desc)] else [])
            /\ pauses e' = pauses e) s e.
Proof.
  intros Hok Hr. destruct b.
  - apply wp_bind. eapply wp_mono; [by apply wp_create_alarm_raised|].
    intros o s' e' (-> & Hok' & kv & Hr' & _ & Hc & Hp). apply wp_ret.
    split; [done|]. split; [done|]. exists [kv]. simpl. by rewrite Hc.
  - apply wp_ret. split; [done|]. split; [done|]. exists []. by rewrite app_nil_r.
Qed.

(** A loop that raises one alarm for each item that passes a test. *)
Lemma wp_create_each {A} (l : list A) (test : A -> bool)
    (node_of : A -> string) (ty_of : A -> AlarmType) (sev_of : A -> AlarmSeverity)
    (desc_of : A -> string) s0 new (s : state) (e : Env W) :
  store_ok s -> raised s0 s new ->
  wp (for_each l (fun x =>
        if test x
        then bind (_create_alarm (node_of x) (ty_of x) (sev_of x) (desc_of x)) (fun _ => ret tt)
        else ret tt))
    (fun o s' e' =>
       o = Return tt /\ store_ok s'
       /\ exists new', raised s0 s' (new ++ new')
            /\ map alarm_content new'
               = map (fun x => (node_of x, type_name (ty_of x), severity_name (sev_of x),
                                desc_of x))
                   (filter (fun x => test x = true) l)
            /\ pauses e' = pauses e) s e.
Proof.
  revert new s e. induction l as [|x l IH]; intros new s e Hok Hr.
  - apply wp_ret. split; [done|]. split; [done|]. exists []. by rewrite app_nil_r.
  - cbn [for_each]. apply wp_bind. eapply wp_mono; [by apply wp_create_if|].
    intros o s1 e1 (-> & Hok1 & new1 & Hr1 & Hc1 & Hp1).
    eapply wp_mono; [by apply IH|].
    intros o s2 e2 (-> & Hok2 & new2 & Hr2 & Hc2 & Hp2).
    split; [done|]. split; [done|]. exists (new1 ++ new2).
    rewrite app_assoc. split; [done|]. split; [|congruence].
    rewrite map_app, Hc1, Hc2, filter_cons.
    destruct (test x) eqn:Hx; [by rewrite decide_True|by rewrite decide_False].
Qed.

(** The health check of one node, after the alarms [new0] were raised. *)
Lemma wp_check_node_health s0 new0 node (s : state) (e : Env W) :
  store_ok s -> raised s0 s new0 ->
  let cpu := random_uniform 10 95 (world e) in
  let memory := random_uniform 20 90 cpu.2 in
  let disk := random_uniform 30 85 memory.2 in
  wp (check_node_health format_1f node)
    (fun o s' e' =>
       o = Return tt /\ store_ok s'
       /\ exists new, raised s0 s' (new0 ++ new)
            /\ map alarm_content new
               = map (fun f => (n_id node, type_name f.1.1, severity_name f.1.2, f.2))
                   (health_findings format_1f cpu.1 memory.1 disk.1)) s e.
Proof.
  intros Hok Hr cpu memory disk. unfold check_node_health.
  apply wp_bind, wp_ask_exact; fold cpu; cbv beta iota.
  apply wp_bind, wp_ask_exact; simpl world; fold memory; cbv beta iota.
  apply wp_bind, wp_ask_exact; simpl world; fold disk; cbv beta iota.
  apply wp_bind; eapply wp_mono; [apply wp_create_if; [exact Hok|exact Hr]|].
  intros o s1 e1 (-> & Hok1 & new1 & Hr1 & Hc1 & _).
  apply wp_bind; eapply wp_mono; [apply wp_create_if; [exact Hok1|exact Hr1]|].
  intros o s2 e2 (-> & Hok2 & new2 & Hr2 & Hc2 & _).
  eapply wp_mono; [apply wp_create_if; [exact Hok2|exact Hr2]|].
  intros o s3 e3 (-> & Hok3 & new3 & Hr3 & Hc3 & _).
  split; [done|]. split; [done|]. exists (new1 ++ new2 ++ new3).
  rewrite <- !app_assoc in Hr3. split; [exact Hr3|].
  rewrite !map_app, Hc1, Hc2, Hc3. unfold health_findings.
  by destruct (Qgtb cpu.1 90), (Qgtb memory.1 85), (Qgtb disk.1 80).
Qed.

(** X1: the health check of one node, in a store whose ids lie below the
    counter, draws the CPU, memory and disk readings in this order and
    returns; it raises one alarm for each reading above its threshold (90,
    85, 80; a reading equal to the threshold raises none), in the order CPU,
    memory, disk, for the node checked; the alarms are active, follow the
    alarms of the store and take the next ids; nothing else changes. *)
Theorem health_check_raises_per_threshold node (s : state) (e : Env W) :
  store_ok s ->
  let cpu := random_uniform 10 95 (world e) in
  let memory := random_uniform 20 90 cpu.2 in
  let disk := random_uniform 30 85 memory.2 in
  let findings := health_findings format_1f cpu.1 memory.1 disk.1 in
  let m := check_node_health format_1f node in
  result m s e = Return tt
  /\ (findings = [] <-> Qle cpu.1 90 /\ Qle memory.1 85 /\ Qle disk.1 80)
  /\ store_ok (final m s e)
  /\ exists new,
       raised s (final m s e) new
       /\ map alarm_content new
          = map (fun f => (n_id node, type_name f.1.1, severity_name f.1.2, f.2)) findings.
Proof.
  intros Hok cpu memory disk findings m.
  destruct (wp_check_node_health s [] node s e Hok (raised_refl s))
    as (Hres & Hok' & Hnew).
  split; [exact Hres|]. split; [|split; [exact Hok'|exact Hnew]].
  unfold findings, health_findings, Qgtb. rewrite <- !Qltb_ge.
  destruct (Qltb 90 cpu.1), (Qltb 85 memory.1), (Qltb 80 disk.1); simpl;
    split; try done; intros (? & ? & ?); done.
Qed.

Lemma matching_patterns_log_types message :
  message ∈ log_types -> (length (matching_patterns message) <= 1)%nat.
Proof.
  unfold log_types. intros Hm.
  repeat (apply elem_of_cons in Hm as [->|Hm]; [vm_compute; lia|]).
  by apply elem_of_nil in Hm.
Qed.

Lemma log_types_nonempty : log_types ≠ [].
Proof. done. Qed.

(** The scan of one log line, after the alarms [new0] were raised. *)
Lemma wp_scan_log_line s0 new0 (s : state) (e : Env W) :
  store_ok s -> raised s0 s new0 -> network_nodes s ≠ [] ->
  wp scan_log_line
    (fun o s' e' =>
       o = Return tt /\ store_ok s'
       /\ exists node message new,
            node ∈ network_nodes s /\ message ∈ log_types
            /\ raised s0 s' (new0 ++ new)
            /\ map alarm_content new
               = map (fun p => (n_id node, type_name p.1.2, severity_name p.2,
                                "Log pattern match: " +:+ p.1.1))
                   (matching_patterns message)
            /\ (length new <= 1)%nat) s e.
Proof.
  intros Hok Hr0 Hnodes.
  unfold scan_log_line. wp_step. wp_step. apply wp_bind, wp_choice; [done|].
  intros node e1 Hnode _ _. cbv beta iota.
  unfold _generate_mock_log. wp_step. wp_step. wp_step.
  apply wp_bind, wp_choice; [exact log_types_nonempty|].
  intros message e3 Hmessage _ _. cbv beta iota. wp_step.
  unfold match_log_entry. simpl l_message.
  eapply wp_mono.
  { apply (wp_create_each log_patterns
             (fun p => contains p.1.1 (lower message))
             (fun _ => n_id node) (fun p => p.1.2) (fun p => p.2)
             (fun p => "Log pattern match: " +:+ p.1.1) s0 new0);
      [exact Hok|exact Hr0]. }
  intros o s' e4 (-> & Hok' & new & Hr & Hc & _).
  split; [done|]. split; [done|]. exists node, message, new.
  split; [done|]. split; [done|]. split; [exact Hr|]. split; [exact Hc|].
  apply (f_equal length) in Hc. rewrite !length_map in Hc. rewrite Hc.
  by apply matching_patterns_log_types.
Qed.

(** X2: the scan of one log line raises IndexError, and changes nothing,
    when there is no node; otherwise it returns, having chosen a node of the
    list and a message of the mock log, and has raised one alarm for each
    pattern of the table that occurs in the message in lower case, on the
    chosen node, with the type and severity of the pattern; since no mock
    message holds two patterns, that is at most one alarm; nothing else
    changes. *)
Theorem log_line_raises_at_most_one_alarm (s : state) (e : Env W) :
  store_ok s ->
  let m := scan_log_line in
  (network_nodes s = [] -> m s e = (Raise IndexError, s, e))
  /\ (network_nodes s ≠ [] ->
      result m s e = Return tt
      /\ store_ok (final m s e)
      /\ exists node message new,
           node ∈ network_nodes s /\ message ∈ log_types
           /\ raised s (final m s e) new
           /\ map alarm_content new
              = map (fun p => (n_id node, type_name p.1.2, severity_name p.2,
                               "Log pattern match: " +:+ p.1.1))
                  (matching_patterns message)
           /\ (length new <= 1)%nat).
Proof.
  intros Hok m. split.
  - intros Hnil. unfold m, scan_log_line, bind, get_state. by rewrite Hnil.
  - intros Hnodes. exact (wp_scan_log_line s [] s e Hok (raised_refl s) Hnodes).
Qed.

Lemma length_health_findings cpu memory disk :
  (length (health_findings format_1f cpu memory disk) <= 3)%nat.
Proof.
  unfold health_findings.
  destruct (Qgtb cpu 90), (Qgtb memory 85), (Qgtb disk 80); simpl; lia.
Qed.

(** X7: a round of the health check, in a store whose ids lie below the
    counter, returns and only raises alarms: the alarms of the store and
    the nodes are as before, the new alarms are active with the next ids,
    there are at most three of them for each node, each on a node of the
    list and of type and severity PROCESSING_ERROR and MAJOR (CPU),
    PROCESSING_ERROR and WARNING (memory) or EQUIPMENT and MINOR (disk). *)
Theorem health_check_round_only_raises (s : state) (e : Env W) :
  store_ok s ->
  let m := health_check_tick format_1f in
  result m s e = Return tt
  /\ store_ok (final m s e)
  /\ exists new,
       raised s (final m s e) new
       /\ (length new <= 3 * length (network_nodes s))%nat
       /\ Forall (fun kv =>
            a_node_id kv.2 ∈ map n_id (network_nodes s)
            /\ (a_type kv.2, a_severity kv.2)
               ∈ [("PROCESSING_ERROR", "MAJOR"); ("PROCESSING_ERROR", "WARNING");
                  ("EQUIPMENT", "MINOR")]) new.
Proof.
  intros Hok m.
  set (good := fun kv : Z * Alarm =>
         a_node_id kv.2 ∈ map n_id (network_nodes s)
         /\ (a_type kv.2, a_severity kv.2)
            ∈ [("PROCESSING_ERROR", "MAJOR"); ("PROCESSING_ERROR", "WARNING");
               ("EQUIPMENT", "MINOR")]).
  set (J := fun (k : nat) (s' : state) (_ : Env W) =>
         store_ok s'
         /\ exists new, raised s s' new /\ (length new <= 3 * k)%nat /\ Forall good new).
  cut (wp m (fun o s' e' => o = Return tt /\ J (length (network_nodes s)) s' e') s e).
  { unfold wp, J. tauto. }
  unfold m, health_check_tick, for_each_node. wp_step. wp_step.
  eapply wp_mono; [apply (wp_for_each_count J)|].
  - intros k i s1 e1 _ (Hok1 & new & Hr & Hlen & Hgood). wp_step. wp_step.
    destruct (network_nodes s1 !! i) as [node|] eqn:Hi.
    + eapply wp_mono; [by apply (wp_check_node_health s new)|].
      intros o s2 e2 (-> & Hok2 & new2 & Hr2 & Hc2). split; [done|]. split; [done|].
      exists (new ++ new2). split; [done|].
      pose proof (length_health_findings
                    (random_uniform 10 95 (world e1)).1
                    (random_uniform 20 90 (random_uniform 10 95 (world e1)).2).1
                    (random_uniform 30 85
                       (random_uniform 20 90 (random_uniform 10 95 (world e1)).2).2).1)
        as Hle.
      split.
      * rewrite length_app. apply (f_equal length) in Hc2. rewrite !length_map in Hc2. lia.
      * apply Forall_app. split; [done|].
        assert (n_id node ∈ map n_id (network_nodes s)) as Hnode.
        { destruct Hr as (_ & _ & _ & _ & <- & _).
          apply list_elem_of_In, in_map, list_elem_of_In.
          by eapply list_elem_of_lookup_2. }
        cut (Forall (fun c : string * string * string * string =>
                       c.1.1.1 ∈ map n_id (network_nodes s)
                       /\ (c.1.1.2, c.1.2)
                          ∈ [("PROCESSING_ERROR", "MAJOR"); ("PROCESSING_ERROR", "WARNING");
                             ("EQUIPMENT", "MINOR")])
               (map alarm_content new2)).
        { rewrite Forall_map. done. }
        rewrite Hc2. unfold health_findings.
        destruct (Qgtb _ 90), (Qgtb _ 85), (Qgtb _ 80); simpl;
          repeat (constructor; [split; [exact Hnode|simpl; rewrite !elem_of_cons; tauto]|]);
          constructor.
    + apply wp_ret. split; [done|]. split; [done|]. exists new.
      split; [done|]. split; [lia|done].
  - split; [done|]. exists []. split; [apply raised_refl|]. split; [simpl; lia|constructor].
  - intros o s' e' [-> HJ]. by rewrite length_seq in HJ.
Qed.

(** X8: a round of the log scan, in a store whose ids lie below the counter
    and with some node, reads as many lines as the random number drawn
    (none when it is not positive), returns and only raises alarms: the
    alarms of the store and the nodes are as before, the new alarms are
    active with the next ids, at most one for each line, each on a node of
    the list and with the type, severity and description of a pattern of
    the table. *)
Theorem log_scan_round_only_raises (s : state) (e : Env W) :
  store_ok s -> network_nodes s ≠ [] ->
  let lines := (random_randint 5 15 (world e)).1 in
  let m := log_parsing_tick in
  result m s e = Return tt
  /\ store_ok (final m s e)
  /\ exists new,
       raised s (final m s e) new
       /\ (length new <= Z.to_nat lines)%nat
       /\ Forall (fun kv =>
            exists p, p ∈ log_patterns
              /\ a_node_id kv.2 ∈ map n_id (network_nodes s)
              /\ a_type kv.2 = type_name p.1.2
              /\ a_severity kv.2 = severity_name p.2
              /\ a_description kv.2 = "Log pattern match: " +:+ p.1.1) new.
Proof.
  intros Hok Hnodes lines m.
  set (good := fun kv : Z * Alarm =>
         exists p, p ∈ log_patterns
           /\ a_node_id kv.2 ∈ map n_id (network_nodes s)
           /\ a_type kv.2 = type_name p.1.2
           /\ a_severity kv.2 = severity_name p.2
           /\ a_description kv.2 = "Log pattern match: " +:+ p.1.1).
  set (J := fun (k : nat) (s' : state) (_ : Env W) =>
         store_ok s'
         /\ exists new, raised s s' new /\ (length new <= k)%nat /\ Forall good new).
  cut (wp m (fun o s' e' => o = Return tt /\ J (Z.to_nat lines) s' e') s e).
  { unfold wp, J. tauto. }
  unfold m, log_parsing_tick. apply wp_bind, wp_ask_exact. fold lines. cbv beta iota.
  eapply wp_mono; [apply (wp_for_each_count J)|].
  - intros k i s1 e1 _ (Hok1 & new & Hr & Hlen & Hgood).
    assert (network_nodes s1 = network_nodes s) as Hsame
      by (by destruct Hr as (_ & _ & _ & _ & ? & _)).
    eapply wp_mono; [apply (wp_scan_log_line s new); [done|done|by rewrite Hsame]|].
    intros o s2 e2 (-> & Hok2 & node & message & new2 & Hnode & _ & Hr2 & Hc2 & Hle).
    split; [done|]. split; [done|]. exists (new ++ new2). split; [done|]. split.
    + rewrite length_app. lia.
    + apply Forall_app. split; [done|].
      assert (n_id node ∈ map n_id (network_nodes s)) as Hid.
      { rewrite <- Hsame. by apply list_elem_of_In, in_map, list_elem_of_In. }
      cut (Forall (fun c : string * string * string * string =>
                     exists p, p ∈ log_patterns
                       /\ c.1.1.1 ∈ map n_id (network_nodes s)
                       /\ c.1.1.2 = type_name p.1.2
                       /\ c.1.2 = severity_name p.2
                       /\ c.2 = "Log pattern match: " +:+ p.1.1)
             (map alarm_content new2)).
      { rewrite Forall_map. done. }
      rewrite Hc2, Forall_map. apply Forall_forall.
      intros p [_ Hp]%list_elem_of_filter. by exists p.
  - split; [done|]. exists []. split; [apply raised_refl|]. split; [simpl; lia|constructor].
  - intros o s' e' [-> HJ]. by rewrite length_seq in HJ.
Qed.

Lemma store_ok_wf (s : state) : store_ok s -> Dict.wf (alarms s).
Proof.
  intros (Hsorted & _). unfold Dict.wf.
  induction Hsorted as [|k l _ IH Hall]; constructor; [|done].
  intros Hin. rewrite Forall_forall in Hall. apply Hall in Hin. lia.
Qed.

(** X9: a node that a node_down fault takes down and that then recovers is
    active again, and the alarm that the fault raised for it is cleared:
    it took the next id, names the node with the description "Node {id} is
    down", and has a cleared time; the counter has advanced by one. *)
Theorem outage_alarm_cleared_on_recovery i node p (s : state) (e : Env W) :
  store_ok s ->
  network_nodes s !! i = Some node ->
  let after_fault := (datetime_now (random_random (world e)).2).2 in
  Qlt (random_random (world e)).1 p ->
  Qlt (random_random after_fault).1 0.3 ->
  let m := bind (generate_fault i node ("node_down", p)) (fun _ =>
           bind get_state (fun s1 =>
             match network_nodes s1 !! i with
             | Some node1 => recover_node i node1
             | None => ret tt
             end)) in
  result m s e = Return tt
  /\ network_nodes (final m s e) = alter (set_status "active") i (network_nodes s)
  /\ network_nodes (final m s e) !! i = Some (set_status "active" node)
  /\ alarm_id_counter (final m s e) = alarm_id_counter s + 1
  /\ Dict.keys (alarms (final m s e)) = Dict.keys (alarms s) ++ [alarm_id_counter s]
  /\ exists a,
       Dict.get (alarm_id_counter s) (alarms (final m s e)) = Some a
       /\ a_id a = alarm_id_counter s
       /\ a_node_id a = n_id node
       /\ a_description a = down_description (n_id node)
       /\ a_status a = "cleared"
       /\ a_cleared_time a ≠ None.
Proof.
  intros Hok Hi after_fault Hfault Hrec m.
  set (c := alarm_id_counter s).
  set (alarm := {| a_id := c; a_node_id := n_id node; a_type := type_name EQUIPMENT;
                   a_severity := severity_name CRITICAL;
                   a_description := down_description (n_id node);
                   a_raised_time := isoformat (datetime_now (random_random (world e)).2).1;
                   a_status := "active"; a_cleared_time := None |}).
  set (s1 := {| running := running s; alarms := Dict.set c alarm (alarms s);
                alarm_id_counter := c + 1;
                network_nodes := alter (set_status "down") i (network_nodes s) |}).
  set (e1 := {| world := after_fault; pauses := pauses e |}).
  assert (generate_fault i node ("node_down", p) s e = (Return tt, s1, e1)) as Hgen.
  { unfold generate_fault. unfold bind at 1, ask at 1. simpl.
    apply Qltb_lt in Hfault. rewrite Hfault. reflexivity. }
  assert (store_ok s1) as Hok1.
  { pose proof (store_ok_create (n_id node) EQUIPMENT CRITICAL
                  (down_description (n_id node)) s
                  {| world := (random_random (world e)).2; pauses := pauses e |} Hok)
      as (Hok1 & _). exact Hok1. }
  pose proof (store_ok_wf s1 Hok1) as Hwf1.
  pose proof (create_alarm_fresh s Hok) as Hfresh. fold c in Hfresh.
  set (node1 := set_status "down" node).
  set (s2 := set_network_nodes (alter (set_status "active") i (network_nodes s1)) s1).
  destruct (clear_down_alarms_run node1 (alarms s1) s2
              {| world := (random_random (world e1)).2; pauses := pauses e1 |} Hwf1)
    as (t & e3 & Hrun & _).
  assert (m s e = (Return tt,
                   set_alarms (map (fun kv => (kv.1, if cleared_by node1 (alarms s1) kv.1
                                                     then mark_cleared (t kv.1) kv.2
                                                     else kv.2)) (alarms s2)) s2, e3))
    as Hm.
  { unfold m. unfold bind at 1. rewrite Hgen. unfold bind at 1, get_state.
    cbn [network_nodes s1]. rewrite list_lookup_alter_eq, Hi.
    cbn [fmap option_fmap option_map]. fold node1.
    rewrite (recover_node_run i node1 s1 e1 eq_refl Hrec). exact Hrun. }
  unfold result, final. rewrite Hm. cbn [fst snd].
  split; [done|]. split; [|split; [|split; [done|split]]].
  - cbn. rewrite list_alter_alter_eq. by apply list_alter_ext.
  - cbn. by rewrite !list_lookup_alter_eq, Hi.
  - cbn [alarms set_alarms s2 set_network_nodes s1].
    rewrite (dict_keys_map_values
               (fun kv => if cleared_by node1 (Dict.set c alarm (alarms s)) kv.1
                          then mark_cleared (t kv.1) kv.2 else kv.2)).
    by apply dict_keys_set_new.
  - exists (mark_cleared (t c) alarm).
    cbn [alarms set_alarms s2 set_network_nodes s1].
    rewrite (dict_get_map_values
               (fun kv => if cleared_by node1 (Dict.set c alarm (alarms s)) kv.1
                          then mark_cleared (t kv.1) kv.2 else kv.2)).
    rewrite dict_get_set_eq. cbn [fmap option_fmap option_map fst snd].
    change (Dict.set c alarm (alarms s)) with (alarms s1).
    rewrite (cleared_by_self node1 _ c alarm Hwf1).
    2:{ apply dict_get_elem. apply dict_get_set_eq. }
    assert (is_down_alarm_of node1 alarm = true) as ->
      by (by apply is_down_alarm_of_spec).
    done.
Qed.
End OAMLoopFacts.

(** What every creation, every clear and every change of a node status
    keeps, every call of every loop keeps, and the call returns. *)
Section OAMInvariant.
Context {W : Type} `{!Oracle W}.
Import OAM.
Variable format_1f : Q -> string.
Variable I : state -> Prop.
Hypothesis I_create : forall node_id ty sev desc (s : state) (e : Env W),
  I s -> I (final (_create_alarm node_id ty sev desc) s e).
Hypothesis I_clear : forall alarm_id (s : state) (e : Env W),
  I s -> I (final (_clear_alarm alarm_id) s e).
Hypothesis I_status : forall i st (s : state),
  st = "active" \/ st = "down" -> I s ->
  I (set_network_nodes (alter (set_status st) i (network_nodes s)) s).
Hypothesis I_nodes : forall s : state, I s -> network_nodes s ≠ [].

Local Abbreviation ok := (fun (o : outcome unit) (s' : state) (_ : Env W) => o = Return tt /\ I s').

Lemma wp_create_alarm_ok node_id ty sev desc (s : state) (e : Env W) :
  I s -> wp (bind (_create_alarm node_id ty sev desc) (fun _ => ret tt)) ok s e.
Proof.
  intros HI. pose proof (I_create node_id ty sev desc s e HI) as HI'.
  unfold wp, result, final, final_env, bind in *. by rewrite create_alarm_run in *.
Qed.

Lemma wp_clear_alarm_ok alarm_id (s : state) (e : Env W) :
  I s -> wp (bind (_clear_alarm alarm_id) (fun _ => ret tt)) ok s e.
Proof.
  intros HI. pose proof (I_clear alarm_id s e HI) as HI'.
  unfold wp, result, final, final_env, bind in *. rewrite clear_alarm_run in *.
  by destruct (Dict.get alarm_id (alarms s)).
Qed.

Lemma wp_set_node_status_ok i st (s : state) (e : Env W) :
  st = "active" \/ st = "down" -> I s -> wp (set_node_status i st) ok s e.
Proof. intros Hst HI. split; [done|]. by apply I_status. Qed.

Lemma wp_for_each_node_ok body (s : state) (e : Env W) :
  (forall i node s e, I s -> wp (body i node) ok s e) ->
  I s -> wp (for_each_node body) ok s e.
Proof.
  intros Hbody HI. unfold for_each_node. wp_step. wp_step.
  apply (wp_for_each_ok (fun s' _ => I s')); [|done].
  intros i s1 e1 _ HI1. wp_step. wp_step.
  destruct (network_nodes s1 !! i); [by apply Hbody|by wp_step].
Qed.

Lemma wp_generate_fault_ok i node fault (s : state) (e : Env W) :
  I s -> wp (generate_fault i node fault) ok s e.
Proof.
  intros HI. unfold generate_fault. wp_step. wp_step. wp_step. 2: by wp_step.
  wp_step.
  { apply wp_bind. eapply wp_mono; [apply wp_set_node_status_ok; [by right|done]|].
    intros o s1 e1 [-> HI1]. by apply wp_create_alarm_ok. }
  repeat (wp_step; [by apply wp_create_alarm_ok|]).
  by wp_step.
Qed.

Lemma wp_recover_node_ok i node (s : state) (e : Env W) :
  I s -> wp (recover_node i node) ok s e.
Proof.
  intros HI. unfold recover_node. wp_step; [|by wp_step].
  wp_step. wp_step. wp_step; [|by wp_step].
  apply wp_bind. eapply wp_mono; [apply wp_set_node_status_ok; [by left|done]|].
  intros o s1 e1 [-> HI1]. wp_step. wp_step.
  unfold clear_down_alarms.
  apply (wp_for_each_ok (fun s' _ => I s')); [|done].
  intros kv s2 e2 _ HI2. wp_step; [|by wp_step].
  by apply wp_clear_alarm_ok.
Qed.

Lemma wp_fault_generation_tick_ok (s : state) (e : Env W) :
  I s -> wp fault_generation_tick ok s e.
Proof.
  intros HI. unfold fault_generation_tick.
  apply wp_bind. eapply wp_mono.
  - apply wp_for_each_node_ok; [|exact HI].
    intros j node s1 e1 HI1.
    apply (wp_for_each_ok (fun s' _ => I s')); [|done].
    intros. by apply wp_generate_fault_ok.
  - intros o s1 e1 [-> HI1].
    apply wp_for_each_node_ok; [|done].
    intros. by apply wp_recover_node_ok.
Qed.

Lemma wp_check_node_health_ok node (s : state) (e : Env W) :
  I s -> wp (check_node_health format_1f node) ok s e.
Proof.
  intros HI. unfold check_node_health. do 3 (wp_step; wp_step).
  assert (forall b node_id ty sev desc (s : state) (e : Env W), I s ->
            wp (if b : bool then bind (_create_alarm node_id ty sev desc) (fun _ => ret tt)
                else ret tt) ok s e) as Hif.
  { intros [] ? ? ? ? ? ? ?; [by apply wp_create_alarm_ok|by apply wp_ret]. }
  apply wp_bind. eapply wp_mono; [by apply Hif|]. intros o s1 e1 [-> HI1].
  apply wp_bind. eapply wp_mono; [by apply Hif|]. intros o s2 e2 [-> HI2].
  by apply Hif.
Qed.

Lemma wp_scan_log_line_ok (s : state) (e : Env W) : I s -> wp scan_log_line ok s e.
Proof.
  intros HI. unfold scan_log_line. wp_step. wp_step.
  apply wp_bind, wp_choice; [by apply I_nodes|].
  intros node e1 _ _ _. cbv beta iota.
  unfold _generate_mock_log. wp_step. wp_step. wp_step.
  apply wp_bind, wp_choice; [done|].
  intros message e3 _ _ _. cbv beta iota. wp_step.
  unfold match_log_entry.
  apply (wp_for_each_ok (fun s' _ => I s')); [|done].
  intros pattern s1 e4 _ HI1. wp_step; [by apply wp_create_alarm_ok|by wp_step].
Qed.

Lemma wp_perform_call_ok c (s : state) (e : Env W) :
  I s -> wp (perform_call format_1f c) ok s e.
Proof.
  intros HI. destruct c as [[| |]| |]; simpl.
  - by apply wp_create_alarm_ok.
  - by apply wp_clear_alarm_ok.
  - by apply wp_fault_generation_tick_ok.
  - apply wp_for_each_node_ok; [|done]. intros. by apply wp_check_node_health_ok.
  - unfold log_parsing_tick. wp_step. wp_step.
    apply (wp_for_each_ok (fun s' _ => I s')); [|done].
    intros. by apply wp_scan_log_line_ok.
Qed.

Lemma run_calls_ok calls (s : state) (e : Env W) :
  I s -> I (final (run_calls format_1f calls) s e).
Proof.
  intros HI. unfold run_calls.
  apply (wp_for_each_inv (fun s' _ => I s')); [|done].
  intros c s1 e1 _ HI1. by apply (wp_perform_call_ok c s1 e1).
Qed.
End OAMInvariant.

Section OAMHistories.
Context {W : Type} `{!Oracle W}.
Import OAM.
Variable format_1f : Q -> string.

Lemma identity_set_status st i (l : list Node) :
  map (fun n => (n_id n, n_type n, n_ip n)) (alter (set_status st) i l)
  = map (fun n => (n_id n, n_type n, n_ip n)) l.
Proof.
  revert i. induction l as [|n l IH]; intros [|i]; simpl; [done|done|done|].
  f_equal. apply IH.
Qed.

Lemma sound_init : sound init.
Proof.
  split; [apply store_ok_init|]. split; [done|]. split; [constructor|].
  split; [done|]. unfold init, initial_nodes; simpl. repeat constructor.
Qed.

Lemma sound_create node_id ty sev desc (s : state) (e : Env W) :
  sound s -> sound (final (_create_alarm node_id ty sev desc) s e).
Proof.
  intros (Hok & (Hkeys & Hc) & Hlife & Hnodes).
  destruct (store_ok_create node_id ty sev desc s e Hok) as (Hok' & Hkeys' & Hc').
  split; [done|]. split; [|split].
  - assert (length (alarms (final (_create_alarm node_id ty sev desc) s e))
            = (length (alarms s) + 1)%nat) as Hlen.
    { rewrite <- (length_fmap fst). fold (Dict.keys (alarms (final (_create_alarm node_id ty sev desc) s e))).
      rewrite Hkeys', length_app. unfold Dict.keys. by rewrite length_fmap. }
    split; [|lia]. rewrite Hkeys', Hlen, ids_from_app, Hkeys, Hc.
    f_equal. unfold ids_from. simpl. f_equal. lia.
  - unfold final. rewrite create_alarm_run. unfold lifecycle_ok in *. simpl.
    apply Forall_forall. intros kv [->|Hin]%dict_elem_set; [by left|].
    rewrite Forall_forall in Hlife. by apply Hlife.
  - unfold final. by rewrite create_alarm_run.
Qed.

Lemma sound_clear alarm_id (s : state) (e : Env W) :
  sound s -> sound (final (_clear_alarm alarm_id) s e).
Proof.
  intros (Hok & (Hkeys & Hc) & Hlife & Hnodes).
  destruct (store_ok_clear alarm_id s e Hok) as (Hok' & Hkeys' & Hc').
  split; [done|]. split; [|split].
  - assert (length (alarms (final (_clear_alarm alarm_id) s e)) = length (alarms s)) as Hlen.
    { rewrite <- (length_fmap fst). fold (Dict.keys (alarms (final (_clear_alarm alarm_id) s e))).
      rewrite Hkeys'. unfold Dict.keys. by rewrite length_fmap. }
    split; [|lia]. by rewrite Hkeys', Hlen.
  - unfold final. rewrite clear_alarm_run.
    destruct (Dict.get alarm_id (alarms s)) as [alarm|]; [|done].
    unfold lifecycle_ok in *. simpl.
    apply Forall_forall. intros kv [->|Hin]%dict_elem_set; [by right|].
    rewrite Forall_forall in Hlife. by apply Hlife.
  - unfold final. rewrite clear_alarm_run.
    by destruct (Dict.get alarm_id (alarms s)).
Qed.

Lemma sound_status i st (s : state) :
  st = "active" \/ st = "down" -> sound s ->
  sound (set_network_nodes (alter (set_status st) i (network_nodes s)) s).
Proof.
  intros Hst (Hok & Hnum & Hlife & Hid & Hstatus).
  split; [done|]. split; [done|]. split; [done|]. split; simpl.
  - by rewrite identity_set_status.
  - apply Forall_alter; [done|]. intros n _ _. by destruct Hst as [->| ->]; [left|right].
Qed.

Lemma sound_nodes (s : state) : sound s -> network_nodes s ≠ [].
Proof.
  intros (_ & _ & _ & Hid & _) Hnil. rewrite Hnil in Hid. done.
Qed.

(** The store and the nodes stay sound over any history of the loops. *)
Lemma run_calls_sound calls (e : Env W) : sound (final (run_calls format_1f calls) init e).
Proof.
  apply run_calls_ok; [apply sound_create|apply sound_clear|apply sound_status
                      |apply sound_nodes|apply sound_init].
Qed.

Lemma elem_of_ids_from c n k : k ∈ ids_from c n <-> c <= k < c + Z.of_nat n.
Proof.
  unfold ids_from. rewrite list_elem_of_fmap. split.
  - intros (i & -> & Hi%elem_of_seq). lia.
  - intros Hk. exists (Z.to_nat (k - c)). split; [lia|]. apply elem_of_seq. lia.
Qed.

Lemma filter_none {A} (P : A -> Prop) `{!forall x, Decision (P x)} (l : list A) :
  Forall (fun x => ~ P x) l -> filter P l = [].
Proof.
  induction 1 as [|x l Hx _ IH]; [done|]. rewrite filter_cons. by rewrite decide_False.
Qed.

Lemma length_filter_split {A} (P Q : A -> Prop) `{!forall x, Decision (P x)}
    `{!forall x, Decision (Q x)} (l : list A) :
  Forall (fun x => (P x /\ ~ Q x) \/ (Q x /\ ~ P x)) l ->
  (length (filter P l) + length (filter Q l) = length l)%nat.
Proof.
  induction 1 as [|x l Hx _ IH]; [done|]. rewrite !filter_cons.
  destruct Hx as [[HP HQ]|[HQ HP]].
  - rewrite decide_True, decide_False by done. simpl. lia.
  - rewrite decide_False, decide_True by done. simpl. lia.
Qed.

(** X3: after any history of creations, clears, fault rounds, health checks
    and log scans on a new store, the alarm ids in the store are 1, 2, ...,
    n in the order of creation, each the ["id"] of its alarm, and the
    counter is n + 1; so a clear returns true exactly for the ids handed
    out so far. *)
Theorem alarm_ids_are_consecutive calls (e : Env W) :
  let s := final (run_calls format_1f calls) init e in
  Dict.keys (alarms s) = ids_from 1 (length (alarms s))
  /\ alarm_id_counter s = 1 + Z.of_nat (length (alarms s))
  /\ Forall (fun kv => a_id kv.2 = kv.1) (alarms s)
  /\ (forall k e',
        result (_clear_alarm k) s e' = Return (bool_decide (1 <= k < alarm_id_counter s))).
Proof.
  intros s. destruct (run_calls_sound calls e) as ((_ & _ & Hid & _) & (Hkeys & Hc) & _).
  fold s in Hid, Hkeys, Hc. split; [done|]. split; [done|]. split; [done|].
  intros k e'. unfold result. rewrite clear_alarm_run.
  destruct (Dict.get k (alarms s)) as [alarm|] eqn:Hget; simpl.
  - rewrite bool_decide_eq_true_2; [done|].
    destruct (decide (k ∈ Dict.keys (alarms s))) as [Hin|Hn].
    + rewrite Hkeys in Hin. apply elem_of_ids_from in Hin. lia.
    + apply dict_get_None in Hn. congruence.
  - rewrite bool_decide_eq_false_2; [done|].
    apply dict_get_None in Hget. rewrite Hkeys, elem_of_ids_from in Hget. lia.
Qed.

(** X4: after any history of the loops, every alarm is either active
    without a cleared time or cleared with one, so that [get_alarms] with
    "active" and with "cleared" split the store in two, any other non-empty
    status selects nothing, and the empty status, being falsy, selects
    everything as no status does. *)
Theorem alarms_active_or_cleared calls (e : Env W) :
  let s := final (run_calls format_1f calls) init e in
  (forall kv, kv ∈ alarms s ->
     (kv ∈ get_alarms (Some "active") s <-> a_cleared_time kv.2 = None)
     /\ (kv ∈ get_alarms (Some "cleared") s <-> a_cleared_time kv.2 ≠ None))
  /\ (length (get_alarms (Some "active") s) + length (get_alarms (Some "cleared") s)
      = length (alarms s))%nat
  /\ (forall st, st ≠ "active" -> st ≠ "cleared" -> st ≠ EmptyString ->
        get_alarms (Some st) s = [])
  /\ get_alarms (Some EmptyString) s = get_alarms None s.
Proof.
  intros s. destruct (run_calls_sound calls e) as (_ & _ & Hlife & _).
  fold s in Hlife. unfold lifecycle_ok in Hlife.
  change (get_alarms (Some "active") s)
    with (filter (fun kv : Z * Alarm => a_status kv.2 = "active") (alarms s)).
  change (get_alarms (Some "cleared") s)
    with (filter (fun kv : Z * Alarm => a_status kv.2 = "cleared") (alarms s)).
  split; [|split; [|split]].
  - intros kv Hin. rewrite !list_elem_of_filter.
    rewrite Forall_forall in Hlife. destruct (Hlife kv Hin) as [[Hs Hc]|[Hs Hc]];
      rewrite Hs; split; split; try done; try congruence; intros [? _]; done.
  - apply length_filter_split. eapply Forall_impl; [exact Hlife|]. simpl.
    intros kv [[Hs _]|[Hs _]]; rewrite Hs; [left|right]; done.
  - intros st Ha Hc He. unfold get_alarms, truthy_str.
    apply String.eqb_neq in He. rewrite He. simpl.
    apply filter_none. eapply Forall_impl; [exact Hlife|]. simpl.
    intros kv [[Hs _]|[Hs _]]; rewrite Hs; congruence.
  - done.
Qed.

(** X5: after any history of the loops, the nodes are the six of
    [__init__] with their ids, types and addresses, each active or down;
    [get_status] reports six nodes, and the healthy ones are those that are
    not down. *)
Theorem nodes_keep_identity calls (e : Env W) :
  let s := final (run_calls format_1f calls) init e in
  map (fun n => (n_id n, n_type n, n_ip n)) (network_nodes s)
  = map (fun n => (n_id n, n_type n, n_ip n)) initial_nodes
  /\ Forall (fun n => n_status n = "active" \/ n_status n = "down") (network_nodes s)
  /\ s_network_nodes (get_status s) = 6%nat
  /\ (s_healthy_nodes (get_status s)
      + length (filter (fun n => n_status n = "down") (network_nodes s)) = 6)%nat.
Proof.
  intros s. destruct (run_calls_sound calls e) as (_ & _ & _ & Hid & Hst).
  fold s in Hid, Hst. split; [done|]. split; [done|].
  assert (length (network_nodes s) = 6%nat) as Hlen.
  { apply (f_equal length) in Hid. by rewrite !length_map in Hid. }
  split; [done|]. simpl. rewrite <- Hlen. apply length_filter_split.
  eapply Forall_impl; [exact Hst|]. simpl.
  intros n [Hs|Hs]; rewrite Hs; [left|right]; done.
Qed.

(** X6: after any history of the loops, no call of a loop raises: a
    creation, a clear, a fault round, a health check and a log scan all
    return; in particular the log scan never finds the node list empty,
    which is the one way its [random.choice] raises IndexError. *)
Theorem loops_never_raise calls c (e e' : Env W) :
  let s := final (run_calls format_1f calls) init e in
  result (perform_call format_1f c) s e' = Return tt
  /\ network_nodes s ≠ []
  /\ scan_log_line (set_network_nodes [] s) e' = (Raise IndexError, set_network_nodes [] s, e').
Proof.
  intros s. pose proof (run_calls_sound calls e) as Hsound. fold s in Hsound.
  split; [|split; [by apply sound_nodes|done]].
  by destruct (wp_perform_call_ok format_1f sound sound_create sound_clear sound_status
                 sound_nodes c s e' Hsound) as [Hres _].
Qed.
End OAMHistories.

(** ** The collector, the queries and the summary of the KPI store *)

Section DictMore.
Context {K V : Type} `{EqDecision K}.
Implicit Types (k : K) (v : V) (d : list (K * V)).

Lemma dict_get_snoc k k' v d :
  Dict.get k' (d ++ [(k, v)])
  = match Dict.get k' d with
    | Some v' => Some v'
    | None => if decide (k' = k) then Some v else None
    end.
Proof.
  induction d as [|[k0 v0] d IH]; simpl; [done|].
  by destruct (decide (k' = k0)).
Qed.

Lemma dict_wf_set k v d : Dict.wf d -> Dict.wf (Dict.set k v d).
Proof.
  unfold Dict.wf. intros Hwf.
  destruct (Dict.get k d) as [v0|] eqn:Hget.
  - by rewrite (dict_keys_set_mem _ _ _ _ Hget).
  - rewrite (dict_keys_set_new _ _ _ Hget). apply NoDup_app. split; [done|].
    split; [|apply NoDup_singleton].
    intros x Hx ->%list_elem_of_singleton. by apply dict_get_None in Hget.
Qed.

Lemma dict_keys_set_incl k v d x : x ∈ Dict.keys (Dict.set k v d) -> x = k \/ x ∈ Dict.keys d.
Proof.
  unfold Dict.keys. intros ([k' v'] & -> & Hin)%list_elem_of_fmap.
  apply dict_elem_set in Hin as [[= -> ->]|Hin]; [by left|right].
  apply list_elem_of_fmap. by exists (k', v').
Qed.

(** Setting the keys of a dictionary with distinct keys, one after the
    other, in a dictionary that has none of them, appends them. *)
Lemma fold_set_append {A} (f : K * A -> V) (items : list (K * A)) d :
  NoDup (Dict.keys d ++ Dict.keys items) ->
  fold_left (fun acc kv => Dict.set kv.1 (f kv) acc) items d
  = d ++ map (fun kv => (kv.1, f kv)) items.
Proof.
  revert d. induction items as [|[k a] items IH]; intros d Hnd; simpl.
  - by rewrite app_nil_r.
  - unfold Dict.keys in *. simpl in Hnd.
    rewrite dict_set_new.
    2:{ apply dict_get_None. apply NoDup_app in Hnd as (_ & Hdis & _).
        intros Hin. apply (Hdis _ Hin). apply list_elem_of_here. }
    rewrite IH.
    + by rewrite <- app_assoc.
    + unfold Dict.keys. rewrite fmap_app. simpl. by rewrite <- app_assoc.
Qed.

Lemma dict_get_map_any {A} (f : K * A -> V) k (d : list (K * A)) :
  Dict.get k (map (fun kv => (kv.1, f kv)) d) = (fun a => f (k, a)) <$> Dict.get k d.
Proof.
  induction d as [|[k' a'] d IH]; simpl; [done|].
  destruct (decide (k = k')) as [->|Hne]; [done|apply IH].
Qed.

Lemma dict_keys_map_any {A} (f : K * A -> V) (d : list (K * A)) :
  Dict.keys (map (fun kv => (kv.1, f kv)) d) = Dict.keys d.
Proof.
  unfold Dict.keys. induction d as [|[k' a'] d IH]; simpl; [done|]. by f_equal.
Qed.
End DictMore.

Section KPICollector.
Context {W : Type} `{!Oracle W}.
Import KPI.

Lemma sampled_refl (s : state) node_id ts : sampled s node_id ts [] s.
Proof. by repeat split. Qed.

(** One append of the collector, as seen from the values sampled so far. *)
Lemma wp_record_sample_sampled s0 node_id ts samples k x Q (s : state) (e : Env W) :
  sampled s0 node_id ts samples s ->
  Dict.get k samples = None ->
  k ∈ Dict.keys (kpi_data s0) ->
  (forall s', sampled s0 node_id ts (samples ++ [(k, x)]) s' -> Q (Return tt) s' e) ->
  wp (record_sample k node_id {| timestamp := ts; value := x |}) Q s e.
Proof.
  intros (Hkeys & Hnodes & Hw) Hfresh Hin HQ.
  apply wp_record_sample; [by rewrite Hkeys|].
  intros s' Hkeys' Hnodes' Hw'. apply HQ. split; [congruence|]. split; [congruence|].
  intros k' n. rewrite Hw', dict_get_snoc, !Hw.
  destruct (decide (k' = k /\ n = node_id)) as [[-> ->]|Hne].
  - rewrite Hfresh, !decide_True by done. done.
  - destruct (Dict.get k' samples) as [x'|] eqn:Hget; [done|].
    destruct (decide (k' = k)) as [->|Hk]; [|done].
    rewrite decide_False; [done|]. intros ->. by apply Hne.
Qed.

Lemma uniform_in_bounds a b (w : W) :
  Qle a b -> Qle (a, b).1 (random_uniform a b w).1 /\ Qle (random_uniform a b w).1 (a, b).2.
Proof. apply random_uniform_range. Qed.

(** The collection of one node, seen from the values sampled. *)
Lemma wp_collect_node_kpis_sampled node (s : state) (e : Env W) :
  complete s ->
  wp (_collect_node_kpis node)
    (fun o s' e' =>
       o = Return tt
       /\ exists samples : list (string * Q),
            sampled s (n_id node) (isoformat (datetime_now (world e)).1) samples s'
            /\ (Dict.keys samples = Dict.keys collected_kpis
                \/ (n_status node = "active"
                    /\ Dict.keys samples = Dict.keys collected_kpis ++ ["recovery_time"]))
            /\ Dict.get "node_availability" samples
               = Some (if String.eqb (n_status node) "active" then 100%Q else 0%Q)
            /\ Forall (fun kx =>
                 exists b,
                   Dict.get kx.1 (collected_kpis ++ [("recovery_time", recovery_bounds)])
                   = Some b
                   /\ Qle b.1 kx.2 /\ Qle kx.2 b.2) samples) s e.
Proof.
  intros Hc. unfold _collect_node_kpis. cbv zeta.
  assert (forall k, k ∈ map k_id kpi_definitions -> k ∈ Dict.keys (kpi_data s)) as Hk
    by (intros k; by apply complete_keys).
  wp_step. wp_step.
  apply wp_bind. eapply wp_record_sample_sampled;
    [apply sampled_refl|done|apply Hk; simpl; repeat constructor|].
  intros s1 Hs1. cbv beta iota.
  do 6 (wp_step; wp_step;
        apply wp_bind; eapply wp_record_sample_sampled;
          [eassumption|by vm_compute|apply Hk; simpl; repeat constructor|];
        clear Hs1; intros ? Hs1; cbv beta iota).
  simpl app in Hs1.
  assert (Qle 0 100 /\ Qle 20 95 /\ Qle 30 90 /\ Qle 10 200 /\ Qle 0 10 /\ Qle 100 2000
          /\ Qle 90 100 /\ Qle 10 500) as (B0 & B1 & B2 & B3 & B4 & B5 & B6 & B7)
    by (unfold Qle; simpl; lia).
  match type of Hs1 with
  | sampled _ _ _ ?l _ =>
      assert (Forall (fun kx : string * Q =>
                exists b,
                  Dict.get kx.1 (collected_kpis ++ [("recovery_time", recovery_bounds)])
                  = Some b
                  /\ Qle b.1 kx.2 /\ Qle kx.2 b.2) l) as Hranges
  end.
  { repeat (constructor;
            [eexists; split; [by vm_compute|];
             first [by apply uniform_in_bounds
                   |destruct (String.eqb (n_status node) "active"); split; simpl;
                    first [exact B0|apply Qle_refl]]|]).
    constructor. }
  destruct (String.eqb (n_status node) "active") eqn:Hactive.
  2:{ apply wp_ret. split; [done|]. eexists. split; [exact Hs1|].
      split; [by left|]. split; [done|exact Hranges]. }
  wp_step. wp_step. wp_step.
  2:{ apply wp_ret. split; [done|]. eexists. split; [exact Hs1|].
      split; [by left|]. split; [done|exact Hranges]. }
  wp_step. wp_step.
  eapply wp_record_sample_sampled;
    [eassumption|by vm_compute|apply Hk; simpl; repeat constructor|].
  intros s2 Hs2. split; [done|]. eexists. split; [exact Hs2|].
  split; [right; split; [by apply String.eqb_eq|done]|]. split; [done|].
  apply Forall_app. split; [exact Hranges|].
  constructor; [|constructor]. eexists. split; [by vm_compute|].
  by apply uniform_in_bounds.
Qed.


Lemma window_elem k n (s : state) dp w :
  window k n s = dp :: w ->
  exists node_data, Dict.get k (kpi_data s) = Some node_data /\ (n, dp :: w) ∈ node_data.
Proof.
  unfold window. destruct (Dict.get k (kpi_data s)) as [node_data|]; [|done]. simpl.
  destruct (Dict.get n node_data) as [w'|] eqn:Hn; [|done]. simpl. intros ->.
  exists node_data. split; [done|]. by apply dict_get_elem.
Qed.

(** The analysis reports the latest sample of a window whose severity is
    not OK. *)
Lemma analyze_reports kpi n (s : state) issues latest :
  _analyze_kpi_data s = Return issues ->
  kpi ∈ kpi_definitions ->
  last (window (k_id kpi) n s) = Some latest ->
  let severity := classify (k_category kpi) (k_warning_threshold kpi)
                    (k_critical_threshold kpi) (value latest) in
  severity ≠ "OK" ->
  {| i_node_id := n; i_kpi_id := k_id kpi; i_kpi_name := k_name kpi;
     i_value := value latest; i_unit := k_unit kpi; i_severity := severity;
     i_timestamp := timestamp latest |} ∈ issues.
Proof.
  intros Han Hkpi Hlast severity Hsev.
  destruct (window (k_id kpi) n s) as [|dp w] eqn:Hw; [done|].
  destruct (window_elem _ _ _ _ _ Hw) as (node_data & Hget & Hin).
  apply (analyze_elem _ _ _ _ Han). exists kpi, node_data, (n, dp :: w).
  split; [done|]. split; [done|]. split; [done|].
  unfold analyze_window. cbn [snd fst]. rewrite Hlast. fold severity.
  apply String.eqb_neq in Hsev. rewrite Hsev. apply list_elem_of_here.
Qed.

Lemma sampled_last s0 node_id ts samples (s' : state) k x :
  sampled s0 node_id ts samples s' ->
  Dict.get k samples = Some x ->
  last (window k node_id s') = Some {| timestamp := ts; value := x |}.
Proof.
  intros (_ & _ & Hw) Hget. rewrite Hw, Hget, decide_True by done.
  apply last_deque_append.
Qed.

Lemma sampled_complete s0 node_id ts samples (s' : state) :
  sampled s0 node_id ts samples s' -> complete s0 -> complete s'.
Proof. intros (Hkeys & _). by apply complete_keys_eq. Qed.

(** X11: what the analysis finds for a node that was just collected.  The
    throughput is drawn between 100 and 2000 and is compared upwards with
    the critical threshold 100, so every throughput above 100 is reported
    as CRITICAL; the error rate is drawn between 0 and 10 and is compared
    downwards with the critical threshold 5.0, so every error rate below 5
    is reported as CRITICAL; and a node that is not active is reported with
    availability 0 as CRITICAL. *)
Theorem analysis_after_collection node (s : state) (e : Env W) :
  complete s ->
  let s' := final (_collect_node_kpis node) s e in
  let ts := isoformat (datetime_now (world e)).1 in
  exists issues throughput error_rate,
    _analyze_kpi_data s' = Return issues
    /\ last (window "throughput" (n_id node) s')
       = Some {| timestamp := ts; value := throughput |}
    /\ Qle 100 throughput /\ Qle throughput 2000
    /\ (Qlt 100 throughput ->
        {| i_node_id := n_id node; i_kpi_id := "throughput";
           i_kpi_name := "Network Throughput"; i_value := throughput; i_unit := "Mbps";
           i_severity := "CRITICAL"; i_timestamp := ts |} ∈ issues)
    /\ last (window "error_rate" (n_id node) s')
       = Some {| timestamp := ts; value := error_rate |}
    /\ Qle 0 error_rate /\ Qle error_rate 10
    /\ (Qlt error_rate 5 ->
        {| i_node_id := n_id node; i_kpi_id := "error_rate"; i_kpi_name := "Error Rate";
           i_value := error_rate; i_unit := "%"; i_severity := "CRITICAL";
           i_timestamp := ts |} ∈ issues)
    /\ (n_status node ≠ "active" ->
        {| i_node_id := n_id node; i_kpi_id := "node_availability";
           i_kpi_name := "Node Availability"; i_value := 0; i_unit := "%";
           i_severity := "CRITICAL"; i_timestamp := ts |} ∈ issues).
Proof.
  intros Hc s' ts.
  destruct (wp_collect_node_kpis_sampled node s e Hc)
    as (_ & samples & Hs & Hkeys & Havail & Hranges).
  fold s' ts in Hs.
  destruct (analyze_complete kpi_definitions (kpi_data s')
              (sampled_complete _ _ _ _ _ Hs Hc)) as [issues Han].
  assert (forall k, k ∈ Dict.keys collected_kpis ->
            exists x b, Dict.get k samples = Some x
              /\ Dict.get k (collected_kpis ++ [("recovery_time", recovery_bounds)]) = Some b
              /\ Qle b.1 x /\ Qle x b.2) as Hget.
  { intros k Hk. destruct (Dict.get k samples) as [x|] eqn:Hx.
    - rewrite Forall_forall in Hranges.
      destruct (Hranges (k, x) (dict_get_elem _ _ _ Hx)) as (b & Hb & Hr).
      by exists x, b.
    - apply dict_get_None in Hx. exfalso. apply Hx.
      destruct Hkeys as [-> |[_ ->]]; [done|]. apply elem_of_app. by left. }
  destruct (Hget "throughput") as (thr & bt & Hthr & Hbt & Ht1 & Ht2);
    [simpl; repeat constructor|].
  destruct (Hget "error_rate") as (err & be & Herr & Hbe & He1 & He2);
    [simpl; repeat constructor|].
  vm_compute in Hbt, Hbe. injection Hbt as <-. injection Hbe as <-.
  exists issues, thr, err. split; [done|].
  pose proof (sampled_last _ _ _ _ _ _ _ Hs Hthr) as Hlt.
  pose proof (sampled_last _ _ _ _ _ _ _ Hs Herr) as Hle.
  pose proof (sampled_last _ _ _ _ _ _ _ Hs Havail) as Hla.
  split; [done|]. split; [done|]. split; [done|]. split; [|split; [done|]].
  2: split; [done|]. 2: split; [done|]. 2: split.
  - intros Hgt%Qltb_lt.
    pose proof (analyze_reports
                  {| k_id := "throughput"; k_name := "Network Throughput";
                     k_description := "Average network throughput"; k_unit := "Mbps";
                     k_target := 1000%Q; k_warning_threshold := 500%Q;
                     k_critical_threshold := 100%Q; k_category := "performance" |}
                  (n_id node) s' issues
                  {| timestamp := ts; value := thr |} Han) as Hrep.
    cbn [k_id k_name k_unit k_category k_warning_threshold k_critical_threshold
         value timestamp] in Hrep.
    unfold classify, Qgtb in Hrep. simpl String.eqb in Hrep. cbn [orb] in Hrep.
    rewrite Hgt in Hrep. apply Hrep; [simpl; repeat constructor|done|done].
  - intros Hlow%Qltb_lt.
    pose proof (analyze_reports
                  {| k_id := "error_rate"; k_name := "Error Rate";
                     k_description := "Percentage of requests resulting in errors";
                     k_unit := "%"; k_target := 0.1%Q; k_warning_threshold := 1.0%Q;
                     k_critical_threshold := 5.0%Q; k_category := "quality" |}
                  (n_id node) s' issues
                  {| timestamp := ts; value := err |} Han) as Hrep.
    cbn [k_id k_name k_unit k_category k_warning_threshold k_critical_threshold
         value timestamp] in Hrep.
    unfold classify in Hrep. simpl String.eqb in Hrep. cbn [orb] in Hrep.
    assert (Qltb err 5.0 = true) as Hlow'.
    { apply Qltb_lt. eapply Qlt_le_trans; [apply Qltb_lt; exact Hlow|].
      unfold Qle; simpl; lia. }
    rewrite Hlow' in Hrep. apply Hrep; [simpl; repeat constructor|done|done].
  - intros Hdown%String.eqb_neq. rewrite Hdown in Hla.
    pose proof (analyze_reports
                  {| k_id := "node_availability"; k_name := "Node Availability";
                     k_description := "Percentage of time a node is available";
                     k_unit := "%"; k_target := 99.99%Q; k_warning_threshold := 99.9%Q;
                     k_critical_threshold := 99.5%Q; k_category := "availability" |}
                  (n_id node) s' issues
                  {| timestamp := ts; value := 0%Q |} Han) as Hrep.
    by apply Hrep; [simpl; repeat constructor|exact Hla|].
Qed.
End KPICollector.

Section KPIResults.
Context {W : Type} `{!Oracle W}.
Import KPI.

Lemma last_cons_cons {A} (x y : A) l : last (x :: y :: l) = last (y :: l).
Proof. done. Qed.

(** The inner loop of the query without a time range: the loop variable
    ends as the last key, and the windows that hold a sample are set one
    after the other. *)
Lemma collect_windows_all items node_id acc (s : state) (e : Env W) :
  collect_windows None items node_id acc s e
  = (Return (from_option Some node_id (last (Dict.keys items)),
             fold_left (fun acc nw => match nw.2 with
                                      | [] => acc
                                      | _ => Dict.set nw.1 nw.2 acc
                                      end) items acc), s, e).
Proof.
  revert node_id acc. induction items as [|[n dps] items IH]; intros node_id acc; [done|].
  cbn [collect_windows]. unfold bind at 1. cbn [filter_window ret]. rewrite IH.
  do 3 f_equal. unfold Dict.keys. destruct items as [|[n' dps'] items]; [done|].
  rewrite !fmap_cons, last_cons_cons. cbn [fst].
  destruct (last (n' :: items.*1)) eqn:Hl; [done|]. by apply last_None in Hl.
Qed.

Lemma fold_nonempty_windows items acc :
  NoDup (Dict.keys acc ++ Dict.keys items) ->
  fold_left (fun acc (nw : string * list Sample) =>
               match nw.2 with
               | [] => acc
               | _ => Dict.set nw.1 nw.2 acc
               end) items acc
  = acc ++ nonempty_windows items.
Proof.
  unfold nonempty_windows. revert acc.
  induction items as [|[n dps] items IH]; intros acc Hnd; simpl.
  - by rewrite app_nil_r.
  - unfold Dict.keys in *. simpl in Hnd. rewrite filter_cons.
    destruct dps as [|dp dps]; simpl.
    + apply IH.
      apply NoDup_app in Hnd as (Hacc & Hdis & Hitems%NoDup_cons).
      apply NoDup_app. split; [done|]. split; [|by destruct Hitems].
      intros x Hx Hin. apply (Hdis x Hx). by apply list_elem_of_further.
    + rewrite dict_set_new.
      2:{ apply dict_get_None. apply NoDup_app in Hnd as (_ & Hdis & _).
          intros Hin. apply (Hdis _ Hin). apply list_elem_of_here. }
      rewrite IH; [by rewrite <- app_assoc|].
      unfold Dict.keys. rewrite fmap_app. simpl. by rewrite <- app_assoc.
Qed.

(** The outer loop of the query without a time range, once the node id is
    set: each KPI gets the window of that node if it holds a sample. *)
Lemma collect_kpis_node n items res (s : state) (e : Env W) :
  n ≠ EmptyString ->
  collect_kpis None items (Some n) res s e
  = (Return (fold_left (fun res kv => Dict.set kv.1 (window_of n kv.2) res) items res),
     s, e).
Proof.
  intros Hn. revert res. induction items as [|[k nd] items IH]; intros res; [done|].
  cbn [collect_kpis]. unfold truthy_str. apply String.eqb_neq in Hn. rewrite Hn.
  cbn [negb fold_left fst snd]. change (default EmptyString (Some n)) with n.
  unfold window_of at 2.
  destruct (Dict.get n nd) as [dps|] eqn:Hget.
  - unfold bind at 1. rewrite collect_windows_all. cbn [fst snd fold_left].
    rewrite IH, dict_set_set. by destruct dps.
  - by rewrite IH.
Qed.

Lemma wf_app_nil {A B} (items : list (string * A)) :
  Dict.wf items -> NoDup (Dict.keys (@nil (string * B)) ++ Dict.keys items).
Proof. done. Qed.

(** X12: a query for one node, without a time range, in a store whose
    KPI ids are distinct: it returns, changes nothing and reads neither
    the clock nor the random source; an unknown KPI id gives the empty
    dictionary, a known one its entry alone, no KPI id every entry of the
    store in its order; the entry of a KPI holds the window of the node if
    the node has one that holds a sample, and is empty otherwise. *)
Theorem get_kpi_data_node_filter kpi_id n (s : state) (e : Env W) :
  n ≠ EmptyString ->
  Dict.wf (kpi_data s) ->
  get_kpi_data kpi_id (Some n) None s e
  = (Return (if truthy_str kpi_id
             then match Dict.get (default EmptyString kpi_id) (kpi_data s) with
                  | Some node_data => [(default EmptyString kpi_id, window_of n node_data)]
                  | None => []
                  end
             else map (fun kv => (kv.1, window_of n kv.2)) (kpi_data s)), s, e).
Proof.
  intros Hn Hwf. unfold get_kpi_data, bind at 1, get_state.
  destruct (truthy_str kpi_id).
  - destruct (Dict.get _ _) as [node_data|]; [|done]. by rewrite collect_kpis_node.
  - rewrite collect_kpis_node by done.
    by rewrite (fold_set_append (fun kv => window_of n kv.2)) by by apply wf_app_nil.
Qed.

Lemma collect_kpis_empty pre items res (s : state) (e : Env W) :
  Forall (fun kv => kv.2 = []) pre ->
  collect_kpis None (pre ++ items) None res s e
  = collect_kpis None items None
      (fold_left (fun res (kv : string * list (string * list Sample)) =>
                    Dict.set kv.1 [] res) pre res) s e.
Proof.
  intros Hpre. revert res. induction Hpre as [|[k nd] pre Hk _ IH]; intros res; [done|].
  simpl in Hk. subst nd. cbn [app collect_kpis truthy_str]. unfold bind at 1.
  rewrite collect_windows_all. cbn [fst snd fold_left Dict.keys fmap list_fmap last
                                    from_option].
  by rewrite IH, dict_set_set.
Qed.

Lemma keys_map_empty (pre : list (string * list (string * list Sample))) :
  Dict.keys (map (fun kv => (kv.1, @nil (string * list Sample))) pre) = Dict.keys pre.
Proof. unfold Dict.keys. induction pre as [|kv pre IH]; simpl; [done|by f_equal]. Qed.

Lemma keys_app {A} (d1 d2 : list (string * A)) :
  Dict.keys (d1 ++ d2) = Dict.keys d1 ++ Dict.keys d2.
Proof. apply fmap_app. Qed.

(** X13: a query without any filter, in a store with distinct KPI ids
    whose first KPI with a window has distinct node ids.  The loop over the
    windows of that KPI leaves its variable [node_id], which is the filter
    parameter, at the last node id; so the entries of the KPIs before it
    are empty as stored, its own entry holds all its windows with a sample,
    and every later entry holds the window of that last node alone. *)
Theorem get_kpi_data_loop_variable pre k nd rest n_last (s : state) (e : Env W) :
  kpi_data s = pre ++ (k, nd) :: rest ->
  Forall (fun kv => kv.2 = []) pre ->
  Dict.wf (kpi_data s) ->
  Dict.wf nd ->
  last (Dict.keys nd) = Some n_last ->
  n_last ≠ EmptyString ->
  get_kpi_data None None None s e
  = (Return (map (fun kv => (kv.1, [])) pre
             ++ (k, nonempty_windows nd)
             :: map (fun kv => (kv.1, window_of n_last kv.2)) rest), s, e).
Proof.
  intros Hdata Hpre Hwf Hnd Hlast Hn.
  unfold get_kpi_data, bind at 1, get_state. cbn [truthy_str].
  rewrite Hdata in *. rewrite collect_kpis_empty by done.
  unfold Dict.wf, Dict.keys in Hwf. rewrite fmap_app, fmap_cons in Hwf.
  pose proof Hwf as (Hpre_nd & Hdis & Hrest%NoDup_cons)%NoDup_app.
  rewrite (fold_set_append (fun _ => [])).
  2:{ by apply wf_app_nil. }
  cbn [app collect_kpis truthy_str]. unfold bind at 1. rewrite collect_windows_all, Hlast.
  cbn [from_option fst snd].
  rewrite (fold_nonempty_windows nd []) by by apply wf_app_nil. cbn [app].
  rewrite collect_kpis_node by done. rewrite dict_set_set.
  rewrite dict_set_new.
  2:{ apply dict_get_None. rewrite keys_map_empty.
      intros Hin. apply (Hdis k); [done|apply list_elem_of_here]. }
  rewrite (fold_set_append (fun kv => window_of n_last kv.2)).
  - by rewrite <- app_assoc.
  - rewrite keys_app, keys_map_empty. unfold Dict.keys. simpl. by rewrite <- app_assoc.
Qed.

(** One window of a query: nothing changes, and only a time range can
    make it raise, OverflowError. *)
Lemma wp_filter_window time_range data_points (s : state) (e : Env W) :
  wp (filter_window time_range data_points)
    (fun o s' _ => s' = s /\ overflow_only time_range (fun _ => True) o) s e.
Proof.
  unfold filter_window. destruct time_range as [seconds|]; [|done].
  destruct (seconds =? 0) eqn:Hsec; [done|]. apply Z.eqb_neq in Hsec.
  unfold wp, result, final, bind, ask, ret, raise. cbn.
  destruct (timedelta_seconds seconds); [|by split; [|split; [|exists seconds]]].
  destruct (datetime_sub _ _); [done|by split; [|split; [|exists seconds]]].
Qed.

Lemma wf_windows_set n (w : list Sample) (acc : list (string * list Sample)) :
  w ≠ [] -> Dict.wf acc /\ Forall (fun nw => nw.2 ≠ []) acc ->
  Dict.wf (Dict.set n w acc) /\ Forall (fun nw => nw.2 ≠ []) (Dict.set n w acc).
Proof.
  intros Hw [Hwf Hall]. split; [by apply dict_wf_set|].
  apply Forall_forall. intros x [->|Hx]%dict_elem_set; [done|].
  rewrite Forall_forall in Hall. by apply Hall.
Qed.

(** Whatever the filters, the query changes nothing, returns, and its
    result has distinct keys at both levels and no empty window. *)
Lemma wp_collect_windows_shape time_range items node_id acc (s : state) (e : Env W) :
  Dict.wf acc /\ Forall (fun nw => nw.2 ≠ []) acc ->
  wp (collect_windows time_range items node_id acc)
    (fun o s' _ =>
       s' = s /\ overflow_only time_range
                   (fun r => Dict.wf r.2 /\ Forall (fun nw => nw.2 ≠ []) r.2) o) s e.
Proof.
  revert node_id acc e. induction items as [|[n dps] items IH]; intros node_id acc e Hacc.
  - by apply wp_ret.
  - cbn [collect_windows]. apply wp_bind. eapply wp_mono; [apply wp_filter_window|].
    intros [r|x] s' e' (-> & Ho); [|done]. apply IH.
    destruct r as [|dp r]; [done|]. by apply wf_windows_set.
Qed.

Lemma wf_kpis_set k (inner : list (string * list Sample))
    (res : list (string * list (string * list Sample))) :
  Dict.wf inner /\ Forall (fun nw => nw.2 ≠ []) inner ->
  Dict.wf res /\ Forall (fun kv => Dict.wf kv.2 /\ Forall (fun nw => nw.2 ≠ []) kv.2) res ->
  Dict.wf (Dict.set k inner res)
  /\ Forall (fun kv => Dict.wf kv.2 /\ Forall (fun nw => nw.2 ≠ []) kv.2)
       (Dict.set k inner res).
Proof.
  intros Hinner [Hwf Hall]. split; [by apply dict_wf_set|].
  apply Forall_forall. intros x [->|Hx]%dict_elem_set; [done|].
  rewrite Forall_forall in Hall. by apply Hall.
Qed.

Lemma wf_nil {A} : Dict.wf (@nil (string * A)).
Proof. constructor. Qed.

Lemma wp_collect_kpis_shape time_range items node_id res (s : state) (e : Env W) :
  Dict.wf res /\ Forall (fun kv => Dict.wf kv.2 /\ Forall (fun nw => nw.2 ≠ []) kv.2) res ->
  wp (collect_kpis time_range items node_id res)
    (fun o s' _ =>
       s' = s /\ overflow_only time_range
                   (fun r => Dict.wf r
                             /\ Forall (fun kv => Dict.wf kv.2
                                                  /\ Forall (fun nw => nw.2 ≠ []) kv.2) r) o)
    s e.
Proof.
  revert node_id res e. induction items as [|[k nd] items IH]; intros node_id res e Hres;
    cbn [collect_kpis].
  - by apply wp_ret.
  - assert (Dict.wf (Dict.set k [] res)
            /\ Forall (fun kv => Dict.wf kv.2 /\ Forall (fun nw => nw.2 ≠ []) kv.2)
                 (Dict.set k [] res)) as Hres1
      by (apply wf_kpis_set; [split; [apply wf_nil|constructor]|done]).
    destruct (truthy_str node_id).
    + destruct (Dict.get (default EmptyString node_id) nd) as [dps|]; [|by apply IH].
      apply wp_bind. eapply wp_mono.
      * apply wp_collect_windows_shape. split; [apply wf_nil|constructor].
      * intros [r|x] s' e' (-> & Hr); [|done]. apply IH.
        by apply wf_kpis_set.
    + apply wp_bind. eapply wp_mono.
      * apply wp_collect_windows_shape. split; [apply wf_nil|constructor].
      * intros [r|x] s' e' (-> & Hr); [|done]. apply IH.
        by apply wf_kpis_set.
Qed.

Lemma wp_get_kpi_data_shape kpi_id node_id time_range (s : state) (e : Env W) :
  wp (get_kpi_data kpi_id node_id time_range)
    (fun o s' _ =>
       s' = s /\ overflow_only time_range
                   (fun r => Dict.wf r
                             /\ Forall (fun kv => Dict.wf kv.2
                                                  /\ Forall (fun nw => nw.2 ≠ []) kv.2) r) o)
    s e.
Proof.
  unfold get_kpi_data. wp_step. wp_step. wp_step.
  - destruct (Dict.get _ _) as [nd|].
    + apply wp_collect_kpis_shape. split; [apply wf_nil|constructor].
    + wp_step. split; [done|]. split; [apply wf_nil|constructor].
  - apply wp_collect_kpis_shape. split; [apply wf_nil|constructor].
Qed.
End KPIResults.

Section KPISummary.
Context {W : Type} `{!Oracle W}.
Import KPI.
Variable float_mean : list Q -> Q.

Lemma py_min_spec x l :
  (py_min x l = x \/ py_min x l ∈ l)
  /\ Qle (py_min x l) x /\ Forall (Qle (py_min x l)) l.
Proof.
  unfold py_min. revert x. induction l as [|y l IH]; intros x; simpl.
  - split; [by left|]. split; [apply Qle_refl|constructor].
  - destruct (IH (if Qltb y x then y else x)) as (Hin & Hle & Hall).
    destruct (Qltb y x) eqn:Hyx.
    + apply Qltb_lt in Hyx. split; [|split].
      * right. destruct Hin as [-> |Hin]; [apply list_elem_of_here|].
        by apply list_elem_of_further.
      * eapply Qle_trans; [exact Hle|]. by apply Qlt_le_weak.
      * by constructor.
    + apply Qltb_ge in Hyx. split; [|split].
      * destruct Hin as [-> |Hin]; [by left|right]. by apply list_elem_of_further.
      * done.
      * constructor; [|done]. by eapply Qle_trans.
Qed.

Lemma py_max_spec x l :
  (py_max x l = x \/ py_max x l ∈ l)
  /\ Qle x (py_max x l) /\ Forall (fun y => Qle y (py_max x l)) l.
Proof.
  unfold py_max, Qgtb. revert x. induction l as [|y l IH]; intros x; simpl.
  - split; [by left|]. split; [apply Qle_refl|constructor].
  - destruct (IH (if Qltb x y then y else x)) as (Hin & Hle & Hall).
    destruct (Qltb x y) eqn:Hyx.
    + apply Qltb_lt in Hyx. split; [|split].
      * right. destruct Hin as [-> |Hin]; [apply list_elem_of_here|].
        by apply list_elem_of_further.
      * eapply Qle_trans; [|exact Hle]. by apply Qlt_le_weak.
      * by constructor.
    + apply Qltb_ge in Hyx. split; [|split].
      * destruct Hin as [-> |Hin]; [by left|right]. by apply list_elem_of_further.
      * done.
      * constructor; [|done]. by eapply Qle_trans.
Qed.

Lemma last_List_last {A} (w : list A) d : w ≠ [] -> last w = Some (List.last w d).
Proof.
  induction w as [|x [|y w] IH]; [done|done|]. intros _.
  change (last (x :: y :: w)) with (last (y :: w)). by rewrite IH.
Qed.

(** What the summary of a non-empty list of data points holds. *)
Lemma summarize_spec (w : list Sample) :
  w ≠ [] ->
  exists sm,
    summarize float_mean w = Some sm
    /\ sm_count sm = length w
    /\ Forall (fun dp => Qle (sm_min sm) (value dp) /\ Qle (value dp) (sm_max sm)) w
    /\ sm_min sm ∈ map value w /\ sm_max sm ∈ map value w
    /\ last w = Some {| timestamp := sm_latest_timestamp sm; value := sm_latest sm |}.
Proof.
  destruct w as [|dp rest]; [done|]. intros _. eexists. split; [done|]. cbn.
  destruct (py_min_spec (value dp) (map value rest)) as (Hmin & Hmin1 & Hmin2).
  destruct (py_max_spec (value dp) (map value rest)) as (Hmax & Hmax1 & Hmax2).
  split; [by rewrite length_map|]. split; [|split; [|split]].
  - constructor; [done|]. rewrite Forall_map in Hmin2, Hmax2.
    apply Forall_forall. intros x Hx. rewrite Forall_forall in Hmin2, Hmax2. split; auto.
  - destruct Hmin as [-> |Hmin]; [apply list_elem_of_here|by apply list_elem_of_further].
  - destruct Hmax as [-> |Hmax]; [apply list_elem_of_here|by apply list_elem_of_further].
  - rewrite (last_List_last (dp :: rest) dp) by done.
    simpl. by destruct (match rest with [] => dp | _ :: _ => List.last rest dp end).
Qed.

Lemma fold_left_ext_Forall {A B} (f g : B -> A -> B) (P : A -> Prop) l b :
  (forall b x, P x -> f b x = g b x) -> Forall P l -> fold_left f l b = fold_left g l b.
Proof.
  intros Hfg Hl. revert b. induction Hl as [|x l Hx _ IH]; intros b; [done|].
  simpl. by rewrite Hfg, IH.
Qed.

Lemma summarize_nodes_map blank (nd : list (string * list Sample)) :
  Dict.wf nd -> Forall (fun nw => nw.2 ≠ []) nd ->
  summarize_nodes float_mean nd
  = map (fun nw => (nw.1, from_option id blank (summarize float_mean nw.2))) nd.
Proof.
  intros Hwf Hall. unfold summarize_nodes.
  transitivity (fold_left (fun acc (nw : string * list Sample) =>
                  Dict.set nw.1 (from_option id blank (summarize float_mean nw.2)) acc)
                  nd []).
  - apply (fold_left_ext_Forall _ _ (fun nw => nw.2 ≠ [])); [|done].
    intros acc [n w] Hw. simpl in *. by destruct w.
  - by rewrite (fold_set_append
                  (fun nw => from_option id blank (summarize float_mean nw.2)) nd [])
      by by apply wf_app_nil.
Qed.

(** X14: the summary of a query.  It changes nothing, and it raises
    exactly when the query raises: OverflowError, and only when a time
    range is given.  When the query returns, the summary has the KPI ids
    of the query result and, for each of them, the node ids of the result,
    since the query returns no empty window (the test for one in the
    summary never succeeds, and [min] and [max] never see an empty list);
    the entry of a window holds its length as count, as min and max values
    of the window that bound all the others, and the last sample as
    latest. *)
Theorem kpi_summary_of_query kpi_id node_id time_range (s : state) (e : Env W) :
  let q := get_kpi_data kpi_id node_id time_range in
  let m := get_kpi_summary float_mean kpi_id node_id time_range in
  final m s e = s
  /\ match result q s e with
     | Raise x =>
         result m s e = Raise x /\ x = OverflowError
         /\ exists seconds, time_range = Some seconds /\ seconds ≠ 0
     | Return data =>
         exists summary,
           result m s e = Return summary
           /\ Dict.keys summary = Dict.keys data
           /\ forall k,
                Dict.keys <$> Dict.get k summary = Dict.keys <$> Dict.get k data
                /\ forall nd n w,
                     Dict.get k data = Some nd -> Dict.get n nd = Some w ->
                     exists ss sm,
                       Dict.get k summary = Some ss /\ Dict.get n ss = Some sm
                       /\ w ≠ []
                       /\ sm_count sm = length w
                       /\ Forall (fun dp => Qle (sm_min sm) (value dp)
                                            /\ Qle (value dp) (sm_max sm)) w
                       /\ sm_min sm ∈ map value w /\ sm_max sm ∈ map value w
                       /\ last w = Some {| timestamp := sm_latest_timestamp sm;
                                           value := sm_latest sm |}
     end.
Proof.
  intros q m.
  destruct (wp_get_kpi_data_shape kpi_id node_id time_range s e) as (Hfinal & Hres).
  fold q in Hfinal, Hres.
  set (blank := {| sm_min := 0; sm_max := 0; sm_avg := 0; sm_count := 0; sm_latest := 0;
                   sm_latest_timestamp := EmptyString |}).
  set (f := fun kv : string * list (string * list Sample) =>
              summarize_nodes float_mean kv.2).
  assert (m s e
          = (match result q s e with
             | Return data =>
                 Return (fold_left (fun summary kv => Dict.set kv.1 (f kv) summary) data [])
             | Raise x => Raise x
             end, s, final_env q s e)) as Hm.
  { unfold m, q, get_kpi_summary, bind, result, final, final_env in *.
    destruct (get_kpi_data kpi_id node_id time_range s e) as [[o s'] e'].
    simpl in *. subst s'. by destruct o. }
  unfold result at 2 3, final. rewrite Hm. cbn [fst snd]. split; [done|].
  destruct (result q s e) as [data|x]; [|done].
  destruct Hres as [Hwf Hall]. cbn [fst snd].
  rewrite (fold_set_append f data []) by by apply wf_app_nil. cbn [app].
  exists (map (fun kv => (kv.1, f kv)) data). split; [done|].
  split; [apply dict_keys_map_any|].
  intros k. rewrite (dict_get_map_any f).
  destruct (Dict.get k data) as [nd|] eqn:Hk; simpl; [|done].
  rewrite Forall_forall in Hall.
  destruct (Hall (k, nd) (dict_get_elem _ _ _ Hk)) as [Hwfnd Hne]. simpl in *.
  unfold f at 1 2. simpl. rewrite (summarize_nodes_map blank nd Hwfnd Hne).
  split.
  { f_equal. apply (dict_keys_map_any
      (fun nw => from_option id blank (summarize float_mean nw.2))). }
  intros nd' n w [= <-] Hn.
  assert (w ≠ []) as Hw.
  { rewrite Forall_forall in Hne. apply (Hne (n, w)). by apply dict_get_elem. }
  destruct (summarize_spec w Hw) as (sm & Hsm & Hspec).
  eexists _, sm. split; [done|]. split; [|done].
  rewrite (dict_get_map_any
             (fun nw => from_option id blank (summarize float_mean nw.2))).
  rewrite Hn. simpl. by rewrite Hsm.
Qed.
End KPISummary.

Section KPIStatus.
Context {W : Type} `{!Oracle W}.
Import KPI.

Lemma length_deque_append x d : (0 < length (deque_append x d))%nat.
Proof.
  unfold deque_append. destruct (Nat.ltb_spec maxlen (length (d ++ [x]))) as [Hlt|_].
  - rewrite length_tl. unfold maxlen in Hlt. lia.
  - rewrite length_app. simpl. lia.
Qed.

Lemma shaped_complete (s : state) : shaped s -> complete s.
Proof.
  intros (Hkeys & _). unfold complete. rewrite Hkeys.
  apply Forall_forall. intros kpi Hin. apply list_elem_of_In, in_map. by apply list_elem_of_In.
Qed.

Lemma shaped_init : shaped init.
Proof.
  split; [done|]. split; [|done]. unfold init; simpl.
  repeat (constructor; [split; [apply wf_nil|constructor]|]). constructor.
Qed.

(** An append to a window of one of the nodes keeps the shape of the store. *)
Lemma wp_record_sample_shaped k n sample (s : state) (e : Env W) :
  shaped s -> k ∈ map k_id kpi_definitions -> n ∈ map n_id initial_nodes ->
  wp (record_sample k n sample) (fun o s' _ => o = Return tt /\ shaped s') s e.
Proof.
  intros (Hkeys & Hall & Hnodes) Hk Hn.
  destruct (Dict.get k (kpi_data s)) as [node_data|] eqn:Hget.
  2:{ apply dict_get_None in Hget. by rewrite Hkeys in Hget. }
  unfold wp, result, final. rewrite (record_sample_run _ _ _ _ _ _ Hget). cbn [fst snd].
  split; [done|]. split; [|split; [|done]].
  - cbn [kpi_data set_kpi_data]. by rewrite (dict_keys_set_mem _ _ _ _ Hget).
  - cbn [kpi_data set_kpi_data]. apply Forall_forall. intros kv [->|Hin]%dict_elem_set.
    2:{ rewrite Forall_forall in Hall. by apply Hall. }
    rewrite Forall_forall in Hall.
    destruct (Hall _ (dict_get_elem _ _ _ Hget)) as [Hwf Hws]. cbn [fst snd] in *.
    split; [by apply dict_wf_set|].
    apply Forall_forall. intros nw [->|Hin]%dict_elem_set.
    2:{ rewrite Forall_forall in Hws. by apply Hws. }
    cbn [fst snd]. split; [done|]. split; [apply length_deque_append|].
    apply deque_append_bound.
    destruct (Dict.get n node_data) as [w|] eqn:Hw; simpl; [|unfold maxlen; lia].
    rewrite Forall_forall in Hws. by destruct (Hws _ (dict_get_elem _ _ _ Hw)) as (_ & _ & ?).
Qed.

(** What every append of the collector keeps, the collection of a node
    keeps. *)
Lemma wp_collect_node_kpis_inv (I : state -> Prop) node (s : state) (e : Env W) :
  (forall k sample (s : state) (e : Env W), I s -> k ∈ map k_id kpi_definitions ->
     wp (record_sample k (n_id node) sample) (fun o s' _ => o = Return tt /\ I s') s e) ->
  I s ->
  wp (_collect_node_kpis node) (fun o s' _ => o = Return tt /\ I s') s e.
Proof.
  intros Hrec HI. unfold _collect_node_kpis. cbv zeta.
  wp_step. wp_step.
  do 7 (try (wp_step; wp_step);
        apply wp_bind; eapply wp_mono;
          [apply Hrec; [eassumption|simpl; repeat constructor]|];
        clear HI; intros ? ? ? [-> HI]; cbv beta iota).
  wp_step; [|by wp_step]. wp_step. wp_step. wp_step; [|by wp_step].
  wp_step. wp_step. apply Hrec; [done|simpl; repeat constructor].
Qed.

Lemma wp_collection_tick_shaped (s : state) (e : Env W) :
  shaped s -> wp collection_tick (fun o s' _ => o = Return tt /\ shaped s') s e.
Proof.
  intros Hs. unfold collection_tick. wp_step. wp_step. wp_step.
  eapply wp_mono.
  - apply (wp_for_each_ok (fun s' _ => shaped s')); [|done].
    intros node s1 e1 Hnode Hs1.
    apply wp_collect_node_kpis_inv; [|done].
    intros k sample s2 e2 Hs2 Hk. apply wp_record_sample_shaped; [done|done|].
    destruct Hs as (_ & _ & <-). apply list_elem_of_In, in_map. by apply list_elem_of_In.
  - intros o s1 e1 [-> Hs1]. wp_step. wp_step.
    destruct (analyze_complete _ _ (shaped_complete _ Hs1)) as [issues Han].
    unfold _analyze_kpi_data. rewrite Han. by wp_step.
Qed.

Lemma run_shaped n (e : Env W) : shaped (final (run n) init e).
Proof.
  unfold run. apply (wp_for_each_inv (fun s' _ => shaped s')); [|apply shaped_init].
  intros _ s e0 _ Hs. by destruct (wp_collection_tick_shaped s e0 Hs) as [_ ?].
Qed.

Lemma list_sum_bound {A} (f : A -> nat) b (l : list A) :
  Forall (fun x => f x <= b)%nat l -> (list_sum (map f l) <= length l * b)%nat.
Proof. induction 1 as [|x l Hx _ IH]; simpl; lia. Qed.

Lemma list_sum_flat_map {A B} (g : A -> list B) (f : B -> nat) (l : list A) :
  list_sum (map f (flat_map g l)) = list_sum (map (fun x => list_sum (map f (g x))) l).
Proof.
  induction l as [|x l IH]; simpl; [done|]. by rewrite map_app, list_sum_app, IH.
Qed.

(** X15: after any number of rounds of the collection loop on a new store,
    the store has the eight KPI entries of [__init__], every node
    dictionary has distinct keys among the six node ids, and every window
    holds between 1 and 1000 samples; so [get_status] reports 8 KPIs, 6
    nodes and at most 8 * 6 * 1000 data points. *)
Theorem kpi_status_bounded n (e : Env W) :
  let s := final (run n) init e in
  shaped s
  /\ s_kpi_count (get_status s) = 8%nat
  /\ s_node_count (get_status s) = 6%nat
  /\ (s_data_points (get_status s) <= 8 * 6 * maxlen)%nat.
Proof.
  intros s. pose proof (run_shaped n e) as Hs. fold s in Hs.
  split; [done|]. split; [done|]. destruct Hs as (Hkeys & Hall & Hnodes).
  split. { apply (f_equal length) in Hnodes. by rewrite !length_map in Hnodes. }
  unfold get_status, s_data_points.
  assert (flat_map (fun kv : string * list (string * list Sample) =>
                      map (fun nw => length nw.2) kv.2) (kpi_data s)
          = map id (flat_map (fun kv : string * list (string * list Sample) =>
                                map (fun nw => length nw.2) kv.2) (kpi_data s))) as ->
    by (by rewrite map_id).
  rewrite list_sum_flat_map.
  assert (length (kpi_data s) = 8%nat) as Hlen.
  { apply (f_equal length) in Hkeys. unfold Dict.keys in Hkeys.
    by rewrite length_fmap, length_map in Hkeys. }
  rewrite <- Hlen, <- Nat.mul_assoc. apply list_sum_bound.
  eapply Forall_impl; [exact Hall|]. intros [k nd] [Hwf Hws]. cbn [fst snd] in *.
  rewrite map_id.
  assert (length nd <= 6)%nat as Hnd.
  { rewrite <- (length_fmap fst nd).
    change 6%nat with (length (map n_id initial_nodes)).
    apply submseteq_length, NoDup_submseteq; [exact Hwf|].
    intros x Hx. apply list_elem_of_fmap in Hx as ([n' w] & -> & Hin).
    rewrite Forall_forall in Hws. by destruct (Hws _ Hin) as [? _]. }
  transitivity (length nd * maxlen)%nat; [|unfold maxlen; lia].
  apply list_sum_bound. eapply Forall_impl; [exact Hws|].
  intros nw (_ & _ & Hle). exact Hle.
Qed.
End KPIStatus.

(** ** The events, the failover scenario and the queries of the simulator *)

Section EventEffects.
Context {W : Type} `{!Oracle W}.
Import Event.

Lemma wp_set_node_status_exact i st Q (s : state) (e : Env W) :
  Q (Return tt) (set_network_nodes (alter (set_status st) i (network_nodes s)) s) e ->
  wp (set_node_status i st) Q s e.
Proof. done. Qed.

(** Filling the details: the keys are those of the type, the log is left
    alone, and the status of the target changes as the type says. *)
Lemma wp_make_details_exact ty target Q (s : state) (e : Env W) :
  (forall d e', details_match ty d = true -> pauses e' = pauses e ->
     Q (Return d)
       match status_after ty d with
       | Some st => set_network_nodes (alter (set_status st) target.1 (network_nodes s)) s
       | None => s
       end e') ->
  wp (make_details ty target) Q s e.
Proof.
  intros HQ. destruct ty; unfold make_details;
    repeat first
      [ wp_step
      | apply wp_choice; [done|intros ? ? ? ? ?]
      | apply wp_set_node_status_exact ];
    (apply HQ; [done|congruence]).
Qed.

(** An event, exactly. *)
Lemma wp_generate_event_exact ty target Q (s : state) (e : Env W) :
  (forall d e', details_match ty d = true -> pauses e' = pauses e ->
     let ev := {| e_id := Z.of_nat (length (events s)) + 1; e_type := type_name ty;
                  e_target_node := Some (n_id target.2);
                  e_target_type := n_type target.2; e_target_nodes := None;
                  e_timestamp := isoformat (datetime_now (world e)).1;
                  e_details := d |} in
     Q (Return ev)
       {| running := running s; events := events s ++ [ev];
          network_nodes :=
            match status_after ty d with
            | Some st => alter (set_status st) target.1 (network_nodes s)
            | None => network_nodes s
            end |} e') ->
  wp (_generate_event ty target) Q s e.
Proof.
  intros HQ. unfold _generate_event. wp_step. wp_step. wp_step. wp_step. wp_step.
  apply wp_make_details_exact. intros d e1 Hd Hp1. wp_step.
  unfold append_event. wp_step. wp_step. wp_step. wp_step.
  assert (pauses e1 = pauses e) as Hp by congruence.
  specialize (HQ d e1 Hd Hp). cbv zeta in HQ.
  by destruct (status_after ty d).
Qed.

(** X16: [_generate_event] returns, whatever the type and the target: it
    appends one event whose id is the length of the log plus one, with the
    name of the type, the id and type of the target, the time of the call
    and the details of the type; a node failure sets the status of the
    target to down, a recovery sets it to active if its ["success"] is
    true, and in every other case the nodes are as before. *)
Theorem generate_event_effect ty target (s : state) (e : Env W) :
  let m := _generate_event ty target in
  exists ev,
    result m s e = Return ev
    /\ events (final m s e) = events s ++ [ev]
    /\ running (final m s e) = running s
    /\ pauses (final_env m s e) = pauses e
    /\ e_id ev = Z.of_nat (length (events s)) + 1
    /\ e_type ev = type_name ty
    /\ e_target_node ev = Some (n_id target.2)
    /\ e_target_type ev = n_type target.2
    /\ e_target_nodes ev = None
    /\ e_timestamp ev = isoformat (datetime_now (world e)).1
    /\ details_match ty (e_details ev) = true
    /\ network_nodes (final m s e)
       = match status_after ty (e_details ev) with
         | Some st => alter (set_status st) target.1 (network_nodes s)
         | None => network_nodes s
         end
    /\ (ty ≠ NODE_FAILURE -> ty ≠ RECOVERY -> network_nodes (final m s e) = network_nodes s).
Proof.
  intros m. apply (wp_generate_event_exact ty target
    (fun o s' e' => exists ev,
       o = Return ev /\ events s' = events s ++ [ev] /\ running s' = running s
       /\ pauses e' = pauses e
       /\ e_id ev = Z.of_nat (length (events s)) + 1
       /\ e_type ev = type_name ty
       /\ e_target_node ev = Some (n_id target.2)
       /\ e_target_type ev = n_type target.2
       /\ e_target_nodes ev = None
       /\ e_timestamp ev = isoformat (datetime_now (world e)).1
       /\ details_match ty (e_details ev) = true
       /\ network_nodes s'
          = match status_after ty (e_details ev) with
            | Some st => alter (set_status st) target.1 (network_nodes s)
            | None => network_nodes s
            end
       /\ (ty ≠ NODE_FAILURE -> ty ≠ RECOVERY -> network_nodes s' = network_nodes s))).
  intros d e' Hd Hp ev. exists ev. repeat (split; [done|]).
  simpl. intros Hf Hr. by destruct ty.
Qed.

(** A failover event: its duration is a draw of [random.randint(5, 60)]. *)
Lemma wp_generate_failover target Q (s : state) (e : Env W) :
  (forall failover_type w e', pauses e' = pauses e ->
     let ev := {| e_id := Z.of_nat (length (events s)) + 1; e_type := "FAILOVER";
                  e_target_node := Some (n_id target.2);
                  e_target_type := n_type target.2; e_target_nodes := None;
                  e_timestamp := isoformat (datetime_now (world e)).1;
                  e_details := FailoverDetails (n_type target.2 +:+ "-BACKUP")
                                 failover_type (random_randint 5 60 w).1 |} in
     Q (Return ev) (set_events (events s ++ [ev]) s) e') ->
  wp (_generate_event FAILOVER target) Q s e.
Proof.
  intros HQ. unfold _generate_event, make_details.
  wp_step. wp_step. wp_step. wp_step. wp_step. wp_step.
  apply wp_choice; [done|]. intros failover_type e2 _ Hp2 _. wp_step. wp_step. wp_step.
  wp_step. unfold append_event. wp_step. wp_step. wp_step. wp_step.
  apply HQ. congruence.
Qed.

Lemma Qmin_py_bounds x bound :
  Qle 0 x -> Qle 0 bound -> Qle 0 (Qmin_py x bound) /\ Qle (Qmin_py x bound) bound.
Proof.
  intros Hx Hb. unfold Qmin_py. destruct (Qltb bound x) eqn:Hlt.
  - split; [done|apply Qle_refl].
  - split; [done|]. by apply Qltb_ge.
Qed.

Lemma inject_Z_min_bounds t b :
  0 <= t -> 0 <= b -> Qle 0 (inject_Z (Z.min t b)) /\ Qle (inject_Z (Z.min t b)) (inject_Z b).
Proof.
  intros Ht Hb. split.
  - change 0%Q with (inject_Z 0). rewrite <- Zle_Qle. lia.
  - rewrite <- Zle_Qle. lia.
Qed.

Lemma alter_active_down i (l : list Node) :
  alter (set_status "active") i (alter (set_status "down") i l)
  = alter (set_status "active") i l.
Proof. rewrite list_alter_alter_eq. by apply list_alter_ext. Qed.

(** The failover scenario on a node type that has a node. *)
Lemma wp_simulate_failover_scenario node_type (s : state) (e : Env W) :
  (forall w, 0 <= (random_randint 5 60 w).1) ->
  nodes_of_type node_type (network_nodes s) ≠ [] ->
  wp (simulate_failover_scenario node_type)
    (fun o s' e' =>
       exists r target ev1 ev2 ev3 p1 p2,
         o = Return (Some r)
         /\ target ∈ nodes_of_type node_type (network_nodes s)
         /\ events s' = events s ++ [ev1; ev2; ev3]
         /\ map e_type [ev1; ev2; ev3] = ["NODE_FAILURE"; "FAILOVER"; "RECOVERY"]
         /\ map e_id [ev1; ev2; ev3]
            = [Z.of_nat (length (events s)) + 1; Z.of_nat (length (events s)) + 2;
               Z.of_nat (length (events s)) + 3]
         /\ Forall (fun ev => e_target_node ev = Some (n_id target.2)) [ev1; ev2; ev3]
         /\ fr_target_node r = n_id target.2
         /\ fr_events r = map (fun ev => (e_id ev, e_type ev)) [ev1; ev2; ev3]
         /\ network_nodes s'
            = alter (set_status (if fr_recovery_success r then "active" else "down"))
                target.1 (network_nodes s)
         /\ pauses e' = pauses e ++ [p1; p2]
         /\ Qle 0 p1 /\ Qle p1 2 /\ Qle 0 p2 /\ Qle p2 3) s e.
Proof.
  intros Hrand Hnodes. unfold simulate_failover_scenario. wp_step. wp_step.
  destruct (nodes_of_type node_type (network_nodes s)) as [|t0 ts] eqn:Hts; [done|].
  rewrite <- Hts in *. clear Hts t0 ts.
  apply wp_bind, wp_choice; [done|]. intros target e1 Htarget Hp1 _. cbv beta iota.
  apply wp_bind, wp_generate_event_exact. intros d1 e2 Hd1 Hp2 ev1. cbv beta iota.
  apply wp_bind, wp_ask. intros e3 Hp3. cbv beta iota.
  match goal with
  | |- wp (bind (sleep ?q) _) _ _ _ =>
      destruct (Qmin_py_bounds (random_uniform 1 5 (world e2)).1 2) as [Hq1 Hq1'];
        [apply uniform_nonneg; unfold Qle; simpl; lia|unfold Qle; simpl; lia|]
  end.
  apply wp_bind, wp_sleep; [exact Hq1|]. cbv beta iota.
  apply wp_bind, wp_generate_failover. intros failover_type w e4 Hp4 ev2. cbv beta iota.
  simpl e_details. cbv beta iota.
  destruct (inject_Z_min_bounds (random_randint 5 60 w).1 3 (Hrand w)) as [Hq2 Hq2'];
    [lia|].
  apply wp_bind, wp_sleep; [exact Hq2|]. cbv beta iota.
  apply wp_bind, wp_ask. intros e5 Hp5. cbv beta iota.
  apply wp_bind, wp_generate_event_exact. intros d3 e6 Hd3 Hp6 ev3. cbv beta iota.
  simpl e_details. destruct d3 as [| | | | | | | |action rtime success| |]; try done.
  apply wp_ret.
  eexists _, target, ev1, ev2, ev3, _, _. split; [done|]. split; [done|].
  split. { simpl. by rewrite <- !app_assoc. }
  split; [done|]. split.
  { simpl. rewrite !length_app. simpl. repeat (f_equal; try lia). }
  split; [by repeat constructor|]. split; [done|]. split.
  { simpl. rewrite !length_app. simpl. repeat (f_equal; try lia). }
  split.
  { simpl. destruct d1; try done. simpl. destruct success; [|done].
    apply alter_active_down. }
  split. { simpl in Hp4, Hp5. rewrite Hp6, Hp5, Hp4, Hp3, Hp2, Hp1.
           by rewrite <- app_assoc. }
  done.
Qed.

(** X17: the failover scenario, when [random.randint(5, 60)] is not
    negative.  Without a node of the type it returns False and changes
    nothing; otherwise it returns its result dictionary, having appended a
    NODE_FAILURE, a FAILOVER and a RECOVERY event with the next three ids,
    all on one node of the type, which the result lists; the node is left
    active if the recovery event says success and down otherwise, the other
    nodes are as before; and it has slept twice, at most 2 and at most 3
    seconds. *)
Theorem failover_scenario_effect node_type (s : state) (e : Env W) :
  (forall w, 0 <= (random_randint 5 60 w).1) ->
  let m := simulate_failover_scenario node_type in
  (nodes_of_type node_type (network_nodes s) = [] -> m s e = (Return None, s, e))
  /\ (nodes_of_type node_type (network_nodes s) ≠ [] ->
      exists r target ev1 ev2 ev3 p1 p2,
        result m s e = Return (Some r)
        /\ target ∈ nodes_of_type node_type (network_nodes s)
        /\ events (final m s e) = events s ++ [ev1; ev2; ev3]
        /\ map e_type [ev1; ev2; ev3] = ["NODE_FAILURE"; "FAILOVER"; "RECOVERY"]
        /\ map e_id [ev1; ev2; ev3]
           = [Z.of_nat (length (events s)) + 1; Z.of_nat (length (events s)) + 2;
              Z.of_nat (length (events s)) + 3]
        /\ Forall (fun ev => e_target_node ev = Some (n_id target.2)) [ev1; ev2; ev3]
        /\ fr_target_node r = n_id target.2
        /\ fr_events r = map (fun ev => (e_id ev, e_type ev)) [ev1; ev2; ev3]
        /\ network_nodes (final m s e)
           = alter (set_status (if fr_recovery_success r then "active" else "down"))
               target.1 (network_nodes s)
        /\ pauses (final_env m s e) = pauses e ++ [p1; p2]
        /\ Qle 0 p1 /\ Qle p1 2 /\ Qle 0 p2 /\ Qle p2 3).
Proof.
  intros Hrand m. split.
  - intros Hnil. unfold m, simulate_failover_scenario, bind, get_state. by rewrite Hnil.
  - intros Hnodes. exact (wp_simulate_failover_scenario node_type s e Hrand Hnodes).
Qed.
End EventEffects.

Section EventHistories.
Context {W : Type} `{!Oracle W}.
Import Event.

Lemma target_ok_elem (s : state) target :
  sound s -> target.2 ∈ network_nodes s -> target_ok target.
Proof.
  intros (_ & _ & Hid & _) Hin.
  assert ((n_id target.2, n_type target.2, n_ip target.2)
          ∈ map (fun n => (n_id n, n_type n, n_ip n)) initial_nodes) as Hin'.
  { rewrite <- Hid. apply list_elem_of_In, (in_map (fun n => (n_id n, n_type n, n_ip n))).
    by apply list_elem_of_In. }
  apply list_elem_of_In, in_map_iff in Hin' as (n & Heq & Hn).
  exists n. split; [by apply list_elem_of_In|]. by injection Heq as -> -> _.
Qed.

Lemma node_refs_elem (nodes : list Node) r : r ∈ node_refs nodes -> r.2 ∈ nodes.
Proof. destruct r as [i n]. unfold node_refs. apply elem_of_zip_r. Qed.

Lemma target_ok_refs (s : state) target :
  sound s -> target ∈ node_refs (network_nodes s) -> target_ok target.
Proof. intros Hs Hin. eapply target_ok_elem; [done|]. by apply node_refs_elem. Qed.

Lemma target_ok_of_type (s : state) t target :
  sound s -> target ∈ nodes_of_type t (network_nodes s) -> target_ok target.
Proof.
  intros Hs [_ Hin]%list_elem_of_filter. by eapply target_ok_refs.
Qed.

Lemma target_ok_resolve (s : state) t target :
  sound s -> target ∈ resolve_targets t (network_nodes s) -> target_ok target.
Proof.
  unfold resolve_targets. intros Hs Hin. destruct (String.eqb t "ALL").
  - by eapply target_ok_refs.
  - by eapply target_ok_of_type.
Qed.

Lemma status_after_cases t d st :
  status_after t d = Some st -> st = "active" \/ st = "down".
Proof.
  destruct t; simpl; try done; [intros [= <-]; by right|].
  destruct d as [| | | | | | | |? ? []| |]; try done. intros [= <-]. by left.
Qed.

Lemma simulator_sound_init : sound init.
Proof.
  split; [done|]. split; [constructor|]. split; [done|].
  unfold init, initial_nodes; simpl. repeat constructor.
Qed.

Lemma simulator_sound_status i st (s : state) :
  st = "active" \/ st = "down" -> sound s ->
  sound (set_network_nodes (alter (set_status st) i (network_nodes s)) s).
Proof.
  intros Hst (Hlog & Hev & Hid & Hstatus).
  split; [done|]. split; [done|]. split; simpl.
  - by rewrite identity_set_status.
  - apply Forall_alter; [done|]. intros n _ _. by destruct Hst as [->| ->]; [left|right].
Qed.

Lemma simulator_sound_append ev (s : state) :
  sound s -> e_id ev = Z.of_nat (length (events s)) + 1 ->
  generated ev \/ load_test_event ev ->
  sound (set_events (events s ++ [ev]) s).
Proof.
  intros (Hlog & Hev & Hid & Hstatus) Hevid Hshape.
  split; [by eapply (log_ok_append s)|]. split; [|done]. simpl.
  apply Forall_app. split; [done|]. constructor; [done|constructor].
Qed.

Lemma wp_generate_event_sound ty target (s : state) (e : Env W) :
  sound s -> target_ok target ->
  wp (_generate_event ty target) (fun _ s' _ => sound s') s e.
Proof.
  intros Hs (n & Hn & Hnid & Hnty). apply wp_generate_event_exact.
  intros d e' Hd _ ev.
  assert (generated ev) as Hgen.
  { exists ty, n. unfold ev; simpl. by rewrite Hnid, Hnty. }
  destruct (status_after ty d) as [st|] eqn:Hst.
  - assert (sound (set_network_nodes (alter (set_status st) target.1 (network_nodes s)) s))
      as Hs' by (apply simulator_sound_status; [by eapply status_after_cases|done]).
    exact (simulator_sound_append ev _ Hs' eq_refl (or_introl Hgen)).
  - exact (simulator_sound_append ev s Hs eq_refl (or_introl Hgen)).
Qed.

Lemma wp_run_event_def_sound event_def (s : state) (e : Env W) :
  sound s -> wp (run_event_def event_def) (fun _ s' _ => sound s') s e.
Proof.
  intros Hs. unfold run_event_def. wp_step. wp_step. wp_step; [by wp_step|].
  wp_step. wp_step.
  destruct (resolve_targets _ _) as [|t0 ts] eqn:Hts; [by wp_step|]. rewrite <- Hts.
  apply wp_bind, wp_choice_elem; [done|]. intros target e2 Ht _. cbv beta iota.
  apply wp_bind. eapply wp_mono.
  { apply wp_generate_event_sound; [done|]. by eapply target_ok_resolve. }
  intros [ev|x] s2 e3 Hs2; [|done]. cbv beta iota. wp_step. wp_step.
  apply wp_sleep_any. by intros.
Qed.

Lemma wp_run_scenario_sound (s : state) (e : Env W) :
  sound s -> wp _run_scenario (fun _ s' _ => sound s') s e.
Proof.
  intros Hs. unfold _run_scenario.
  apply wp_bind, wp_choice_elem; [done|]. intros scenario e1 _ _. cbv beta iota.
  apply (wp_for_each_inv (fun s' _ => sound s')); [|done].
  intros. by apply wp_run_event_def_sound.
Qed.

Lemma wp_generate_random_events_sound (s : state) (e : Env W) :
  sound s -> wp _generate_random_events (fun _ s' _ => sound s') s e.
Proof.
  intros Hs. unfold _generate_random_events. wp_step. wp_step.
  apply (wp_for_each_inv (fun s' _ => sound s')); [|done].
  intros _ s1 e1 _ Hs1.
  apply wp_bind, wp_choice_elem; [done|]. intros ty e2 _ _. cbv beta iota.
  wp_step. wp_step.
  apply wp_bind, wp_choice_elem; [done|]. intros target e3 Ht _. cbv beta iota.
  apply wp_bind. eapply wp_mono.
  { apply wp_generate_event_sound; [done|]. by eapply target_ok_refs. }
  intros [ev|x] s2 e4 Hs2; [|done]. cbv beta iota. wp_step. wp_step.
  apply wp_sleep_any. by intros.
Qed.

Lemma wp_append_load_event_sound ev (s : state) (e : Env W) :
  sound s -> e_id ev = Z.of_nat (length (events s)) + 1 -> load_test_event ev ->
  wp (append_event ev) (fun _ s' _ => sound s') s e.
Proof. intros Hs Hid Hev. apply (simulator_sound_append ev s); [done|done|by right]. Qed.

Lemma wp_run_load_test_sound ty d intensity (s : state) (e : Env W) :
  sound s -> wp (run_load_test ty d intensity) (fun _ s' _ => sound s') s e.
Proof.
  intros Hs. unfold run_load_test. wp_step. wp_step.
  destruct (nodes_of_type ty (network_nodes s)) as [|t0 ts] eqn:Hts; [by wp_step|].
  rewrite <- Hts.
  assert (forall target, target ∈ nodes_of_type ty (network_nodes s) -> target_ok target)
    as Htargets by (intros; by eapply target_ok_of_type).
  clear Hts. generalize dependent (nodes_of_type ty (network_nodes s)).
  intros targets Htargets.
  apply wp_bind. eapply wp_mono.
  { apply (wp_mono _ (fun _ s' _ => s' = s)); [|intros ? ? ? H'; exact H'].
    unfold load_levels. repeat wp_step; done. }
  intros [[[[cpu mem] conn]|]|x] s1 e1 ->; cbv beta iota; [|by wp_step|done].
  wp_step. wp_step. wp_step. wp_step.
  apply wp_bind. eapply wp_mono.
  { apply wp_append_load_event_sound; [done|done|]. split; [by left|done]. }
  intros [[]|x] s2 e3 Hs2; [|done]. cbv beta iota.
  apply wp_bind, wp_sleep_any. intros [[]|x] e4 _; [|done]. cbv beta iota.
  apply wp_bind. eapply wp_mono.
  { apply (wp_mono _ (fun _ s' _ => sound s')); [|intros ? ? ? H'; exact H'].
    destruct (String.eqb intensity "high"); [|by wp_step].
    apply (wp_for_each_inv (fun s' _ => sound s')); [|done].
    intros target s3 e5 Ht Hs3. wp_step. wp_step. wp_step; [|by wp_step].
    apply wp_bind. eapply wp_mono; [apply wp_generate_event_sound; [done|by apply Htargets]|].
    intros [ev|x] s4 e6 Hs4; [by wp_step|done]. }
  intros [[]|x] s3 e5 Hs3; [|done]. cbv beta iota.
  repeat wp_step.
  eapply wp_mono.
  { apply wp_append_load_event_sound; [done|done|]. split; [by right|done]. }
  intros [[]|x] s4 e6 Hs4; [by wp_step|done].
Qed.

Lemma wp_simulate_failover_scenario_sound ty (s : state) (e : Env W) :
  sound s -> wp (simulate_failover_scenario ty) (fun _ s' _ => sound s') s e.
Proof.
  intros Hs. unfold simulate_failover_scenario. wp_step. wp_step.
  destruct (nodes_of_type ty (network_nodes s)) as [|t0 ts] eqn:Hts; [by wp_step|].
  rewrite <- Hts.
  apply wp_bind, wp_choice_elem; [done|]. intros target e1 Ht _. cbv beta iota.
  assert (target_ok target) as Hok by (by eapply target_ok_of_type).
  apply wp_bind. eapply wp_mono; [by apply wp_generate_event_sound|].
  intros [ev1|x] s1 e2 Hs1; [|done]. cbv beta iota. wp_step. wp_step.
  apply wp_bind, wp_sleep_any. intros [[]|x] e3 _; [|done]. cbv beta iota.
  apply wp_bind. eapply wp_mono; [by apply wp_generate_event_sound|].
  intros [ev2|x] s2 e4 Hs2; [|done]. cbv beta iota.
  destruct (e_details ev2); try (by wp_step).
  apply wp_bind, wp_sleep_any. intros [[]|x] e5 _; [|done]. cbv beta iota.
  wp_step. wp_step.
  apply wp_bind. eapply wp_mono; [by apply wp_generate_event_sound|].
  intros [ev3|x] s3 e6 Hs3; [|done]. cbv beta iota.
  destruct (e_details ev3); by wp_step.
Qed.

Lemma wp_perform_sound o (s : state) (e : Env W) :
  sound s -> wp (perform o) (fun _ s' _ => sound s') s e.
Proof.
  intros Hs. destruct o; simpl.
  - by apply wp_run_scenario_sound.
  - by apply wp_generate_random_events_sound.
  - unfold simulation_tick. wp_step. wp_step. wp_step.
    + by apply wp_run_scenario_sound.
    + by apply wp_generate_random_events_sound.
  - apply wp_bind. eapply wp_mono; [by apply wp_run_load_test_sound|].
    intros [?|?] ? ? ?; [by wp_step|done].
  - apply wp_bind. eapply wp_mono; [by apply wp_simulate_failover_scenario_sound|].
    intros [?|?] ? ? ?; [by wp_step|done].
Qed.

Lemma run_sound ops (e : Env W) : sound (final (run ops) init e).
Proof.
  unfold run. apply (wp_for_each_inv (fun s' _ => sound s')); [|apply simulator_sound_init].
  intros o s1 e1 _ Hs1. by apply (wp_perform_sound o s1 e1).
Qed.

Lemma filter_by_node_cases node_id l :
  match filter_by_node node_id l with
  | Raise x => x = KeyError /\ exists ev, ev ∈ l /\ e_target_node ev = None
  | Return r => Forall (fun ev => e_target_node ev ≠ None) l
  end.
Proof.
  induction l as [|ev l IH]; simpl; [constructor|].
  destruct (e_target_node ev) as [target|] eqn:Ht.
  - destruct (filter_by_node node_id l) as [r|x].
    + constructor; [by rewrite Ht|done].
    + destruct IH as (-> & ev' & Hin & Hnone). split; [done|].
      exists ev'. split; [by apply list_elem_of_further|done].
  - split; [done|]. exists ev. split; [apply list_elem_of_here|done].
Qed.

Lemma get_events_result event_type node_id time_range (s : state) (e : Env W) :
  let r := result (get_events event_type node_id time_range) s e in
  final (get_events event_type node_id time_range) s e = s
  /\ match select_events event_type node_id (events s) with
     | Raise x => r = Raise x
     | Return _ =>
         (r = Raise OverflowError
          /\ exists delta, time_range = Some delta /\ delta ≠ 0
               /\ datetime_sub (datetime_now (world e)).1 delta = None)
         \/ ((exists l, r = Return l)
             /\ ~ exists delta, time_range = Some delta /\ delta ≠ 0
                    /\ datetime_sub (datetime_now (world e)).1 delta = None)
     end.
Proof.
  unfold final, result, get_events, bind, get_state, ask, ret, raise. cbv beta iota zeta.
  destruct (select_events _ _ _) as [l|x]; [|split; reflexivity].
  destruct time_range as [delta|].
  2:{ split; [reflexivity|]. right. split; [by eexists|]. by intros (? & ? & _). }
  destruct (delta =? 0) eqn:Hd.
  { apply Z.eqb_eq in Hd. split; [reflexivity|]. right. split; [by eexists|].
    intros (? & [= <-] & ? & _). done. }
  apply Z.eqb_neq in Hd. cbn [fst snd world].
  destruct (datetime_sub _ _) eqn:Hsub; (split; [reflexivity|]).
  - right. split; [by eexists|]. intros (? & [= <-] & _ & ?). congruence.
  - left. split; [done|]. by exists delta.
Qed.

Lemma generated_not_load_test ev : generated ev -> load_test_event ev -> False.
Proof. intros (t & n & _ & _ & Ht & _) (_ & Hnone & _). congruence. Qed.

Lemma load_test_type t : type_name t ≠ "LOAD_TEST" /\ type_name t ≠ "LOAD_TEST_COMPLETED".
Proof. by destruct t. Qed.

(** X18: after any history of the simulator, the events of the log that
    lack ["target_node"] are exactly those of the load tests; so
    [get_events] never changes anything, and raises in two cases only:
    KeyError, exactly when it is given a node id without a type and the
    log holds an event of a load test; and, when that is not so,
    OverflowError, exactly when it is given a time range and the clock
    reading less the range is no [datetime]. *)
Theorem get_events_key_error ops event_type node_id time_range (e e' : Env W) :
  let s := final (run ops) init e in
  let r := result (get_events event_type node_id time_range) s e' in
  let key_error :=
    event_type = None /\ truthy_str node_id = true
    /\ exists ev, ev ∈ events s
         /\ (e_type ev = "LOAD_TEST" \/ e_type ev = "LOAD_TEST_COMPLETED") in
  let overflow :=
    exists delta, time_range = Some delta /\ delta ≠ 0
      /\ datetime_sub (datetime_now (world e')).1 delta = None in
  final (get_events event_type node_id time_range) s e' = s
  /\ (forall ev, ev ∈ events s ->
        e_target_node ev = None
        <-> e_type ev = "LOAD_TEST" \/ e_type ev = "LOAD_TEST_COMPLETED")
  /\ ((exists l, r = Return l) \/ r = Raise KeyError \/ r = Raise OverflowError)
  /\ (r = Raise KeyError <-> key_error)
  /\ (r = Raise OverflowError <-> ~ key_error /\ overflow).
Proof.
  intros s r key_error overflow.
  pose proof (run_sound ops e) as (Hlog & Hshape & _). fold s in Hlog, Hshape.
  destruct (get_events_result event_type node_id time_range s e') as [Hfinal Hres].
  fold r in Hres. fold overflow in Hres. rewrite Forall_forall in Hshape.
  assert (forall ev, ev ∈ events s ->
            e_target_node ev = None
            <-> e_type ev = "LOAD_TEST" \/ e_type ev = "LOAD_TEST_COMPLETED") as Hnone.
  { intros ev Hin. destruct (Hshape ev Hin) as [(t & n & _ & Hty & Htn & _)|(Hty & Htn & _)].
    - rewrite Htn, Hty. destruct (load_test_type t). split; [done|]. by intros [?|?].
    - done. }
  split; [done|]. split; [done|].
  assert (match select_events event_type node_id (events s) with
          | Raise x => x = KeyError /\ key_error
          | Return _ => ~ key_error
          end) as Hsel.
  { unfold select_events. destruct (truthy_str node_id) eqn:Hnode.
    2:{ by intros (_ & ? & _). }
    match goal with
    | |- match filter_by_node ?n ?l with _ => _ end =>
        pose proof (filter_by_node_cases n l) as Hcases;
          destruct (filter_by_node n l) as [kept|x]
    end.
    - intros (-> & _ & ev & Hin & Hty).
      rewrite Forall_forall in Hcases. apply (Hcases ev Hin). by apply Hnone.
    - destruct Hcases as (-> & ev & Hin & Hn). split; [done|].
      destruct event_type as [t|].
      + apply list_elem_of_filter in Hin as [Hty Hin]. apply (Hnone ev Hin) in Hn.
        destruct (load_test_type t). destruct Hn as [Hn|Hn]; congruence.
      + split; [done|]. split; [done|]. exists ev. split; [done|]. by apply Hnone. }
  destruct (select_events event_type node_id (events s)) as [l|x].
  - destruct Hres as [[Hr Hov]|[[l' Hr] Hov]]; rewrite Hr.
    + split; [by right; right|]. split; [by split|]. by split.
    + split; [left; by exists l'|]. split; [by split|]. split; [done|]. by intros [_ ?].
  - destruct Hsel as [-> Hkey]. rewrite Hres. split; [by right; left|].
    split; [by split|]. split; [done|]. by intros [? _].
Qed.

(** X19: after any history of the simulator, every event of the log is one
    of [_generate_event], with a node of the simulator as its target and
    the details of its type, or one of a load test; [get_status] reports as
    events generated the id of the newest event, and five scenarios; the
    nodes are the six of [__init__], each active or down. *)
Theorem event_log_shape ops (e : Env W) :
  let s := final (run ops) init e in
  Forall (fun ev => generated ev \/ load_test_event ev) (events s)
  /\ (forall ev, last (events s) = Some ev ->
        e_id ev = Z.of_nat (s_events_generated (get_status s)))
  /\ s_scenarios_available (get_status s) = 5%nat
  /\ map (fun n => (n_id n, n_type n, n_ip n)) (network_nodes s)
     = map (fun n => (n_id n, n_type n, n_ip n)) initial_nodes
  /\ Forall (fun n => n_status n = "active" \/ n_status n = "down") (network_nodes s).
Proof.
  intros s. pose proof (run_sound ops e) as (Hlog & Hshape & Hid & Hst).
  fold s in Hlog, Hshape, Hid, Hst.
  split; [exact Hshape|]. split; [|split; [reflexivity|split; [exact Hid|exact Hst]]].
  intros ev Hlast. simpl.
  apply last_Some in Hlast as [l Hl]. unfold log_ok in Hlog. rewrite Hl in *.
  rewrite map_app, length_app, Nat.add_1_r, seq_S, map_app in Hlog. simpl in Hlog.
  apply app_inj_tail in Hlog as [_ Hlog]. rewrite Hlog, length_app. simpl. lia.
Qed.

Lemma ids_set_status st i (l : list Node) :
  map n_id (alter (set_status st) i l) = map n_id l.
Proof.
  revert i. induction l as [|n l IH]; intros [|i]; simpl; [done|done|done|].
  f_equal. apply IH.
Qed.

Lemma node_refs_nonempty (nodes : list Node) : nodes ≠ [] -> node_refs nodes ≠ [].
Proof. by destruct nodes. Qed.

(** X20: a round of random events draws their number with
    [random.randint(1, 3)].  When the number is positive and there is no
    node, it raises IndexError at the first choice of a target and changes
    nothing.  Otherwise it returns, having appended that many events (none
    if the number is not positive) with the next ids, each of one of the
    eight types and on a node of the list, and having slept once after
    each event, between 1 and 3 seconds; the ids of the nodes are as
    before. *)
Theorem random_events_effect (s : state) (e : Env W) :
  let num_events := (random_randint 1 3 (world e)).1 in
  let m := _generate_random_events in
  (network_nodes s = [] -> 0 < num_events ->
   result m s e = Raise IndexError /\ final m s e = s /\ pauses (final_env m s e) = pauses e)
  /\ (network_nodes s ≠ [] \/ num_events <= 0 ->
      result m s e = Return tt
      /\ exists new ps,
           events (final m s e) = events s ++ new
           /\ length new = Z.to_nat num_events
           /\ map e_id new
              = map (fun i => Z.of_nat (length (events s) + i)) (seq 1 (Z.to_nat num_events))
           /\ Forall (fun ev =>
                e_type ev ∈ map type_name all_event_types
                /\ exists n, n ∈ map n_id (network_nodes s) /\ e_target_node ev = Some n) new
           /\ pauses (final_env m s e) = pauses e ++ ps
           /\ length ps = Z.to_nat num_events
           /\ Forall (fun p => Qle 1 p /\ Qle p 3) ps
           /\ map n_id (network_nodes (final m s e)) = map n_id (network_nodes s)).
Proof.
  intros num_events m. split.
  - intros Hnil Hpos.
    cut (wp m (fun o s' e' => o = Raise IndexError /\ s' = s /\ pauses e' = pauses e) s e);
      [done|].
    unfold m, _generate_random_events. apply wp_bind, wp_ask_exact. fold num_events.
    cbv beta iota. destruct (Z.to_nat num_events) as [|k] eqn:Hk; [lia|].
    cbn [seq for_each]. apply wp_bind.
    apply wp_bind, wp_choice; [done|]. intros ty e2 _ Hp2 _. cbv beta iota.
    wp_step. wp_step. rewrite Hnil. by wp_step.
  - intros Hsome.
    set (good := fun ev : Event =>
           e_type ev ∈ map type_name all_event_types
           /\ exists n, n ∈ map n_id (network_nodes s) /\ e_target_node ev = Some n).
    set (J := fun (k : nat) (s' : state) (e' : Env W) =>
           exists new ps,
             events s' = events s ++ new
             /\ length new = k
             /\ map e_id new = map (fun i => Z.of_nat (length (events s) + i)) (seq 1 k)
             /\ Forall good new
             /\ pauses e' = pauses e ++ ps
             /\ length ps = k
             /\ Forall (fun p => Qle 1 p /\ Qle p 3) ps
             /\ map n_id (network_nodes s') = map n_id (network_nodes s)).
    cut (wp m (fun o s' e' => o = Return tt /\ J (Z.to_nat num_events) s' e') s e); [done|].
    unfold m, _generate_random_events. apply wp_bind, wp_ask_exact. fold num_events.
    cbv beta iota.
    eapply wp_mono; [apply (wp_for_each_count J)|].
    + intros k i s1 e1 Hi (new & ps & Hev & Hlen & Hids & Hgood & Hp & Hlps & Hps & Hnodes).
      assert (network_nodes s ≠ []) as Hne.
      { destruct Hsome as [?|Hle]; [done|]. exfalso.
        replace (Z.to_nat num_events) with 0%nat in Hi by lia. by apply elem_of_nil in Hi. }
      assert (network_nodes s1 ≠ []) as Hne1.
      { intros Hnil. rewrite Hnil in Hnodes. by destruct (network_nodes s). }
      apply wp_bind, wp_choice; [done|]. intros ty e2 Hty Hp2 _. cbv beta iota.
      wp_step. wp_step.
      apply wp_bind, wp_choice; [by apply node_refs_nonempty|].
      intros target e3 Htarget Hp3 _. cbv beta iota.
      apply wp_bind, wp_generate_event_exact. intros d e4 Hd Hp4 ev. cbv beta iota.
      apply wp_bind, wp_ask. intros e5 Hp5. cbv beta iota.
      destruct (random_uniform_range 1 3 (world e4)) as [Hlo Hhi];
        [unfold Qle; simpl; lia|].
      apply wp_sleep; [eapply Qle_trans; [|exact Hlo]; unfold Qle; simpl; lia|].
      split; [done|].
      exists (new ++ [ev]), (ps ++ [(random_uniform 1 3 (world e4)).1]).
      split; [simpl; by rewrite Hev, <- app_assoc|].
      split; [rewrite length_app; simpl; lia|].
      split.
      { rewrite map_app, Hids, seq_S, map_app. simpl. rewrite Hev, length_app, Hlen.
        do 2 f_equal. lia. }
      split.
      { apply Forall_app. split; [done|]. constructor; [|constructor]. split.
        - cbn [e_type ev]. clear. destruct ty; simpl; rewrite !elem_of_cons; tauto.
        - exists (n_id target.2). split; [|done]. rewrite <- Hnodes.
          apply list_elem_of_In, in_map, list_elem_of_In. by apply node_refs_elem. }
      split; [simpl; rewrite Hp5, Hp4, Hp3, Hp2, Hp; by rewrite <- app_assoc|].
      split; [rewrite length_app; simpl; lia|].
      split; [apply Forall_app; split; [done|]; by repeat constructor|].
      simpl. destruct (status_after ty d); [by rewrite ids_set_status|done].
    + exists [], []. rewrite !app_nil_r. by repeat split.
    + intros o s' e' [-> HJ]. by rewrite length_seq in HJ.
Qed.
End EventHistories.

(** ** The mock simulations of the IP traffic simulator *)

Section IPSimFacts.
Context {W : Type} `{!Oracle W}.
Import IPSim.
Variable float_abs_diff : Q -> Q -> Q.

Lemma wp_for_each_steps {A} (step : A -> state -> state -> Prop) (l : list A)
    (body : A -> M W state unit) (s : state) (e : Env W) :
  (forall x (s : state) (e : Env W),
     wp (body x) (fun o s' e' => o = Return tt /\ step x s s' /\ pauses e' = pauses e) s e) ->
  wp (for_each l body)
    (fun o s' e' => o = Return tt /\ steps step l s s' /\ pauses e' = pauses e) s e.
Proof.
  intros Hbody. revert s e. induction l as [|x l IH]; intros s e; simpl.
  - by apply wp_ret.
  - apply wp_bind. eapply wp_mono; [apply Hbody|].
    intros o s1 e1 (-> & Hstep & Hp1). simpl.
    eapply wp_mono; [apply IH|].
    intros o s2 e2 (-> & Hsteps & Hp2). split; [done|]. split; [|congruence].
    by exists s1.
Qed.

Lemma others_nonempty src :
  src ∈ network_topology -> filter (fun n => n ≠ src) network_topology ≠ [].
Proof.
  unfold network_topology. intros Hsrc.
  repeat (apply elem_of_cons in Hsrc as [->|Hsrc]; [by vm_compute|]).
  by apply elem_of_nil in Hsrc.
Qed.

(** The endpoints are two different nodes of the topology; choosing them
    changes nothing. *)
Lemma wp_choose_endpoints Q (s : state) (e : Env W) :
  (forall src dst e', src ∈ network_topology -> dst ∈ network_topology -> dst ≠ src ->
     pauses e' = pauses e -> Q (Return (src, dst)) s e') ->
  wp choose_endpoints Q s e.
Proof.
  intros HQ. unfold choose_endpoints.
  apply wp_bind, wp_choice; [done|]. intros src e1 Hsrc Hp1 _. cbv beta iota.
  apply wp_bind, wp_choice; [by apply others_nonempty|].
  intros dst e2 [Hne Hdst]%list_elem_of_filter Hp2 _. cbv beta iota.
  apply wp_ret. apply HQ; [done|done|done|congruence].
Qed.

Lemma wp_mock_ipv4_packet path (s : state) (e : Env W) :
  wp (mock_ipv4_packet path)
    (fun o s' e' =>
       o = Return tt
       /\ (exists r, Qle 5 r /\ Qle r 100 /\ packet_sent false path r s s')
       /\ pauses e' = pauses e) s e.
Proof.
  unfold mock_ipv4_packet, append_latency.
  apply wp_bind, wp_ask. intros e1 Hp1. cbv beta iota.
  destruct (random_uniform_range 5 100 (world e)) as [Hlo Hhi]; [unfold Qle; simpl; lia|].
  do 8 wp_step. apply wp_bind, wp_ask. intros e2 Hp2. cbv beta iota.
  wp_step. wp_step. wp_step; wp_step.
  - split; [done|]. split; [|congruence]. eexists. split; [exact Hlo|].
    split; [exact Hhi|]. unfold packet_sent; simpl. repeat split; try done; lia || by left.
  - split; [done|]. split; [|congruence]. eexists. split; [exact Hlo|].
    split; [exact Hhi|]. unfold packet_sent; simpl. repeat split; try done; lia || by right.
Qed.

Lemma wp_mock_ipv6_packet path (s : state) (e : Env W) :
  wp (mock_ipv6_packet path)
    (fun o s' e' =>
       o = Return tt
       /\ (exists r, Qle 5 r /\ Qle r 100 /\ packet_sent true path r s s')
       /\ pauses e' = pauses e) s e.
Proof.
  unfold mock_ipv6_packet, append_latency.
  apply wp_bind, wp_ask. intros e1 Hp1. cbv beta iota.
  destruct (random_uniform_range 5 100 (world e)) as [Hlo Hhi]; [unfold Qle; simpl; lia|].
  do 8 wp_step. apply wp_bind, wp_ask. intros e2 Hp2. cbv beta iota.
  wp_step. wp_step. wp_step; wp_step.
  - split; [done|]. split; [|congruence]. eexists. split; [exact Hlo|].
    split; [exact Hhi|]. unfold packet_sent; simpl. repeat split; try done; lia || by left.
  - split; [done|]. split; [|congruence]. eexists. split; [exact Hlo|].
    split; [exact Hhi|]. unfold packet_sent; simpl. repeat split; try done; lia || by right.
Qed.

Lemma wp_mock_ipv4_round (s : state) (e : Env W) :
  wp _mock_ipv4_simulation
    (fun o s' _ => exists src dst,
       src ∈ network_topology /\ dst ∈ network_topology /\ dst ≠ src
       /\ o = Return tt
       /\ steps (fun _ s1 s2 =>
                   exists r, Qle 5 r /\ Qle r 100
                     /\ packet_sent false (t_ipv4 src +:+ "->" +:+ t_ipv4 dst) r s1 s2)
            ["TCP"; "UDP"; "ICMP"] s s') s e.
Proof.
  unfold _mock_ipv4_simulation. apply wp_bind, wp_choose_endpoints.
  intros src dst e1 Hsrc Hdst Hne _. cbv beta iota zeta.
  eapply wp_mono.
  { apply (wp_for_each_steps
             (fun _ s1 s2 =>
                exists r, Qle 5 r /\ Qle r 100
                  /\ packet_sent false (t_ipv4 src +:+ "->" +:+ t_ipv4 dst) r s1 s2)).
    intros _ s1 e2. apply wp_mock_ipv4_packet. }
  intros o s' e' (-> & Hsteps & _). by exists src, dst.
Qed.

Lemma wp_mock_ipv6_round (s : state) (e : Env W) :
  wp _mock_ipv6_simulation
    (fun o s' _ => exists src dst,
       src ∈ network_topology /\ dst ∈ network_topology /\ dst ≠ src
       /\ o = Return tt
       /\ steps (fun _ s1 s2 =>
                   exists r, Qle 5 r /\ Qle r 100
                     /\ packet_sent true (t_ipv6 src +:+ "->" +:+ t_ipv6 dst) r s1 s2)
            ["TCP6"; "UDP6"; "ICMPv6"] s s') s e.
Proof.
  unfold _mock_ipv6_simulation. apply wp_bind, wp_choose_endpoints.
  intros src dst e1 Hsrc Hdst Hne _. cbv beta iota zeta.
  eapply wp_mono.
  { apply (wp_for_each_steps
             (fun _ s1 s2 =>
                exists r, Qle 5 r /\ Qle r 100
                  /\ packet_sent true (t_ipv6 src +:+ "->" +:+ t_ipv6 dst) r s1 s2)).
    intros _ s1 e2. apply wp_mock_ipv6_packet. }
  intros o s' e' (-> & Hsteps & _). by exists src, dst.
Qed.

(** X21: a round of the mock IPv4 simulation, and likewise of the mock
    IPv6 simulation, returns: it chooses two different nodes of the
    topology and sends three packets over the path between their
    addresses; each packet is counted as sent, appends a response time
    between 5 and 100 to the latencies of the path, and is counted either
    as lost on the path or as received; the jitters and the counter of the
    other protocol are as before. *)
Theorem mock_round_sends_three_packets (s : state) (e : Env W) :
  (exists src dst,
     src ∈ network_topology /\ dst ∈ network_topology /\ dst ≠ src
     /\ result _mock_ipv4_simulation s e = Return tt
     /\ steps (fun _ s1 s2 =>
                 exists r, Qle 5 r /\ Qle r 100
                   /\ packet_sent false (t_ipv4 src +:+ "->" +:+ t_ipv4 dst) r s1 s2)
          ["TCP"; "UDP"; "ICMP"] s (final _mock_ipv4_simulation s e))
  /\ (exists src dst,
        src ∈ network_topology /\ dst ∈ network_topology /\ dst ≠ src
        /\ result _mock_ipv6_simulation s e = Return tt
        /\ steps (fun _ s1 s2 =>
                    exists r, Qle 5 r /\ Qle r 100
                      /\ packet_sent true (t_ipv6 src +:+ "->" +:+ t_ipv6 dst) r s1 s2)
             ["TCP6"; "UDP6"; "ICMPv6"] s (final _mock_ipv6_simulation s e)).
Proof. split; [apply wp_mock_ipv4_round|apply wp_mock_ipv6_round]. Qed.

Lemma lookup_before_last {A} (l : list A) x :
  (l ++ [x]) !! (length (l ++ [x]) - 2)%nat = if decide (l = []) then Some x else last l.
Proof.
  rewrite length_app. simpl. destruct l as [|y l] using rev_ind; [done|].
  rewrite decide_False by (by destruct l). rewrite last_snoc, length_app. simpl.
  rewrite lookup_app_l by (rewrite length_app; simpl; lia).
  rewrite lookup_app_r by lia. by replace (length l + 1 + 1 - 2 - length l)%nat with 0%nat by lia.
Qed.

Lemma wp_qos_response_time priority Q (s : state) (e : Env W) :
  (forall r e', Qle (qos_bounds priority).1 r -> Qle r (qos_bounds priority).2 ->
     pauses e' = pauses e -> Q (Return r) s e') ->
  wp (qos_response_time priority) Q s e.
Proof.
  intros HQ. unfold qos_response_time, qos_bounds in *.
  repeat (destruct (String.eqb priority _));
    (apply wp_ask; intros e' Hp; apply HQ; [| |done];
     apply random_uniform_range; unfold Qle; simpl; lia).
Qed.

(** One mock QoS packet never finds the index [-2] out of range. *)
Lemma wp_mock_qos_packet qos_class (s : state) (e : Env W) :
  wp (mock_qos_packet float_abs_diff qos_class)
    (fun o s' e' =>
       o = Return tt
       /\ (exists r, Qle (qos_bounds (q_priority qos_class)).1 r
             /\ Qle r (qos_bounds (q_priority qos_class)).2
             /\ qos_sent float_abs_diff qos_class r s s')
       /\ pauses e' = pauses e) s e.
Proof.
  unfold mock_qos_packet, append_latency, append_jitter.
  apply wp_bind, wp_qos_response_time. intros r e1 Hlo Hhi Hp1. cbv beta iota.
  do 10 wp_step. cbn [latency_ms set_latency_ms set_ipv4_packets_sent].
  unfold entries. rewrite !dict_get_set_eq. cbn [default from_option id].
  fold (entries (qos_key qos_class) (latency_ms s)).
  rewrite lookup_before_last.
  destruct (entries (qos_key qos_class) (latency_ms s)) as [|l0 ls] eqn:Hold.
  - simpl. apply wp_ret. split; [done|]. split; [|done]. exists r.
    split; [done|]. split; [done|]. unfold qos_sent. simpl. rewrite Hold. by repeat split.
  - rewrite <- Hold.
    assert ((1 <? length (entries (qos_key qos_class) (latency_ms s) ++ [r]))%nat = true)
      as -> by (apply Nat.ltb_lt; rewrite length_app, Hold; simpl; lia).
    rewrite decide_False by (by rewrite Hold).
    destruct (last (entries (qos_key qos_class) (latency_ms s))) as [prev|] eqn:Hlast.
    2:{ apply last_None in Hlast. by rewrite Hold in Hlast. }
    wp_step. wp_step. wp_step. split; [done|]. split; [|done]. exists r.
    split; [done|]. split; [done|]. unfold qos_sent. simpl. rewrite Hlast.
    by repeat split.
Qed.

Lemma wp_mock_qos_round (s : state) (e : Env W) :
  wp (_mock_qos_simulation float_abs_diff)
    (fun o s' _ =>
       o = Return tt
       /\ steps (fun qos_class s1 s2 =>
                   exists r, Qle (qos_bounds (q_priority qos_class)).1 r
                     /\ Qle r (qos_bounds (q_priority qos_class)).2
                     /\ qos_sent float_abs_diff qos_class r s1 s2)
            qos_classes s s') s e.
Proof.
  unfold _mock_qos_simulation. apply wp_bind, wp_choose_endpoints.
  intros src dst e1 _ _ _ _. cbv beta iota.
  eapply wp_mono; [apply wp_for_each_steps; intros; apply wp_mock_qos_packet|].
  intros o s' e' (-> & Hsteps & _). done.
Qed.

(** X22: a round of the mock QoS simulation returns, and never raises
    IndexError at the index [-2]: after choosing two nodes it sends one
    packet for each of the four QoS classes in order; each is counted as an
    IPv4 packet sent, appends a response time within the bounds of the
    priority of its class to the latencies of the class and, when the class
    had a latency before, the distance to the last one to its jitters; the
    packets received, the packets lost and the IPv6 counter are as
    before. *)
Theorem mock_qos_round_effect (s : state) (e : Env W) :
  let m := _mock_qos_simulation float_abs_diff in
  result m s e = Return tt
  /\ steps (fun qos_class s1 s2 =>
              exists r, Qle (qos_bounds (q_priority qos_class)).1 r
                /\ Qle r (qos_bounds (q_priority qos_class)).2
                /\ qos_sent float_abs_diff qos_class r s1 s2)
       qos_classes s (final m s e)
  /\ packets_received (final m s e) = packets_received s
  /\ packet_loss (final m s e) = packet_loss s
  /\ ipv6_packets_sent (final m s e) = ipv6_packets_sent s
  /\ ipv4_packets_sent (final m s e) = ipv4_packets_sent s + 4.
Proof.
  intros m. destruct (wp_mock_qos_round s e) as [Hres Hsteps].
  split; [done|]. split; [done|].
  destruct Hsteps as (s1 & (r1 & _ & _ & H1) & s2 & (r2 & _ & _ & H2) & s3
                      & (r3 & _ & _ & H3) & s4 & (r4 & _ & _ & H4) & Heq).
  fold m in Heq. rewrite Heq.
  destruct H1 as (_ & A1 & B1 & C1 & D1 & _), H2 as (_ & A2 & B2 & C2 & D2 & _),
    H3 as (_ & A3 & B3 & C3 & D3 & _), H4 as (_ & A4 & B4 & C4 & D4 & _).
  repeat split; [congruence|congruence|congruence|lia].
Qed.
End IPSimFacts.

(** ** Histories of the IP traffic simulator *)

Section IPSimDicts.
Import IPSim.

Lemma dict_Forall_set {V} (P : string * V -> Prop) k v (d : list (string * V)) :
  Forall P d -> P (k, v) -> Forall P (Dict.set k v d).
Proof.
  intros Hd Hkv. apply Forall_forall. intros x [->|Hx]%dict_elem_set; [done|].
  by apply (proj1 (Forall_forall _ _) Hd).
Qed.

Lemma entries_set_eq {A} k (v : list A) d : entries k (Dict.set k v d) = v.
Proof. unfold entries. by rewrite dict_get_set_eq. Qed.

Lemma entries_set_ne {A} k k' (v : list A) d :
  k ≠ k' -> entries k' (Dict.set k v d) = entries k' d.
Proof. intros Hne. unfold entries. by rewrite dict_get_set_ne. Qed.

Lemma length_entries_append {A} k k' (r : A) d :
  (length (entries k' d)
   <= length (entries k' (Dict.set k (entries k d ++ [r]) d)))%nat.
Proof.
  destruct (decide (k = k')) as [->|Hne].
  - rewrite entries_set_eq, length_app. lia.
  - by rewrite entries_set_ne.
Qed.

Lemma list_sum_append {A} k (r : A) (d : list (string * list A)) :
  list_sum (map (fun kv => length kv.2) (Dict.set k (entries k d ++ [r]) d))
  = Datatypes.S (list_sum (map (fun kv => length kv.2) d)).
Proof.
  unfold entries. induction d as [|[k' v'] d IH]; simpl; [done|].
  destruct (decide (k = k')) as [->|Hne]; simpl.
  - rewrite length_app. simpl. lia.
  - rewrite IH. lia.
Qed.

Lemma total_loss_increment k (d : list (string * Z)) :
  fold_right Z.add 0 (map snd (Dict.set k (count k d + 1) d))
  = fold_right Z.add 0 (map snd d) + 1.
Proof.
  unfold count. induction d as [|[k' v'] d IH]; simpl; [done|].
  destruct (decide (k = k')) as [->|Hne]; simpl; [lia|]. rewrite IH. lia.
Qed.

Lemma count_bound (f : string -> Z) k (d : list (string * Z)) :
  (forall k, 0 <= f k) ->
  Forall (fun kv => 0 < kv.2 <= f kv.1) d -> 0 <= count k d <= f k.
Proof.
  intros Hf Hd. unfold count. destruct (Dict.get k d) as [v|] eqn:Hget; simpl.
  - apply dict_get_elem in Hget. apply (proj1 (Forall_forall _ _) Hd) in Hget.
    simpl in Hget. lia.
  - specialize (Hf k). lia.
Qed.

Lemma path_ipv4_elem src dst :
  src ∈ network_topology -> dst ∈ network_topology -> dst ≠ src ->
  t_ipv4 src +:+ "->" +:+ t_ipv4 dst ∈ paths.
Proof.
  intros Hsrc Hdst Hne. apply list_elem_of_In, in_flat_map.
  exists src. split; [by apply list_elem_of_In|]. apply in_flat_map.
  exists dst. split; [by apply list_elem_of_In|]. rewrite decide_True by done. by left.
Qed.

Lemma path_ipv6_elem src dst :
  src ∈ network_topology -> dst ∈ network_topology -> dst ≠ src ->
  t_ipv6 src +:+ "->" +:+ t_ipv6 dst ∈ paths.
Proof.
  intros Hsrc Hdst Hne. apply list_elem_of_In, in_flat_map.
  exists src. split; [by apply list_elem_of_In|]. apply in_flat_map.
  exists dst. split; [by apply list_elem_of_In|]. rewrite decide_True by done.
  right. by left.
Qed.

(** No path is the key of a QoS class. *)
Lemma path_not_qos_key path qos_class :
  path ∈ paths -> qos_class ∈ qos_classes -> qos_key qos_class ≠ path.
Proof.
  assert (Forall (fun p => Forall (fun k => k ≠ p) (map qos_key qos_classes)) paths) as Hall.
  { apply (bool_decide_unpack _). vm_compute. exact I. }
  intros Hp Hc. apply (proj1 (Forall_forall _ _) Hall) in Hp.
  apply (proj1 (Forall_forall _ _) Hp). apply list_elem_of_In, in_map.
  by apply list_elem_of_In.
Qed.

(** The QoS classes have different keys. *)
Lemma qos_key_inj c c' :
  c ∈ qos_classes -> c' ∈ qos_classes -> qos_key c = qos_key c' -> c = c'.
Proof.
  unfold qos_classes. intros Hc Hc'.
  repeat (apply elem_of_cons in Hc as [->|Hc]);
    try (by apply elem_of_nil in Hc);
    repeat (apply elem_of_cons in Hc' as [->|Hc']);
    try (by apply elem_of_nil in Hc'); done || (vm_compute; discriminate).
Qed.

Lemma consistent_init : consistent init.
Proof.
  unfold consistent, init; simpl. repeat split; try constructor; try done.
  - apply Forall_forall. intros c _. done.
Qed.

Lemma total_latency_append k r (s s' : state) :
  latency_ms s' = Dict.set k (entries k (latency_ms s) ++ [r]) (latency_ms s) ->
  total_latency s' = total_latency s + 1.
Proof. unfold total_latency. intros ->. rewrite list_sum_append. lia. Qed.

Lemma loss_bound (s : state) path :
  Forall (fun kv => kv.1 ∈ paths
                    /\ 0 < kv.2 <= Z.of_nat (length (entries kv.1 (latency_ms s))))
    (packet_loss s) ->
  0 <= count path (packet_loss s) <= Z.of_nat (length (entries path (latency_ms s))).
Proof.
  intros Hloss.
  apply (count_bound (fun k => Z.of_nat (length (entries k (latency_ms s))))); [lia|].
  eapply Forall_impl; [exact Hloss|]. intros kv [_ Hkv]. exact Hkv.
Qed.

Lemma loss_weaken k r (s : state) d :
  Forall (fun kv => kv.1 ∈ paths
                    /\ 0 < kv.2 <= Z.of_nat (length (entries kv.1 (latency_ms s)))) d ->
  Forall (fun kv => kv.1 ∈ paths
            /\ 0 < kv.2 <= Z.of_nat (length (entries kv.1
                 (Dict.set k (entries k (latency_ms s) ++ [r]) (latency_ms s))))) d.
Proof.
  intros Hd. eapply Forall_impl; [exact Hd|]. intros kv [Hp Hkv]. split; [done|].
  pose proof (length_entries_append k kv.1 r (latency_ms s)). lia.
Qed.

(** A mock packet over a path keeps the statistics consistent, and is
    counted once, as received or as lost. *)
Lemma consistent_packet_sent ipv6 path r (s s' : state) :
  path ∈ paths -> consistent s -> packet_sent ipv6 path r s s' ->
  consistent s'
  /\ packets_received s' + total_loss s' = packets_received s + total_loss s + 1.
Proof.
  intros Hpath (Hwl & Hwp & Hwj & Hne & Hloss & Hjit & Hq & Htot & Hrecv)
         (Hrun & H4 & H6 & Hlat & Hj & Hl).
  pose proof (total_latency_append _ _ _ _ Hlat) as Htl.
  pose proof (loss_bound s path Hloss) as Hcount.
  assert (length (entries path (latency_ms s'))
          = Datatypes.S (length (entries path (latency_ms s)))) as Hlen.
  { rewrite Hlat, entries_set_eq, length_app. simpl. lia. }
  split.
  - unfold consistent. rewrite Hj. split; [rewrite Hlat; by apply dict_wf_set|].
    split; [destruct Hl as [[-> _]|[-> _]]; [by apply dict_wf_set|done]|].
    split; [done|].
    split.
    { rewrite Hlat. apply dict_Forall_set; [done|]. simpl.
      by destruct (entries path (latency_ms s)). }
    split.
    { destruct Hl as [[-> _]|[-> _]].
      - apply dict_Forall_set.
        + rewrite Hlat. by apply loss_weaken.
        + simpl. split; [done|]. rewrite Hlen. lia.
      - rewrite Hlat. by apply loss_weaken. }
    split; [done|].
    split.
    { apply Forall_forall. intros c Hc. rewrite Hlat.
      rewrite entries_set_ne by (apply not_eq_sym; by apply path_not_qos_key).
      by apply (proj1 (Forall_forall _ _) Hq). }
    split; [destruct ipv6; lia|].
    destruct Hl as [[_ ->]|[_ ->]]; lia.
  - unfold total_loss. destruct Hl as [[-> ->]|[-> ->]].
    + rewrite total_loss_increment. lia.
    + lia.
Qed.

(** A mock QoS packet keeps the statistics consistent. *)
Lemma consistent_qos_sent float_abs_diff qos_class r (s s' : state) :
  qos_class ∈ qos_classes -> consistent s -> qos_sent float_abs_diff qos_class r s s' ->
  consistent s'.
Proof.
  intros Hc (Hwl & Hwp & Hwj & Hne & Hloss & Hjit & Hq & Htot & Hrecv)
         (Hrun & H4 & H6 & Hr & Hpl & Hlat & Hj).
  pose proof (total_latency_append _ _ _ _ Hlat) as Htl.
  pose proof (proj1 (Forall_forall _ _) Hq _ Hc) as Hqc. simpl in Hqc.
  unfold consistent. rewrite Hpl, Hr.
  split; [rewrite Hlat; by apply dict_wf_set|]. split; [done|].
  split.
  { rewrite Hj. destruct (last _); [by apply dict_wf_set|done]. }
  split.
  { rewrite Hlat. apply dict_Forall_set; [done|]. simpl.
    by destruct (entries (qos_key qos_class) (latency_ms s)). }
  split; [rewrite Hlat; by apply loss_weaken|].
  split.
  { rewrite Hj. destruct (last _); [|done]. apply dict_Forall_set; [done|].
    split.
    - change (qos_key qos_class ∈ map qos_key qos_classes).
      apply list_elem_of_In, in_map. by apply list_elem_of_In.
    - cbn [snd]. by destruct (entries (qos_key qos_class) (jitter_ms s)). }
  split.
  { apply Forall_forall. intros c' Hc'.
    pose proof (proj1 (Forall_forall _ _) Hq _ Hc') as Hqc'. simpl in Hqc'.
    destruct (decide (qos_key qos_class = qos_key c')) as [Heq|Hne'].
    - rewrite <- Heq. rewrite Hlat, entries_set_eq, Hj, length_app. simpl.
      destruct (last (entries (qos_key qos_class) (latency_ms s))) as [prev|] eqn:Hlast.
      + rewrite entries_set_eq, length_app. simpl.
        destruct (entries (qos_key qos_class) (latency_ms s)); [done|]. simpl in *. lia.
      + apply last_None in Hlast. rewrite Hlast in *. simpl in *. lia.
    - rewrite Hlat, entries_set_ne by done. rewrite Hj.
      destruct (last _); [|done]. by rewrite entries_set_ne. }
  split; [lia|done].
Qed.

Lemma steps_packet_sent ipv6 path {A} (l : list A) (s s' : state) :
  path ∈ paths -> consistent s ->
  steps (fun _ s1 s2 =>
           exists r, Qle 5 r /\ Qle r 100 /\ packet_sent ipv6 path r s1 s2) l s s' ->
  consistent s'
  /\ ipv4_packets_sent s'
     = ipv4_packets_sent s + (if ipv6 then 0 else Z.of_nat (length l))
  /\ ipv6_packets_sent s'
     = ipv6_packets_sent s + (if ipv6 then Z.of_nat (length l) else 0)
  /\ packets_received s' + total_loss s'
     = packets_received s + total_loss s + Z.of_nat (length l).
Proof.
  intros Hpath. revert s. induction l as [|x l IH]; intros s Hs; simpl.
  - intros ->. split; [done|]. destruct ipv6; (split; [|split]); lia.
  - intros (s1 & (r & _ & _ & Hsent) & Hsteps).
    destruct (consistent_packet_sent _ _ _ _ _ Hpath Hs Hsent) as [Hs1 Hone].
    destruct (IH s1 Hs1 Hsteps) as (Hs' & H4 & H6 & Hrl).
    destruct Hsent as (_ & G4 & G6 & _).
    split; [done|]. destruct ipv6; (split; [|split]); lia.
Qed.

Lemma steps_qos_sent float_abs_diff (l : list QoSClass) (s s' : state) :
  Forall (fun c => c ∈ qos_classes) l -> consistent s ->
  steps (fun qos_class s1 s2 =>
           exists r, Qle (qos_bounds (q_priority qos_class)).1 r
             /\ Qle r (qos_bounds (q_priority qos_class)).2
             /\ qos_sent float_abs_diff qos_class r s1 s2) l s s' ->
  consistent s'
  /\ ipv4_packets_sent s' = ipv4_packets_sent s + Z.of_nat (length l)
  /\ ipv6_packets_sent s' = ipv6_packets_sent s
  /\ packets_received s' + total_loss s' = packets_received s + total_loss s.
Proof.
  intros Hl. revert s. induction Hl as [|c l Hc _ IH]; intros s Hs; simpl.
  - intros ->. split; [done|]. (split; [|split]); lia.
  - intros (s1 & (r & _ & _ & Hsent) & Hsteps).
    pose proof (consistent_qos_sent _ _ _ _ _ Hc Hs Hsent) as Hs1.
    destruct (IH s1 Hs1 Hsteps) as (Hs' & H4 & H6 & Hrl).
    destruct Hsent as (_ & G4 & G6 & Gr & Gl & _).
    split; [done|]. unfold total_loss in *. rewrite Gl, Gr in Hrl.
    (split; [|split]); lia.
Qed.

(** On consistent statistics no test of the analysis fails. *)
Lemma analysis_consistent float_mean float_loss_rate (s : state) :
  consistent s ->
  let a := _analyze_traffic_stats float_mean float_loss_rate s in
  avg_latency a = map (fun kv => (kv.1, float_mean kv.2)) (latency_ms s)
  /\ avg_jitter a = map (fun kv => (kv.1, float_mean kv.2)) (jitter_ms s)
  /\ packet_loss_rate a
     = map (fun kv => (kv.1, float_loss_rate kv.2
                               (length (entries kv.1 (latency_ms s)))))
         (packet_loss s).
Proof.
  intros (Hwl & Hwp & Hwj & Hne & Hloss & Hjit & _). simpl.
  split; [|split].
  - transitivity (fold_left (fun acc (kv : string * list Q) =>
                    Dict.set kv.1 (float_mean kv.2) acc) (latency_ms s) []).
    + apply (fold_left_ext_Forall _ _ (fun kv => kv.2 ≠ [])); [|done].
      intros acc [k v] Hv. simpl in *. by destruct v.
    + by rewrite (fold_set_append (fun kv => float_mean kv.2) (latency_ms s) [])
        by by apply wf_app_nil.
  - transitivity (fold_left (fun acc (kv : string * list Q) =>
                    Dict.set kv.1 (float_mean kv.2) acc) (jitter_ms s) []).
    + apply (fold_left_ext_Forall _ _ (fun kv => kv.2 ≠ [])).
      * intros acc [k v] Hv. simpl in *. by destruct v.
      * eapply Forall_impl; [exact Hjit|]. by intros kv [_ Hkv].
    + by rewrite (fold_set_append (fun kv => float_mean kv.2) (jitter_ms s) [])
        by by apply wf_app_nil.
  - transitivity (fold_left (fun acc (kv : string * Z) =>
                    Dict.set kv.1 (float_loss_rate kv.2
                                     (length (entries kv.1 (latency_ms s)))) acc)
                    (packet_loss s) []).
    + apply (fold_left_ext_Forall _ _
               (fun kv => 0 < Z.of_nat (length (entries kv.1 (latency_ms s))))).
      * intros acc [k v] Hv. simpl in *.
        assert ((0 <? length (entries k (latency_ms s)))%nat = true) as ->; [|done].
        apply Nat.ltb_lt. lia.
      * eapply Forall_impl; [exact Hloss|]. intros kv [_ Hkv]. lia.
    + by rewrite (fold_set_append
                    (fun kv => float_loss_rate kv.2 (length (entries kv.1 (latency_ms s))))
                    (packet_loss s) [])
        by by apply wf_app_nil.
Qed.
End IPSimDicts.

Section IPSimHistories.
Context {W : Type} `{!Oracle W}.
Import IPSim.
Variable float_abs_diff : Q -> Q -> Q.

Lemma wp_simulation_tick k (s : state) (e : Env W) :
  rounds k s ->
  wp (simulation_tick float_abs_diff)
    (fun o s' _ => o = Return tt /\ rounds (Datatypes.S k) s') s e.
Proof.
  intros (Hs & H4 & H6 & Hrl). unfold simulation_tick.
  apply wp_bind. eapply wp_mono; [apply wp_mock_ipv4_round|].
  intros o s1 e1 (src & dst & Hsrc & Hdst & Hne & -> & Hsteps).
  apply (steps_packet_sent false) in Hsteps as (Hs1 & A4 & A6 & Arl);
    [|by apply path_ipv4_elem|done].
  apply wp_bind. eapply wp_mono; [apply wp_mock_ipv6_round|].
  intros o s2 e2 (src' & dst' & Hsrc' & Hdst' & Hne' & -> & Hsteps).
  apply (steps_packet_sent true) in Hsteps as (Hs2 & B4 & B6 & Brl);
    [|by apply path_ipv6_elem|done].
  eapply wp_mono; [apply wp_mock_qos_round|].
  intros o s3 e3 (-> & Hsteps).
  apply steps_qos_sent in Hsteps as (Hs3 & C4 & C6 & Crl);
    [|by apply Forall_forall|done].
  split; [done|]. split; [done|]. simpl in *. (split; [|split]); lia.
Qed.

Lemma run_rounds n (e : Env W) :
  wp (run float_abs_diff n) (fun o s _ => o = Return tt /\ rounds n s) init e.
Proof.
  unfold run. eapply wp_mono.
  - apply (wp_for_each_count (fun k s _ => rounds k s)).
    + intros k x s e0 _ Hk. by apply wp_simulation_tick.
    + split; [apply consistent_init|]. by repeat split.
  - intros o s' e' [-> HJ]. by rewrite length_seq in HJ.
Qed.

(** X23: any number [n] of rounds of the simulation loop that runs the
    mock simulations, on a new simulator: no round raises; the simulator
    has then sent [7 * n] IPv4 packets and [3 * n] IPv6 packets, it holds
    one latency for each packet sent, and the packets received and the
    packets lost add up to [6 * n], since a QoS packet is counted as
    neither; the three dictionaries have no empty list of latencies or
    jitters; packets are lost on paths between two different nodes only,
    at least one and at most as many as were sent on the path; jitters are
    recorded for QoS classes only, one less than the latencies of the class
    that has some. *)
Theorem mock_history_statistics n (e : Env W) :
  let s := final (run float_abs_diff n) init e in
  result (run float_abs_diff n) init e = Return tt
  /\ consistent s
  /\ ipv4_packets_sent s = 7 * Z.of_nat n
  /\ ipv6_packets_sent s = 3 * Z.of_nat n
  /\ total_latency s = 10 * Z.of_nat n
  /\ packets_received s + total_loss s = 6 * Z.of_nat n
  /\ 0 <= packets_received s <= 6 * Z.of_nat n.
Proof.
  intros s. destruct (run_rounds n e) as (Hres & Hs & H4 & H6 & Hrl).
  fold s in Hs, H4, H6, Hrl.
  split; [done|]. split; [done|]. split; [done|]. split; [done|].
  pose proof Hs as (_ & _ & _ & _ & Hloss & _ & _ & Htot & Hrecv).
  split; [lia|]. split; [done|].
  assert (0 <= total_loss s); [|lia].
  unfold total_loss. induction Hloss as [|kv l [_ Hkv] _ IH]; simpl; lia.
Qed.

(** X24: the analysis of the statistics after any number of rounds of the
    mock simulations: its tests for an empty list and for a path without a
    packet never fail, so it reports the mean of the latencies of every
    key of the latencies, the mean of the jitters of every key of the
    jitters, and a loss rate for every path with a loss, each in the order
    of the dictionary it reads; the loss count of such a rate is at least
    one and at most the number of packets sent on the path. *)
Theorem analysis_reports_every_entry float_mean float_loss_rate n (e : Env W) :
  let s := final (run float_abs_diff n) init e in
  let a := _analyze_traffic_stats float_mean float_loss_rate s in
  avg_latency a = map (fun kv => (kv.1, float_mean kv.2)) (latency_ms s)
  /\ avg_jitter a = map (fun kv => (kv.1, float_mean kv.2)) (jitter_ms s)
  /\ packet_loss_rate a
     = map (fun kv => (kv.1, float_loss_rate kv.2
                               (length (entries kv.1 (latency_ms s)))))
         (packet_loss s)
  /\ Forall (fun kv => 0 < kv.2 <= Z.of_nat (length (entries kv.1 (latency_ms s))))
       (packet_loss s).
Proof.
  intros s a. destruct (run_rounds n e) as (_ & Hs & _). fold s in Hs.
  destruct (analysis_consistent float_mean float_loss_rate s Hs) as (Hl & Hj & Hr).
  split; [done|]. split; [done|]. split; [done|].
  destruct Hs as (_ & _ & _ & _ & Hloss & _).
  eapply Forall_impl; [exact Hloss|]. by intros kv [_ Hkv].
Qed.
End IPSimHistories.

(** * Part III: the properties on concrete runs *)

(** C2, as stated, fails on an alarm that is already cleared: the second
    clear returns true and replaces cleared_time. *)
Lemma clear_alarm_twice_counterexample :
  OAM.a_status <$> Dict.get 1 (OAM.alarms cleared_store) = Some "cleared"
  /\ OAM.a_cleared_time <$> Dict.get 1 (OAM.alarms cleared_store)
     = Some (Some "2024-01-01T00:00:07")
  /\ result (OAM._clear_alarm 1) cleared_store env0 = Return true
  /\ OAM.a_cleared_time <$> Dict.get 1 (OAM.alarms (final (OAM._clear_alarm 1) cleared_store env0))
     = Some (Some "2024-01-01T00:00:30")
  /\ final (OAM._clear_alarm 1) cleared_store env0 ≠ cleared_store.
Proof. repeat split; try reflexivity. vm_compute. discriminate. Qed.

(** C5 on a store with an outage alarm and a CPU alarm of the node that
    recovers, and an outage alarm of another node. *)
Lemma recovery_clears_only_down_alarms_witness :
  Dict.wf (OAM.alarms outage_store)
  /\ OAM.network_nodes outage_store !! 0%nat = Some down_node
  /\ n_status down_node = "down"
  /\ Qlt (random_random (world env0)).1 0.3
  /\ (let s' := final (OAM.recover_node 0 down_node) outage_store env0 in
      OAM.network_nodes s' !! 0%nat = Some (set_status "active" down_node)
      /\ Dict.get 2 (OAM.alarms s')
         = Some (active_alarm 2 "gnb-001" "High CPU usage: 91.2%")
      /\ Dict.get 3 (OAM.alarms s')
         = Some (active_alarm 3 "gnb-002" "Node gnb-002 is down")
      /\ exists t, Dict.get 1 (OAM.alarms s')
           = Some (OAM.mark_cleared t (active_alarm 1 "gnb-001" "Node gnb-001 is down"))).
Proof.
  assert (Dict.wf (OAM.alarms outage_store)) as Hwf.
  { unfold Dict.wf. apply (bool_decide_unpack _). vm_compute. exact I. }
  assert (Qlt (random_random (world env0)).1 0.3) as Hlt by reflexivity.
  destruct (recovery_clears_only_down_alarms 0 down_node outage_store env0
              Hwf eq_refl eq_refl Hlt) as (_ & Hnode & _ & Hall & Hcpu).
  split; [exact Hwf|]. split; [reflexivity|]. split; [reflexivity|].
  split; [exact Hlt|]. split; [exact Hnode|]. split; [|split].
  - exact (Hcpu 2 _ eq_refl eq_refl).
  - exact (Hall 3 _ eq_refl).
  - exact (Hall 1 _ eq_refl).
Defined.

(** C3 on the three examples: availability 99.4, CPU utilization 82 and
    CPU utilization 75, with the thresholds of the KPI definitions. *)
Lemma threshold_classification_witness :
  last [sample_at 100; sample_at 99.4] = Some (sample_at 99.4)
  /\ last [sample_at 50; sample_at 82] = Some (sample_at 82)
  /\ last [sample_at 75] = Some (sample_at 75)
  /\ KPI.classify "availability" 99.9 99.5 99.4 = "CRITICAL"
  /\ KPI.classify "resource" 80 90 82 = "WARNING"
  /\ KPI.classify "resource" 80 90 75 = "OK"
  /\ KPI.analyze_window (kpi_at 3) ("gnb-002", [sample_at 75]) = []
  /\ KPI._analyze_kpi_data threshold_store =
       Return [ {| KPI.i_node_id := "gnb-001"; KPI.i_kpi_id := "node_availability";
                   KPI.i_kpi_name := "Node Availability"; KPI.i_value := 99.4;
                   KPI.i_unit := "%"; KPI.i_severity := "CRITICAL";
                   KPI.i_timestamp := "2024-01-01T00:00:09" |};
                {| KPI.i_node_id := "gnb-001"; KPI.i_kpi_id := "cpu_utilization";
                   KPI.i_kpi_name := "CPU Utilization"; KPI.i_value := 82;
                   KPI.i_unit := "%"; KPI.i_severity := "WARNING";
                   KPI.i_timestamp := "2024-01-01T00:00:09" |} ].
Proof.
  destruct (threshold_classification (kpi_at 0) "gnb-001"
              [sample_at 100; sample_at 99.4] (sample_at 99.4) eq_refl)
    as (Hlow & _).
  destruct (Hlow (or_introl eq_refl)) as (Hcrit & _).
  destruct (threshold_classification (kpi_at 3) "gnb-001"
              [sample_at 50; sample_at 82] (sample_at 82) eq_refl)
    as (_ & Hup & _).
  destruct (Hup (or_intror eq_refl)) as (_ & Hwarn & _).
  destruct (threshold_classification (kpi_at 3) "gnb-002"
              [sample_at 75] (sample_at 75) eq_refl)
    as (_ & Hup' & Hnone & _).
  destruct (Hup' (or_intror eq_refl)) as (_ & _ & Hok).
  split; [reflexivity|]. split; [reflexivity|]. split; [reflexivity|].
  split; [apply Hcrit; reflexivity|].
  split; [apply Hwarn; [discriminate|reflexivity]|].
  split; [apply Hok; discriminate|].
  split; [apply Hnone, Hok; discriminate|].
  reflexivity.
Defined.

(** C4 on a full window of samples numbered 0 to 999. *)
Lemma window_fifo_bounded_witness :
  "node_availability" ∈ Dict.keys (KPI.kpi_data full_store)
  /\ length (KPI.window "node_availability" "gnb-001" full_store) = 1000%nat
  /\ (let w' := KPI.window "node_availability" "gnb-001"
                  (final (KPI.record_sample "node_availability" "gnb-001" (sample_at 0))
                     full_store env0) in
      length w' = 1000%nat
      /\ w' !! 0%nat = Some (numbered_sample 1)
      /\ w' !! 998%nat = Some (numbered_sample 999)
      /\ w' !! 999%nat = Some (sample_at 0)).
Proof.
  assert ("node_availability" ∈ Dict.keys (KPI.kpi_data full_store)) as Hin
    by (simpl; repeat constructor).
  assert (length (KPI.window "node_availability" "gnb-001" full_store) = 1000%nat) as Hlen
    by (vm_compute; reflexivity).
  destruct (window_fifo_bounded "node_availability" "gnb-001" (sample_at 0)
              full_store env0 Hin Hlen) as (_ & Hl & _ & Hi & Hlast & _).
  split; [exact Hin|]. split; [exact Hlen|]. split; [exact Hl|].
  split; [|split; [|exact Hlast]].
  - rewrite Hi by lia. vm_compute. reflexivity.
  - rewrite Hi by lia. vm_compute. reflexivity.
Defined.

(** C6 on the scenario "AMF Failover" with the forced random source. *)
Lemma scenario_order_witness :
  (forall d, d ∈ amf_failover ->
     (forall w : unit, Qle (random_random w).1 (Event.probability d))
     /\ Event.resolve_targets (Event.target_type d) (Event.network_nodes Event.init) ≠ [])
  /\ map Event.e_type
       (Event.events (final (for_each amf_failover Event.run_event_def) Event.init env0))
     = ["NODE_FAILURE"; "FAILOVER"; "RECOVERY"]
  /\ map Event.e_id
       (Event.events (final (for_each amf_failover Event.run_event_def) Event.init env0))
     = [1; 2; 3]
  /\ map Event.e_type (Event.events (final Event._run_scenario Event.init env0))
     = ["NODE_FAILURE"; "FAILOVER"; "RECOVERY"].
Proof.
  assert (forall d, d ∈ amf_failover ->
            (forall w : unit, Qle (random_random w).1 (Event.probability d))
            /\ Event.resolve_targets (Event.target_type d) (Event.network_nodes Event.init) ≠ [])
    as Hforced.
  { intros d Hd. unfold amf_failover in Hd. simpl in Hd.
    repeat (apply elem_of_cons in Hd as [->|Hd]);
      [| | |by apply elem_of_nil in Hd];
      (split; [intros w; simpl; unfold Qle; simpl; lia|vm_compute; discriminate]). }
  destruct (scenario_order amf_failover Event.init env0) as (_ & _ & _ & Hall & Hsc).
  destruct (Hall Hforced) as (evs & Hev & Hty & Hid).
  assert (map Event.e_type
            (Event.events (final (for_each amf_failover Event.run_event_def) Event.init env0))
          = ["NODE_FAILURE"; "FAILOVER"; "RECOVERY"]) as Htypes.
  { rewrite Hev. simpl app. rewrite Hty. reflexivity. }
  split; [exact Hforced|]. split; [exact Htypes|]. split.
  - rewrite Hev. simpl app. rewrite Hid. reflexivity.
  - unfold final. rewrite (Hsc _ eq_refl). exact Htypes.
Defined.

(** C7, as stated, fails on a call with UPF nodes and the intensity high
    whose duration is negative: the start event is appended, and then the
    call raises instead of returning true; there is no completion event and
    no pause. *)
Lemma load_test_negative_duration_counterexample :
  Event.nodes_of_type "UPF" (Event.network_nodes Event.init) ≠ []
  /\ result (Event.run_load_test "UPF" (-1) "high") Event.init env0 = Raise ValueError
  /\ result (Event.run_load_test "UPF" (-1) "high") Event.init env0 ≠ Return true
  /\ map Event.e_type
       (Event.events (final (Event.run_load_test "UPF" (-1) "high") Event.init env0))
     = ["LOAD_TEST"]
  /\ pauses (final_env (Event.run_load_test "UPF" (-1) "high") Event.init env0) = [].
Proof.
  split; [vm_compute; discriminate|]. split; [reflexivity|].
  split; [vm_compute; discriminate|]. split; reflexivity.
Qed.

(** C7: a load test on UPF nodes without any UPF node, with an unknown
    intensity, a valid one for 120 seconds at high intensity, and one with
    a negative duration. *)
Lemma load_test_outcomes_witness :
  Event.nodes_of_type "UPF" (Event.network_nodes no_upf_simulator) = []
  /\ Event.run_load_test "UPF" 120 "high" no_upf_simulator env0
     = (Return false, no_upf_simulator, env0)
  /\ Event.run_load_test "UPF" 120 "extreme" Event.init env0 = (Return false, Event.init, env0)
  /\ Event.nodes_of_type "UPF" (Event.network_nodes Event.init) ≠ []
  /\ 0 <= 120
  /\ result (Event.run_load_test "UPF" 120 "high") Event.init env0 = Return true
  /\ pauses (final_env (Event.run_load_test "UPF" 120 "high") Event.init env0) = [inject_Z 5]
  /\ map Event.e_type
       (Event.events (final (Event.run_load_test "UPF" 120 "high") Event.init env0))
     = ["LOAD_TEST"; "RESOURCE_EXHAUSTION"; "LOAD_TEST_COMPLETED"]
  /\ (Event.e_details <$>
        last (Event.events (final (Event.run_load_test "UPF" 120 "high") Event.init env0)))
     = Some (Event.LoadTestCompletedDetails 1 true 0 10 5 1)
  /\ -1 < 0
  /\ result (Event.run_load_test "UPF" (-1) "high") Event.init env0 = Raise ValueError.
Proof.
  assert (Event.nodes_of_type "UPF" (Event.network_nodes no_upf_simulator) = []) as Hnone
    by reflexivity.
  assert (Event.nodes_of_type "UPF" (Event.network_nodes Event.init) ≠ []) as Hsome
    by (vm_compute; discriminate).
  assert (0 <= 120) as Hd by lia.
  destruct (load_test_outcomes "UPF" 120 "high" no_upf_simulator env0)
    as (_ & Hempty & _ & _).
  destruct (load_test_outcomes "UPF" 120 "extreme" Event.init env0)
    as (_ & _ & Hinvalid & _).
  destruct (load_test_outcomes "UPF" 120 "high" Event.init env0)
    as (_ & _ & _ & Hvalid & _).
  destruct (Hvalid Hsome (or_intror (or_intror eq_refl)) Hd) as (Hres & Hpauses & _).
  assert (-1 < 0) as Hneg by lia.
  destruct (load_test_outcomes "UPF" (-1) "high" Event.init env0)
    as (_ & _ & _ & _ & Hnegative).
  destruct (Hnegative Hsome (or_intror (or_intror eq_refl)) Hneg) as (Hraise & _).
  split; [exact Hnone|]. split; [exact (Hempty Hnone)|].
  split; [apply Hinvalid; discriminate|].
  split; [exact Hsome|]. split; [exact Hd|]. split; [exact Hres|].
  split; [exact Hpauses|]. split; [reflexivity|]. split; [reflexivity|].
  split; [exact Hneg|exact Hraise].
Defined.

(** C8, as stated, fails.  In the KPI query the cutoff is not one string:
    the clock is read again for every window, so with a clock that
    advances, of two samples of a node with the same timestamp, in the
    CPU and in the memory window, the first is kept and the second is not,
    which no cutoff does.  And with a range of 10^11 seconds the clock
    reading less the range is before year 1: both queries raise
    OverflowError and return no record. *)
Lemma time_range_single_cutoff_counterexample :
  KPI.visited None (Some "gnb-001") paired_store
  = [ ("node_availability", []); ("service_latency", []); ("error_rate", []);
      ("cpu_utilization", [("gnb-001", [stamped "2024-01-01T00:00:05"])]);
      ("memory_utilization", [("gnb-001", [stamped "2024-01-01T00:00:05"])]);
      ("throughput", []); ("connection_success_rate", []); ("recovery_time", []) ]
  /\ result (KPI.get_kpi_data None (Some "gnb-001") (Some 5)) paired_store (tape_env [])
     = Return [ ("node_availability", []); ("service_latency", []); ("error_rate", []);
                ("cpu_utilization", [("gnb-001", [stamped "2024-01-01T00:00:05"])]);
                ("memory_utilization", []);
                ("throughput", []); ("connection_success_rate", []);
                ("recovery_time", []) ]
  /\ (~ exists T,
        result (KPI.get_kpi_data None (Some "gnb-001") (Some 5)) paired_store (tape_env [])
        = Return (KPI.cut_kpis [T; T] (KPI.visited None (Some "gnb-001") paired_store)))
  /\ result (KPI.get_kpi_data (Some "cpu_utilization") None (Some 100000000000))
       stamped_store env0
     = Raise OverflowError
  /\ result (Event.get_events None None (Some (100000000000 * 1000000))) stamped_log env0
     = Raise OverflowError.
Proof.
  assert (KPI.visited None (Some "gnb-001") paired_store
          = [ ("node_availability", []); ("service_latency", []); ("error_rate", []);
              ("cpu_utilization", [("gnb-001", [stamped "2024-01-01T00:00:05"])]);
              ("memory_utilization", [("gnb-001", [stamped "2024-01-01T00:00:05"])]);
              ("throughput", []); ("connection_success_rate", []);
              ("recovery_time", []) ]) as Hvisited by reflexivity.
  assert (result (KPI.get_kpi_data None (Some "gnb-001") (Some 5)) paired_store (tape_env [])
          = Return [ ("node_availability", []); ("service_latency", []); ("error_rate", []);
                     ("cpu_utilization", [("gnb-001", [stamped "2024-01-01T00:00:05"])]);
                     ("memory_utilization", []);
                     ("throughput", []); ("connection_success_rate", []);
                     ("recovery_time", []) ]) as Hresult by reflexivity.
  split; [exact Hvisited|]. split; [exact Hresult|]. split; [|split; reflexivity].
  intros [T HT]. rewrite Hvisited, Hresult in HT.
  cbn [KPI.cut_kpis KPI.cut_windows length take drop filter list_filter KPI.timestamp stamped]
    in HT.
  destruct (str_ge "2024-01-01T00:00:05" T); discriminate HT.
Qed.

(** C8 with the clock at second 30.  With a range of 10 seconds the cutoff
    is the string of second 20, and the stamp [...:9] is kept since it is
    above it as a string.  With a range of 25 seconds and no other filter,
    on the store with three windows, every sample is above the cutoff; the
    query looks at the window of [gnb-001] of each KPI past the first, so
    the sample of [gnb-002] is not returned. *)
Lemma time_range_filter_witness :
  10 ≠ 0 /\ 10000000 ≠ 0
  /\ Dict.wf (KPI.kpi_data stamped_store)
  /\ Forall (fun kv => Dict.wf kv.2) (KPI.kpi_data stamped_store)
  /\ (exists kept,
        result (Event.get_events None None (Some 10000000)) stamped_log env0 = Return kept
        /\ time_filtered "2024-01-01T00:00:20" Event.e_timestamp
             (Event.events stamped_log) kept)
  /\ result (Event.get_events None None (Some 10000000)) stamped_log env0
     = Return [stamped_event 2 "2024-01-01T00:00:20"; stamped_event 3 "2024-01-01T00:00:25"]
  /\ result (KPI.get_kpi_data (Some "cpu_utilization") None (Some 10)) stamped_store env0
     = Return [("cpu_utilization",
                [("gnb-001", [stamped "2024-01-01T00:00:20"; stamped "2024-01-01T00:00:25";
                              stamped "2024-01-01T00:00:9"])])]
  /\ 25 ≠ 0
  /\ Dict.wf (KPI.kpi_data threshold_store)
  /\ Forall (fun kv => Dict.wf kv.2) (KPI.kpi_data threshold_store)
  /\ Dict.get "cpu_utilization" (KPI.kpi_data threshold_store)
     = Some [("gnb-001", [sample_at 50; sample_at 82]); ("gnb-002", [sample_at 75])]
  /\ KPI.cutoff 25 (datetime_now (world env0)).1 = Some "2024-01-01T00:00:05"
  /\ result (KPI.get_kpi_data None None (Some 25)) threshold_store env0
     = Return [ ("node_availability", [("gnb-001", [sample_at 100; sample_at 99.4])]);
                ("service_latency", []); ("error_rate", []);
                ("cpu_utilization", [("gnb-001", [sample_at 50; sample_at 82])]);
                ("memory_utilization", []); ("throughput", []);
                ("connection_success_rate", []); ("recovery_time", []) ].
Proof.
  assert (10 ≠ 0) as Hsec by discriminate.
  assert (10000000 ≠ 0) as Hdelta by discriminate.
  assert (25 ≠ 0) as Hsec' by discriminate.
  assert (Dict.wf (KPI.kpi_data stamped_store)) as Hwf.
  { unfold Dict.wf. apply (bool_decide_unpack _). vm_compute. exact I. }
  assert (Forall (fun kv => Dict.wf kv.2) (KPI.kpi_data stamped_store)) as Hall.
  { unfold Dict.wf. apply (bool_decide_unpack _). vm_compute. exact I. }
  assert (Dict.wf (KPI.kpi_data threshold_store)) as Hwf'.
  { unfold Dict.wf. apply (bool_decide_unpack _). vm_compute. exact I. }
  assert (Forall (fun kv => Dict.wf kv.2) (KPI.kpi_data threshold_store)) as Hall'.
  { unfold Dict.wf. apply (bool_decide_unpack _). vm_compute. exact I. }
  destruct (time_range_filter stamped_store stamped_log env0
              (Some "cpu_utilization") None 10 None None 10000000 Hsec Hdelta Hwf Hall)
    as ((_ & Hkpi & _) & (_ & Hevents) & _).
  destruct (time_range_filter threshold_store stamped_log env0
              None None 25 None None 10000000 Hsec' Hdelta Hwf' Hall')
    as ((_ & Hkpi' & _) & _).
  split; [exact Hsec|]. split; [exact Hdelta|]. split; [exact Hwf|]. split; [exact Hall|].
  split; [exact Hevents|]. split; [reflexivity|].
  split; [rewrite Hkpi; reflexivity|].
  split; [exact Hsec'|]. split; [exact Hwf'|]. split; [exact Hall'|].
  split; [reflexivity|]. split; [reflexivity|].
  rewrite Hkpi'. reflexivity.
Defined.

(** C9: a fault tick whose first trial succeeds takes gnb-001 down in the
    OA&M module and raises its alarm; the KPI module still has it active and
    samples its availability as 100. *)
Lemma independent_node_lists_witness :
  let p1 := final (Platform.on_oam OAM.fault_generation_tick) Platform.init (tape_env [0%Q]) in
  KPI.complete (Platform.kpi Platform.init)
  /\ n_status <$> OAM.network_nodes (Platform.oam p1) !! 0%nat = Some "down"
  /\ OAM.a_description <$> Dict.get 1 (OAM.alarms (Platform.oam p1))
     = Some "Node gnb-001 is down"
  /\ n_status <$> KPI.network_nodes (Platform.kpi p1) !! 0%nat = Some "active"
  /\ (forall node, KPI.network_nodes (Platform.kpi p1) !! 0%nat = Some node ->
      KPI.value <$>
        last (KPI.window "node_availability" "gnb-001"
                (Platform.kpi
                   (final (Platform.on_kpi (KPI._collect_node_kpis node)) p1
                      (tape_env []))))
      = Some 100%Q).
Proof.
  intros p1.
  assert (KPI.complete (Platform.kpi Platform.init)) as Hc
    by (unfold KPI.complete; repeat constructor).
  split; [exact Hc|]. split; [reflexivity|]. split; [reflexivity|]. split; [reflexivity|].
  intros node [= <-].
  destruct (independent_node_lists Platform.init (tape_env [0%Q]) (tape_env [])
              {| n_id := "gnb-001"; n_type := "gNB"; n_ip := "10.0.1.1";
                 n_status := "active" |})
    as (_ & _ & Hcollect & _).
  destruct (Hcollect Hc) as (_ & _ & Hlast).
  etransitivity; [apply (f_equal (fmap KPI.value)); exact Hlast|reflexivity].
Defined.

(** X1 on a new store when all three readings are at their upper bounds:
    three alarms for [gnb-001], for CPU, memory and disk. *)
Lemma health_check_raises_per_threshold_witness :
  OAM.store_ok OAM.init
  /\ result (OAM.check_node_health one_decimal gnb_001) OAM.init (peak_env 0) = Return tt
  /\ map OAM.alarm_content
       (OAM.alarms (final (OAM.check_node_health one_decimal gnb_001) OAM.init (peak_env 0)))
     = [ ("gnb-001", "PROCESSING_ERROR", "MAJOR", "High CPU usage: 95.0%");
         ("gnb-001", "PROCESSING_ERROR", "WARNING", "High memory usage: 90.0%");
         ("gnb-001", "EQUIPMENT", "MINOR", "High disk usage: 85.0%") ].
Proof.
  assert (OAM.store_ok OAM.init) as Hok by (repeat split; constructor).
  destruct (health_check_raises_per_threshold one_decimal gnb_001 OAM.init (peak_env 0) Hok)
    as (Hres & _ & _ & new & (Hal & _) & Hc).
  split; [exact Hok|]. split; [exact Hres|].
  rewrite Hal. simpl app. rewrite Hc. vm_compute. reflexivity.
Defined.

(** X2 on a new store when the choices fall on [upf-001] and on the message
    "ERROR: Connection timed out". *)
Lemma log_line_raises_at_most_one_alarm_witness :
  OAM.store_ok OAM.init
  /\ OAM.network_nodes OAM.init ≠ []
  /\ result OAM.scan_log_line OAM.init (peak_env 4) = Return tt
  /\ (length (OAM.alarms (final OAM.scan_log_line OAM.init (peak_env 4))) <= 1)%nat
  /\ map OAM.alarm_content (OAM.alarms (final OAM.scan_log_line OAM.init (peak_env 4)))
     = [("upf-001", "COMMUNICATIONS", "MINOR", "Log pattern match: connection timed out")].
Proof.
  assert (OAM.store_ok OAM.init) as Hok by (repeat split; constructor).
  assert (OAM.network_nodes OAM.init ≠ []) as Hnodes by discriminate.
  destruct (log_line_raises_at_most_one_alarm OAM.init (peak_env 4) Hok) as [_ Hsome].
  destruct (Hsome Hnodes) as (Hres & _ & node & message & new & _ & _ & (Hal & _) & _ & Hlen).
  split; [exact Hok|]. split; [exact Hnodes|]. split; [exact Hres|].
  split; [rewrite Hal; exact Hlen|]. vm_compute. reflexivity.
Defined.

(** X7 on a new store when all readings are at their upper bounds: three
    alarms for each of the six nodes. *)
Lemma health_check_round_only_raises_witness :
  OAM.store_ok OAM.init
  /\ result (OAM.health_check_tick one_decimal) OAM.init (peak_env 0) = Return tt
  /\ (length (OAM.alarms (final (OAM.health_check_tick one_decimal) OAM.init (peak_env 0)))
      <= 3 * 6)%nat
  /\ map fst (OAM.alarms (final (OAM.health_check_tick one_decimal) OAM.init (peak_env 0)))
     = OAM.ids_from 1 18.
Proof.
  assert (OAM.store_ok OAM.init) as Hok by (repeat split; constructor).
  destruct (health_check_round_only_raises one_decimal OAM.init (peak_env 0) Hok)
    as (Hres & _ & new & (Hal & _) & Hlen & _).
  split; [exact Hok|]. split; [exact Hres|]. split; [rewrite Hal; exact Hlen|].
  vm_compute. reflexivity.
Defined.

(** X8 on a new store: fifteen lines are read. *)
Lemma log_scan_round_only_raises_witness :
  OAM.store_ok OAM.init
  /\ OAM.network_nodes OAM.init ≠ []
  /\ result OAM.log_parsing_tick OAM.init (peak_env 0) = Return tt
  /\ (length (OAM.alarms (final OAM.log_parsing_tick OAM.init (peak_env 0))) <= 15)%nat.
Proof.
  assert (OAM.store_ok OAM.init) as Hok by (repeat split; constructor).
  assert (OAM.network_nodes OAM.init ≠ []) as Hnodes by discriminate.
  destruct (log_scan_round_only_raises OAM.init (peak_env 0) Hok Hnodes)
    as (Hres & _ & new & (Hal & _) & Hlen & _).
  split; [exact Hok|]. split; [exact Hnodes|]. split; [exact Hres|].
  rewrite Hal. exact Hlen.
Defined.

(** X9 on a new store with the forced random source: [gnb-001] goes down,
    alarm 1 is raised, the node recovers and alarm 1 is cleared. *)
Lemma outage_alarm_cleared_on_recovery_witness :
  OAM.store_ok OAM.init
  /\ OAM.network_nodes OAM.init !! 0%nat = Some gnb_001
  /\ Qlt (random_random (world env0)).1 0.05
  /\ Qlt (random_random (datetime_now (random_random (world env0)).2).2).1 0.3
  /\ (let m := bind (OAM.generate_fault 0 gnb_001 ("node_down", 0.05%Q)) (fun _ =>
               bind get_state (fun s1 =>
                 match OAM.network_nodes s1 !! 0%nat with
                 | Some node1 => OAM.recover_node 0 node1
                 | None => ret tt
                 end)) in
      OAM.network_nodes (final m OAM.init env0) = initial_nodes
      /\ Dict.keys (OAM.alarms (final m OAM.init env0)) = [1]
      /\ exists a, Dict.get 1 (OAM.alarms (final m OAM.init env0)) = Some a
           /\ OAM.a_description a = "Node gnb-001 is down"
           /\ OAM.a_status a = "cleared").
Proof.
  assert (OAM.store_ok OAM.init) as Hok by (repeat split; constructor).
  assert (Qlt (random_random (world env0)).1 0.05) as Hfault by reflexivity.
  assert (Qlt (random_random (datetime_now (random_random (world env0)).2).2).1 0.3)
    as Hrec by reflexivity.
  destruct (outage_alarm_cleared_on_recovery 0 gnb_001 0.05 OAM.init env0
              Hok eq_refl Hfault Hrec)
    as (_ & Hnodes & _ & _ & Hkeys & a & Ha & _ & _ & Hd & Hs & _).
  split; [exact Hok|]. split; [reflexivity|]. split; [exact Hfault|].
  split; [exact Hrec|]. split; [exact Hnodes|]. split; [exact Hkeys|].
  exists a. split; [exact Ha|]. split; [exact Hd|exact Hs].
Defined.


(** X11 on a new store for [gnb-001] when it is down, with the forced
    random source: the error rate 0 and the availability 0 are reported as
    CRITICAL; the throughput is 100 and so not above the threshold. *)
Lemma analysis_after_collection_witness :
  KPI.complete KPI.init
  /\ exists issues,
       KPI._analyze_kpi_data (final (KPI._collect_node_kpis down_node) KPI.init env0)
       = Return issues
       /\ {| KPI.i_node_id := "gnb-001"; KPI.i_kpi_id := "error_rate";
             KPI.i_kpi_name := "Error Rate"; KPI.i_value := 0; KPI.i_unit := "%";
             KPI.i_severity := "CRITICAL"; KPI.i_timestamp := "2024-01-01T00:00:30" |}
          ∈ issues
       /\ {| KPI.i_node_id := "gnb-001"; KPI.i_kpi_id := "node_availability";
             KPI.i_kpi_name := "Node Availability"; KPI.i_value := 0; KPI.i_unit := "%";
             KPI.i_severity := "CRITICAL"; KPI.i_timestamp := "2024-01-01T00:00:30" |}
          ∈ issues.
Proof.
  assert (KPI.complete KPI.init) as Hc by (unfold KPI.complete; repeat constructor).
  destruct (analysis_after_collection down_node KPI.init env0 Hc)
    as (issues & thr & err & Han & _ & _ & _ & _ & Herr & _ & _ & Hlow & Hdown).
  split; [exact Hc|]. exists issues. split; [exact Han|].
  assert (err = 0%Q) as -> by (vm_compute in Herr; congruence).
  split; [apply Hlow; reflexivity|apply Hdown; discriminate].
Defined.

(** X12 on the store with three windows, for [gnb-002]: only the CPU
    utilization has a window of that node. *)
Lemma get_kpi_data_node_filter_witness :
  "gnb-002" ≠ EmptyString
  /\ Dict.wf (KPI.kpi_data threshold_store)
  /\ KPI.get_kpi_data None (Some "gnb-002") None threshold_store env0
     = (Return [ ("node_availability", []); ("service_latency", []); ("error_rate", []);
                 ("cpu_utilization", [("gnb-002", [sample_at 75])]);
                 ("memory_utilization", []); ("throughput", []);
                 ("connection_success_rate", []); ("recovery_time", []) ],
        threshold_store, env0).
Proof.
  assert ("gnb-002" ≠ EmptyString) as Hn by discriminate.
  assert (Dict.wf (KPI.kpi_data threshold_store)) as Hwf.
  { unfold Dict.wf. apply (bool_decide_unpack _). vm_compute. exact I. }
  split; [exact Hn|]. split; [exact Hwf|].
  rewrite (get_kpi_data_node_filter None "gnb-002" threshold_store env0 Hn Hwf).
  reflexivity.
Defined.

(** X13 on the store with three windows, without any filter: the first KPI
    has a window of [gnb-001] only, so the entry of the CPU utilization
    holds the window of [gnb-001] and not that of [gnb-002]. *)
Lemma get_kpi_data_loop_variable_witness :
  KPI.kpi_data threshold_store
  = [] ++ ("node_availability", [("gnb-001", [sample_at 100; sample_at 99.4])])
       :: threshold_rest
  /\ Dict.wf (KPI.kpi_data threshold_store)
  /\ Dict.wf [("gnb-001", [sample_at 100; sample_at 99.4])]
  /\ last (Dict.keys [("gnb-001", [sample_at 100; sample_at 99.4])]) = Some "gnb-001"
  /\ "gnb-001" ≠ EmptyString
  /\ Dict.get "cpu_utilization" (KPI.kpi_data threshold_store)
     = Some [("gnb-001", [sample_at 50; sample_at 82]); ("gnb-002", [sample_at 75])]
  /\ KPI.get_kpi_data None None None threshold_store env0
     = (Return [ ("node_availability", [("gnb-001", [sample_at 100; sample_at 99.4])]);
                 ("service_latency", []); ("error_rate", []);
                 ("cpu_utilization", [("gnb-001", [sample_at 50; sample_at 82])]);
                 ("memory_utilization", []); ("throughput", []);
                 ("connection_success_rate", []); ("recovery_time", []) ],
        threshold_store, env0).
Proof.
  assert (KPI.kpi_data threshold_store
          = [] ++ ("node_availability", [("gnb-001", [sample_at 100; sample_at 99.4])])
               :: threshold_rest) as Hdata by reflexivity.
  assert (Dict.wf (KPI.kpi_data threshold_store)) as Hwf.
  { unfold Dict.wf. apply (bool_decide_unpack _). vm_compute. exact I. }
  assert (Dict.wf [("gnb-001", [sample_at 100; sample_at 99.4])]) as Hnd.
  { unfold Dict.wf. apply (bool_decide_unpack _). vm_compute. exact I. }
  assert ("gnb-001" ≠ EmptyString) as Hn by discriminate.
  split; [exact Hdata|]. split; [exact Hwf|]. split; [exact Hnd|].
  split; [reflexivity|]. split; [exact Hn|]. split; [reflexivity|].
  rewrite (get_kpi_data_loop_variable [] "node_availability"
             [("gnb-001", [sample_at 100; sample_at 99.4])] threshold_rest "gnb-001"
             threshold_store env0 Hdata (List.Forall_nil _) Hwf Hnd eq_refl Hn).
  reflexivity.
Defined.

(** X17 with the forced random source: the failover of the AMF node, whose
    recovery succeeds. *)
Lemma failover_scenario_effect_witness :
  (forall w : unit, 0 <= (random_randint 5 60 w).1)
  /\ Event.nodes_of_type "AMF" (Event.network_nodes Event.init) ≠ []
  /\ Event.simulate_failover_scenario "PGW" Event.init env0 = (Return None, Event.init, env0)
  /\ map Event.e_type
       (Event.events (final (Event.simulate_failover_scenario "AMF") Event.init env0))
     = ["NODE_FAILURE"; "FAILOVER"; "RECOVERY"]
  /\ length (pauses (final_env (Event.simulate_failover_scenario "AMF") Event.init env0))
     = 2%nat.
Proof.
  assert (forall w : unit, 0 <= (random_randint 5 60 w).1) as Hrand
    by (intros w; simpl; lia).
  assert (Event.nodes_of_type "AMF" (Event.network_nodes Event.init) ≠ []) as Hsome
    by (vm_compute; discriminate).
  destruct (failover_scenario_effect "PGW" Event.init env0 Hrand) as [Hnone _].
  destruct (failover_scenario_effect "AMF" Event.init env0 Hrand) as [_ Hrun].
  destruct (Hrun Hsome)
    as (r & target & ev1 & ev2 & ev3 & p1 & p2 & _ & _ & Hev & Hty & _ & _ & _ & _ & _
        & Hp & _).
  split; [exact Hrand|]. split; [exact Hsome|]. split; [apply Hnone; reflexivity|].
  split; [rewrite Hev; exact Hty|]. rewrite Hp. reflexivity.
Defined.
